(** * A genetic-algorithm timetable scheduler: fitness, operators, repair

    Shallow embedding of the optimisation core of the scheduler:
    - [genetic_algorithm/gene.py], [genetic_algorithm/chromosome.py]
    - [genetic_algorithm/fitness.py]
    - [genetic_algorithm/operators.py]
    - [utils/repair_operator.py]
    - the parts of [config/settings.py] and [models/*.py] they use,
    and of what is around it:
    - the validation of [models/timeslot.py] and [timeslot_db_to_dc] of
      [utils/converters.py]
    - [create_timeslots_fake] of [utils/data_generator.py]
    - [init_individual] and [_generate_random_gene] of [main.py]
    - [conflict_analysis] of [utils/visualization.py], whose output is the
      list of the lines it prints.

    Conventions of the embedding.
    - Python [int] is [Z]; [str] is [string]; [float] is an exact rational
      [Q].  The subject-distribution and gap terms are multiples of 0.5,
      which binary64 holds exactly.  The workload-balance term is rounded
      by the source, in its division, its subtractions and its running
      sum, and so is the total penalty from where that term is added:
      [penalty_teacher_workload_balance] and [evaluate_timetable] are
      these values without the rounding.
      [penalty_teacher_workload_balance_binary64] is the term as the
      source rounds it, which depends on the order in which the loads are
      summed.
    - A Python [dict] is an association list kept in insertion order, which
      is the order in which [values()] iterates.
    - Exceptions are values of [exn]; a call that can raise returns a
      [result].
    - The operators mutate objects in place: chromosome objects (their gene
      list) and gene objects (their attributes) live in a store addressed by
      object identity, so that aliasing is part of the model.  The pseudo
      random generator is part of the state, as the sequence of raw outcomes
      that are still to be drawn. *)

From Stdlib Require Import String ZArith QArith Qabs Bool List Lia Lqa Permutation
  Sorted SpecFloat.
Import ListNotations.
Open Scope Z_scope.

(* ------------------------------------------------------------------ *)
(** ** Decidable equality on keys *)

Class EqDec (A : Type) := eq_dec : forall x y : A, {x = y} + {x <> y}.

#[export] Instance Z_EqDec : EqDec Z := Z.eq_dec.

#[export] Instance string_EqDec : EqDec string := string_dec.

#[export] Instance prod_EqDec {A B : Type} (HA : EqDec A) (HB : EqDec B) : EqDec (A * B).
Proof.
  intros [a b] [a' b'].
  destruct (HA a a') as [ea | na].
  - destruct (HB b b') as [eb | nb].
    + left. rewrite ea, eb. reflexivity.
    + right. intros e. apply nb. exact (f_equal snd e).
  - right. intros e. apply na. exact (f_equal fst e).
Defined.

(** [x in l] for a Python list. *)
Definition py_in {A : Type} `{EqDec A} (x : A) (l : list A) : bool :=
  if in_dec eq_dec x l then true else false.

(** [next(iter(l), default)]. *)
Definition py_next {A : Type} (l : list A) (default : A) : A :=
  match l with
  | [] => default
  | x :: _ => x
  end.

(* ------------------------------------------------------------------ *)
(** ** Exceptions *)

Inductive exn : Type :=
| ValueError
| KeyError
| IndexError.

Inductive result (A : Type) : Type :=
| Ok (a : A)
| Raise (e : exn).

Arguments Ok {A} a.
Arguments Raise {A} e.

Definition result_bind {A B : Type} (r : result A) (k : A -> result B) : result B :=
  match r with
  | Ok a => k a
  | Raise e => Raise e
  end.

(* ------------------------------------------------------------------ *)
(** ** Python dictionaries, in insertion order *)

Definition dict (K V : Type) : Type := list (K * V).

Section PyDict.
Context {K V : Type} `{EqDec K}.

Fixpoint dict_find (d : dict K V) (k : K) : option V :=
  match d with
  | [] => None
  | (k', v) :: d' => if eq_dec k k' then Some v else dict_find d' k
  end.

(** [d.get(k, default)] *)
Definition dict_get (d : dict K V) (k : K) (default : V) : V :=
  match dict_find d k with
  | Some v => v
  | None => default
  end.

(** [d[k]], which raises [KeyError] on a missing key *)
Definition dict_getitem (d : dict K V) (k : K) : result V :=
  match dict_find d k with
  | Some v => Ok v
  | None => Raise KeyError
  end.

(** [k in d] *)
Definition dict_contains (d : dict K V) (k : K) : bool :=
  match dict_find d k with
  | Some _ => true
  | None => false
  end.

(** [d[k] = v]: an existing key keeps its position, a new one goes last *)
Fixpoint dict_set (d : dict K V) (k : K) (v : V) : dict K V :=
  match d with
  | [] => [(k, v)]
  | (k', v') :: d' =>
      if eq_dec k k' then (k', v) :: d' else (k', v') :: dict_set d' k v
  end.

(** [d.setdefault(k, v)], as the dictionary it leaves behind *)
Definition dict_setdefault (d : dict K V) (k : K) (v : V) : dict K V :=
  match dict_find d k with
  | Some _ => d
  | None => dict_set d k v
  end.

Definition dict_keys (d : dict K V) : list K := map fst d.

Definition dict_values (d : dict K V) : list V := map snd d.
End PyDict.

(** [d.setdefault(k, []).append(x)] *)
Definition dict_append {K X : Type} `{EqDec K}
    (d : dict K (list X)) (k : K) (x : X) : dict K (list X) :=
  let d := dict_setdefault d k [] in
  dict_set d k (dict_get d k [] ++ [x]).

(** [d.setdefault(k1, {}).setdefault(k2, []).append(x)] *)
Definition dict_nested_append {K1 K2 X : Type} `{EqDec K1} `{EqDec K2}
    (d : dict K1 (dict K2 (list X))) (k1 : K1) (k2 : K2) (x : X)
    : dict K1 (dict K2 (list X)) :=
  let d := dict_setdefault d k1 [] in
  dict_set d k1 (dict_append (dict_get d k1 []) k2 x).

(** A Python [set] that is only added to and measured. *)
Definition set_add {A : Type} `{EqDec A} (s : list A) (x : A) : list A :=
  if in_dec eq_dec x s then s else s ++ [x].

(* ------------------------------------------------------------------ *)
(** ** Sorting, maximum, minimum *)

(** [list.sort(key=...)] and [sorted]: a stable sort, here by insertion. *)
Fixpoint insert_by {A : Type} (key : A -> Z) (x : A) (l : list A) : list A :=
  match l with
  | [] => [x]
  | y :: l' => if key x <=? key y then x :: y :: l' else y :: insert_by key x l'
  end.

Fixpoint sort_by {A : Type} (key : A -> Z) (l : list A) : list A :=
  match l with
  | [] => []
  | x :: l' => insert_by key x (sort_by key l')
  end.

Definition py_sorted (l : list Z) : list Z := sort_by (fun x => x) l.

(** [max(l)] and [min(l)] for a non-empty [l] (the source guards the call
    with [if periods:]); on the empty list they raise, which is 0 here. *)
Definition py_max (l : list Z) : Z :=
  match l with
  | [] => 0
  | x :: l' => fold_left Z.max l' x
  end.

Definition py_min (l : list Z) : Z :=
  match l with
  | [] => 0
  | x :: l' => fold_left Z.min l' x
  end.

(** [sum(l)] *)
Definition py_sum (l : list Z) : Z := fold_left Z.add l 0.

(* ------------------------------------------------------------------ *)
(** ** The catalog records ([models/*.py]) *)

Module Teacher.
Record t : Type := mk {
  teacher_id : Z;
  name : string;
  preferred_times : list (string * Z)
}.
End Teacher.

Module Room.
Record t : Type := mk {
  room_id : Z;
  name : string
}.
End Room.

Module Course.
Record t : Type := mk {
  course_id : Z;
  name : string
}.
End Course.

Module StudentGroup.
Record t : Type := mk {
  group_id : Z;
  name : string;
  home_room : option Z
}.
End StudentGroup.

Module TimeSlot.
Record t : Type := mk {
  slot_id : Z;
  day : string;
  period : Z
}.
End TimeSlot.

(* ------------------------------------------------------------------ *)
(** ** [config/settings.py] *)

Module SchedulingConfig.
Record t : Type := mk {
  POPULATION_SIZE : Z;
  MAX_GENERATIONS : Z;
  CROSSOVER_PROBABILITY : Q;
  MUTATION_PROBABILITY : Q;
  DAYS_OF_WEEK : list string;
  PERIODS_PER_DAY : list Z;
  MUTATION_INDIVIDUAL_PROBABILITY : Q
}.

(** The defaults of the dataclass; [PERIODS_PER_DAY] is [list(range(1, 7))]. *)
Definition default : t :=
  {| POPULATION_SIZE := 200;
     MAX_GENERATIONS := 100;
     CROSSOVER_PROBABILITY := 7 # 10;
     MUTATION_PROBABILITY := 3 # 10;
     DAYS_OF_WEEK :=
       ["Monday"; "Tuesday"; "Wednesday"; "Thursday"; "Friday"]%string;
     PERIODS_PER_DAY := [1; 2; 3; 4; 5; 6];
     MUTATION_INDIVIDUAL_PROBABILITY := 1 # 10 |}.
End SchedulingConfig.

(* ------------------------------------------------------------------ *)
(** ** [genetic_algorithm/gene.py] *)

Module Gene.
Record t : Type := mk {
  group_id : Z;
  day : string;
  period : Z;
  timeslot_id : Z;
  course_id : Z;
  teacher_id : Z;
  room_id : Z;
  is_fixed : option bool
}.

Definition valid_days : list string :=
  ["Monday"; "Tuesday"; "Wednesday"; "Thursday"; "Friday"]%string.

(** [__post_init__] *)
Definition post_init (self : t) : result unit :=
  if period self <? 1 then Raise ValueError
  else if negb (py_in (day self) valid_days) then Raise ValueError
  else Ok tt.

(** The constructor generated by [@dataclass]: it stores the arguments
    and then runs [__post_init__]. *)
Definition new (group_id : Z) (day : string) (period timeslot_id course_id
    teacher_id room_id : Z) (is_fixed : option bool) : result t :=
  let self := mk group_id day period timeslot_id course_id teacher_id
                 room_id is_fixed in
  result_bind (post_init self) (fun _ => Ok self).

(** Attribute assignments [gene.x = v]; a dataclass does not run the
    validation again on assignment. *)
Definition set_teacher_id (g : t) (v : Z) : t :=
  mk (group_id g) (day g) (period g) (timeslot_id g) (course_id g) v
     (room_id g) (is_fixed g).

Definition set_course_id (g : t) (v : Z) : t :=
  mk (group_id g) (day g) (period g) (timeslot_id g) v (teacher_id g)
     (room_id g) (is_fixed g).

Definition set_room_id (g : t) (v : Z) : t :=
  mk (group_id g) (day g) (period g) (timeslot_id g) (course_id g)
     (teacher_id g) v (is_fixed g).

Definition set_day (g : t) (v : string) : t :=
  mk (group_id g) v (period g) (timeslot_id g) (course_id g)
     (teacher_id g) (room_id g) (is_fixed g).

Definition set_period (g : t) (v : Z) : t :=
  mk (group_id g) (day g) v (timeslot_id g) (course_id g)
     (teacher_id g) (room_id g) (is_fixed g).

Definition set_timeslot_id (g : t) (v : Z) : t :=
  mk (group_id g) (day g) (period g) v (course_id g)
     (teacher_id g) (room_id g) (is_fixed g).

(** The keys the collision counters are indexed by. *)
Definition teacher_key (g : t) : Z * string * Z := (teacher_id g, day g, period g).

Definition room_key (g : t) : Z * string * Z := (room_id g, day g, period g).

Definition group_key (g : t) : Z * string * Z := (group_id g, day g, period g).

(** The key of the schedules of the repair passes. *)
Definition slot_key (g : t) : string * Z := (day g, period g).

(** All of a gene but its course; all of it but its teacher and room. *)
Definition but_course (g : t) :=
  (group_id g, day g, period g, timeslot_id g, teacher_id g, room_id g,
   is_fixed g).

End Gene.

(* ------------------------------------------------------------------ *)
(** ** [genetic_algorithm/chromosome.py] *)

Module Chromosome.
(** The content of a chromosome: its genes, in order. *)
Record t : Type := mk { genes : list Gene.t }.

Definition add_gene (self : t) (gene : Gene.t) : t :=
  mk (genes self ++ [gene]).

Definition len (self : t) : nat := length (genes self).

(** [to_timetable]: group -> day -> genes of that group and day, each
    list sorted by period.  The second loop of the source sorts every
    list where it stands, so keys and their order are those of the
    first loop. *)
Definition to_timetable (self : t) : dict Z (dict string (list Gene.t)) :=
  let timetable :=
    fold_left
      (fun (timetable : dict Z (dict string (list Gene.t))) gene =>
         dict_nested_append timetable (Gene.group_id gene) (Gene.day gene) gene)
      (genes self) [] in
  map (fun group_days : Z * dict string (list Gene.t) =>
         (fst group_days,
          map (fun day_lessons : string * list Gene.t =>
                 (fst day_lessons, sort_by Gene.period (snd day_lessons)))
              (snd group_days)))
      timetable.
End Chromosome.

(* ------------------------------------------------------------------ *)
(** ** [genetic_algorithm/fitness.py] *)

(** *** Hard constraint functions *)

Definition penalty_teacher_conflict (individual : Chromosome.t) : Z :=
  let penalty := 0 in
  let teacher_conflicts :=
    fold_left
      (fun (teacher_conflicts : dict (Z * string * Z) Z) gene =>
         let key := (Gene.teacher_id gene, Gene.day gene, Gene.period gene) in
         dict_set teacher_conflicts key (dict_get teacher_conflicts key 0 + 1))
      (Chromosome.genes individual) [] in
  fold_left
    (fun penalty count =>
       if 1 <? count then penalty + 1000 * (count - 1) else penalty)
    (dict_values teacher_conflicts) penalty.

Definition penalty_room_conflict (individual : Chromosome.t) : Z :=
  let penalty := 0 in
  let room_conflicts :=
    fold_left
      (fun (room_conflicts : dict (Z * string * Z) Z) gene =>
         let key := (Gene.room_id gene, Gene.day gene, Gene.period gene) in
         dict_set room_conflicts key (dict_get room_conflicts key 0 + 1))
      (Chromosome.genes individual) [] in
  fold_left
    (fun penalty count =>
       if 1 <? count then penalty + 1000 * (count - 1) else penalty)
    (dict_values room_conflicts) penalty.

Definition penalty_group_conflict (individual : Chromosome.t) : Z :=
  let penalty := 0 in
  let group_conflicts :=
    fold_left
      (fun (group_conflicts : dict (Z * string * Z) Z) gene =>
         let key := (Gene.group_id gene, Gene.day gene, Gene.period gene) in
         dict_set group_conflicts key (dict_get group_conflicts key 0 + 1))
      (Chromosome.genes individual) [] in
  fold_left
    (fun penalty count =>
       if 1 <? count then penalty + 1000 * (count - 1) else penalty)
    (dict_values group_conflicts) penalty.

(** *** Soft constraint functions *)

(** The preferred times the source looks up for a gene: those of the
    first teacher of the list with the gene's [teacher_id], else [[]]. *)
Definition teacher_pref_of (teachers : list Teacher.t) (teacher_id : Z)
    : list (string * Z) :=
  py_next
    (map Teacher.preferred_times
       (filter (fun t => Teacher.teacher_id t =? teacher_id) teachers))
    [].

Definition penalty_teacher_time_preference
    (individual : Chromosome.t) (teachers : list Teacher.t) : Z :=
  let penalty := 0 in
  fold_left
    (fun penalty gene =>
       let teacher_pref := teacher_pref_of teachers (Gene.teacher_id gene) in
       if negb (py_in (Gene.day gene, Gene.period gene) teacher_pref)
       then penalty + 1
       else penalty)
    (Chromosome.genes individual) penalty.

(** In [teacher_assignments[gene.teacher_id] += 1] the key is present, as
    the line before is [setdefault(gene.teacher_id, 0)].  The quotient,
    the differences and the sum are exact here; the source rounds each of
    them to binary64. *)
Definition penalty_teacher_workload_balance (individual : Chromosome.t) : Q :=
  let penalty := 0%Q in
  let teacher_assignments :=
    fold_left
      (fun (teacher_assignments : dict Z Z) gene =>
         let teacher_assignments :=
           dict_setdefault teacher_assignments (Gene.teacher_id gene) 0 in
         dict_set teacher_assignments (Gene.teacher_id gene)
           (dict_get teacher_assignments (Gene.teacher_id gene) 0 + 1))
      (Chromosome.genes individual) [] in
  match teacher_assignments with
  | [] => penalty
  | _ :: _ =>
      let avg_load :=
        (inject_Z (py_sum (dict_values teacher_assignments))
         / inject_Z (Z.of_nat (length teacher_assignments)))%Q in
      fold_left
        (fun penalty load => (penalty + Qabs (inject_Z load - avg_load))%Q)
        (dict_values teacher_assignments) penalty
  end.

(** The home room the source looks up for a gene: that of the first group
    of the list with the gene's [group_id], else [None]. *)
Definition group_home_of (groups : list StudentGroup.t) (group_id : Z)
    : option Z :=
  py_next
    (map StudentGroup.home_room
       (filter (fun g => StudentGroup.group_id g =? group_id) groups))
    None.

Definition penalty_group_home_room
    (individual : Chromosome.t) (groups : list StudentGroup.t) : Z :=
  let penalty := 0 in
  fold_left
    (fun penalty gene =>
       match group_home_of groups (Gene.group_id gene) with
       | Some group_home =>
           if negb (Gene.room_id gene =? group_home)
           then penalty + 1
           else penalty
       | None => penalty
       end)
    (Chromosome.genes individual) penalty.

(** *** Additional constraint functions *)

Definition penalty_subject_distribution (individual : Chromosome.t) : Q :=
  let penalty := 0%Q in
  let teacher_schedule :=
    fold_left
      (fun (teacher_schedule : dict Z (dict string (list Z))) gene =>
         dict_nested_append teacher_schedule
           (Gene.teacher_id gene) (Gene.day gene) (Gene.period gene))
      (Chromosome.genes individual) [] in
  fold_left
    (fun penalty day_dict =>
       fold_left
         (fun penalty periods =>
            let periods := py_sorted periods in
            fold_left
              (fun penalty i =>
                 if nth i periods 0 =? nth (i - 1) periods 0 + 1
                 then (penalty + (1 # 2))%Q
                 else penalty)
              (seq 1 (length periods - 1)) penalty)
         (dict_values day_dict) penalty)
    (dict_values teacher_schedule) penalty.

Definition penalty_group_schedule_gap
    (individual : Chromosome.t) (groups : list StudentGroup.t) : Q :=
  let penalty := 0%Q in
  let timetable := Chromosome.to_timetable individual in
  fold_left
    (fun penalty group =>
       let group_schedule :=
         dict_get timetable (StudentGroup.group_id group) [] in
       fold_left
         (fun penalty lessons =>
            let periods := py_sorted (map Gene.period lessons) in
            match periods with
            | [] => penalty
            | _ :: _ =>
                let expected_slots := py_max periods - py_min periods + 1 in
                let actual_slots := Z.of_nat (length periods) in
                let gap := expected_slots - actual_slots in
                (penalty + inject_Z gap * (1 # 2))%Q
            end)
         (dict_values group_schedule) penalty)
    groups penalty.

(** *** New additional constraint functions *)

Definition penalty_teacher_same_subject_across_groups
    (individual : Chromosome.t) : Z :=
  let penalty := 0 in
  let teacher_course_groups :=
    fold_left
      (fun (teacher_course_groups : dict (Z * Z) (list Z)) gene =>
         let key := (Gene.teacher_id gene, Gene.course_id gene) in
         let teacher_course_groups :=
           dict_setdefault teacher_course_groups key [] in
         dict_set teacher_course_groups key
           (set_add (dict_get teacher_course_groups key []) (Gene.group_id gene)))
      (Chromosome.genes individual) [] in
  fold_left
    (fun penalty groups_set =>
       if (1 <? length groups_set)%nat
       then penalty + 1000 * (Z.of_nat (length groups_set) - 1)
       else penalty)
    (dict_values teacher_course_groups) penalty.

Definition penalty_teacher_multiple_first_periods
    (individual : Chromosome.t) : Z :=
  let penalty := 0 in
  let teacher_first_periods :=
    fold_left
      (fun (teacher_first_periods : dict Z Z) gene =>
         if Gene.period gene =? 1
         then dict_set teacher_first_periods (Gene.teacher_id gene)
                (dict_get teacher_first_periods (Gene.teacher_id gene) 0 + 1)
         else teacher_first_periods)
      (Chromosome.genes individual) [] in
  fold_left
    (fun penalty count =>
       if 1 <? count then penalty + 1000 * (count - 1) else penalty)
    (dict_values teacher_first_periods) penalty.

(** *** Main evaluation function

    The source returns the 1-tuple [(total_penalty,)]; its only component
    is the value here. *)
Definition evaluate_timetable (individual : Chromosome.t)
    (teachers : list Teacher.t) (groups : list StudentGroup.t) : Q :=
  let total_penalty := 0%Q in
  let total_penalty :=
    (total_penalty + inject_Z (penalty_teacher_conflict individual))%Q in
  let total_penalty :=
    (total_penalty + inject_Z (penalty_room_conflict individual))%Q in
  let total_penalty :=
    (total_penalty + inject_Z (penalty_group_conflict individual))%Q in
  let total_penalty :=
    (total_penalty
     + inject_Z (penalty_teacher_time_preference individual teachers))%Q in
  let total_penalty :=
    (total_penalty + penalty_teacher_workload_balance individual)%Q in
  let total_penalty :=
    (total_penalty + inject_Z (penalty_group_home_room individual groups))%Q in
  let total_penalty :=
    (total_penalty + penalty_subject_distribution individual)%Q in
  let total_penalty :=
    (total_penalty + penalty_group_schedule_gap individual groups)%Q in
  let total_penalty :=
    (total_penalty
     + inject_Z (penalty_teacher_same_subject_across_groups individual))%Q in
  let total_penalty :=
    (total_penalty
     + inject_Z (penalty_teacher_multiple_first_periods individual))%Q in
  total_penalty.

(* ------------------------------------------------------------------ *)
(** ** The object store, the random generator and the monad of statements *)

(** The generator is the sequence of the raw outcomes of the calls to
    [random] that are still to come; a call takes the first and leaves the
    rest.  Every run of the program is the run of the model on some such
    sequence. *)
Definition RNG : Type := nat -> N.

(** Objects are addressed by identity.  [chromosomes c] is the gene list of
    chromosome object [c], a list of gene objects; [gene_objs r] holds the
    attributes of gene object [r]. *)
Record State : Type := mkState {
  chromosomes : nat -> list nat;
  gene_objs : nat -> Gene.t;
  rng : RNG
}.

(** A statement runs on a state and leaves a state, also when it raises:
    what it wrote before the exception stays written. *)
Definition M (A : Type) : Type := State -> result A * State.

Definition ret {A : Type} (a : A) : M A := fun s => (Ok a, s).

Definition raise {A : Type} (e : exn) : M A := fun s => (Raise e, s).

Definition lift {A : Type} (r : result A) : M A := fun s => (r, s).

Definition bind {A B : Type} (m : M A) (k : A -> M B) : M B :=
  fun s =>
    match m s with
    | (Ok a, s') => k a s'
    | (Raise e, s') => (Raise e, s')
    end.

Notation "x <- c1 ;; c2" := (bind c1 (fun x => c2))
  (at level 61, c1 at next level, right associativity).

Notation "c1 ;; c2" := (bind c1 (fun _ => c2))
  (at level 61, right associativity).

Definition when (b : bool) (m : M unit) : M unit :=
  if b then m else ret tt.

Fixpoint for_each {A : Type} (l : list A) (body : A -> M unit) : M unit :=
  match l with
  | [] => ret tt
  | x :: l' => body x ;; for_each l' body
  end.

(** A [for] loop that carries its local variables [acc] along. *)
Fixpoint for_fold {A B : Type} (l : list A) (acc : B) (body : B -> A -> M B)
    : M B :=
  match l with
  | [] => ret acc
  | x :: l' => acc' <- body acc x ;; for_fold l' acc' body
  end.

(** *** Reading and writing objects *)

Definition get_genes (c : nat) : M (list nat) :=
  fun s => (Ok (chromosomes s c), s).

Definition set_genes (c : nat) (l : list nat) : M unit :=
  fun s =>
    (Ok tt,
     mkState (fun c' => if Nat.eqb c' c then l else chromosomes s c')
             (gene_objs s) (rng s)).

Definition read_gene (r : nat) : M Gene.t :=
  fun s => (Ok (gene_objs s r), s).

Definition write_gene (r : nat) (f : Gene.t -> Gene.t) : M unit :=
  fun s =>
    (Ok tt,
     mkState (chromosomes s)
             (fun r' => if Nat.eqb r' r then f (gene_objs s r) else gene_objs s r')
             (rng s)).

(** The content of chromosome object [c] in state [s], as the fitness
    functions read it. *)
Definition content (s : State) (c : nat) : Chromosome.t :=
  Chromosome.mk (map (gene_objs s) (chromosomes s c)).

(** *** The module [random] *)

Definition advance (s : State) : State :=
  mkState (chromosomes s) (gene_objs s) (fun i => rng s (S i)).

Definition draw : M N := fun s => (Ok (rng s 0%nat), advance s).

(** [random.random()]: a 53-bit fraction in [0, 1). *)
Definition random_random : M Q :=
  n <- draw ;;
  ret (Z.of_N (n mod 9007199254740992) # 9007199254740992).

(** [random.randint(a, b)]: [ValueError] on an empty range. *)
Definition random_randint (a b : Z) : M Z :=
  if b <? a then raise ValueError
  else n <- draw ;; ret (a + Z.of_N n mod (b - a + 1)).

(** [random.choice(seq)]: [IndexError] on an empty sequence. *)
Definition random_choice {A : Type} (seq : list A) : M A :=
  match seq with
  | [] => raise IndexError
  | x :: _ => n <- draw ;; ret (nth (N.to_nat n mod length seq) seq x)
  end.

Definition Qltb (x y : Q) : bool := negb (Qle_bool y x).

(* ------------------------------------------------------------------ *)
(** ** [genetic_algorithm/operators.py] *)

(** [l[i:]] and [l[i:] = x] for [i >= 0]; both clamp [i] to [len(l)]. *)
Definition slice_from {A : Type} (l : list A) (i : nat) : list A := skipn i l.

Definition assign_slice_from {A : Type} (l : list A) (i : nat) (x : list A)
    : list A :=
  firstn i l ++ x.

(** The right-hand side tuple is built first, from copies of both
    suffixes; then the two targets are assigned from left to right. *)
Definition crossover (ind1 ind2 : nat) : M (nat * nat) :=
  genes1 <- get_genes ind1 ;;
  let size := length genes1 in
  if (size <? 2)%nat then ret (ind1, ind2)
  else
    cxpoint <- random_randint 1 (Z.of_nat size - 1) ;;
    let cxpoint := Z.to_nat cxpoint in
    genes2 <- get_genes ind2 ;;
    let suffix2 := slice_from genes2 cxpoint in
    genes1 <- get_genes ind1 ;;
    let suffix1 := slice_from genes1 cxpoint in
    genes1 <- get_genes ind1 ;;
    set_genes ind1 (assign_slice_from genes1 cxpoint suffix2) ;;
    genes2 <- get_genes ind2 ;;
    set_genes ind2 (assign_slice_from genes2 cxpoint suffix1) ;;
    ret (ind1, ind2).

(** [{(ts.day, ts.period): ts.slot_id for ts in timeslots}] *)
Definition timeslot_map_of (timeslots : list TimeSlot.t) : dict (string * Z) Z :=
  fold_left
    (fun timeslot_map ts =>
       dict_set timeslot_map (TimeSlot.day ts, TimeSlot.period ts)
                (TimeSlot.slot_id ts))
    timeslots [].

(** The body of the fourth [if] of the loop of [mutation]. *)
Definition mutate_time (gene : nat) (days : list string) (periods : list Z)
    (timeslot_map : dict (string * Z) Z) : M unit :=
  d <- random_choice days ;;
  write_gene gene (fun g => Gene.set_day g d) ;;
  p <- random_choice periods ;;
  write_gene gene (fun g => Gene.set_period g p) ;;
  g <- read_gene gene ;;
  slot <- lift (dict_getitem timeslot_map (Gene.day g, Gene.period g)) ;;
  write_gene gene (fun g => Gene.set_timeslot_id g slot).

Definition mutation_days : list string :=
  ["Monday"; "Tuesday"; "Wednesday"; "Thursday"; "Friday"]%string.

Definition mutation_periods : list Z := [1; 2; 3].

(** The body of the loop of [mutation], for one gene. *)
Definition mutate_gene (teachers : list Teacher.t) (rooms : list Room.t)
    (courses : list Course.t) (days : list string) (periods : list Z)
    (timeslot_map : dict (string * Z) Z) (indpb : Q) (gene : nat) : M unit :=
  u <- random_random ;;
  when (Qltb u indpb)
    (t <- random_choice teachers ;;
     write_gene gene (fun g => Gene.set_teacher_id g (Teacher.teacher_id t))) ;;
  u <- random_random ;;
  when (Qltb u indpb)
    (c <- random_choice courses ;;
     write_gene gene (fun g => Gene.set_course_id g (Course.course_id c))) ;;
  u <- random_random ;;
  when (Qltb u indpb)
    (r <- random_choice rooms ;;
     write_gene gene (fun g => Gene.set_room_id g (Room.room_id r))) ;;
  u <- random_random ;;
  when (Qltb u indpb) (mutate_time gene days periods timeslot_map).

(** The source returns the 1-tuple [(individual,)]. *)
Definition mutation (individual : nat) (teachers : list Teacher.t)
    (rooms : list Room.t) (courses : list Course.t)
    (timeslots : list TimeSlot.t) (indpb : Q) : M nat :=
  let days := mutation_days in
  let periods := mutation_periods in
  let timeslot_map := timeslot_map_of timeslots in
  genes <- get_genes individual ;;
  for_each genes
    (mutate_gene teachers rooms courses days periods timeslot_map indpb) ;;
  ret individual.

(* ------------------------------------------------------------------ *)
(** ** [utils/repair_operator.py] *)

(** [min(l, key=...)]: the first element whose key is least;
    [ValueError] on an empty [l]; the key function may raise. *)
Fixpoint min_from {A : Type} (key : A -> result Z) (best : A) (best_key : Z)
    (l : list A) : result A :=
  match l with
  | [] => Ok best
  | x :: l' =>
      result_bind (key x) (fun k =>
        if k <? best_key then min_from key x k l'
        else min_from key best best_key l')
  end.

Definition py_min_by {A : Type} (l : list A) (key : A -> result Z) : result A :=
  match l with
  | [] => Raise ValueError
  | x :: l' => result_bind (key x) (fun k => min_from key x k l')
  end.

(** [a or b] on lists *)
Definition list_or {A : Type} (a b : list A) : list A :=
  match a with
  | [] => b
  | _ :: _ => a
  end.

(** One iteration of the loop of [_resolve_teacher_conflicts]; the local
    dictionaries [teacher_schedule] and [teacher_load] are carried along. *)
Definition resolve_teacher_step (teachers : list Teacher.t)
    (teacher_preferences : dict Z (list (string * Z)))
    (acc : dict (string * Z) (list Z) * dict Z Z) (gene : nat)
    : M (dict (string * Z) (list Z) * dict Z Z) :=
  let teacher_schedule := fst acc in
  let teacher_load := snd acc in
  g <- read_gene gene ;;
  let key := (Gene.day g, Gene.period g) in
  let teacher_schedule := dict_setdefault teacher_schedule key [] in
  booked <- lift (dict_getitem teacher_schedule key) ;;
  teacher_load <-
    (if py_in (Gene.teacher_id g) booked then
       let available_teachers :=
         map Teacher.teacher_id
           (filter (fun t => negb (py_in (Teacher.teacher_id t) booked))
                   teachers) in
       match available_teachers with
       | [] => ret teacher_load
       | _ :: _ =>
           let preferred_available :=
             filter (fun tid => py_in key (dict_get teacher_preferences tid []))
                    available_teachers in
           best_teacher <-
             lift (py_min_by (list_or preferred_available available_teachers)
                             (fun tid => dict_getitem teacher_load tid)) ;;
           write_gene gene (fun g => Gene.set_teacher_id g best_teacher) ;;
           load <- lift (dict_getitem teacher_load best_teacher) ;;
           ret (dict_set teacher_load best_teacher (load + 1))
       end
     else ret teacher_load) ;;
  g <- read_gene gene ;;
  booked <- lift (dict_getitem teacher_schedule key) ;;
  ret (dict_set teacher_schedule key (booked ++ [Gene.teacher_id g]),
       teacher_load).

Definition resolve_teacher_conflicts (individual : nat)
    (teachers : list Teacher.t) : M nat :=
  let teacher_schedule : dict (string * Z) (list Z) := [] in
  let teacher_load : dict Z Z :=
    fold_left (fun d t => dict_set d (Teacher.teacher_id t) 0) teachers [] in
  let teacher_preferences : dict Z (list (string * Z)) :=
    fold_left
      (fun d t => dict_set d (Teacher.teacher_id t) (Teacher.preferred_times t))
      teachers [] in
  genes <- get_genes individual ;;
  _ <- for_fold genes (teacher_schedule, teacher_load)
         (resolve_teacher_step teachers teacher_preferences) ;;
  ret individual.

(** One iteration of the loop of [_resolve_room_conflicts]. *)
Definition resolve_room_step (rooms : list Room.t)
    (acc : dict (string * Z) (list Z) * dict Z Z) (gene : nat)
    : M (dict (string * Z) (list Z) * dict Z Z) :=
  let room_schedule := fst acc in
  let room_usage := snd acc in
  g <- read_gene gene ;;
  let key := (Gene.day g, Gene.period g) in
  let room_schedule := dict_setdefault room_schedule key [] in
  booked <- lift (dict_getitem room_schedule key) ;;
  room_usage <-
    (if py_in (Gene.room_id g) booked then
       let available_rooms :=
         map Room.room_id
           (filter (fun r => negb (py_in (Room.room_id r) booked)) rooms) in
       match available_rooms with
       | [] => ret room_usage
       | _ :: _ =>
           best_room <-
             lift (py_min_by available_rooms
                             (fun rid => dict_getitem room_usage rid)) ;;
           write_gene gene (fun g => Gene.set_room_id g best_room) ;;
           usage <- lift (dict_getitem room_usage best_room) ;;
           ret (dict_set room_usage best_room (usage + 1))
       end
     else ret room_usage) ;;
  g <- read_gene gene ;;
  booked <- lift (dict_getitem room_schedule key) ;;
  ret (dict_set room_schedule key (booked ++ [Gene.room_id g]), room_usage).

Definition resolve_room_conflicts (individual : nat) (rooms : list Room.t)
    : M nat :=
  let room_schedule : dict (string * Z) (list Z) := [] in
  let room_usage : dict Z Z :=
    fold_left (fun d r => dict_set d (Room.room_id r) 0) rooms [] in
  genes <- get_genes individual ;;
  _ <- for_fold genes (room_schedule, room_usage) (resolve_room_step rooms) ;;
  ret individual.

(** One iteration of the loop of [_resolve_group_conflicts]. *)
Definition resolve_group_step (group_schedule : dict (Z * string * Z) bool)
    (gene : nat) : M (dict (Z * string * Z) bool) :=
  g <- read_gene gene ;;
  let key := (Gene.group_id g, Gene.day g, Gene.period g) in
  when (dict_contains group_schedule key)
    (c <- random_randint 1 3 ;;
     write_gene gene (fun g => Gene.set_course_id g c)) ;;
  ret (dict_set group_schedule key true).

Definition resolve_group_conflicts (individual : nat) : M nat :=
  let group_schedule : dict (Z * string * Z) bool := [] in
  genes <- get_genes individual ;;
  _ <- for_fold genes group_schedule resolve_group_step ;;
  ret individual.

Definition repair_timetable (individual : nat) (teachers : list Teacher.t)
    (rooms : list Room.t) : M nat :=
  individual <- resolve_teacher_conflicts individual teachers ;;
  individual <- resolve_room_conflicts individual rooms ;;
  individual <- resolve_group_conflicts individual ;;
  ret individual.

(* ------------------------------------------------------------------ *)
(** ** Notions used in the statements *)

(** The distinct elements of a list in the order of their first
    occurrence: the keys of a dictionary that a loop over the list fills. *)
Definition uniq {A : Type} `{EqDec A} (l : list A) : list A :=
  fold_left set_add l [].

(** The sum of [h x] over the elements [x] of [l]. *)
Definition zsum {A : Type} (h : A -> Z) (l : list A) : Z :=
  fold_right (fun x acc => h x + acc) 0 l.

(** How many entries of [l] are equal to [k]. *)
Definition occurrences {A : Type} `{EqDec A} (l : list A) (k : A) : Z :=
  Z.of_nat (count_occ eq_dec l k).

(** How many entries of [l] repeat an entry of [l]: its length less the
    number of its distinct entries. *)
Definition excess {A : Type} `{EqDec A} (l : list A) : Z :=
  Z.of_nat (length l) - Z.of_nat (length (nodup eq_dec l)).

(** What one key occupied by [c] genes contributes to a hard term. *)
Definition collision_weight (c : Z) : Z :=
  if 1 <? c then 1000 * (c - 1) else 0.

(** The collision-counting term as the specification words it: the sum,
    over the keys that occur, of [1000 * (count - 1)] for the keys with
    [count > 1]. *)
Definition collision_penalty {K : Type} `{EqDec K} (keys : list K) : Z :=
  zsum (fun k => collision_weight (occurrences keys k)) (nodup eq_dec keys).

(** The loops of the source that fill a dictionary from a list all have
    one shape: the entry at key [f x] is replaced by [upd x] of the entry
    that was there, or of [e] when there was none. *)
Section Grouping.
Context {X K V : Type} `{EqDec K}.
Variables (f : X -> K) (e : V) (upd : X -> V -> V).

Definition update_step (d : dict K V) (x : X) : dict K V :=
  dict_set d (f x) (upd x (dict_get d (f x) e)).

(** The entry the loop over [l] leaves at key [k]. *)
Definition folded (l : list X) (k : K) : V :=
  fold_left (fun acc x => upd x acc)
    (filter (fun x => if eq_dec (f x) k then true else false) l) e.
End Grouping.

(** The teacher a gene is assigned to, when the list has one with the
    gene's [teacher_id] (the first, if it has several), and the times that
    teacher prefers; no such teacher, no preferred time. *)
Definition assigned_teacher (teachers : list Teacher.t) (g : Gene.t)
    : option Teacher.t :=
  find (fun t => Teacher.teacher_id t =? Gene.teacher_id g) teachers.

Definition preferred_set (teachers : list Teacher.t) (g : Gene.t)
    : list (string * Z) :=
  match assigned_teacher teachers g with
  | Some t => Teacher.preferred_times t
  | None => []
  end.

(** The genes scheduled outside the preferred times of their teacher. *)
Definition outside_preferred_times (teachers : list Teacher.t) (g : Gene.t)
    : bool :=
  negb (py_in (Gene.day g, Gene.period g) (preferred_set teachers g)).

(** From [s] to [s'] no chromosome changed its gene list and no gene
    object changed what [proj] reads of it. *)
Definition unchanged {B : Type} (proj : Gene.t -> B) (s s' : State) : Prop :=
  chromosomes s' = chromosomes s
  /\ forall r, proj (gene_objs s' r) = proj (gene_objs s r).

(** A statement that, however it ends, leaves gene lists and [proj] as
    they were. *)
Definition keeps {A B : Type} (proj : Gene.t -> B) (m : M A) : Prop :=
  forall s, unchanged proj s (snd (m s)).

(** The catalog slot for a (day, period): the last of the list that has
    them, which is the one a dictionary comprehension keeps. *)
Definition matching_slot (timeslots : list TimeSlot.t) (day : string)
    (period : Z) : option TimeSlot.t :=
  find (fun ts => if eq_dec (day, period) (TimeSlot.day ts, TimeSlot.period ts)
                  then true else false)
       (rev timeslots).

(** [utils/data_generator.py], [create_timeslots_fake], with its two lists
    as parameters: one slot per day and period, numbered from 1. *)
Definition timeslots_for (days : list string) (periods : list Z)
    : list TimeSlot.t :=
  fst (fold_left
         (fun (acc : list TimeSlot.t * Z) day =>
            fold_left
              (fun (acc : list TimeSlot.t * Z) period =>
                 (fst acc ++ [TimeSlot.mk (snd acc) day period], snd acc + 1))
              periods acc)
         days ([], 1)).

Definition create_timeslots_fake : list TimeSlot.t :=
  timeslots_for ["Monday"; "Tuesday"; "Wednesday"; "Thursday"; "Friday"]%string
                [1; 2; 3; 4; 5; 6].


(** The counters of the repair passes have an entry for each identifier. *)
Definition has_keys (ids : list Z) (counter : dict Z Z) : Prop :=
  forall id, In id ids -> dict_find counter id <> None.

(** A statement that returns, on every state, a value that satisfies [Q]. *)
Definition succeeds {A : Type} (m : M A) (Q : A -> Prop) : Prop :=
  forall s, exists a s', m s = (Ok a, s') /\ Q a.

(** The genes of one group on one day, in the order of the chromosome. *)
Definition lessons_of (genes : list Gene.t) (group_id : Z) (day : string)
    : list Gene.t :=
  filter (fun g => if eq_dec (Gene.day g) day then true else false)
    (filter (fun g => if eq_dec (Gene.group_id g) group_id then true else false)
       genes).

(** The days on which a group has a gene. *)
Definition days_of (genes : list Gene.t) (group_id : Z) : list string :=
  uniq (map Gene.day
          (filter (fun g => if eq_dec (Gene.group_id g) group_id
                            then true else false) genes)).

(** What the source adds, halved, for one list of periods: the span less
    the number of lessons. *)
Definition gap_counted (periods : list Z) : Z :=
  match periods with
  | [] => 0
  | _ :: _ => py_max periods - py_min periods + 1 - Z.of_nat (length periods)
  end.

(** What the specification adds, halved: the span less the number of
    distinct periods. *)
Definition gap_distinct (periods : list Z) : Z :=
  match periods with
  | [] => 0
  | _ :: _ =>
      py_max periods - py_min periods + 1
      - Z.of_nat (length (nodup eq_dec periods))
  end.

(** The group schedule gap term as the specification words it: over each
    listed group and each day on which the group has a gene, the span of
    its periods less the number of its distinct periods, times 0.5. *)
Definition schedule_gap_distinct (individual : Chromosome.t)
    (groups : list StudentGroup.t) : Q :=
  (inject_Z
     (zsum (fun group =>
              zsum (fun day =>
                      gap_distinct
                        (map Gene.period
                           (lessons_of (Chromosome.genes individual)
                              (StudentGroup.group_id group) day)))
                   (days_of (Chromosome.genes individual)
                            (StudentGroup.group_id group)))
           groups)
   * (1 # 2))%Q.

(** The same with the number of lessons in place of the number of
    distinct periods, and the periods sorted as the source sorts them. *)
Definition schedule_gap_counted (individual : Chromosome.t)
    (groups : list StudentGroup.t) : Z :=
  zsum (fun group =>
          zsum (fun day =>
                  gap_counted
                    (py_sorted
                       (map Gene.period
                          (sort_by Gene.period
                             (lessons_of (Chromosome.genes individual)
                                (StudentGroup.group_id group) day)))))
               (days_of (Chromosome.genes individual)
                        (StudentGroup.group_id group)))
       groups.

(** ** Data of the scenarios *)

(** A gene whose [timeslot_id] is that of its day and period in the
    catalog of [create_timeslots_fake]. *)
Definition lesson (group_id : Z) (day : string) (period : Z)
    (course_id teacher_id room_id : Z) : Gene.t :=
  let timeslot_id :=
    match matching_slot create_timeslots_fake day period with
    | Some ts => TimeSlot.slot_id ts
    | None => 0
    end in
  Gene.mk group_id day period timeslot_id course_id teacher_id room_id
          (Some false).

(** Two genes with [teacher_id = 5], Monday, period 1, all else distinct. *)
Definition two_lessons_one_teacher : Chromosome.t :=
  Chromosome.mk [lesson 1 "Monday" 1 1 5 1; lesson 2 "Monday" 1 2 5 2].

(** Two parents of three genes each and one of a single gene; every raw
    outcome of the generator is 1. *)
Definition three_parents : State :=
  mkState
    (fun c => match c with
              | 0%nat => [0; 1; 2]%nat
              | 1%nat => [3; 4; 5]%nat
              | _ => [6%nat]
              end)
    (fun r => lesson (Z.of_nat r) "Monday" 1 1 5 1)
    (fun _ => 1%N).

(** A configuration of two periods a day, with its complete catalog. *)
Definition two_period_days : SchedulingConfig.t :=
  SchedulingConfig.mk 200 100 (7 # 10) (3 # 10)
    ["Monday"; "Tuesday"; "Wednesday"; "Thursday"; "Friday"]%string
    [1; 2] (1 # 10).

Definition two_period_catalog : list TimeSlot.t :=
  timeslots_for (SchedulingConfig.DAYS_OF_WEEK two_period_days)
                (SchedulingConfig.PERIODS_PER_DAY two_period_days).

(** One chromosome of one gene; the generator gives 0.5 to the first three
    trials of [mutation] and 0.0625 to the fourth, then picks the first
    day and the third period. *)
Definition one_lesson : State :=
  mkState
    (fun _ => [0%nat])
    (fun _ => Gene.mk 1 "Monday" 1 1 1 5 1 (Some false))
    (fun i => match i with
              | 0%nat | 1%nat | 2%nat => 4503599627370496%N
              | 3%nat => 562949953421312%N
              | 4%nat => 0%N
              | _ => 2%N
              end).

(** One chromosome of two lessons at the same time, in different rooms
    with different teachers. *)
Definition tidy_hour : State :=
  mkState
    (fun _ => [0; 1]%nat)
    (fun r => match r with
              | 0%nat => lesson 1 "Monday" 1 1 5 1
              | _ => lesson 2 "Monday" 1 2 6 2
              end)
    (fun _ => 1%N).


Definition two_teachers : list Teacher.t :=
  [Teacher.mk 5 "Ada" [("Monday"%string, 1)];
   Teacher.mk 6 "Bob" [("Monday"%string, 1)]].

Definition two_rooms : list Room.t := [Room.mk 1 "R1"; Room.mk 2 "R2"].

(** Two lessons of group 1 on Monday at period 1, with different courses,
    teachers and rooms; both teachers prefer that time. *)
Definition double_lesson : Chromosome.t :=
  Chromosome.mk [lesson 1 "Monday" 1 1 5 1; lesson 1 "Monday" 1 2 6 2].

(** Three lessons of group 1 on Monday, at periods 1, 1 and 3. *)
Definition gapped_day : Chromosome.t :=
  Chromosome.mk [lesson 1 "Monday" 1 1 5 1; lesson 1 "Monday" 1 2 6 2;
                 lesson 1 "Monday" 3 3 7 3].

Definition group_one : StudentGroup.t := StudentGroup.mk 1 "G1" None.

Definition group_two : StudentGroup.t := StudentGroup.mk 2 "G2" None.

(* ------------------------------------------------------------------ *)
(** ** Further notions: the other penalty terms *)

(** The genes at the first period. *)
Definition first_period (g : Gene.t) : bool := Gene.period g =? 1.

(** The (teacher, course) pair of a gene, and the distinct groups a pair
    serves. *)
Definition teacher_course (g : Gene.t) : Z * Z :=
  (Gene.teacher_id g, Gene.course_id g).

Definition groups_served (genes : list Gene.t) (k : Z * Z) : list Z :=
  nodup eq_dec
    (map Gene.group_id
       (filter (fun g => if eq_dec (teacher_course g) k then true else false)
               genes)).

(** The home room of the group of a gene: that of the first listed group
    with the gene's [group_id], if there is one and it has a home room. *)
Definition home_room_of (groups : list StudentGroup.t) (g : Gene.t)
    : option Z :=
  match find (fun grp => StudentGroup.group_id grp =? Gene.group_id g) groups with
  | Some grp => StudentGroup.home_room grp
  | None => None
  end.

Definition away_from_home (groups : list StudentGroup.t) (g : Gene.t) : bool :=
  match home_room_of groups g with
  | Some home => negb (Gene.room_id g =? home)
  | None => false
  end.

(** The number of genes of a teacher. *)
Definition teacher_load (genes : list Gene.t) (teacher_id : Z) : Z :=
  occurrences (map Gene.teacher_id genes) teacher_id.

(** The neighbours in a list that differ by exactly one. *)
Fixpoint consecutive_pairs (l : list Z) : Z :=
  match l with
  | [] => 0
  | a :: rest =>
      match rest with
      | [] => 0
      | b :: _ => (if b =? a + 1 then 1 else 0) + consecutive_pairs rest
      end
  end.

(** The periods of one teacher on one day, in the order of the chromosome,
    and the days on which a teacher has a gene. *)
Definition teacher_periods (genes : list Gene.t) (teacher_id : Z)
    (day : string) : list Z :=
  map Gene.period
    (filter (fun g => if eq_dec (Gene.day g) day then true else false)
       (filter (fun g => if eq_dec (Gene.teacher_id g) teacher_id
                         then true else false) genes)).

Definition teacher_days (genes : list Gene.t) (teacher_id : Z) : list string :=
  uniq (map Gene.day
          (filter (fun g => if eq_dec (Gene.teacher_id g) teacher_id
                            then true else false) genes)).

(** The consecutive lessons of the teachers: per teacher and day, the
    neighbours one period apart once the day's periods are sorted. *)
Definition consecutive_lessons (genes : list Gene.t) : Z :=
  zsum (fun teacher_id =>
          zsum (fun day =>
                  consecutive_pairs
                    (py_sorted (teacher_periods genes teacher_id day)))
               (teacher_days genes teacher_id))
       (uniq (map Gene.teacher_id genes)).

(** Two lessons at the same time, of different groups, with different
    teachers in different rooms; both teachers prefer that time. *)
Definition tidy_timetable : Chromosome.t :=
  Chromosome.mk [lesson 1 "Monday" 1 1 5 1; lesson 2 "Monday" 1 2 6 2].



(* ------------------------------------------------------------------ *)
(** ** Further notions: what a statement does to the store *)

(** From [s] to [s'] no chromosome changed its gene list, and each gene
    object [r] changed within [P r]. *)
Definition genewise (P : nat -> Gene.t -> Gene.t -> Prop) (s s' : State)
    : Prop :=
  chromosomes s' = chromosomes s
  /\ forall r, P r (gene_objs s r) (gene_objs s' r).

(** A statement that, however it ends, leaves a state related by [R] to
    the one it started from; one that does so when it returns; and one
    whose returned values satisfy [Q]. *)
Definition always {A : Type} (R : State -> State -> Prop) (m : M A) : Prop :=
  forall s, R s (snd (m s)).

Definition on_success {A : Type} (R : State -> State -> Prop) (m : M A)
    : Prop :=
  forall s a s', m s = (Ok a, s') -> R s s'.

Definition returns {A : Type} (m : M A) (Q : A -> Prop) : Prop :=
  forall s a s', m s = (Ok a, s') -> Q a.

(** The relations the rules below are for: reflexive and transitive, and
    not concerned with the random generator. *)
Definition store_order (R : State -> State -> Prop) : Prop :=
  (forall s, R s s)
  /\ (forall s1 s2 s3, R s1 s2 -> R s2 s3 -> R s1 s3)
  /\ (forall s, R s (advance s)).

(** An attribute that is what it was, or else one of [l]. *)
Definition same_or_in {A : Type} (l : list A) (old new : A) : Prop :=
  new = old \/ In new l.

(** What [mutation] can make of a gene. *)
Definition mutated_from (teachers : list Teacher.t) (rooms : list Room.t)
    (courses : list Course.t) (timeslots : list TimeSlot.t)
    (g g' : Gene.t) : Prop :=
  Gene.group_id g' = Gene.group_id g
  /\ Gene.is_fixed g' = Gene.is_fixed g
  /\ same_or_in (map Teacher.teacher_id teachers)
       (Gene.teacher_id g) (Gene.teacher_id g')
  /\ same_or_in (map Course.course_id courses)
       (Gene.course_id g) (Gene.course_id g')
  /\ same_or_in (map Room.room_id rooms) (Gene.room_id g) (Gene.room_id g')
  /\ same_or_in mutation_days (Gene.day g) (Gene.day g')
  /\ same_or_in mutation_periods (Gene.period g) (Gene.period g')
  /\ same_or_in (map TimeSlot.slot_id timeslots)
       (Gene.timeslot_id g) (Gene.timeslot_id g').

(** The [timeslot_id] of a gene is the one the catalog has for its day
    and period. *)
Definition slot_consistent (timeslots : list TimeSlot.t) (g : Gene.t) : Prop :=
  dict_find (timeslot_map_of timeslots) (Gene.day g, Gene.period g)
  = Some (Gene.timeslot_id g).

(** The catalog has a slot for each day and period [mutation] draws. *)
Definition covers_mutation (timeslots : list TimeSlot.t) : Prop :=
  forall day period,
    In day mutation_days -> In period mutation_periods ->
    matching_slot timeslots day period <> None.

(* ------------------------------------------------------------------ *)
(** ** Further notions: the repair passes *)

(** The genes of a list at one (day, period). *)
Definition at_slot (k : string * Z) (g : Gene.t) : bool :=
  if eq_dec (Gene.slot_key g) k then true else false.

(** No (day, period) holds more genes of the chromosome than the catalog
    has distinct identifiers. *)
Definition fits_catalog (ids : list Z) (s : State) (refs : list nat) : Prop :=
  forall k,
    (count_occ eq_dec (map (fun r => Gene.slot_key (gene_objs s r)) refs) k
     <= length (nodup eq_dec ids))%nat.

(** One chromosome of two lessons at the same time with the same teacher
    in the same room. *)
Definition clashing_hour : State :=
  mkState
    (fun _ => [0; 1]%nat)
    (fun r => match r with
              | 0%nat => lesson 1 "Monday" 1 1 5 1
              | _ => lesson 2 "Monday" 1 2 5 1
              end)
    (fun _ => 1%N).

(* ------------------------------------------------------------------ *)
(** ** [models/timeslot.py]: the validation of a time slot *)

(** [TimeSlot.__post_init__] *)
Definition timeslot_post_init (self : TimeSlot.t) : result unit :=
  if TimeSlot.period self <? 1 then Raise ValueError
  else if negb (py_in (TimeSlot.day self) Gene.valid_days) then Raise ValueError
  else Ok tt.

(** The constructor of the dataclass, which [utils/converters.py],
    [timeslot_db_to_dc], calls on the three columns of a row. *)
Definition timeslot_new (slot_id : Z) (day : string) (period : Z)
    : result TimeSlot.t :=
  let self := TimeSlot.mk slot_id day period in
  result_bind (timeslot_post_init self) (fun _ => Ok self).

Definition timeslot_db_to_dc (db_obj : TimeSlot.t) : result TimeSlot.t :=
  timeslot_new (TimeSlot.slot_id db_obj) (TimeSlot.day db_obj)
               (TimeSlot.period db_obj).

(* ------------------------------------------------------------------ *)
(** ** [main.py]: the initial individual *)

(** [next] on an exhausted generator raises [StopIteration], which is not
    one of the exceptions of the operators: the statements of [main.py]
    have one more way to end. *)
Inductive outcome (A : Type) : Type :=
| Value (a : A)
| StopIteration
| Error (e : exn).

Arguments Value {A} a.
Arguments StopIteration {A}.
Arguments Error {A} e.

Definition G (A : Type) : Type := State -> outcome A * State.

Definition gret {A : Type} (a : A) : G A := fun s => (Value a, s).

Definition gbind {A B : Type} (m : G A) (k : A -> G B) : G B :=
  fun s =>
    match m s with
    | (Value a, s') => k a s'
    | (StopIteration, s') => (StopIteration, s')
    | (Error e, s') => (Error e, s')
    end.

Notation "x <-- c1 ;; c2" := (gbind c1 (fun x => c2))
  (at level 61, c1 at next level, right associativity).

(** A statement of the operators, run here. *)
Definition from_M {A : Type} (m : M A) : G A :=
  fun s =>
    match m s with
    | (Ok a, s') => (Value a, s')
    | (Raise e, s') => (Error e, s')
    end.

(** [next(x for x in l)] *)
Definition next_of {A : Type} (l : list A) : G A :=
  fun s =>
    match l with
    | [] => (StopIteration, s)
    | x :: _ => (Value x, s)
    end.

Fixpoint g_for_fold {A B : Type} (l : list A) (acc : B) (body : B -> A -> G B)
    : G B :=
  match l with
  | [] => gret acc
  | x :: l' => acc' <-- body acc x ;; g_for_fold l' acc' body
  end.

(** [ts.day == day and ts.period == period] *)
Definition slot_matches (day : string) (period : Z) (ts : TimeSlot.t) : bool :=
  (if eq_dec (TimeSlot.day ts) day then true else false)
  && (TimeSlot.period ts =? period).

(** [_generate_random_gene]: the arguments of the call of [Gene] are
    evaluated in the order they are written, so the course is drawn
    first, then the teacher, then the room; [is_fixed] has its default. *)
Definition generate_random_gene (courses : list Course.t)
    (teachers : list Teacher.t) (rooms : list Room.t)
    (timeslots : list TimeSlot.t) (group_id : Z) (day : string) (period : Z)
    : G Gene.t :=
  timeslot_id <--
    next_of (map TimeSlot.slot_id
               (filter (slot_matches day period) timeslots)) ;;
  course <-- from_M (random_choice courses) ;;
  teacher <-- from_M (random_choice teachers) ;;
  room <-- from_M (random_choice rooms) ;;
  from_M (lift (Gene.new group_id day period timeslot_id
                  (Course.course_id course) (Teacher.teacher_id teacher)
                  (Room.room_id room) (Some false))).

(** [init_individual], as the chromosome whose gene list the individual
    is made of. *)
Definition init_individual (groups : list StudentGroup.t)
    (config : SchedulingConfig.t) (courses : list Course.t)
    (teachers : list Teacher.t) (rooms : list Room.t)
    (timeslots : list TimeSlot.t) : G Chromosome.t :=
  let chromosome := Chromosome.mk [] in
  g_for_fold groups chromosome
    (fun chromosome group =>
       g_for_fold (SchedulingConfig.DAYS_OF_WEEK config) chromosome
         (fun chromosome day =>
            g_for_fold (SchedulingConfig.PERIODS_PER_DAY config) chromosome
              (fun chromosome period =>
                 gene <--
                   generate_random_gene courses teachers rooms timeslots
                     (StudentGroup.group_id group) day period ;;
                 gret (Chromosome.add_gene chromosome gene)))).

(** The first slot of the catalog for a day and period, which is the one
    [next] finds. *)
Definition first_slot (timeslots : list TimeSlot.t) (day : string)
    (period : Z) : option TimeSlot.t :=
  find (slot_matches day period) timeslots.

(** What [init_individual] makes of a (group, day, period): a gene that
    the constructor accepted, on the first catalog slot of its day and
    period, with a course, a teacher and a room of the lists. *)
Definition initial_gene (courses : list Course.t) (teachers : list Teacher.t)
    (rooms : list Room.t) (timeslots : list TimeSlot.t) (g : Gene.t) : Prop :=
  Gene.post_init g = Ok tt
  /\ Gene.is_fixed g = Some false
  /\ In (Gene.course_id g) (map Course.course_id courses)
  /\ In (Gene.teacher_id g) (map Teacher.teacher_id teachers)
  /\ In (Gene.room_id g) (map Room.room_id rooms)
  /\ exists ts, first_slot timeslots (Gene.day g) (Gene.period g) = Some ts
                /\ Gene.timeslot_id g = TimeSlot.slot_id ts.

(** The (group, day, period) triples in the order of the three loops. *)
Definition all_cells (groups : list StudentGroup.t) (days : list string)
    (periods : list Z) : list (Z * string * Z) :=
  flat_map (fun group =>
              flat_map (fun day =>
                          map (fun period =>
                                 (StudentGroup.group_id group, day, period))
                              periods)
                       days)
           groups.

(** The catalog has a slot for each day and period of the configuration;
    the configuration has weekdays and positive periods only. *)
Definition covers_config (config : SchedulingConfig.t)
    (timeslots : list TimeSlot.t) : Prop :=
  forall day period,
    In day (SchedulingConfig.DAYS_OF_WEEK config) ->
    In period (SchedulingConfig.PERIODS_PER_DAY config) ->
    first_slot timeslots day period <> None.

Definition valid_config (config : SchedulingConfig.t) : Prop :=
  (forall day, In day (SchedulingConfig.DAYS_OF_WEEK config) ->
               In day Gene.valid_days)
  /\ (forall period, In period (SchedulingConfig.PERIODS_PER_DAY config) ->
                     1 <= period).

(** Slots numbered from [n] on, one for each (day, period) of a list. *)
Fixpoint number_from (n : Z) (cells : list (string * Z)) : list TimeSlot.t :=
  match cells with
  | [] => []
  | (day, period) :: cells' =>
      TimeSlot.mk n day period :: number_from (n + 1) cells'
  end.

(** Two parents of three genes each, with the same groups, days and
    periods position by position. *)
Definition twin_parents : State :=
  mkState
    (fun c => match c with
              | 0%nat => [0; 1; 2]%nat
              | _ => [3; 4; 5]%nat
              end)
    (fun r => lesson 1 "Monday" (Z.of_nat (r mod 3) + 1) 1 (Z.of_nat r) 1)
    (fun _ => 1%N).

(* ------------------------------------------------------------------ *)
(** ** [utils/visualization.py]: the conflict analysis *)

(** What [conflict_analysis] prints, line by line, with the values that
    go into each line in place of its text: the title, the title of a
    section ("Teacher", "Room" or "Group"), and one line for a
    (resource, day, period) with its number of assignments. *)
Inductive report_line : Type :=
| AnalysisTitle
| SectionTitle (resource : string)
| ConflictLine (resource : string) (id : Z) (day : string) (period count : Z).

(** [{k: v for k, v in conflicts.items() if v > 1}] *)
Definition overbooked (conflicts : dict (Z * string * Z) Z)
    : dict (Z * string * Z) Z :=
  filter (fun kv => 1 <? snd kv) conflicts.

(** [if conflicts: print(title); for (id, day, period), count in ...] *)
Definition report_section (resource : string)
    (conflicts : dict (Z * string * Z) Z) : list report_line :=
  match conflicts with
  | [] => []
  | _ :: _ =>
      SectionTitle resource
      :: map (fun kv : Z * string * Z * Z =>
                ConflictLine resource (fst (fst (fst kv))) (snd (fst (fst kv)))
                  (snd (fst kv)) (snd kv))
             conflicts
  end.

Definition conflict_analysis (chromosome : Chromosome.t) : list report_line :=
  let conflicts :=
    fold_left
      (fun (conflicts : dict (Z * string * Z) Z * dict (Z * string * Z) Z
                        * dict (Z * string * Z) Z) gene =>
         let teacher_conflicts := fst (fst conflicts) in
         let room_conflicts := snd (fst conflicts) in
         let group_conflicts := snd conflicts in
         let teacher_key :=
           (Gene.teacher_id gene, Gene.day gene, Gene.period gene) in
         let teacher_conflicts :=
           dict_set teacher_conflicts teacher_key
             (dict_get teacher_conflicts teacher_key 0 + 1) in
         let room_key := (Gene.room_id gene, Gene.day gene, Gene.period gene) in
         let room_conflicts :=
           dict_set room_conflicts room_key
             (dict_get room_conflicts room_key 0 + 1) in
         let group_key :=
           (Gene.group_id gene, Gene.day gene, Gene.period gene) in
         let group_conflicts :=
           dict_set group_conflicts group_key
             (dict_get group_conflicts group_key 0 + 1) in
         (teacher_conflicts, room_conflicts, group_conflicts))
      (Chromosome.genes chromosome) ([], [], []) in
  let teacher_conflicts := overbooked (fst (fst conflicts)) in
  let room_conflicts := overbooked (snd (fst conflicts)) in
  let group_conflicts := overbooked (snd conflicts) in
  [AnalysisTitle]
  ++ report_section "Teacher" teacher_conflicts
  ++ report_section "Room" room_conflicts
  ++ report_section "Group" group_conflicts.

(** What a line of the report stands for in the hard term of a resource. *)
Definition line_cost (resource : string) (line : report_line) : Z :=
  match line with
  | ConflictLine r _ _ _ count =>
      if eq_dec r resource then 1000 * (count - 1) else 0
  | _ => 0
  end.

(* ------------------------------------------------------------------ *)
(** ** Further notions: the workload-balance term as the source rounds it *)

(** The dictionary of the first loop of [penalty_teacher_workload_balance]:
    the number of genes of each teacher, in the order in which the
    teachers first appear in the chromosome. *)
Definition teacher_assignments (individual : Chromosome.t) : dict Z Z :=
  fold_left
    (fun (teacher_assignments : dict Z Z) gene =>
       let teacher_assignments :=
         dict_setdefault teacher_assignments (Gene.teacher_id gene) 0 in
       dict_set teacher_assignments (Gene.teacher_id gene)
         (dict_get teacher_assignments (Gene.teacher_id gene) 0 + 1))
    (Chromosome.genes individual) [].

(** A Python [float] is an IEEE 754 binary64 number: 53 bits of precision,
    exponents below 1024, every operation rounded to nearest, ties to
    even. *)
Definition binary64 : Type := spec_float.

(** [float(z)], which Python applies to an [int] operand of a mixed
    operation.  (An [int] beyond the range of binary64 makes the source
    raise [OverflowError] where this gives an infinity; a load is at most
    the number of genes.) *)
Definition float_of_int (z : Z) : binary64 := binary_normalize 53 1024 z 0 false.

Definition float_add (x y : binary64) : binary64 := SFadd 53 1024 x y.

Definition float_sub (x y : binary64) : binary64 := SFsub 53 1024 x y.

Definition float_div (x y : binary64) : binary64 := SFdiv 53 1024 x y.

(** [penalty_teacher_workload_balance] with the arithmetic of the source:
    [sum(...) / len(...)] is the quotient of two [int]s, rounded;
    [load - avg_load] converts the load and rounds the difference;
    [penalty += ...] rounds each partial sum.  (The conversions are exact
    below 2^53.) *)
Definition penalty_teacher_workload_balance_binary64
    (individual : Chromosome.t) : binary64 :=
  let penalty := float_of_int 0 in
  let teacher_assignments := teacher_assignments individual in
  match teacher_assignments with
  | [] => penalty
  | _ :: _ =>
      let avg_load :=
        float_div (float_of_int (py_sum (dict_values teacher_assignments)))
                  (float_of_int (Z.of_nat (length teacher_assignments))) in
      fold_left
        (fun penalty load =>
           float_add penalty (SFabs (float_sub (float_of_int load) avg_load)))
        (dict_values teacher_assignments) penalty
  end.

(** Eight lessons of six teachers, of which teacher 6 gives three: in
    [busy_teacher_last] that teacher is the last to appear, in
    [busy_teacher_third] the third. *)
Definition light_lessons_a : list Gene.t :=
  [lesson 1 "Monday" 1 1 1 1; lesson 1 "Monday" 2 1 2 1].

Definition light_lessons_b : list Gene.t :=
  [lesson 1 "Monday" 3 1 3 1; lesson 1 "Tuesday" 1 1 4 1;
   lesson 1 "Tuesday" 2 1 5 1].

Definition busy_lessons : list Gene.t :=
  [lesson 2 "Monday" 1 2 6 2; lesson 2 "Monday" 2 2 6 2;
   lesson 2 "Monday" 3 2 6 2].

Definition busy_teacher_last : Chromosome.t :=
  Chromosome.mk (light_lessons_a ++ light_lessons_b ++ busy_lessons).

Definition busy_teacher_third : Chromosome.t :=
  Chromosome.mk (light_lessons_a ++ busy_lessons ++ light_lessons_b).

(** [busy_teacher_last] with the lessons of teacher 6 in reverse order. *)
Definition busy_teacher_last_reversed : Chromosome.t :=
  Chromosome.mk (light_lessons_a ++ light_lessons_b ++ rev busy_lessons).

(* ================================================================== *)
(** * Properties *)

(** ** Dictionaries *)

Section DictFacts.
Context {K V : Type} `{EqDec K}.

Lemma dict_find_set (d : dict K V) (k k' : K) (v : V) :
  dict_find (dict_set d k v) k'
  = if eq_dec k' k then Some v else dict_find d k'.
Proof.
  induction d as [| [k0 v0] d IH]; simpl.
  - destruct (eq_dec k' k); reflexivity.
  - destruct (eq_dec k k0) as [-> | Hne]; simpl.
    + destruct (eq_dec k' k0); reflexivity.
    + rewrite IH. destruct (eq_dec k' k0) as [-> | ?]; [| reflexivity].
      destruct (eq_dec k0 k); [congruence | reflexivity].
Qed.

Lemma dict_find_set_same (d : dict K V) (k : K) (v : V) :
  dict_find (dict_set d k v) k = Some v.
Proof.
  rewrite dict_find_set. destruct (eq_dec k k); congruence.
Qed.

Lemma dict_find_set_other (d : dict K V) (k k' : K) (v : V) :
  k' <> k -> dict_find (dict_set d k v) k' = dict_find d k'.
Proof.
  intros Hne. rewrite dict_find_set. destruct (eq_dec k' k); congruence.
Qed.

Lemma dict_find_In (d : dict K V) (k : K) :
  dict_find d k <> None <-> In k (dict_keys d).
Proof.
  induction d as [| [k0 v0] d IH]; simpl.
  - split; [congruence | tauto].
  - destruct (eq_dec k k0) as [-> | Hne].
    + split; [auto | congruence].
    + rewrite IH. split; [auto | intros [? | ?]; congruence || assumption].
Qed.

Lemma dict_find_setdefault (d : dict K V) (k k' : K) (v : V) :
  dict_find (dict_setdefault d k v) k'
  = match dict_find d k' with
    | Some w => Some w
    | None => if eq_dec k' k then Some v else None
    end.
Proof.
  unfold dict_setdefault. destruct (dict_find d k) as [w |] eqn:E.
  - destruct (dict_find d k') as [w' |] eqn:E'; [reflexivity |].
    destruct (eq_dec k' k); congruence.
  - rewrite dict_find_set. destruct (eq_dec k' k) as [-> | ?].
    + rewrite E. reflexivity.
    + destruct (dict_find d k'); reflexivity.
Qed.

Lemma dict_set_setdefault (d : dict K V) (k : K) (v w : V) :
  dict_set (dict_setdefault d k v) k w = dict_set d k w.
Proof.
  unfold dict_setdefault. destruct (dict_find d k) eqn:E; [reflexivity |].
  clear E. induction d as [| [k0 v0] d IH]; simpl.
  - destruct (eq_dec k k); congruence.
  - destruct (eq_dec k k0) as [-> | Hne]; simpl.
    + destruct (eq_dec k0 k0); congruence.
    + destruct (eq_dec k k0); [congruence |]. rewrite IH. reflexivity.
Qed.

Lemma dict_get_setdefault (d : dict K V) (k : K) (v : V) :
  dict_get (dict_setdefault d k v) k v = dict_get d k v.
Proof.
  unfold dict_get. rewrite dict_find_setdefault.
  destruct (dict_find d k); [reflexivity |].
  destruct (eq_dec k k); congruence.
Qed.

(** A dictionary listed key by key *)
Lemma dict_find_tabulate (phi : K -> V) (U : list K) (k : K) :
  dict_find (map (fun k => (k, phi k)) U) k
  = if in_dec eq_dec k U then Some (phi k) else None.
Proof.
  induction U as [| a U IH]; simpl; [reflexivity |].
  destruct (eq_dec k a) as [-> | Hne].
  - destruct (eq_dec a a); [reflexivity | congruence].
  - rewrite IH. destruct (eq_dec a k); [congruence |].
    destruct (in_dec eq_dec k U); reflexivity.
Qed.

Lemma dict_set_tabulate (phi phi' : K -> V) (U : list K) (k0 : K) (v0 : V) :
  NoDup U ->
  phi' k0 = v0 ->
  (forall k, k <> k0 -> phi' k = phi k) ->
  dict_set (map (fun k => (k, phi k)) U) k0 v0
  = map (fun k => (k, phi' k)) (set_add U k0).
Proof.
  intros HU Hk0 Hother.
  induction U as [| a U IH]; simpl.
  - rewrite Hk0. reflexivity.
  - inversion HU as [| ? ? Ha HU']; subst.
    destruct (eq_dec k0 a) as [-> | Hne].
    + unfold set_add. destruct (in_dec eq_dec a (a :: U)) as [_ | Hn];
        [| exfalso; apply Hn; left; reflexivity].
      simpl. f_equal.
      apply map_ext_in. intros k Hk. rewrite Hother; [reflexivity |].
      intros ->. contradiction.
    + rewrite (IH HU'). unfold set_add.
      destruct (in_dec eq_dec k0 U) as [Hin | Hnin];
        destruct (in_dec eq_dec k0 (a :: U)) as [Hin' | Hnin']; simpl.
      * rewrite (Hother a) by congruence. reflexivity.
      * exfalso. apply Hnin'. right. assumption.
      * exfalso. destruct Hin' as [-> | ?]; [congruence | contradiction].
      * rewrite (Hother a) by congruence. reflexivity.
Qed.
End DictFacts.

(** ** Distinct elements and sums *)

Section UniqFacts.
Context {A : Type} `{EqDec A}.

Lemma uniq_snoc (l : list A) (x : A) : uniq (l ++ [x]) = set_add (uniq l) x.
Proof. unfold uniq. rewrite fold_left_app. reflexivity. Qed.

Lemma In_set_add (s : list A) (x y : A) :
  In y (set_add s x) <-> In y s \/ y = x.
Proof.
  unfold set_add. destruct (in_dec eq_dec x s) as [Hin | Hnin].
  - split; [auto | intros [? | ->]; assumption].
  - rewrite in_app_iff. simpl. intuition congruence.
Qed.

Lemma NoDup_set_add (s : list A) (x : A) : NoDup s -> NoDup (set_add s x).
Proof.
  intros Hs. unfold set_add. destruct (in_dec eq_dec x s) as [Hin | Hnin].
  - assumption.
  - apply NoDup_app; [assumption | repeat constructor; auto |].
    intros a Ha [-> | []]. contradiction.
Qed.

Lemma In_uniq (l : list A) (x : A) : In x (uniq l) <-> In x l.
Proof.
  induction l as [| a l IH] using rev_ind.
  - reflexivity.
  - rewrite uniq_snoc, In_set_add, IH, in_app_iff. simpl. intuition congruence.
Qed.

Lemma NoDup_uniq (l : list A) : NoDup (uniq l).
Proof.
  induction l as [| a l IH] using rev_ind.
  - constructor.
  - rewrite uniq_snoc. apply NoDup_set_add, IH.
Qed.

Lemma uniq_nodup_Permutation (l : list A) :
  Permutation (uniq l) (nodup eq_dec l).
Proof.
  apply NoDup_Permutation.
  - apply NoDup_uniq.
  - apply NoDup_nodup.
  - intros x. rewrite In_uniq, nodup_In. reflexivity.
Qed.
End UniqFacts.

Lemma zsum_app {A : Type} (h : A -> Z) (l l' : list A) :
  zsum h (l ++ l') = zsum h l + zsum h l'.
Proof. induction l as [| a l IH]; simpl; [reflexivity | rewrite IH; lia]. Qed.

Lemma zsum_Permutation {A : Type} (h : A -> Z) (l l' : list A) :
  Permutation l l' -> zsum h l = zsum h l'.
Proof. induction 1; simpl; lia. Qed.

Lemma zsum_ext_in {A : Type} (h h' : A -> Z) (l : list A) :
  (forall x, In x l -> h x = h' x) -> zsum h l = zsum h' l.
Proof.
  induction l as [| a l IH]; simpl; intros Hh; [reflexivity |].
  rewrite (Hh a), IH; auto.
Qed.

Lemma zsum_le {A : Type} (h h' : A -> Z) (l : list A) :
  (forall x, In x l -> h x <= h' x) -> zsum h l <= zsum h' l.
Proof.
  induction l as [| a l IH]; simpl; intros Hh; [lia |].
  specialize (Hh a (or_introl eq_refl)) as Ha.
  assert (zsum h l <= zsum h' l) by (apply IH; auto). lia.
Qed.

Lemma zsum_nonneg {A : Type} (h : A -> Z) (l : list A) :
  (forall x, In x l -> 0 <= h x) -> 0 <= zsum h l.
Proof.
  induction l as [| a l IH]; simpl; intros Hh; [lia |].
  specialize (Hh a (or_introl eq_refl)) as Ha.
  assert (0 <= zsum h l) by (apply IH; auto). lia.
Qed.

Lemma zsum_plus {A : Type} (h h' : A -> Z) (l : list A) :
  zsum (fun x => h x + h' x) l = zsum h l + zsum h' l.
Proof. induction l as [| a l IH]; simpl; lia. Qed.

Lemma zsum_map {A B : Type} (g : A -> B) (h : B -> Z) (l : list A) :
  zsum h (map g l) = zsum (fun x => h (g x)) l.
Proof. induction l as [| a l IH]; simpl; [reflexivity | rewrite IH; reflexivity]. Qed.

Lemma zsum_cons {A : Type} (h : A -> Z) (a : A) (l : list A) :
  zsum h (a :: l) = h a + zsum h l.
Proof. reflexivity. Qed.

Lemma zsum_scale {A : Type} (c : Z) (h : A -> Z) (l : list A) :
  zsum (fun x => c * h x) l = c * zsum h l.
Proof.
  induction l as [| a l IH]; [unfold zsum; simpl; lia |].
  rewrite !zsum_cons, IH. lia.
Qed.

Lemma zsum_const {A : Type} (c : Z) (l : list A) :
  zsum (fun _ => c) l = c * Z.of_nat (length l).
Proof.
  induction l as [| a l IH]; [unfold zsum; simpl; lia |].
  rewrite zsum_cons, IH. simpl length. lia.
Qed.

(** Over a duplicate-free list, the indicator of one element sums to 0 or 1. *)
Lemma zsum_indicator {A : Type} `{EqDec A} (x : A) (w : Z) (l : list A) :
  NoDup l ->
  zsum (fun k => if eq_dec k x then w else 0) l
  = if in_dec eq_dec x l then w else 0.
Proof.
  induction 1 as [| a l Ha Hl IH]; simpl; [reflexivity |].
  rewrite IH. destruct (eq_dec a x) as [-> | Hne].
  - destruct (eq_dec x x); [| congruence].
    destruct (in_dec eq_dec x l); [contradiction | lia].
  - destruct (eq_dec a x); [congruence |].
    destruct (in_dec eq_dec x l); reflexivity.
Qed.

(** ** Counting repeated entries *)

Section ExcessFacts.
Context {A : Type} `{EqDec A}.

Lemma occurrences_cons (x : A) (l : list A) (k : A) :
  occurrences (x :: l) k = occurrences l k + (if eq_dec k x then 1 else 0).
Proof.
  unfold occurrences. simpl.
  destruct (eq_dec x k) as [-> | Hne].
  - destruct (eq_dec k k); [lia | congruence].
  - destruct (eq_dec k x); [congruence | lia].
Qed.

Lemma occurrences_pos (l : list A) (k : A) : In k l -> 1 <= occurrences l k.
Proof.
  intros Hin. unfold occurrences.
  apply (count_occ_In eq_dec) in Hin. lia.
Qed.

Lemma occurrences_absent (l : list A) (k : A) : ~ In k l -> occurrences l k = 0.
Proof.
  intros Hn. unfold occurrences.
  apply (count_occ_not_In eq_dec) in Hn. lia.
Qed.

(** The occurrences of the distinct entries add up to the length. *)
Lemma zsum_occurrences (l : list A) :
  zsum (occurrences l) (nodup eq_dec l) = Z.of_nat (length l).
Proof.
  induction l as [| x l IH]; [reflexivity |].
  assert (Hsum : zsum (occurrences (x :: l)) (nodup eq_dec l)
                 = Z.of_nat (length l)
                   + (if in_dec eq_dec x (nodup eq_dec l) then 1 else 0)).
  { rewrite (zsum_ext_in _ (fun k => occurrences l k
                                     + (if eq_dec k x then 1 else 0))).
    - rewrite zsum_plus, IH, zsum_indicator by apply NoDup_nodup. reflexivity.
    - intros k _. apply occurrences_cons. }
  simpl nodup. destruct (in_dec eq_dec x l) as [Hin | Hnin].
  - rewrite Hsum. destruct (in_dec eq_dec x (nodup eq_dec l)) as [_ | Hn].
    + simpl length. lia.
    + exfalso. apply Hn. apply nodup_In. assumption.
  - simpl zsum. rewrite Hsum, occurrences_cons, occurrences_absent by assumption.
    destruct (eq_dec x x); [| congruence].
    destruct (in_dec eq_dec x (nodup eq_dec l)) as [Hin' | _].
    + exfalso. apply Hnin. apply nodup_In in Hin'. assumption.
    + simpl length. lia.
Qed.

Lemma excess_cons (x : A) (l : list A) :
  excess (x :: l) = excess l + (if in_dec eq_dec x l then 1 else 0).
Proof.
  unfold excess. simpl nodup.
  destruct (in_dec eq_dec x l); simpl length; lia.
Qed.

Lemma excess_nonneg (l : list A) : 0 <= excess l.
Proof.
  induction l as [| x l IH]; [unfold excess; simpl; lia |].
  rewrite excess_cons. destruct (in_dec eq_dec x l); lia.
Qed.

Lemma excess_NoDup (l : list A) : NoDup l -> excess l = 0.
Proof.
  intros Hl. unfold excess. rewrite (nodup_fixed_point eq_dec Hl). lia.
Qed.

Lemma length_nodup_incl (l l' : list A) :
  incl l l' -> (length (nodup eq_dec l) <= length (nodup eq_dec l'))%nat.
Proof.
  intros Hi. apply NoDup_incl_length; [apply NoDup_nodup |].
  intros x Hx. apply nodup_In. apply Hi. apply nodup_In in Hx. assumption.
Qed.

Lemma excess_Permutation (l l' : list A) :
  Permutation l l' -> excess l = excess l'.
Proof.
  intros HP. unfold excess.
  assert (length (nodup eq_dec l) = length (nodup eq_dec l')).
  { apply Nat.le_antisymm; apply length_nodup_incl; intros x Hx.
    - apply (Permutation_in _ HP Hx).
    - apply (Permutation_in _ (Permutation_sym HP) Hx). }
  rewrite (Permutation_length HP). lia.
Qed.

(** Each entry that repeats an earlier one costs 1000. *)
Lemma collision_penalty_excess (keys : list A) :
  collision_penalty keys = 1000 * excess keys.
Proof.
  unfold collision_penalty.
  rewrite (zsum_ext_in _ (fun k => 1000 * occurrences keys k + (-1000))).
  - rewrite zsum_plus.
    rewrite zsum_scale, zsum_const, zsum_occurrences. unfold excess. lia.
  - intros k Hk. apply nodup_In in Hk. apply occurrences_pos in Hk.
    unfold collision_weight. destruct (1 <? occurrences keys k) eqn:E.
    + lia.
    + apply Z.ltb_ge in E. lia.
Qed.

Lemma collision_penalty_NoDup (keys : list A) :
  NoDup keys -> collision_penalty keys = 0.
Proof.
  intros Hk. rewrite collision_penalty_excess, excess_NoDup by assumption. lia.
Qed.

(** One key held twice, every other key once. *)
Lemma collision_penalty_one_pair (l1 l2 l3 : list A) (k : A) :
  NoDup (l1 ++ k :: l2 ++ l3) ->
  collision_penalty (l1 ++ k :: l2 ++ k :: l3) = 1000.
Proof.
  intros Hnd. rewrite collision_penalty_excess.
  assert (HP : Permutation (l1 ++ k :: l2 ++ k :: l3)
                           (k :: l1 ++ k :: l2 ++ l3)).
  { symmetry. pose proof (Permutation_middle (l1 ++ k :: l2) l3 k) as HM.
    rewrite <- !app_assoc in HM. exact HM. }
  rewrite (excess_Permutation _ _ HP), excess_cons, excess_NoDup by assumption.
  destruct (in_dec eq_dec k (l1 ++ k :: l2 ++ l3)) as [_ | Hn]; [lia |].
  exfalso. apply Hn. apply in_elt.
Qed.
End ExcessFacts.

(** ** The dictionary a loop leaves *)

Section GroupingFacts.
Context {X K V : Type} `{EqDec K}.
Variables (f : X -> K) (e : V) (upd : X -> V -> V).

Lemma folded_snoc (l : list X) (x : X) (k : K) :
  folded f e upd (l ++ [x]) k
  = if eq_dec (f x) k then upd x (folded f e upd l k)
    else folded f e upd l k.
Proof.
  unfold folded. rewrite filter_app. simpl.
  destruct (eq_dec (f x) k).
  - rewrite fold_left_app. reflexivity.
  - rewrite app_nil_r. reflexivity.
Qed.

Lemma folded_absent (l : list X) (k : K) :
  ~ In k (map f l) -> folded f e upd l k = e.
Proof.
  intros Hn. unfold folded.
  replace (filter (fun x => if eq_dec (f x) k then true else false) l)
    with (@nil X); [reflexivity |].
  induction l as [| a l IH]; simpl; [reflexivity |].
  destruct (eq_dec (f a) k) as [E | _].
  - exfalso. apply Hn. left. assumption.
  - apply IH. intros Hin. apply Hn. right. assumption.
Qed.

(** The loop leaves one entry per distinct key, in the order of first
    occurrence, holding what the elements of that key folded to. *)
Lemma build_spec (l : list X) :
  fold_left (update_step f e upd) l []
  = map (fun k => (k, folded f e upd l k)) (uniq (map f l)).
Proof.
  induction l as [| x l IH] using rev_ind; [reflexivity |].
  rewrite fold_left_app. simpl. rewrite IH. unfold update_step.
  assert (Hget : dict_get (map (fun k => (k, folded f e upd l k))
                               (uniq (map f l))) (f x) e
                 = folded f e upd l (f x)).
  { unfold dict_get. rewrite dict_find_tabulate.
    destruct (in_dec eq_dec (f x) (uniq (map f l))) as [_ | Hn];
      [reflexivity |].
    symmetry. apply folded_absent. rewrite <- In_uniq. assumption. }
  rewrite Hget, map_app. change (map f [x]) with [f x]. rewrite uniq_snoc.
  apply dict_set_tabulate.
  - apply NoDup_uniq.
  - rewrite folded_snoc. destruct (eq_dec (f x) (f x)); congruence.
  - intros k Hk. rewrite folded_snoc.
    destruct (eq_dec (f x) k); congruence.
Qed.
End GroupingFacts.

(** A counting loop counts. *)
Lemma folded_count {X K : Type} `{EqDec K} (f : X -> K) (l : list X) (k : K) :
  folded f 0 (fun _ c => c + 1) l k = occurrences (map f l) k.
Proof.
  induction l as [| x l IH] using rev_ind; [reflexivity |].
  rewrite folded_snoc, IH, map_app. unfold occurrences.
  rewrite count_occ_app. simpl.
  destruct (eq_dec (f x) k); lia.
Qed.

Lemma collision_loop (counts : list Z) (p0 : Z) :
  fold_left
    (fun penalty count =>
       if 1 <? count then penalty + 1000 * (count - 1) else penalty)
    counts p0
  = p0 + zsum collision_weight counts.
Proof.
  revert p0. induction counts as [| c counts IH]; intros p0.
  - unfold zsum. simpl. lia.
  - cbn [fold_left]. rewrite IH, zsum_cons. unfold collision_weight.
    destruct (1 <? c); lia.
Qed.

(** The counting loop followed by the summing loop, for any key. *)
Lemma collision_count_spec {X K : Type} `{EqDec K} (key : X -> K) (l : list X) :
  fold_left
    (fun penalty count =>
       if 1 <? count then penalty + 1000 * (count - 1) else penalty)
    (dict_values
       (fold_left (fun (d : dict K Z) x =>
                     dict_set d (key x) (dict_get d (key x) 0 + 1)) l []))
    0
  = collision_penalty (map key l).
Proof.
  change (fold_left (fun (d : dict K Z) x =>
                       dict_set d (key x) (dict_get d (key x) 0 + 1)) l [])
    with (fold_left (update_step key 0 (fun _ c => c + 1)) l []).
  rewrite build_spec, collision_loop. unfold dict_values, collision_penalty.
  rewrite map_map, zsum_map. simpl.
  rewrite (zsum_Permutation _ _ _ (uniq_nodup_Permutation (map key l))).
  apply zsum_ext_in. intros k _. rewrite folded_count. reflexivity.
Qed.

(* ------------------------------------------------------------------ *)
(** ** The hard conflict terms *)

Lemma penalty_teacher_conflict_spec (individual : Chromosome.t) :
  penalty_teacher_conflict individual
  = collision_penalty (map Gene.teacher_key (Chromosome.genes individual)).
Proof. exact (collision_count_spec Gene.teacher_key _). Qed.

Lemma penalty_room_conflict_spec (individual : Chromosome.t) :
  penalty_room_conflict individual
  = collision_penalty (map Gene.room_key (Chromosome.genes individual)).
Proof. exact (collision_count_spec Gene.room_key _). Qed.

Lemma penalty_group_conflict_spec (individual : Chromosome.t) :
  penalty_group_conflict individual
  = collision_penalty (map Gene.group_key (Chromosome.genes individual)).
Proof. exact (collision_count_spec Gene.group_key _). Qed.

(** C4.  Each of the three hard conflict terms is the sum, over the
    (resource id, day, period) keys, of [1000 * (count - 1)] for the keys
    held by [count > 1] genes.  So a term is 0 when no key of its resource
    is shared, and the teacher term is exactly 1000 when exactly two genes
    share a (teacher, day, period) key and no other key is shared. *)
Theorem hard_conflict_terms (individual : Chromosome.t) :
  let genes := Chromosome.genes individual in
  (penalty_teacher_conflict individual
   = collision_penalty (map Gene.teacher_key genes)
   /\ penalty_room_conflict individual
      = collision_penalty (map Gene.room_key genes)
   /\ penalty_group_conflict individual
      = collision_penalty (map Gene.group_key genes))
  /\ (NoDup (map Gene.teacher_key genes) ->
      penalty_teacher_conflict individual = 0)
  /\ (NoDup (map Gene.room_key genes) ->
      penalty_room_conflict individual = 0)
  /\ (NoDup (map Gene.group_key genes) ->
      penalty_group_conflict individual = 0)
  /\ (forall g1 g2 l1 l2 l3,
        genes = l1 ++ g1 :: l2 ++ g2 :: l3 ->
        Gene.teacher_key g1 = Gene.teacher_key g2 ->
        NoDup (map Gene.teacher_key (l1 ++ g1 :: l2 ++ l3)) ->
        penalty_teacher_conflict individual = 1000).
Proof.
  intros genes. subst genes.
  rewrite penalty_teacher_conflict_spec, penalty_room_conflict_spec,
    penalty_group_conflict_spec.
  repeat split; try (apply collision_penalty_NoDup).
  intros g1 g2 l1 l2 l3 Hgenes Hkey Hnd. rewrite Hgenes.
  rewrite map_app in *. cbn [map] in *. rewrite map_app in *. cbn [map].
  rewrite <- Hkey. apply collision_penalty_one_pair. assumption.
Qed.

Lemma hard_conflict_terms_witness :
  penalty_teacher_conflict two_lessons_one_teacher = 1000
  /\ penalty_room_conflict two_lessons_one_teacher = 0
  /\ penalty_group_conflict two_lessons_one_teacher = 0.
Proof.
  pose proof (hard_conflict_terms two_lessons_one_teacher)
    as (_ & _ & Hroom & Hgroup & Hpair).
  split; [| split].
  - apply (Hpair (lesson 1 "Monday" 1 1 5 1) (lesson 2 "Monday" 1 2 5 2)
                 [] [] []); [reflexivity | reflexivity |].
    repeat constructor. simpl. tauto.
  - apply Hroom. repeat constructor; simpl; intuition discriminate.
  - apply Hgroup. repeat constructor; simpl; intuition discriminate.
Defined.

(* ------------------------------------------------------------------ *)
(** ** Construction of a gene *)

(** C7.  The construction of a gene fails, with [ValueError], if and only
    if [period < 1] or the day is none of the five weekdays; otherwise it
    succeeds and the gene holds the given values. *)
Theorem gene_new_validation (group_id : Z) (day : string)
    (period timeslot_id course_id teacher_id room_id : Z)
    (is_fixed : option bool) :
  let weekdays :=
    ["Monday"; "Tuesday"; "Wednesday"; "Thursday"; "Friday"]%string in
  let made :=
    Gene.new group_id day period timeslot_id course_id teacher_id room_id
             is_fixed in
  ((exists e, made = Raise e) <-> (period < 1 \/ ~ In day weekdays))
  /\ (period < 1 \/ ~ In day weekdays -> made = Raise ValueError)
  /\ (~ (period < 1 \/ ~ In day weekdays) ->
      exists g, made = Ok g
        /\ Gene.group_id g = group_id /\ Gene.day g = day
        /\ Gene.period g = period /\ Gene.timeslot_id g = timeslot_id
        /\ Gene.course_id g = course_id /\ Gene.teacher_id g = teacher_id
        /\ Gene.room_id g = room_id /\ Gene.is_fixed g = is_fixed).
Proof.
  intros weekdays made. subst made. unfold Gene.new, Gene.post_init, py_in.
  cbn [Gene.period Gene.day result_bind].
  change Gene.valid_days with weekdays.
  destruct (period <? 1) eqn:Ep.
  - apply Z.ltb_lt in Ep. cbn [result_bind].
    repeat split; eauto. intros Hn. exfalso. apply Hn. left. assumption.
  - apply Z.ltb_ge in Ep.
    destruct (in_dec eq_dec day weekdays) as [Hin | Hnin]; cbn [negb result_bind].
    + repeat split.
      * intros [e He]. discriminate.
      * intros [Hlt | Hn]; [lia | contradiction].
      * intros [Hlt | Hn]; [lia | contradiction].
      * intros _. eexists. split; [reflexivity |]. cbn. repeat split.
    + repeat split; eauto. intros Hn. exfalso. apply Hn. right. assumption.
Qed.

Lemma gene_new_validation_witness :
  Gene.new 1 "Sunday" 1 7 2 5 3 (Some false) = Raise ValueError
  /\ Gene.new 1 "Monday" 0 7 2 5 3 (Some false) = Raise ValueError
  /\ exists g, Gene.new 1 "Monday" 1 7 2 5 3 (Some false) = Ok g
       /\ Gene.period g = 1 /\ Gene.teacher_id g = 5.
Proof.
  split; [| split].
  - apply (gene_new_validation 1 "Sunday" 1 7 2 5 3 (Some false)).
    right. simpl. intuition discriminate.
  - apply (gene_new_validation 1 "Monday" 0 7 2 5 3 (Some false)).
    left. lia.
  - destruct (gene_new_validation 1 "Monday" 1 7 2 5 3 (Some false))
      as (_ & _ & Hok).
    destruct Hok as (g & Hg & _ & _ & Hp & _ & _ & Ht & _).
    + intros [Hlt | Hn]; [lia | apply Hn; simpl; tauto].
    + exists g. auto.
Defined.

(* ------------------------------------------------------------------ *)
(** ** The teacher time preference term *)

Lemma teacher_pref_of_preferred_set (teachers : list Teacher.t) (g : Gene.t) :
  teacher_pref_of teachers (Gene.teacher_id g) = preferred_set teachers g.
Proof.
  unfold teacher_pref_of, preferred_set, assigned_teacher.
  induction teachers as [| t teachers IH]; simpl; [reflexivity |].
  destruct (Teacher.teacher_id t =? Gene.teacher_id g); [reflexivity | exact IH].
Qed.

Lemma preferred_set_unknown (teachers : list Teacher.t) (g : Gene.t) :
  ~ In (Gene.teacher_id g) (map Teacher.teacher_id teachers) ->
  preferred_set teachers g = [].
Proof.
  unfold preferred_set, assigned_teacher. intros Hn.
  destruct (find _ teachers) as [t |] eqn:E; [| reflexivity].
  apply find_some in E. destruct E as [Hin Heq]. apply Z.eqb_eq in Heq.
  exfalso. apply Hn. rewrite <- Heq. apply in_map. assumption.
Qed.

(** C8.  The teacher time preference term is the number of genes whose
    (day, period) is not among the preferred times of their teacher; a
    gene whose [teacher_id] is that of no teacher of the list has no
    preferred time and is counted, whatever its day and period. *)
Theorem teacher_time_preference_counts
    (individual : Chromosome.t) (teachers : list Teacher.t) :
  penalty_teacher_time_preference individual teachers
  = Z.of_nat (length (filter (outside_preferred_times teachers)
                             (Chromosome.genes individual)))
  /\ (forall g,
        ~ In (Gene.teacher_id g) (map Teacher.teacher_id teachers) ->
        preferred_set teachers g = []
        /\ outside_preferred_times teachers g = true
        /\ penalty_teacher_time_preference
             (Chromosome.add_gene individual g) teachers
           = penalty_teacher_time_preference individual teachers + 1).
Proof.
  assert (Hloop : forall l p0,
    fold_left
      (fun penalty gene =>
         let teacher_pref := teacher_pref_of teachers (Gene.teacher_id gene) in
         if negb (py_in (Gene.day gene, Gene.period gene) teacher_pref)
         then penalty + 1 else penalty) l p0
    = p0 + Z.of_nat (length (filter (outside_preferred_times teachers) l))).
  { induction l as [| g l IH]; intros p0; cbn [fold_left filter].
    - simpl. lia.
    - rewrite IH. cbv zeta. rewrite teacher_pref_of_preferred_set.
      unfold outside_preferred_times at 2.
      destruct (negb (py_in (Gene.day g, Gene.period g) (preferred_set teachers g)));
        cbn [length]; lia. }
  split.
  - unfold penalty_teacher_time_preference. rewrite Hloop. lia.
  - intros g Hg. pose proof (preferred_set_unknown teachers g Hg) as Hset.
    assert (Hout : outside_preferred_times teachers g = true).
    { unfold outside_preferred_times. rewrite Hset. reflexivity. }
    repeat split; try assumption.
    unfold penalty_teacher_time_preference, Chromosome.add_gene.
    cbn [Chromosome.genes]. rewrite !Hloop, filter_app, length_app.
    cbn [filter]. rewrite Hout. cbn [length]. lia.
Qed.

Lemma teacher_time_preference_counts_witness :
  outside_preferred_times [Teacher.mk 5 "Ada" [("Monday"%string, 1)]]
    (lesson 1 "Monday" 1 1 6 1) = true
  /\ penalty_teacher_time_preference
       (Chromosome.add_gene two_lessons_one_teacher (lesson 1 "Monday" 1 1 6 1))
       [Teacher.mk 5 "Ada" [("Monday"%string, 1)]]
     = penalty_teacher_time_preference two_lessons_one_teacher
         [Teacher.mk 5 "Ada" [("Monday"%string, 1)]] + 1.
Proof.
  destruct (teacher_time_preference_counts two_lessons_one_teacher
              [Teacher.mk 5 "Ada" [("Monday"%string, 1)]]) as [_ Hunknown].
  destruct (Hunknown (lesson 1 "Monday" 1 1 6 1)) as (_ & Hout & Hadd).
  - simpl. intros [Heq | []]. discriminate.
  - split; assumption.
Defined.

(* ------------------------------------------------------------------ *)
(** ** What statements leave unchanged *)

Section Keeps.
Context {B : Type} (proj : Gene.t -> B).

Lemma unchanged_refl (s : State) : unchanged proj s s.
Proof. split; reflexivity. Qed.

Lemma unchanged_trans (s1 s2 s3 : State) :
  unchanged proj s1 s2 -> unchanged proj s2 s3 -> unchanged proj s1 s3.
Proof.
  intros [Hc1 Hg1] [Hc2 Hg2]. split.
  - congruence.
  - intros r. rewrite Hg2. apply Hg1.
Qed.

Lemma keeps_ret {A : Type} (a : A) : keeps proj (ret a).
Proof. intros s. apply unchanged_refl. Qed.

Lemma keeps_raise {A : Type} (e : exn) : keeps proj (@raise A e).
Proof. intros s. apply unchanged_refl. Qed.

Lemma keeps_lift {A : Type} (r : result A) : keeps proj (lift r).
Proof. intros s. apply unchanged_refl. Qed.

Lemma keeps_bind {A C : Type} (m : M A) (k : A -> M C) :
  keeps proj m -> (forall a, keeps proj (k a)) -> keeps proj (bind m k).
Proof.
  intros Hm Hk s. unfold bind. specialize (Hm s).
  destruct (m s) as [[a | e] s1]; simpl in *.
  - apply (unchanged_trans _ _ _ Hm). apply Hk.
  - assumption.
Qed.

Lemma keeps_when (b : bool) (m : M unit) :
  keeps proj m -> keeps proj (when b m).
Proof. intros Hm. destruct b; [assumption | apply keeps_ret]. Qed.

Lemma keeps_for_each {A : Type} (l : list A) (body : A -> M unit) :
  (forall x, keeps proj (body x)) -> keeps proj (for_each l body).
Proof.
  intros Hb. induction l as [| x l IH]; simpl.
  - apply keeps_ret.
  - apply keeps_bind; [apply Hb | intros _; apply IH].
Qed.

Lemma keeps_for_fold {A C : Type} (l : list A) (acc : C)
    (body : C -> A -> M C) :
  (forall acc x, keeps proj (body acc x)) -> keeps proj (for_fold l acc body).
Proof.
  intros Hb. revert acc. induction l as [| x l IH]; intros acc; simpl.
  - apply keeps_ret.
  - apply keeps_bind; [apply Hb | intros acc'; apply IH].
Qed.

Lemma keeps_get_genes (c : nat) : keeps proj (get_genes c).
Proof. intros s. apply unchanged_refl. Qed.

Lemma keeps_read_gene (r : nat) : keeps proj (read_gene r).
Proof. intros s. apply unchanged_refl. Qed.

Lemma keeps_write_gene (r : nat) (f : Gene.t -> Gene.t) :
  (forall g, proj (f g) = proj g) -> keeps proj (write_gene r f).
Proof.
  intros Hf s. split; simpl; [reflexivity |].
  intros r'. destruct (Nat.eqb r' r) eqn:E; [| reflexivity].
  apply Nat.eqb_eq in E. subst r'. apply Hf.
Qed.

Lemma keeps_draw : keeps proj draw.
Proof. intros s. split; reflexivity. Qed.

Lemma keeps_random_random : keeps proj random_random.
Proof.
  apply keeps_bind; [apply keeps_draw | intros n; apply keeps_ret].
Qed.

Lemma keeps_random_randint (a b : Z) : keeps proj (random_randint a b).
Proof.
  unfold random_randint. destruct (b <? a); [apply keeps_raise |].
  apply keeps_bind; [apply keeps_draw | intros n; apply keeps_ret].
Qed.

Lemma keeps_random_choice {A : Type} (seq : list A) :
  keeps proj (random_choice seq).
Proof.
  destruct seq as [| x seq]; simpl; [apply keeps_raise |].
  apply keeps_bind; [apply keeps_draw | intros n; apply keeps_ret].
Qed.
End Keeps.

Create HintDb keeps.

#[local] Hint Resolve keeps_ret keeps_raise keeps_lift keeps_when
  keeps_for_each keeps_for_fold keeps_get_genes keeps_read_gene
  keeps_draw keeps_random_random keeps_random_randint keeps_random_choice
  : keeps.

(** Breaks a sequence of statements into its statements. *)
Ltac keeps_steps :=
  repeat first
    [ apply keeps_bind; [| intros ?]
    | apply keeps_when
    | apply keeps_write_gene; intros ?; solve [reflexivity | auto]
    | solve [auto with keeps]
    | match goal with
      | |- keeps _ (if ?b then _ else _) => destruct b
      | |- keeps _ (match ?l with [] => _ | _ :: _ => _ end) => destruct l
      end ].

(* ------------------------------------------------------------------ *)
(** ** Mutation *)

(** C9.  Mutation leaves the gene list of every chromosome as it was, so
    the length of the mutated chromosome too, and it leaves [group_id]
    and [is_fixed] of every gene as they were.  This holds however the
    call ends, also when it raises half-way. *)
Theorem mutation_frame (individual : nat) (teachers : list Teacher.t)
    (rooms : list Room.t) (courses : list Course.t)
    (timeslots : list TimeSlot.t) (indpb : Q) (s : State) :
  let s' := snd (mutation individual teachers rooms courses timeslots indpb s) in
  length (chromosomes s' individual) = length (chromosomes s individual)
  /\ chromosomes s' individual = chromosomes s individual
  /\ (forall r,
        Gene.group_id (gene_objs s' r) = Gene.group_id (gene_objs s r)
        /\ Gene.is_fixed (gene_objs s' r) = Gene.is_fixed (gene_objs s r))
  /\ Forall2 (fun g g' => Gene.group_id g' = Gene.group_id g
                          /\ Gene.is_fixed g' = Gene.is_fixed g)
       (Chromosome.genes (content s individual))
       (Chromosome.genes (content s' individual)).
Proof.
  intros s'.
  assert (Hk : keeps (fun g => (Gene.group_id g, Gene.is_fixed g))
                 (mutation individual teachers rooms courses timeslots indpb)).
  { unfold mutation. apply keeps_bind; [auto with keeps | intros genes].
    apply keeps_bind; [| intros _; apply keeps_ret].
    apply keeps_for_each. intros gene. unfold mutate_gene. keeps_steps. }
  destruct (Hk s) as [Hc Hg]. fold s' in Hc, Hg.
  assert (Hfields : forall r,
    Gene.group_id (gene_objs s' r) = Gene.group_id (gene_objs s r)
    /\ Gene.is_fixed (gene_objs s' r) = Gene.is_fixed (gene_objs s r)).
  { intros r. specialize (Hg r). inversion Hg. split; reflexivity. }
  rewrite Hc. repeat split; try apply Hfields.
  unfold content. cbn [Chromosome.genes]. rewrite Hc.
  induction (chromosomes s individual) as [| r l IH]; simpl; constructor.
  - apply Hfields.
  - apply IH.
Qed.

(* ------------------------------------------------------------------ *)
(** ** Crossover *)

Lemma randint_range (a b : Z) (n : N) :
  a <= b -> a <= a + Z.of_N n mod (b - a + 1) <= b.
Proof.
  intros Hab.
  pose proof (Z.mod_pos_bound (Z.of_N n) (b - a + 1) ltac:(lia)). lia.
Qed.

(** C5.  [crossover] returns its two arguments.  When the first parent
    has fewer than two genes nothing changes at all.  Otherwise there is
    a cut index between 1 and the length less one such that the two gene
    lists have exchanged their parts from the cut on, in place; no other
    chromosome and no gene object changes.  (Called on one object twice,
    the exchange gives back the list it started from.)  In every case
    the two lengths add up to what they added up to before. *)
Theorem crossover_spec (ind1 ind2 : nat) (s : State) :
  let size := length (chromosomes s ind1) in
  let res := fst (crossover ind1 ind2 s) in
  let s' := snd (crossover ind1 ind2 s) in
  res = Ok (ind1, ind2)
  /\ ((size < 2)%nat -> s' = s)
  /\ ((2 <= size)%nat ->
      exists cx, (1 <= cx <= size - 1)%nat
        /\ gene_objs s' = gene_objs s
        /\ (forall c, c <> ind1 -> c <> ind2 ->
              chromosomes s' c = chromosomes s c)
        /\ (ind1 <> ind2 ->
              chromosomes s' ind1
              = firstn cx (chromosomes s ind1) ++ skipn cx (chromosomes s ind2)
              /\ chromosomes s' ind2
                 = firstn cx (chromosomes s ind2) ++ skipn cx (chromosomes s ind1))
        /\ (ind1 = ind2 -> chromosomes s' ind1 = chromosomes s ind1))
  /\ (length (chromosomes s' ind1) + length (chromosomes s' ind2)
      = length (chromosomes s ind1) + length (chromosomes s ind2))%nat.
Proof.
  intros size res s'. subst res s'.
  unfold crossover, bind, get_genes. cbn [fst snd]. fold size.
  destruct (size <? 2)%nat eqn:Esize.
  - apply Nat.ltb_lt in Esize. cbn. repeat split; try reflexivity. lia.
  - apply Nat.ltb_ge in Esize.
    unfold random_randint.
    destruct (Z.of_nat size - 1 <? 1) eqn:Erange; [apply Z.ltb_lt in Erange; lia |].
    unfold bind, draw, advance, ret, set_genes, assign_slice_from, slice_from.
    cbn [fst snd chromosomes gene_objs rng].
    pose proof (randint_range 1 (Z.of_nat size - 1) (rng s 0%nat) ltac:(lia))
      as Hcx.
    set (cx := Z.to_nat (1 + Z.of_N (rng s 0%nat) mod (Z.of_nat size - 1 - 1 + 1)))
      in *.
    assert (Hcx' : (1 <= cx <= size - 1)%nat) by (subst cx; lia).
    rewrite !Nat.eqb_refl.
    split; [reflexivity |]. split; [lia |]. split.
    + intros _. exists cx. split; [assumption |]. split; [reflexivity |].
      split; [| split].
      * intros c Hc1 Hc2.
        destruct (Nat.eqb_spec c ind2); [contradiction |].
        destruct (Nat.eqb_spec c ind1); [contradiction | reflexivity].
      * intros Hne.
        destruct (Nat.eqb_spec ind1 ind2); [contradiction |].
        destruct (Nat.eqb_spec ind2 ind1); [congruence |].
        split; reflexivity.
      * intros <-. rewrite Nat.eqb_refl.
        rewrite firstn_skipn, firstn_skipn. reflexivity.
    + destruct (Nat.eqb_spec ind1 ind2) as [<- | Hne].
      * rewrite Nat.eqb_refl, firstn_skipn, firstn_skipn. reflexivity.
      * destruct (Nat.eqb_spec ind2 ind1); [congruence |].
        rewrite !length_app, !length_firstn, !length_skipn. lia.
Qed.

Lemma crossover_spec_witness :
  snd (crossover 2 0 three_parents) = three_parents
  /\ (exists cx, (1 <= cx <= 2)%nat
        /\ chromosomes (snd (crossover 0 1 three_parents)) 0%nat
           = firstn cx [0; 1; 2]%nat ++ skipn cx [3; 4; 5]%nat
        /\ chromosomes (snd (crossover 0 1 three_parents)) 1%nat
           = firstn cx [3; 4; 5]%nat ++ skipn cx [0; 1; 2]%nat).
Proof.
  split.
  - apply (crossover_spec 2 0 three_parents). simpl. lia.
  - destruct (crossover_spec 0 1 three_parents) as (_ & _ & Hcut & _).
    destruct Hcut as (cx & Hcx & _ & _ & Hswap & _); [simpl; lia |].
    exists cx. split; [exact Hcx |]. apply Hswap. discriminate.
Defined.

(* ------------------------------------------------------------------ *)
(** ** The time sub-mutation *)

Lemma timeslot_map_find (timeslots : list TimeSlot.t) (day : string) (period : Z) :
  dict_find (timeslot_map_of timeslots) (day, period)
  = option_map TimeSlot.slot_id (matching_slot timeslots day period).
Proof.
  unfold timeslot_map_of, matching_slot.
  induction timeslots as [| ts timeslots IH] using rev_ind; [reflexivity |].
  rewrite fold_left_app, rev_unit. cbn [fold_left find].
  rewrite dict_find_set, IH.
  destruct (eq_dec (day, period) (TimeSlot.day ts, TimeSlot.period ts));
    reflexivity.
Qed.

Lemma matching_slot_Some (timeslots : list TimeSlot.t) (day : string)
    (period : Z) (ts : TimeSlot.t) :
  matching_slot timeslots day period = Some ts ->
  In ts timeslots /\ TimeSlot.day ts = day /\ TimeSlot.period ts = period.
Proof.
  unfold matching_slot. intros Hf. apply find_some in Hf.
  destruct Hf as [Hin Heq]. apply in_rev in Hin.
  destruct (eq_dec (day, period) (TimeSlot.day ts, TimeSlot.period ts))
    as [E | _]; [| discriminate].
  inversion E. auto.
Qed.

Lemma matching_slot_None (timeslots : list TimeSlot.t) (day : string)
    (period : Z) :
  matching_slot timeslots day period = None <->
  (forall ts, In ts timeslots ->
     ~ (TimeSlot.day ts = day /\ TimeSlot.period ts = period)).
Proof.
  unfold matching_slot. split.
  - intros Hf ts Hin [Hd Hp].
    apply in_rev in Hin. pose proof (find_none _ _ Hf ts Hin) as Hno.
    cbv beta in Hno. rewrite Hd, Hp in Hno.
    destruct (eq_dec (day, period) (day, period)); congruence.
  - intros Hno. destruct (find _ (rev timeslots)) as [ts |] eqn:E;
      [| reflexivity].
    exfalso. apply find_some in E. destruct E as [Hin Heq].
    apply in_rev in Hin.
    destruct (eq_dec (day, period) (TimeSlot.day ts, TimeSlot.period ts))
      as [E | _]; [| discriminate].
    inversion E. apply (Hno ts Hin). auto.
Qed.

(** What the fourth sub-mutation does to a gene, whatever the generator
    gives: the new day is one of the five days written in [mutation] and
    the new period one of 1, 2, 3 written there; when the catalog has a
    slot for them the gene gets the identifier of that slot, and when it
    has none the statement raises [KeyError] after it has changed day and
    period, leaving the old [timeslot_id]. *)
Lemma mutate_time_spec (gene : nat) (timeslots : list TimeSlot.t) (s : State) :
  let run := mutate_time gene mutation_days mutation_periods
                         (timeslot_map_of timeslots) s in
  let g' := gene_objs (snd run) gene in
  In (Gene.day g') mutation_days
  /\ In (Gene.period g') mutation_periods
  /\ match matching_slot timeslots (Gene.day g') (Gene.period g') with
     | Some ts =>
         fst run = Ok tt /\ Gene.timeslot_id g' = TimeSlot.slot_id ts
     | None =>
         fst run = Raise KeyError
         /\ Gene.timeslot_id g' = Gene.timeslot_id (gene_objs s gene)
     end.
Proof.
  intros run g'. subst g' run.
  unfold mutate_time, mutation_days, mutation_periods, random_choice, bind,
    draw, ret, lift, write_gene, read_gene, advance, dict_getitem.
  cbn [fst snd gene_objs chromosomes rng].
  rewrite !Nat.eqb_refl.
  cbn [Gene.day Gene.period Gene.set_period Gene.set_day].
  set (d := nth _ _ "Monday"%string).
  set (p := nth _ _ 1).
  assert (Hd : In d ["Monday"; "Tuesday"; "Wednesday"; "Thursday"; "Friday"]%string)
    by (apply nth_In, Nat.mod_upper_bound; discriminate).
  assert (Hp : In p [1; 2; 3])
    by (apply nth_In, Nat.mod_upper_bound; discriminate).
  rewrite timeslot_map_find.
  destruct (matching_slot timeslots d p) as [ts |] eqn:Ets;
    cbn [option_map fst snd gene_objs]; rewrite ?Nat.eqb_refl;
    cbn [Gene.day Gene.period Gene.timeslot_id Gene.set_timeslot_id
         Gene.set_period Gene.set_day]; rewrite Ets;
    repeat split; assumption || reflexivity.
Qed.

(** C3.  The time sub-mutation does not read the configuration.  It draws
    the period among 1, 2, 3: under the default configuration, whose
    periods are 1 to 6, the periods 4, 5 and 6 are never drawn; under a
    configuration of periods 1 and 2 with its complete catalog, a run
    draws period 3, which is not configured, and raises [KeyError].
    What does hold of the sub-mutation, whatever is drawn: the gene gets
    the identifier of the catalog slot of its new day and period, and
    [KeyError] is raised exactly when the catalog has no such slot. *)
Theorem mutation_time_ignores_configuration :
  (In 4 (SchedulingConfig.PERIODS_PER_DAY SchedulingConfig.default)
   /\ forall gene timeslots s,
        Gene.period
          (gene_objs
             (snd (mutate_time gene mutation_days mutation_periods
                     (timeslot_map_of timeslots) s)) gene) <= 3)
  /\ (forall gene timeslots s,
        let run := mutate_time gene mutation_days mutation_periods
                               (timeslot_map_of timeslots) s in
        let g' := gene_objs (snd run) gene in
        (fst run = Raise KeyError <->
         forall ts, In ts timeslots ->
           ~ (TimeSlot.day ts = Gene.day g'
              /\ TimeSlot.period ts = Gene.period g'))
        /\ (fst run = Ok tt <->
            exists ts, In ts timeslots
              /\ TimeSlot.day ts = Gene.day g'
              /\ TimeSlot.period ts = Gene.period g')
        /\ (fst run = Ok tt ->
            exists ts, In ts timeslots
              /\ TimeSlot.day ts = Gene.day g'
              /\ TimeSlot.period ts = Gene.period g'
              /\ Gene.timeslot_id g' = TimeSlot.slot_id ts))
  /\ (let run :=
        mutation 0 [Teacher.mk 5 "Ada" []] [Room.mk 1 "R1"] [Course.mk 1 "C1"]
          two_period_catalog
          (SchedulingConfig.MUTATION_INDIVIDUAL_PROBABILITY two_period_days)
          one_lesson in
      fst run = Raise KeyError
      /\ Gene.period (gene_objs (snd run) 0%nat) = 3
      /\ ~ In 3 (SchedulingConfig.PERIODS_PER_DAY two_period_days)
      /\ forall day period,
           In day (SchedulingConfig.DAYS_OF_WEEK two_period_days) ->
           In period (SchedulingConfig.PERIODS_PER_DAY two_period_days) ->
           matching_slot two_period_catalog day period <> None).
Proof.
  split; [split | split].
  - simpl. tauto.
  - intros gene timeslots s.
    destruct (mutate_time_spec gene timeslots s) as (_ & Hp & _).
    destruct Hp as [H | [H | [H | []]]]; rewrite <- H; lia.
  - intros gene timeslots s run g'.
    destruct (mutate_time_spec gene timeslots s) as (_ & _ & Hslot).
    fold run in Hslot. fold g' in Hslot.
    destruct (matching_slot timeslots (Gene.day g') (Gene.period g'))
      as [ts |] eqn:Ets.
    + destruct Hslot as [Hok Hid].
      destruct (matching_slot_Some _ _ _ _ Ets) as (Hin & Hd & Hp).
      split; [| split].
      * split; [rewrite Hok; discriminate |].
        intros Hno. exfalso. apply (Hno ts Hin). auto.
      * split; [intros _; exists ts; auto | intros _; exact Hok].
      * intros _. exists ts. auto.
    + destruct Hslot as [Hraise Hid].
      pose proof (proj1 (matching_slot_None _ _ _) Ets) as Hno.
      split; [| split].
      * split; [intros _; exact Hno | intros _; exact Hraise].
      * split; [rewrite Hraise; discriminate |].
        intros (ts & Hin & Hd & Hp). exfalso. apply (Hno ts Hin). auto.
      * rewrite Hraise. discriminate.
  - cbv zeta. split; [vm_compute; reflexivity |].
    split; [vm_compute; reflexivity |]. split.
    + simpl. intros [H | [H | []]]; discriminate.
    + intros day period Hd Hp. simpl in Hd, Hp.
      destruct Hp as [<- | [<- | []]];
        destruct Hd as [<- | [<- | [<- | [<- | [<- | []]]]]];
        vm_compute; discriminate.
Qed.

(* ------------------------------------------------------------------ *)
(** ** Repair: the teacher and room passes on a conflict-free chromosome *)

Lemma dict_getitem_setdefault {K V : Type} `{EqDec K} (d : dict K V) (k : K)
    (v : V) :
  dict_getitem (dict_setdefault d k v) k = Ok (dict_get d k v).
Proof.
  unfold dict_getitem, dict_get. rewrite dict_find_setdefault.
  destruct (dict_find d k); [reflexivity |].
  destruct (eq_dec k k); congruence.
Qed.

Lemma dict_get_set {K V : Type} `{EqDec K} (d : dict K V) (k k' : K)
    (v default : V) :
  dict_get (dict_set d k v) k' default
  = if eq_dec k' k then v else dict_get d k' default.
Proof.
  unfold dict_get. rewrite dict_find_set. destruct (eq_dec k' k); reflexivity.
Qed.

(** A gene whose teacher is not booked at its slot is left alone and
    booked. *)
Lemma resolve_teacher_step_free (teachers : list Teacher.t)
    (prefs : dict Z (list (string * Z)))
    (sched : dict (string * Z) (list Z)) (load : dict Z Z) (gene : nat)
    (s : State) :
  let g := gene_objs s gene in
  ~ In (Gene.teacher_id g) (dict_get sched (Gene.slot_key g) []) ->
  resolve_teacher_step teachers prefs (sched, load) gene s
  = (Ok (dict_set sched (Gene.slot_key g)
           (dict_get sched (Gene.slot_key g) [] ++ [Gene.teacher_id g]),
         load), s).
Proof.
  intros g Hfree. unfold resolve_teacher_step, bind, read_gene, lift, ret.
  cbn [fst snd]. fold g. change (Gene.day g, Gene.period g) with (Gene.slot_key g).
  rewrite dict_getitem_setdefault. unfold py_in.
  destruct (in_dec eq_dec (Gene.teacher_id g) (dict_get sched (Gene.slot_key g) []));
    [contradiction |].
  rewrite dict_set_setdefault. reflexivity.
Qed.

Lemma resolve_room_step_free (rooms : list Room.t)
    (sched : dict (string * Z) (list Z)) (usage : dict Z Z) (gene : nat)
    (s : State) :
  let g := gene_objs s gene in
  ~ In (Gene.room_id g) (dict_get sched (Gene.slot_key g) []) ->
  resolve_room_step rooms (sched, usage) gene s
  = (Ok (dict_set sched (Gene.slot_key g)
           (dict_get sched (Gene.slot_key g) [] ++ [Gene.room_id g]),
         usage), s).
Proof.
  intros g Hfree. unfold resolve_room_step, bind, read_gene, lift, ret.
  cbn [fst snd]. fold g. change (Gene.day g, Gene.period g) with (Gene.slot_key g).
  rewrite dict_getitem_setdefault. unfold py_in.
  destruct (in_dec eq_dec (Gene.room_id g) (dict_get sched (Gene.slot_key g) []));
    [contradiction |].
  rewrite dict_set_setdefault. reflexivity.
Qed.

(** A pass whose step leaves unbooked genes alone leaves a chromosome
    alone in which no two genes share resource, day and period. *)
Section PassNoop.
Variable proj : Gene.t -> Z.
Variable step :
  dict (string * Z) (list Z) * dict Z Z -> nat ->
  M (dict (string * Z) (list Z) * dict Z Z).
Hypothesis step_free : forall sched counter gene s,
  ~ In (proj (gene_objs s gene))
       (dict_get sched (Gene.slot_key (gene_objs s gene)) []) ->
  step (sched, counter) gene s
  = (Ok (dict_set sched (Gene.slot_key (gene_objs s gene))
           (dict_get sched (Gene.slot_key (gene_objs s gene)) []
            ++ [proj (gene_objs s gene)]),
         counter), s).

Lemma pass_noop (refs : list nat) (s : State) :
  forall sched counter,
  NoDup (map (fun r => (proj (gene_objs s r), Gene.slot_key (gene_objs s r)))
             refs) ->
  (forall r, In r refs ->
     ~ In (proj (gene_objs s r))
          (dict_get sched (Gene.slot_key (gene_objs s r)) [])) ->
  exists sched', for_fold refs (sched, counter) step s
                 = (Ok (sched', counter), s).
Proof.
  induction refs as [| r refs IH]; intros sched counter Hnd Hfree.
  - eexists. reflexivity.
  - cbn [for_fold]. unfold bind.
    rewrite step_free by (apply Hfree; left; reflexivity).
    cbn [map] in Hnd. inversion Hnd as [| ? ? Hhead Htail]; subst.
    apply IH; [assumption |].
    intros r2 Hr2. rewrite dict_get_set.
    destruct (eq_dec (Gene.slot_key (gene_objs s r2))
                     (Gene.slot_key (gene_objs s r))) as [Ekey | _].
    + intros Hin. apply in_app_or in Hin. destruct Hin as [Hin | [Heq | []]].
      * apply (Hfree r2 (or_intror Hr2)). rewrite Ekey. assumption.
      * apply Hhead. rewrite <- Ekey, Heq.
        apply (in_map (fun r => (proj (gene_objs s r),
                                 Gene.slot_key (gene_objs s r)))).
        assumption.
    + apply Hfree. right. assumption.
Qed.
End PassNoop.

Lemma NoDup_key_split (proj : Gene.t -> Z) (l : list Gene.t) :
  NoDup (map (fun g => (proj g, Gene.day g, Gene.period g)) l) ->
  NoDup (map (fun g => (proj g, Gene.slot_key g)) l).
Proof.
  intros Hnd.
  apply (NoDup_map_inv (fun k : Z * (string * Z) =>
                          (fst k, fst (snd k), snd (snd k)))).
  rewrite map_map. exact Hnd.
Qed.

(* ------------------------------------------------------------------ *)
(** ** Repair returns *)

Section Succeeds.
Lemma succeeds_ret {A : Type} (a : A) (Q : A -> Prop) :
  Q a -> succeeds (ret a) Q.
Proof. intros HQ s. exists a, s. split; [reflexivity | assumption]. Qed.


Lemma succeeds_bind {A C : Type} (m : M A) (k : A -> M C)
    (Q : A -> Prop) (R : C -> Prop) :
  succeeds m Q -> (forall a, Q a -> succeeds (k a) R) ->
  succeeds (bind m k) R.
Proof.
  intros Hm Hk s. destruct (Hm s) as (a & s1 & Hrun & HQ).
  destruct (Hk a HQ s1) as (c & s2 & Hrun2 & HR).
  exists c, s2. unfold bind. rewrite Hrun. split; assumption.
Qed.



Lemma succeeds_write_gene (r : nat) (f : Gene.t -> Gene.t) :
  succeeds (write_gene r f) (fun _ => True).
Proof. intros s. eexists _, _. split; [reflexivity | exact I]. Qed.

Lemma succeeds_randint (a b : Z) :
  a <= b -> succeeds (random_randint a b) (fun z => a <= z <= b).
Proof.
  intros Hab s. unfold random_randint.
  destruct (b <? a) eqn:E; [apply Z.ltb_lt in E; lia |].
  eexists _, _. split; [reflexivity |]. apply randint_range. assumption.
Qed.

End Succeeds.

Lemma min_from_ok {A : Type} (key : A -> result Z) (l : list A) :
  (forall x, In x l -> exists k, key x = Ok k) ->
  forall best best_key,
  exists b, min_from key best best_key l = Ok b /\ (b = best \/ In b l).
Proof.
  induction l as [| x l IH]; intros Hkey best best_key; cbn [min_from].
  - exists best. auto.
  - destruct (Hkey x (or_introl eq_refl)) as (k & Hk). rewrite Hk.
    cbn [result_bind].
    assert (Hl : forall y, In y l -> exists k, key y = Ok k)
      by (intros y Hy; apply Hkey; right; assumption).
    destruct (k <? best_key).
    + destruct (IH Hl x k) as (b & Hb & Hin). exists b.
      split; [assumption |]. right. destruct Hin as [-> | Hin]; [left | right]; auto.
    + destruct (IH Hl best best_key) as (b & Hb & Hin). exists b.
      split; [assumption |]. destruct Hin as [-> | Hin]; [left | right; right]; auto.
Qed.

Lemma py_min_by_ok {A : Type} (key : A -> result Z) (l : list A) :
  l <> [] ->
  (forall x, In x l -> exists k, key x = Ok k) ->
  exists b, py_min_by l key = Ok b /\ In b l.
Proof.
  destruct l as [| x l]; [congruence |]. intros _ Hkey. cbn [py_min_by].
  destruct (Hkey x (or_introl eq_refl)) as (k & Hk). rewrite Hk.
  cbn [result_bind].
  destruct (min_from_ok key l (fun y Hy => Hkey y (or_intror Hy)) x k)
    as (b & Hb & Hin).
  exists b. split; [assumption |]. destruct Hin as [-> | Hin]; [left | right]; auto.
Qed.

Lemma has_keys_getitem (ids : list Z) (counter : dict Z Z) (id : Z) :
  has_keys ids counter -> In id ids -> exists c, dict_getitem counter id = Ok c.
Proof.
  intros Hk Hid. unfold dict_getitem. specialize (Hk id Hid).
  destruct (dict_find counter id) as [c |]; [eauto | congruence].
Qed.

Lemma has_keys_set (ids : list Z) (counter : dict Z Z) (id c : Z) :
  has_keys ids counter -> has_keys ids (dict_set counter id c).
Proof.
  intros Hk id' Hid'. rewrite dict_find_set.
  destruct (eq_dec id' id); [discriminate | apply Hk; assumption].
Qed.

Lemma has_keys_init {X : Type} (f : X -> Z) (l : list X) :
  has_keys (map f l) (fold_left (fun d x => dict_set d (f x) 0) l []).
Proof.
  assert (Hgen : forall (d0 : dict Z Z) id,
    In id (map f l) \/ dict_find d0 id <> None ->
    dict_find (fold_left (fun d x => dict_set d (f x) 0) l d0) id <> None).
  { induction l as [| x l IH]; intros d0 id Hid; cbn [fold_left].
    - destruct Hid as [[] | Hid]. assumption.
    - apply IH. rewrite dict_find_set.
      destruct (eq_dec id (f x)) as [-> | Hne]; [right; discriminate |].
      destruct Hid as [[Heq | Hin] | Hd0]; [congruence | left | right]; auto. }
  intros id Hid. apply Hgen. left. assumption.
Qed.

Lemma list_or_facts {A : Type} (a b : list A) :
  b <> [] -> incl a b -> list_or a b <> [] /\ incl (list_or a b) b.
Proof.
  intros Hb Hab. destruct a as [| x a]; cbn [list_or].
  - split; [assumption | apply incl_refl].
  - split; [discriminate | assumption].
Qed.





(* ------------------------------------------------------------------ *)
(** ** Repair: the group pass *)

Lemma dict_contains_set {K V : Type} `{EqDec K} (d : dict K V) (k k' : K)
    (v : V) :
  dict_contains (dict_set d k v) k'
  = if eq_dec k' k then true else dict_contains d k'.
Proof.
  unfold dict_contains. rewrite dict_find_set.
  destruct (eq_dec k' k); reflexivity.
Qed.

Lemma but_course_group_key (g g' : Gene.t) :
  Gene.but_course g' = Gene.but_course g -> Gene.group_key g' = Gene.group_key g.
Proof. unfold Gene.but_course, Gene.group_key. intros E. inversion E. reflexivity. Qed.

Lemma resolve_group_step_run (seen : dict (Z * string * Z) bool) (gene : nat)
    (s : State) :
  exists s',
    resolve_group_step seen gene s
    = (Ok (dict_set seen (Gene.group_key (gene_objs s gene)) true), s')
    /\ unchanged Gene.but_course s s'
    /\ (forall r, r <> gene -> gene_objs s' r = gene_objs s r)
    /\ (dict_contains seen (Gene.group_key (gene_objs s gene)) = false ->
        gene_objs s' gene = gene_objs s gene)
    /\ (dict_contains seen (Gene.group_key (gene_objs s gene)) = true ->
        1 <= Gene.course_id (gene_objs s' gene) <= 3).
Proof.
  unfold resolve_group_step, bind, read_gene. cbn [fst snd].
  change (Gene.group_id (gene_objs s gene), Gene.day (gene_objs s gene),
          Gene.period (gene_objs s gene))
    with (Gene.group_key (gene_objs s gene)).
  destruct (dict_contains seen (Gene.group_key (gene_objs s gene))).
  - unfold when, random_randint, bind, draw, ret, write_gene, advance.
    cbn [Z.ltb Z.compare Pos.compare Pos.compare_cont fst snd chromosomes
         gene_objs rng].
    eexists. split; [reflexivity |]. split; [| split; [| split]].
    + split; [reflexivity |]. intros r. cbn [gene_objs].
      destruct (Nat.eqb r gene) eqn:E; [| reflexivity].
      apply Nat.eqb_eq in E. subst r. reflexivity.
    + intros r Hr. cbn [gene_objs]. apply Nat.eqb_neq in Hr. rewrite Hr.
      reflexivity.
    + discriminate.
    + intros _. cbn [gene_objs]. rewrite Nat.eqb_refl.
      cbn [Gene.course_id Gene.set_course_id].
      apply (randint_range 1 3). lia.
  - unfold when, bind, ret. exists s. split; [reflexivity |].
    split; [apply unchanged_refl |]. split; [| split].
    + intros r _. reflexivity.
    + intros _. reflexivity.
    + discriminate.
Qed.

(** The loop of [_resolve_group_conflicts] from any point on: it changes
    courses only; a course it changes is in 1..3 and belongs to a gene
    whose key was seen before; and the course of a gene whose key was seen
    before is in 1..3 afterwards. *)
Lemma group_pass_spec (refs : list nat) :
  forall (seen : dict (Z * string * Z) bool) (s : State),
  exists seen' s',
    for_fold refs seen resolve_group_step s = (Ok seen', s')
    /\ unchanged Gene.but_course s s'
    /\ (forall r,
          Gene.course_id (gene_objs s' r) <> Gene.course_id (gene_objs s r) ->
          1 <= Gene.course_id (gene_objs s' r) <= 3
          /\ exists pre post,
               refs = pre ++ r :: post
               /\ (dict_contains seen (Gene.group_key (gene_objs s r)) = true
                   \/ In (Gene.group_key (gene_objs s r))
                         (map (fun q => Gene.group_key (gene_objs s q)) pre)))
    /\ (forall pre r post,
          refs = pre ++ r :: post ->
          dict_contains seen (Gene.group_key (gene_objs s r)) = true
          \/ In (Gene.group_key (gene_objs s r))
                (map (fun q => Gene.group_key (gene_objs s q)) pre) ->
          1 <= Gene.course_id (gene_objs s' r) <= 3).
Proof.
  induction refs as [| a refs IH]; intros seen s.
  - exists seen, s. split; [reflexivity |]. split; [apply unchanged_refl |].
    split.
    + intros r Hne. congruence.
    + intros pre r post Hrefs. destruct pre; discriminate.
  - destruct (resolve_group_step_run seen a s)
      as (s1 & Hrun & Hun1 & Hother & Hno & Hyes).
    destruct (IH (dict_set seen (Gene.group_key (gene_objs s a)) true) s1)
      as (seen' & s' & Hrun' & Hun' & Hchg & Hasg).
    exists seen', s'.
    split; [cbn [for_fold]; unfold bind; rewrite Hrun; exact Hrun' |].
    split; [exact (unchanged_trans _ _ _ _ Hun1 Hun') |].
    assert (Hk : forall r, Gene.group_key (gene_objs s1 r)
                           = Gene.group_key (gene_objs s r))
      by (intros r; apply but_course_group_key, Hun1).
    assert (Hmap : forall l, map (fun q => Gene.group_key (gene_objs s1 q)) l
                             = map (fun q => Gene.group_key (gene_objs s q)) l)
      by (intros l; apply map_ext; intros q; apply Hk).
    split.
    + intros r Hne.
      destruct (Z.eq_dec (Gene.course_id (gene_objs s' r))
                         (Gene.course_id (gene_objs s1 r))) as [E | NE].
      * rewrite E in *.
        assert (r = a).
        { destruct (Nat.eq_dec r a) as [| Hra]; [assumption |].
          rewrite (Hother r Hra) in Hne. congruence. }
        subst r.
        destruct (dict_contains seen (Gene.group_key (gene_objs s a))) eqn:C.
        -- split; [apply Hyes; reflexivity |]. exists [], refs. auto.
        -- rewrite (Hno eq_refl) in Hne. congruence.
      * destruct (Hchg r NE) as (Hrange & pre & post & Hrefs & Hseen).
        split; [assumption |]. exists (a :: pre), post.
        split; [cbn [app]; congruence |].
        rewrite Hk, Hmap, dict_contains_set in Hseen. cbn [map In].
        destruct (eq_dec (Gene.group_key (gene_objs s r))
                         (Gene.group_key (gene_objs s a))) as [Ekey | _].
        -- right. left. congruence.
        -- destruct Hseen as [Hs | Hs]; [left | right; right]; assumption.
    + intros pre r post Hrefs Hseen.
      destruct pre as [| a' pre]; cbn [app] in Hrefs; inversion Hrefs; subst.
      * destruct Hseen as [Hs | []]. specialize (Hyes Hs).
        destruct (Z.eq_dec (Gene.course_id (gene_objs s' r))
                           (Gene.course_id (gene_objs s1 r))) as [E | NE].
        -- rewrite E. assumption.
        -- apply Hchg. assumption.
      * apply (Hasg pre r post eq_refl).
        rewrite Hk, Hmap, dict_contains_set. cbn [map In] in Hseen.
        destruct (eq_dec (Gene.group_key (gene_objs s r))
                         (Gene.group_key (gene_objs s a'))) as [Ekey | Hnkey].
        -- left. reflexivity.
        -- destruct Hseen as [Hs | [Hs | Hs]];
             [left; assumption | congruence | right; assumption].
Qed.

Lemma resolve_group_conflicts_spec (individual : nat) (s : State) :
  exists s',
    resolve_group_conflicts individual s = (Ok individual, s')
    /\ unchanged Gene.but_course s s'
    /\ (forall r,
          Gene.course_id (gene_objs s' r) <> Gene.course_id (gene_objs s r) ->
          1 <= Gene.course_id (gene_objs s' r) <= 3
          /\ exists pre post,
               chromosomes s individual = pre ++ r :: post
               /\ In (Gene.group_key (gene_objs s r))
                     (map (fun q => Gene.group_key (gene_objs s q)) pre))
    /\ (forall pre r post,
          chromosomes s individual = pre ++ r :: post ->
          In (Gene.group_key (gene_objs s r))
             (map (fun q => Gene.group_key (gene_objs s q)) pre) ->
          1 <= Gene.course_id (gene_objs s' r) <= 3).
Proof.
  destruct (group_pass_spec (chromosomes s individual) [] s)
    as (seen' & s' & Hrun & Hun & Hchg & Hasg).
  exists s'. split.
  - unfold resolve_group_conflicts, bind, get_genes. rewrite Hrun. reflexivity.
  - split; [exact Hun |]. split.
    + intros r Hne. destruct (Hchg r Hne) as (Hrange & pre & post & Hrefs & Hseen).
      split; [assumption |]. exists pre, post. split; [assumption |].
      destruct Hseen as [Hs | Hs]; [discriminate | assumption].
    + intros pre r post Hrefs Hseen. apply (Hasg pre r post Hrefs). right.
      assumption.
Qed.

(* ------------------------------------------------------------------ *)
(** ** Repair: what the passes leave unchanged *)

Lemma keeps_resolve_teacher_conflicts {B : Type} (proj : Gene.t -> B)
    (individual : nat) (teachers : list Teacher.t) :
  (forall g v, proj (Gene.set_teacher_id g v) = proj g) ->
  keeps proj (resolve_teacher_conflicts individual teachers).
Proof.
  intros Hproj. unfold resolve_teacher_conflicts.
  apply keeps_bind; [auto with keeps | intros genes].
  apply keeps_bind; [| intros _; apply keeps_ret].
  apply keeps_for_fold. intros acc gene. unfold resolve_teacher_step.
  keeps_steps.
Qed.

Lemma keeps_resolve_room_conflicts {B : Type} (proj : Gene.t -> B)
    (individual : nat) (rooms : list Room.t) :
  (forall g v, proj (Gene.set_room_id g v) = proj g) ->
  keeps proj (resolve_room_conflicts individual rooms).
Proof.
  intros Hproj. unfold resolve_room_conflicts.
  apply keeps_bind; [auto with keeps | intros genes].
  apply keeps_bind; [| intros _; apply keeps_ret].
  apply keeps_for_fold. intros acc gene. unfold resolve_room_step.
  keeps_steps.
Qed.

Lemma filter_nil {A : Type} (f : A -> bool) (l : list A) :
  (forall x, In x l -> f x = false) -> filter f l = [].
Proof.
  induction l as [| a l IH]; intros Hf; cbn [filter]; [reflexivity |].
  rewrite (Hf a (or_introl eq_refl)). apply IH. intros x Hx. apply Hf.
  right. assumption.
Qed.









(* ------------------------------------------------------------------ *)
(** ** Repair on a chromosome without teacher or room conflicts *)

Lemma resolve_teacher_conflicts_noop (individual : nat)
    (teachers : list Teacher.t) (s : State) :
  NoDup (map Gene.teacher_key (Chromosome.genes (content s individual))) ->
  resolve_teacher_conflicts individual teachers s = (Ok individual, s).
Proof.
  intros Hnd. unfold content in Hnd. cbn [Chromosome.genes] in Hnd.
  rewrite map_map in Hnd.
  unfold resolve_teacher_conflicts, bind, get_genes.
  destruct (pass_noop Gene.teacher_id
              (resolve_teacher_step teachers
                 (fold_left
                    (fun d t => dict_set d (Teacher.teacher_id t)
                                         (Teacher.preferred_times t))
                    teachers []))
              (resolve_teacher_step_free teachers _)
              (chromosomes s individual) s []
              (fold_left (fun d t => dict_set d (Teacher.teacher_id t) 0)
                         teachers []))
    as (sched' & Hrun).
  - rewrite <- (map_map (gene_objs s)
                  (fun g => (Gene.teacher_id g, Gene.slot_key g))).
    apply NoDup_key_split. rewrite map_map. exact Hnd.
  - intros r _ [].
  - rewrite Hrun. reflexivity.
Qed.

Lemma resolve_room_conflicts_noop (individual : nat) (rooms : list Room.t)
    (s : State) :
  NoDup (map Gene.room_key (Chromosome.genes (content s individual))) ->
  resolve_room_conflicts individual rooms s = (Ok individual, s).
Proof.
  intros Hnd. unfold content in Hnd. cbn [Chromosome.genes] in Hnd.
  rewrite map_map in Hnd.
  unfold resolve_room_conflicts, bind, get_genes.
  destruct (pass_noop Gene.room_id (resolve_room_step rooms)
              (resolve_room_step_free rooms)
              (chromosomes s individual) s []
              (fold_left (fun d r => dict_set d (Room.room_id r) 0) rooms []))
    as (sched' & Hrun).
  - rewrite <- (map_map (gene_objs s)
                  (fun g => (Gene.room_id g, Gene.slot_key g))).
    apply NoDup_key_split. rewrite map_map. exact Hnd.
  - intros r _ [].
  - rewrite Hrun. reflexivity.
Qed.

Lemma repair_keeps_teacher_room (individual : nat) (teachers : list Teacher.t)
    (rooms : list Room.t) (s : State) :
  NoDup (map Gene.teacher_key (Chromosome.genes (content s individual))) ->
  NoDup (map Gene.room_key (Chromosome.genes (content s individual))) ->
  exists s',
    repair_timetable individual teachers rooms s = (Ok individual, s')
    /\ chromosomes s' = chromosomes s
    /\ forall r,
         Gene.teacher_id (gene_objs s' r) = Gene.teacher_id (gene_objs s r)
         /\ Gene.room_id (gene_objs s' r) = Gene.room_id (gene_objs s r).
Proof.
  intros Ht Hr.
  destruct (resolve_group_conflicts_spec individual s)
    as (s' & Hrun & [Hc Hg] & _).
  exists s'. split.
  - unfold repair_timetable, bind, ret.
    rewrite (resolve_teacher_conflicts_noop _ _ _ Ht).
    rewrite (resolve_room_conflicts_noop _ _ _ Hr).
    rewrite Hrun. reflexivity.
  - split; [exact Hc |]. intros r. specialize (Hg r).
    unfold Gene.but_course in Hg. inversion Hg. split; reflexivity.
Qed.

(** C6.  On a chromosome in which no two genes share (teacher, day,
    period) and no two share (room, day, period), repair leaves the
    teacher and the room of every gene as they were.  Hence, when a
    repaired chromosome is free of such duplicates, a second repair
    changes no teacher and no room. *)
Theorem repair_fixed_point (individual : nat) (teachers : list Teacher.t)
    (rooms : list Room.t) :
  (forall s,
     NoDup (map Gene.teacher_key (Chromosome.genes (content s individual))) ->
     NoDup (map Gene.room_key (Chromosome.genes (content s individual))) ->
     exists s',
       repair_timetable individual teachers rooms s = (Ok individual, s')
       /\ chromosomes s' = chromosomes s
       /\ forall r,
            Gene.teacher_id (gene_objs s' r) = Gene.teacher_id (gene_objs s r)
            /\ Gene.room_id (gene_objs s' r) = Gene.room_id (gene_objs s r))
  /\ (forall s0,
        let s1 := snd (repair_timetable individual teachers rooms s0) in
        let s2 := snd (repair_timetable individual teachers rooms s1) in
        NoDup (map Gene.teacher_key (Chromosome.genes (content s1 individual))) ->
        NoDup (map Gene.room_key (Chromosome.genes (content s1 individual))) ->
        forall r,
          Gene.teacher_id (gene_objs s2 r) = Gene.teacher_id (gene_objs s1 r)
          /\ Gene.room_id (gene_objs s2 r) = Gene.room_id (gene_objs s1 r)).
Proof.
  split.
  - intros s. apply repair_keeps_teacher_room.
  - intros s0 s1 s2 Ht Hr.
    destruct (repair_keeps_teacher_room individual teachers rooms s1 Ht Hr)
      as (s' & Hrun & _ & Hsame).
    subst s2. rewrite Hrun. exact Hsame.
Qed.

Lemma repair_fixed_point_witness :
  NoDup (map Gene.teacher_key (Chromosome.genes (content tidy_hour 0)))
  /\ NoDup (map Gene.room_key (Chromosome.genes (content tidy_hour 0)))
  /\ exists s',
       repair_timetable 0 two_teachers two_rooms tidy_hour = (Ok 0%nat, s')
       /\ forall r,
            Gene.teacher_id (gene_objs s' r)
            = Gene.teacher_id (gene_objs tidy_hour r)
            /\ Gene.room_id (gene_objs s' r)
               = Gene.room_id (gene_objs tidy_hour r).
Proof.
  assert (Ht : NoDup (map Gene.teacher_key
                        (Chromosome.genes (content tidy_hour 0))))
    by (repeat constructor; simpl; intuition discriminate).
  assert (Hr : NoDup (map Gene.room_key
                        (Chromosome.genes (content tidy_hour 0))))
    by (repeat constructor; simpl; intuition discriminate).
  split; [exact Ht |]. split; [exact Hr |].
  destruct (repair_fixed_point 0 two_teachers two_rooms) as [Hfix _].
  destruct (Hfix tidy_hour Ht Hr) as (s' & Hrun & _ & Hsame).
  exists s'. split; assumption.
Defined.

(* ------------------------------------------------------------------ *)
(** ** The timetable view *)

Lemma fold_left_ext {A B : Type} (f g : A -> B -> A) (l : list B) (a : A) :
  (forall a b, f a b = g a b) -> fold_left f l a = fold_left g l a.
Proof.
  intros Hfg. revert a. induction l as [| b l IH]; intros a; cbn [fold_left];
    [reflexivity |].
  rewrite Hfg. apply IH.
Qed.

Lemma fold_left_snoc_all {X : Type} (l acc : list X) :
  fold_left (fun acc x => acc ++ [x]) l acc = acc ++ l.
Proof.
  revert acc. induction l as [| x l IH]; intros acc; cbn [fold_left].
  - rewrite app_nil_r. reflexivity.
  - rewrite IH, <- app_assoc. reflexivity.
Qed.

Lemma dict_append_update {K X : Type} `{EqDec K} (key : X -> K)
    (d : dict K (list X)) (x : X) :
  dict_append d (key x) x
  = update_step key [] (fun x l => l ++ [x]) d x.
Proof.
  unfold dict_append, update_step.
  rewrite dict_set_setdefault, dict_get_setdefault. reflexivity.
Qed.

Lemma dict_nested_append_update {K1 K2 X Y : Type} `{EqDec K1} `{EqDec K2}
    (key1 : X -> K1) (key2 : X -> K2) (val : X -> Y)
    (d : dict K1 (dict K2 (list Y))) (x : X) :
  dict_nested_append d (key1 x) (key2 x) (val x)
  = update_step key1 []
      (fun x inner => dict_append inner (key2 x) (val x)) d x.
Proof.
  unfold dict_nested_append, update_step.
  rewrite dict_set_setdefault, dict_get_setdefault. reflexivity.
Qed.

(** The dictionary of one group in the timetable, before the lists are
    sorted: one entry per day of the group, holding its lessons. *)
Lemma folded_days (genes : list Gene.t) (group_id : Z) :
  folded Gene.group_id []
    (fun gene (inner : dict string (list Gene.t)) =>
       dict_append inner (Gene.day gene) gene) genes group_id
  = map (fun day => (day, lessons_of genes group_id day))
        (days_of genes group_id).
Proof.
  unfold folded at 1.
  rewrite (fold_left_ext _ (update_step Gene.day [] (fun x l => l ++ [x])))
    by (intros inner gene; apply dict_append_update).
  rewrite build_spec. unfold days_of. apply map_ext. intros day.
  unfold folded, lessons_of. rewrite fold_left_snoc_all. reflexivity.
Qed.

Lemma to_timetable_get (individual : Chromosome.t) (group_id : Z) :
  dict_get (Chromosome.to_timetable individual) group_id []
  = map (fun day =>
           (day, sort_by Gene.period
                   (lessons_of (Chromosome.genes individual) group_id day)))
        (days_of (Chromosome.genes individual) group_id).
Proof.
  unfold Chromosome.to_timetable.
  rewrite (fold_left_ext _
             (update_step Gene.group_id []
                (fun gene (inner : dict string (list Gene.t)) =>
                   dict_append inner (Gene.day gene) gene)))
    by (intros tt gene;
        apply (dict_nested_append_update Gene.group_id Gene.day (fun g => g))).
  rewrite build_spec, map_map. cbn [fst snd].
  unfold dict_get.
  rewrite (dict_find_tabulate
             (fun k => map (fun day_lessons : string * list Gene.t =>
                              (fst day_lessons,
                               sort_by Gene.period (snd day_lessons)))
                           (folded Gene.group_id []
                              (fun gene (inner : dict string (list Gene.t)) =>
                                 dict_append inner (Gene.day gene) gene)
                              (Chromosome.genes individual) k))).
  rewrite folded_days, map_map. cbn [fst snd].
  destruct (in_dec eq_dec group_id
              (uniq (map Gene.group_id (Chromosome.genes individual))))
    as [_ | Hn]; [reflexivity |].
  rewrite In_uniq in Hn. unfold days_of.
  replace (filter (fun g => if eq_dec (Gene.group_id g) group_id
                            then true else false)
                  (Chromosome.genes individual)) with (@nil Gene.t);
    [reflexivity |].
  symmetry. apply filter_nil. intros g Hg.
  destruct (eq_dec (Gene.group_id g) group_id) as [E | _]; [| reflexivity].
  exfalso. apply Hn. rewrite <- E. apply in_map. assumption.
Qed.

(* ------------------------------------------------------------------ *)
(** ** The group schedule gap term *)

Lemma gap_loop (l : list (list Gene.t)) (p0 : Q) :
  (fold_left
     (fun penalty lessons =>
        let periods := py_sorted (map Gene.period lessons) in
        match periods with
        | [] => penalty
        | _ :: _ =>
            let expected_slots := (py_max periods - py_min periods + 1)%Z in
            let actual_slots := Z.of_nat (length periods) in
            let gap := (expected_slots - actual_slots)%Z in
            (penalty + inject_Z gap * (1 # 2))%Q
        end) l p0
   == p0 + inject_Z
             (zsum (fun lessons =>
                      gap_counted (py_sorted (map Gene.period lessons))) l)
           * (1 # 2))%Q.
Proof.
  revert p0. induction l as [| lessons l IH]; intros p0.
  - cbn [fold_left]. unfold zsum. cbn [fold_right]. change (inject_Z 0) with 0%Q.
    lra.
  - cbn [fold_left]. rewrite IH, zsum_cons, inject_Z_plus. cbv zeta.
    unfold gap_counted at 2.
    destruct (py_sorted (map Gene.period lessons)) as [| p ps].
    + change (inject_Z 0) with 0%Q. lra.
    + lra.
Qed.

(** What the source computes: per listed group and day of the group's
    timetable, the span of the periods less the number of lessons. *)
Lemma penalty_group_schedule_gap_counted (individual : Chromosome.t)
    (groups : list StudentGroup.t) :
  (penalty_group_schedule_gap individual groups
   == inject_Z (schedule_gap_counted individual groups) * (1 # 2))%Q.
Proof.
  unfold penalty_group_schedule_gap, schedule_gap_counted.
  assert (Hgen : forall p0 : Q,
    (fold_left
       (fun penalty group =>
          let group_schedule :=
            dict_get (Chromosome.to_timetable individual)
                     (StudentGroup.group_id group) [] in
          fold_left
            (fun penalty lessons =>
               let periods := py_sorted (map Gene.period lessons) in
               match periods with
               | [] => penalty
               | _ :: _ =>
                   let expected_slots :=
                     (py_max periods - py_min periods + 1)%Z in
                   let actual_slots := Z.of_nat (length periods) in
                   let gap := (expected_slots - actual_slots)%Z in
                   (penalty + inject_Z gap * (1 # 2))%Q
               end)
            (dict_values group_schedule) penalty)
       groups p0
     == p0 + inject_Z
               (zsum (fun group =>
                        zsum (fun day =>
                                gap_counted
                                  (py_sorted
                                     (map Gene.period
                                        (sort_by Gene.period
                                           (lessons_of
                                              (Chromosome.genes individual)
                                              (StudentGroup.group_id group)
                                              day)))))
                             (days_of (Chromosome.genes individual)
                                      (StudentGroup.group_id group)))
                     groups)
             * (1 # 2))%Q).
  { induction groups as [| group groups IH]; intros p0.
    - cbn [fold_left]. unfold zsum. cbn [fold_right].
      change (inject_Z 0) with 0%Q. lra.
    - cbn [fold_left]. rewrite IH, zsum_cons, inject_Z_plus. cbv zeta.
      rewrite gap_loop, to_timetable_get. unfold dict_values.
      rewrite map_map, zsum_map. cbn [snd]. lra. }
  cbv zeta. rewrite Hgen. lra.
Qed.

Lemma insert_by_Permutation {A : Type} (key : A -> Z) (x : A) (l : list A) :
  Permutation (insert_by key x l) (x :: l).
Proof.
  induction l as [| y l IH]; cbn [insert_by]; [reflexivity |].
  destruct (key x <=? key y); [reflexivity |].
  rewrite IH. apply perm_swap.
Qed.

Lemma sort_by_Permutation {A : Type} (key : A -> Z) (l : list A) :
  Permutation (sort_by key l) l.
Proof.
  induction l as [| x l IH]; cbn [sort_by]; [reflexivity |].
  rewrite insert_by_Permutation, IH. reflexivity.
Qed.

Lemma fold_max_bounds (l : list Z) (a : Z) :
  a <= fold_left Z.max l a /\ forall x, In x l -> x <= fold_left Z.max l a.
Proof.
  revert a. induction l as [| y l IH]; intros a; cbn [fold_left].
  - split; [lia | intros x []].
  - destruct (IH (Z.max a y)) as [Ha Hl]. split; [lia |].
    intros x [<- | Hx]; [lia | apply Hl; assumption].
Qed.

Lemma fold_min_bounds (l : list Z) (a : Z) :
  fold_left Z.min l a <= a /\ forall x, In x l -> fold_left Z.min l a <= x.
Proof.
  revert a. induction l as [| y l IH]; intros a; cbn [fold_left].
  - split; [lia | intros x []].
  - destruct (IH (Z.min a y)) as [Ha Hl]. split; [lia |].
    intros x [<- | Hx]; [lia | apply Hl; assumption].
Qed.

Lemma py_max_ge (l : list Z) (x : Z) : In x l -> x <= py_max l.
Proof.
  destruct l as [| a l]; [intros [] |]. cbn [py_max].
  destruct (fold_max_bounds l a) as [Ha Hl].
  intros [<- | Hx]; [assumption | apply Hl; assumption].
Qed.

Lemma py_min_le (l : list Z) (x : Z) : In x l -> py_min l <= x.
Proof.
  destruct l as [| a l]; [intros [] |]. cbn [py_min].
  destruct (fold_min_bounds l a) as [Ha Hl].
  intros [<- | Hx]; [assumption | apply Hl; assumption].
Qed.

(** Distinct integers between two bounds are no more than the span. *)
Lemma NoDup_span (l : list Z) (lo hi : Z) :
  NoDup l -> (forall x, In x l -> lo <= x <= hi) -> lo <= hi + 1 ->
  Z.of_nat (length l) <= hi - lo + 1.
Proof.
  intros Hnd Hbound Hspan.
  assert (Hincl : incl l (map (fun i => lo + Z.of_nat i)
                              (seq 0 (Z.to_nat (hi - lo + 1))))).
  { intros x Hx. specialize (Hbound x Hx). apply in_map_iff.
    exists (Z.to_nat (x - lo)). split; [lia |]. apply in_seq. lia. }
  apply (NoDup_incl_length Hnd) in Hincl.
  rewrite length_map, length_seq in Hincl. lia.
Qed.

(** The span of the periods of a day is at least the number of distinct
    periods, so the source subtracts at most one per repeated period. *)
Lemma gap_counted_bound (lessons : list Gene.t) :
  - excess (map Gene.period lessons)
  <= gap_counted
       (py_sorted (map Gene.period (sort_by Gene.period lessons))).
Proof.
  set (ps := map Gene.period lessons).
  set (sps := py_sorted (map Gene.period (sort_by Gene.period lessons))).
  assert (HP : Permutation sps ps).
  { subst sps ps. unfold py_sorted. rewrite sort_by_Permutation.
    apply Permutation_map, sort_by_Permutation. }
  pose proof (excess_nonneg ps) as Hex.
  unfold gap_counted. destruct sps as [| p0 rest] eqn:Esps; [lia |].
  rewrite <- Esps in *.
  assert (Hin : In p0 sps) by (rewrite Esps; left; reflexivity).
  pose proof (py_max_ge sps p0 Hin). pose proof (py_min_le sps p0 Hin).
  assert (Hspan : Z.of_nat (length (nodup eq_dec ps))
                  <= py_max sps - py_min sps + 1).
  { apply NoDup_span; [apply NoDup_nodup | | lia].
    intros x Hx. apply nodup_In in Hx.
    apply (Permutation_in _ (Permutation_sym HP)) in Hx.
    split; [apply py_min_le | apply py_max_ge]; assumption. }
  unfold excess in *. rewrite (Permutation_length HP). lia.
Qed.

(** The repeated periods of the cells of a table of groups and days are
    repeated (group, day, period) keys of the chromosome. *)
Lemma cells_excess (gids : list Z) (days : Z -> list string)
    (genes : list Gene.t) :
  NoDup gids -> (forall a, NoDup (days a)) ->
  zsum (fun a =>
          zsum (fun d => excess (map Gene.period (lessons_of genes a d)))
               (days a)) gids
  <= excess (map Gene.group_key genes).
Proof.
  intros Hgids Hdays. induction genes as [| g genes IH].
  - cbn [map]. unfold lessons_of. cbn [filter map].
    rewrite (zsum_ext_in _ (fun _ => 0)).
    + rewrite zsum_const. unfold excess. simpl. lia.
    + intros a _. rewrite zsum_const. unfold excess. simpl. lia.
  - cbn [map]. rewrite excess_cons.
    set (X := if in_dec eq_dec (Gene.group_key g) (map Gene.group_key genes)
              then 1 else 0).
    assert (HX : 0 <= X) by (subst X; destruct (in_dec _ _ _); lia).
    assert (Hcell : forall a d,
      excess (map Gene.period (lessons_of (g :: genes) a d))
      <= excess (map Gene.period (lessons_of genes a d))
         + (if eq_dec a (Gene.group_id g)
            then (if eq_dec d (Gene.day g) then X else 0) else 0)).
    { intros a d. unfold lessons_of. cbn [filter].
      destruct (eq_dec (Gene.group_id g) a) as [Ea | Na].
      - cbn [filter]. destruct (eq_dec (Gene.day g) d) as [Ed | Nd].
        + cbn [map]. rewrite excess_cons.
          destruct (eq_dec a (Gene.group_id g)); [| congruence].
          destruct (eq_dec d (Gene.day g)); [| congruence].
          destruct (in_dec eq_dec (Gene.period g) _) as [Hin | _]; [| lia].
          apply in_map_iff in Hin. destruct Hin as (g' & Hp & Hg').
          apply filter_In in Hg'. destruct Hg' as [Hg' Hd'].
          apply filter_In in Hg'. destruct Hg' as [Hg' Ha'].
          destruct (eq_dec (Gene.day g') d); [| discriminate].
          destruct (eq_dec (Gene.group_id g') a); [| discriminate].
          subst X.
          destruct (in_dec eq_dec (Gene.group_key g) (map Gene.group_key genes))
            as [_ | Hn]; [lia |].
          exfalso. apply Hn. apply in_map_iff. exists g'.
          split; [| assumption]. unfold Gene.group_key. congruence.
        + destruct (eq_dec a (Gene.group_id g)); [| lia].
          destruct (eq_dec d (Gene.day g)); [congruence | lia].
      - destruct (eq_dec a (Gene.group_id g)); [congruence | lia]. }
    eapply Z.le_trans.
    { apply zsum_le. intros a _. apply zsum_le. intros d _. apply Hcell. }
    rewrite (zsum_ext_in _
               (fun a =>
                  zsum (fun d => excess (map Gene.period (lessons_of genes a d)))
                       (days a)
                  + (if eq_dec a (Gene.group_id g)
                     then (if in_dec eq_dec (Gene.day g)
                                 (days (Gene.group_id g))
                           then X else 0)
                     else 0))).
    + rewrite zsum_plus, zsum_indicator by assumption.
      destruct (in_dec eq_dec (Gene.group_id g) gids) as [_ | _];
        [destruct (in_dec eq_dec (Gene.day g) (days (Gene.group_id g)))
          as [_ | _] |]; lia.
    + intros a _. rewrite zsum_plus. f_equal.
      destruct (eq_dec a (Gene.group_id g)) as [-> | _].
      * apply zsum_indicator. apply Hdays.
      * rewrite zsum_const. lia.
Qed.

Lemma schedule_gap_counted_bound (individual : Chromosome.t)
    (groups : list StudentGroup.t) :
  NoDup (map StudentGroup.group_id groups) ->
  - excess (map Gene.group_key (Chromosome.genes individual))
  <= schedule_gap_counted individual groups.
Proof.
  intros Hnd. unfold schedule_gap_counted.
  pose proof (cells_excess (map StudentGroup.group_id groups)
                (days_of (Chromosome.genes individual))
                (Chromosome.genes individual) Hnd
                (fun a => NoDup_uniq _)) as Hcells.
  rewrite zsum_map in Hcells.
  assert (Hlow :
    zsum (fun group =>
            zsum (fun day =>
                    - excess (map Gene.period
                                (lessons_of (Chromosome.genes individual)
                                   (StudentGroup.group_id group) day)))
                 (days_of (Chromosome.genes individual)
                          (StudentGroup.group_id group))) groups
    <= zsum (fun group =>
               zsum (fun day =>
                       gap_counted
                         (py_sorted
                            (map Gene.period
                               (sort_by Gene.period
                                  (lessons_of (Chromosome.genes individual)
                                     (StudentGroup.group_id group) day)))))
                    (days_of (Chromosome.genes individual)
                             (StudentGroup.group_id group))) groups).
  { apply zsum_le. intros group _. apply zsum_le. intros day _.
    apply gap_counted_bound. }
  assert (Hneg : forall {A : Type} (h : A -> Z) (l : list A),
             zsum (fun x => - h x) l = - zsum h l).
  { intros A h l. induction l as [| a l IHl]; [reflexivity |].
    rewrite !zsum_cons, IHl. lia. }
  rewrite (zsum_ext_in _
             (fun group =>
                - zsum (fun day =>
                          excess (map Gene.period
                                    (lessons_of (Chromosome.genes individual)
                                       (StudentGroup.group_id group) day)))
                       (days_of (Chromosome.genes individual)
                                (StudentGroup.group_id group)))) in Hlow
    by (intros group _; apply Hneg).
  rewrite Hneg in Hlow. lia.
Qed.

(** C2.  The source subtracts the number of lessons of the day, not the
    number of distinct periods.  On two lessons of one group at the same
    period the span is 1 and the specification gives a gap of 0; the
    source gives [-0.5].  On lessons at periods 1, 1 and 3 the
    specification gives 0.5 for the free period 2; the source gives 0. *)
Theorem group_schedule_gap_counts_lessons :
  ((penalty_group_schedule_gap double_lesson [group_one] == - (1 # 2))%Q
   /\ (schedule_gap_distinct double_lesson [group_one] == 0)%Q)
  /\ ((penalty_group_schedule_gap gapped_day [group_one] == 0)%Q
      /\ (schedule_gap_distinct gapped_day [group_one] == 1 # 2)%Q).
Proof.
  repeat split; vm_compute; reflexivity.
Qed.

(* ------------------------------------------------------------------ *)
(** ** The total penalty *)

Lemma fold_left_nondecreasing_Z {X : Type} (step : Z -> X -> Z) (l : list X)
    (p0 : Z) :
  (forall p x, p <= step p x) -> p0 <= fold_left step l p0.
Proof.
  intros Hstep. revert p0.
  induction l as [| x l IH]; intros p0; cbn [fold_left]; [lia |].
  specialize (IH (step p0 x)). specialize (Hstep p0 x). lia.
Qed.

Lemma fold_left_nondecreasing_Q {X : Type} (step : Q -> X -> Q) (l : list X)
    (p0 : Q) :
  (forall p x, (p <= step p x)%Q) -> (p0 <= fold_left step l p0)%Q.
Proof.
  intros Hstep. revert p0.
  induction l as [| x l IH]; intros p0; cbn [fold_left]; [apply Qle_refl |].
  apply (Qle_trans _ (step p0 x)); [apply Hstep | apply IH].
Qed.

Lemma collision_penalty_nonneg {K : Type} `{EqDec K} (keys : list K) :
  0 <= collision_penalty keys.
Proof.
  rewrite collision_penalty_excess. pose proof (excess_nonneg keys). lia.
Qed.

Lemma penalty_teacher_time_preference_nonneg (individual : Chromosome.t)
    (teachers : list Teacher.t) :
  0 <= penalty_teacher_time_preference individual teachers.
Proof.
  apply fold_left_nondecreasing_Z. intros p g. cbv zeta.
  destruct (negb _); lia.
Qed.

Lemma penalty_teacher_workload_balance_nonneg (individual : Chromosome.t) :
  (0 <= penalty_teacher_workload_balance individual)%Q.
Proof.
  unfold penalty_teacher_workload_balance.
  match goal with
  | |- (0 <= match ?assignments with _ => _ end)%Q =>
      destruct assignments as [| kv d]
  end; [apply Qle_refl |].
  apply fold_left_nondecreasing_Q. intros p load.
  pose proof (Qabs_nonneg
                (inject_Z load
                 - inject_Z (py_sum (dict_values (kv :: d)))
                   / inject_Z (Z.of_nat (length (kv :: d))))%Q).
  lra.
Qed.

Lemma penalty_group_home_room_nonneg (individual : Chromosome.t)
    (groups : list StudentGroup.t) :
  0 <= penalty_group_home_room individual groups.
Proof.
  apply fold_left_nondecreasing_Z. intros p g.
  destruct (group_home_of groups (Gene.group_id g)); [| lia].
  destruct (negb _); lia.
Qed.

Lemma penalty_subject_distribution_nonneg (individual : Chromosome.t) :
  (0 <= penalty_subject_distribution individual)%Q.
Proof.
  unfold penalty_subject_distribution.
  apply fold_left_nondecreasing_Q. intros p day_dict.
  apply fold_left_nondecreasing_Q. intros p' periods. cbv zeta.
  apply fold_left_nondecreasing_Q. intros p'' i.
  destruct (_ =? _); lra.
Qed.

Lemma penalty_teacher_same_subject_across_groups_nonneg
    (individual : Chromosome.t) :
  0 <= penalty_teacher_same_subject_across_groups individual.
Proof.
  apply fold_left_nondecreasing_Z. intros p groups_set.
  destruct (1 <? length groups_set)%nat eqn:E; [| lia].
  apply Nat.ltb_lt in E. lia.
Qed.

Lemma penalty_teacher_multiple_first_periods_nonneg
    (individual : Chromosome.t) :
  0 <= penalty_teacher_multiple_first_periods individual.
Proof.
  apply fold_left_nondecreasing_Z. intros p count.
  destruct (1 <? count) eqn:E; [| lia].
  apply Z.ltb_lt in E. lia.
Qed.

(** The group conflict term outweighs what the gap term subtracts. *)
Lemma group_conflict_covers_gap (individual : Chromosome.t)
    (groups : list StudentGroup.t) :
  NoDup (map StudentGroup.group_id groups) ->
  (0 <= inject_Z (penalty_group_conflict individual)
        + penalty_group_schedule_gap individual groups)%Q.
Proof.
  intros Hnd.
  rewrite penalty_group_schedule_gap_counted, penalty_group_conflict_spec,
    collision_penalty_excess.
  pose proof (schedule_gap_counted_bound individual groups Hnd) as Hgap.
  pose proof (excess_nonneg (map Gene.group_key (Chromosome.genes individual)))
    as Hex.
  set (E := excess (map Gene.group_key (Chromosome.genes individual))) in *.
  set (G := schedule_gap_counted individual groups) in *.
  unfold Qle, Qplus, Qmult, inject_Z. cbn [Qnum Qden].
  rewrite !Z.mul_1_r. change (Z.pos (1 * 2)) with 2.
  change (Z.pos (1 * (1 * 2))) with 2. lia.
Qed.

(** C1.  The total penalty is the sum of the ten terms, and it is not
    negative for a catalog of groups, which lists every [group_id] once:
    the only term that can be negative is the gap term, by half a point
    per lesson that repeats the (group, day, period) of another, and each
    such lesson costs 1000 in the group conflict term. *)
Theorem evaluate_timetable_nonneg (individual : Chromosome.t)
    (teachers : list Teacher.t) (groups : list StudentGroup.t) :
  (NoDup (map StudentGroup.group_id groups) ->
   (0 <= evaluate_timetable individual teachers groups)%Q)
  /\ (evaluate_timetable individual teachers groups
      == inject_Z (penalty_teacher_conflict individual)
         + inject_Z (penalty_room_conflict individual)
         + inject_Z (penalty_group_conflict individual)
         + inject_Z (penalty_teacher_time_preference individual teachers)
         + penalty_teacher_workload_balance individual
         + inject_Z (penalty_group_home_room individual groups)
         + penalty_subject_distribution individual
         + penalty_group_schedule_gap individual groups
         + inject_Z (penalty_teacher_same_subject_across_groups individual)
         + inject_Z (penalty_teacher_multiple_first_periods individual))%Q.
Proof.
  assert (Hsum :
    (evaluate_timetable individual teachers groups
     == inject_Z (penalty_teacher_conflict individual)
        + inject_Z (penalty_room_conflict individual)
        + inject_Z (penalty_group_conflict individual)
        + inject_Z (penalty_teacher_time_preference individual teachers)
        + penalty_teacher_workload_balance individual
        + inject_Z (penalty_group_home_room individual groups)
        + penalty_subject_distribution individual
        + penalty_group_schedule_gap individual groups
        + inject_Z (penalty_teacher_same_subject_across_groups individual)
        + inject_Z (penalty_teacher_multiple_first_periods individual))%Q).
  { unfold evaluate_timetable. cbv zeta. ring. }
  split; [| exact Hsum].
  intros Hnd. rewrite Hsum.
  assert (Hinj : forall z, 0 <= z -> (0 <= inject_Z z)%Q)
    by (intros z Hz; unfold Qle; cbn [Qnum Qden inject_Z]; lia).
  pose proof (Hinj _ (eq_ind_r (fun z => 0 <= z)
                        (collision_penalty_nonneg _)
                        (penalty_teacher_conflict_spec individual))) as H1.
  pose proof (Hinj _ (eq_ind_r (fun z => 0 <= z)
                        (collision_penalty_nonneg _)
                        (penalty_room_conflict_spec individual))) as H2.
  pose proof (group_conflict_covers_gap individual groups Hnd) as H38.
  pose proof (Hinj _ (penalty_teacher_time_preference_nonneg individual teachers))
    as H4.
  pose proof (penalty_teacher_workload_balance_nonneg individual) as H5.
  pose proof (Hinj _ (penalty_group_home_room_nonneg individual groups)) as H6.
  pose proof (penalty_subject_distribution_nonneg individual) as H7.
  pose proof (Hinj _ (penalty_teacher_same_subject_across_groups_nonneg
                        individual)) as H9.
  pose proof (Hinj _ (penalty_teacher_multiple_first_periods_nonneg individual))
    as H10.
  lra.
Qed.

Lemma evaluate_timetable_nonneg_witness :
  NoDup (map StudentGroup.group_id [group_one; group_two])
  /\ (0 <= evaluate_timetable double_lesson two_teachers
             [group_one; group_two])%Q.
Proof.
  assert (Hnd : NoDup (map StudentGroup.group_id [group_one; group_two]))
    by (repeat constructor; simpl; intuition discriminate).
  split; [exact Hnd |].
  apply (evaluate_timetable_nonneg double_lesson two_teachers
           [group_one; group_two]). exact Hnd.
Defined.

(** The proof uses that the list of groups is a catalog.  A list that is
    none, with group 1 listed 2001 times, takes 2001 times 0.5 off in the
    gap term for the two lessons of [double_lesson], against the 1000 of
    their group conflict. *)
Lemma evaluate_timetable_negative :
  ~ (0 <= evaluate_timetable double_lesson two_teachers
            (repeat group_one 2001))%Q.
Proof.
  unfold Qle. intros H. vm_compute in H. apply H. reflexivity.
Qed.

(* ================================================================== *)
(** * Further properties of the fitness terms *)

Lemma excess_zero_NoDup {A : Type} `{EqDec A} (l : list A) :
  excess l = 0 -> NoDup l.
Proof.
  induction l as [| x l IH]; intros Hex; [constructor |].
  rewrite excess_cons in Hex. pose proof (excess_nonneg l).
  destruct (in_dec eq_dec x l) as [Hin | Hnin]; [lia |].
  constructor; [assumption | apply IH; lia].
Qed.

Lemma collision_penalty_zero {A : Type} `{EqDec A} (keys : list A) :
  collision_penalty keys = 0 <-> NoDup keys.
Proof.
  split.
  - rewrite collision_penalty_excess. intros Hz. apply excess_zero_NoDup. lia.
  - apply collision_penalty_NoDup.
Qed.

Lemma fold_left_filter {A B : Type} (c : B -> bool) (f : A -> B -> A)
    (l : list B) (a : A) :
  fold_left (fun a x => if c x then f a x else a) l a
  = fold_left f (filter c l) a.
Proof.
  revert a. induction l as [| x l IH]; intros a; cbn [fold_left filter];
    [reflexivity |].
  destruct (c x); cbn [fold_left]; apply IH.
Qed.

(** ** Multiple first periods *)

Lemma penalty_teacher_multiple_first_periods_spec (individual : Chromosome.t) :
  penalty_teacher_multiple_first_periods individual
  = collision_penalty
      (map Gene.teacher_id (filter first_period (Chromosome.genes individual))).
Proof.
  unfold penalty_teacher_multiple_first_periods.
  rewrite (fold_left_filter first_period
             (fun (d : dict Z Z) gene =>
                dict_set d (Gene.teacher_id gene)
                  (dict_get d (Gene.teacher_id gene) 0 + 1))).
  exact (collision_count_spec Gene.teacher_id _).
Qed.

(** X1.  The multiple-first-periods term is the collision count of the
    teachers over the genes at period 1: 1000 for each first-period gene of
    a teacher beyond the first.  It is 0 exactly when no teacher has two
    genes at period 1. *)
Theorem multiple_first_periods_counts (individual : Chromosome.t) :
  let firsts :=
    map Gene.teacher_id (filter first_period (Chromosome.genes individual)) in
  penalty_teacher_multiple_first_periods individual = 1000 * excess firsts
  /\ (penalty_teacher_multiple_first_periods individual = 0 <-> NoDup firsts).
Proof.
  intros firsts. rewrite penalty_teacher_multiple_first_periods_spec.
  fold firsts. split.
  - apply collision_penalty_excess.
  - apply collision_penalty_zero.
Qed.

(** ** Same subject across groups *)

Lemma length_uniq_nodup {A : Type} `{EqDec A} (l : list A) :
  length (uniq l) = length (nodup eq_dec l).
Proof. apply Permutation_length, uniq_nodup_Permutation. Qed.

Lemma fold_set_add_uniq {A : Type} `{EqDec A} (l : list A) :
  fold_left set_add l [] = uniq l.
Proof. reflexivity. Qed.

Lemma same_subject_loop (sets : list (list Z)) (p0 : Z) :
  fold_left
    (fun penalty groups_set =>
       if (1 <? length groups_set)%nat
       then penalty + 1000 * (Z.of_nat (length groups_set) - 1)
       else penalty) sets p0
  = p0 + zsum (fun groups_set => collision_weight (Z.of_nat (length groups_set)))
              sets.
Proof.
  revert p0. induction sets as [| g sets IH]; intros p0.
  - unfold zsum. cbn [fold_left fold_right]. lia.
  - cbn [fold_left]. rewrite IH, zsum_cons. unfold collision_weight.
    destruct (1 <? length g)%nat eqn:E.
    + apply Nat.ltb_lt in E.
      destruct (1 <? Z.of_nat (length g)) eqn:E2; [lia |].
      apply Z.ltb_ge in E2. lia.
    + apply Nat.ltb_ge in E.
      destruct (1 <? Z.of_nat (length g)) eqn:E2; [| lia].
      apply Z.ltb_lt in E2. lia.
Qed.

Lemma penalty_teacher_same_subject_across_groups_spec
    (individual : Chromosome.t) :
  penalty_teacher_same_subject_across_groups individual
  = zsum (fun k => collision_weight
                     (Z.of_nat (length (groups_served
                                          (Chromosome.genes individual) k))))
         (nodup eq_dec (map teacher_course (Chromosome.genes individual))).
Proof.
  unfold penalty_teacher_same_subject_across_groups.
  rewrite (fold_left_ext _
             (update_step teacher_course []
                (fun gene (s : list Z) => set_add s (Gene.group_id gene)))).
  2:{ intros d gene. unfold update_step.
      change (Gene.teacher_id gene, Gene.course_id gene)
        with (teacher_course gene).
      rewrite dict_set_setdefault, dict_get_setdefault. reflexivity. }
  rewrite build_spec, same_subject_loop. unfold dict_values.
  rewrite map_map, zsum_map. cbn [snd]. cbn [Z.add].
  rewrite (zsum_Permutation _ _ _
             (uniq_nodup_Permutation
                (map teacher_course (Chromosome.genes individual)))).
  apply zsum_ext_in. intros k _. f_equal. f_equal.
  unfold groups_served, folded.
  rewrite <- length_uniq_nodup. f_equal.
  generalize (filter (fun x => if eq_dec (teacher_course x) k then true else false)
                     (Chromosome.genes individual)).
  intros l. unfold uniq.
  generalize (@nil Z). induction l as [| g l IH]; intros acc;
    cbn [fold_left map]; [reflexivity | apply IH].
Qed.

Lemma same_subject_facts (individual : Chromosome.t) :
  let genes := Chromosome.genes individual in
  penalty_teacher_same_subject_across_groups individual
  = zsum (fun k => 1000 * (Z.of_nat (length (groups_served genes k)) - 1))
         (nodup eq_dec (map teacher_course genes))
  /\ (penalty_teacher_same_subject_across_groups individual = 0 <->
      forall g1 g2, In g1 genes -> In g2 genes ->
        teacher_course g1 = teacher_course g2 ->
        Gene.group_id g1 = Gene.group_id g2).
Proof.
  intros genes. rewrite penalty_teacher_same_subject_across_groups_spec.
  fold genes.
  assert (Hpos : forall k, In k (nodup eq_dec (map teacher_course genes)) ->
            1 <= Z.of_nat (length (groups_served genes k))).
  { intros k Hk. apply nodup_In, in_map_iff in Hk.
    destruct Hk as (g & Hg & Hin).
    assert (Hin' : In (Gene.group_id g) (groups_served genes k)).
    { unfold groups_served. apply nodup_In, in_map, filter_In.
      split; [assumption |]. destruct (eq_dec (teacher_course g) k); congruence. }
    destruct (groups_served genes k); [destruct Hin' | cbn [length]; lia]. }
  assert (Hweight : forall k, In k (nodup eq_dec (map teacher_course genes)) ->
            collision_weight (Z.of_nat (length (groups_served genes k)))
            = 1000 * (Z.of_nat (length (groups_served genes k)) - 1)).
  { intros k Hk. specialize (Hpos k Hk). unfold collision_weight.
    destruct (1 <? Z.of_nat (length (groups_served genes k))) eqn:E;
      [reflexivity |]. apply Z.ltb_ge in E. lia. }
  rewrite (zsum_ext_in _ _ _ Hweight). split; [reflexivity |].
  split.
  - intros Hz g1 g2 H1 H2 Hk.
    assert (Hk1 : In (teacher_course g1) (nodup eq_dec (map teacher_course genes)))
      by (apply nodup_In, in_map; assumption).
    assert (Hone : Z.of_nat (length (groups_served genes (teacher_course g1))) <= 1).
    { destruct (Z_le_gt_dec
                  (Z.of_nat (length (groups_served genes (teacher_course g1)))) 1)
        as [Hle | Hgt]; [assumption |]. exfalso.
      assert (Hsum : 1000 <= zsum
                (fun k => 1000 * (Z.of_nat (length (groups_served genes k)) - 1))
                (nodup eq_dec (map teacher_course genes))).
      { apply in_split in Hk1. destruct Hk1 as (l1 & l2 & Hsplit).
        rewrite Hsplit, zsum_app, zsum_cons.
        assert (Hnn : forall l, incl l (nodup eq_dec (map teacher_course genes)) ->
                  0 <= zsum (fun k => 1000 * (Z.of_nat (length (groups_served genes k)) - 1)) l).
        { intros l Hl. apply zsum_nonneg. intros k Hkl.
          specialize (Hpos k (Hl k Hkl)). lia. }
        pose proof (Hnn l1 ltac:(rewrite Hsplit; intros x Hx; apply in_or_app;
                                 left; assumption)).
        pose proof (Hnn l2 ltac:(rewrite Hsplit; intros x Hx; apply in_or_app;
                                 right; right; assumption)).
        lia. }
      lia. }
    assert (Hg1 : In (Gene.group_id g1) (groups_served genes (teacher_course g1))).
    { unfold groups_served. apply nodup_In, in_map, filter_In.
      split; [assumption |].
      destruct (eq_dec (teacher_course g1) (teacher_course g1)); congruence. }
    assert (Hg2 : In (Gene.group_id g2) (groups_served genes (teacher_course g1))).
    { unfold groups_served. apply nodup_In, in_map, filter_In.
      split; [assumption |].
      destruct (eq_dec (teacher_course g2) (teacher_course g1)); congruence. }
    destruct (groups_served genes (teacher_course g1)) as [| a [| b l]].
    + destruct Hg1.
    + destruct Hg1 as [<- | []]. destruct Hg2 as [<- | []]. reflexivity.
    + cbn [length] in Hone. lia.
  - intros Hsame. rewrite (zsum_ext_in _ (fun _ => 0)).
    + rewrite zsum_const. lia.
    + intros k Hk. specialize (Hpos k Hk).
      assert (Hle : (length (groups_served genes k) <= 1)%nat).
      { assert (Hnd : NoDup (groups_served genes k))
          by (unfold groups_served; apply NoDup_nodup).
        assert (Hall : forall a b,
                  In a (groups_served genes k) -> In b (groups_served genes k) ->
                  a = b).
        { intros a b Ha Hb. unfold groups_served in Ha, Hb.
          apply nodup_In, in_map_iff in Ha. apply nodup_In, in_map_iff in Hb.
          destruct Ha as (ga & <- & Hga). destruct Hb as (gb & <- & Hgb).
          apply filter_In in Hga. apply filter_In in Hgb.
          destruct Hga as [Hga Eka]. destruct Hgb as [Hgb Ekb].
          destruct (eq_dec (teacher_course ga) k); [| discriminate].
          destruct (eq_dec (teacher_course gb) k); [| discriminate].
          apply Hsame; congruence. }
        remember (groups_served genes k) as served eqn:Es. clear Es Hpos.
        destruct served as [| a [| b l]]; cbn [length]; try lia.
        exfalso. inversion Hnd as [| ? ? Hnot _]; subst. apply Hnot.
        left. apply Hall; [right; left | left]; reflexivity. }
      lia.
Qed.

(** X2.  The same-subject term is the sum, over the (teacher, course) pairs
    that occur, of 1000 for each distinct group the pair serves beyond the
    first.  It is 0 exactly when every pair serves one group. *)
Theorem same_subject_counts (individual : Chromosome.t) :
  let genes := Chromosome.genes individual in
  penalty_teacher_same_subject_across_groups individual
  = zsum (fun k => 1000 * (Z.of_nat (length (groups_served genes k)) - 1))
         (nodup eq_dec (map teacher_course genes))
  /\ (penalty_teacher_same_subject_across_groups individual = 0 <->
      forall g1 g2, In g1 genes -> In g2 genes ->
        teacher_course g1 = teacher_course g2 ->
        Gene.group_id g1 = Gene.group_id g2).
Proof. exact (same_subject_facts individual). Qed.

(** ** Home rooms *)

Lemma group_home_of_home_room_of (groups : list StudentGroup.t) (g : Gene.t) :
  group_home_of groups (Gene.group_id g) = home_room_of groups g.
Proof.
  unfold group_home_of, home_room_of.
  induction groups as [| grp groups IH]; cbn [filter find map py_next];
    [reflexivity |].
  destruct (StudentGroup.group_id grp =? Gene.group_id g); [reflexivity | exact IH].
Qed.

(** X3.  The home-room term is the number of genes whose room differs from
    the home room of their group, where the group of a gene is the first
    listed group with its [group_id].  A gene of a group that is not
    listed, or that has no home room, is not counted. *)
Theorem home_room_counts (individual : Chromosome.t)
    (groups : list StudentGroup.t) :
  penalty_group_home_room individual groups
  = Z.of_nat (length (filter (away_from_home groups)
                             (Chromosome.genes individual)))
  /\ (forall g,
        ~ In (Gene.group_id g) (map StudentGroup.group_id groups) ->
        home_room_of groups g = None)
  /\ (forall g,
        home_room_of groups g = None ->
        penalty_group_home_room (Chromosome.add_gene individual g) groups
        = penalty_group_home_room individual groups)
  /\ (forall g home,
        home_room_of groups g = Some home ->
        penalty_group_home_room (Chromosome.add_gene individual g) groups
        = penalty_group_home_room individual groups
          + (if Gene.room_id g =? home then 0 else 1)).
Proof.
  assert (Hloop : forall l p0,
    fold_left
      (fun penalty gene =>
         match group_home_of groups (Gene.group_id gene) with
         | Some group_home =>
             if negb (Gene.room_id gene =? group_home)
             then penalty + 1 else penalty
         | None => penalty
         end) l p0
    = p0 + Z.of_nat (length (filter (away_from_home groups) l))).
  { induction l as [| g l IH]; intros p0; cbn [fold_left filter].
    - cbn [length]. lia.
    - rewrite IH, group_home_of_home_room_of. unfold away_from_home at 2.
      destruct (home_room_of groups g) as [home |]; [| lia].
      destruct (negb (Gene.room_id g =? home)); cbn [length]; lia. }
  assert (Hadd : forall g,
    penalty_group_home_room (Chromosome.add_gene individual g) groups
    = penalty_group_home_room individual groups
      + (if away_from_home groups g then 1 else 0)).
  { intros g. unfold penalty_group_home_room, Chromosome.add_gene.
    cbn [Chromosome.genes]. rewrite !Hloop, filter_app, length_app.
    cbn [filter]. destruct (away_from_home groups g); cbn [length]; lia. }
  split; [| split; [| split]].
  - unfold penalty_group_home_room. rewrite Hloop. lia.
  - intros g Hg. unfold home_room_of.
    destruct (find _ groups) as [grp |] eqn:E; [| reflexivity].
    apply find_some in E. destruct E as [Hin Heq]. apply Z.eqb_eq in Heq.
    exfalso. apply Hg. rewrite <- Heq. apply in_map. assumption.
  - intros g Hnone. rewrite Hadd. unfold away_from_home. rewrite Hnone. lia.
  - intros g home Hsome. rewrite Hadd. unfold away_from_home. rewrite Hsome.
    destruct (Gene.room_id g =? home); reflexivity.
Qed.

Lemma home_room_counts_witness :
  penalty_group_home_room
    (Chromosome.add_gene two_lessons_one_teacher (lesson 1 "Monday" 2 1 5 2))
    [StudentGroup.mk 1 "G1" (Some 1)]
  = penalty_group_home_room two_lessons_one_teacher
      [StudentGroup.mk 1 "G1" (Some 1)] + 1
  /\ penalty_group_home_room
       (Chromosome.add_gene two_lessons_one_teacher (lesson 3 "Monday" 2 1 5 2))
       [StudentGroup.mk 1 "G1" (Some 1)]
     = penalty_group_home_room two_lessons_one_teacher
         [StudentGroup.mk 1 "G1" (Some 1)].
Proof.
  destruct (home_room_counts two_lessons_one_teacher
              [StudentGroup.mk 1 "G1" (Some 1)])
    as (_ & Hunknown & Hnone & Hsome).
  split.
  - apply (Hsome (lesson 1 "Monday" 2 1 5 2) 1). reflexivity.
  - apply Hnone. apply Hunknown. simpl. intros [H | []]. discriminate.
Defined.

(** ** Workload balance *)

Lemma workload_dict (genes : list Gene.t) :
  fold_left
    (fun (teacher_assignments : dict Z Z) gene =>
       let teacher_assignments :=
         dict_setdefault teacher_assignments (Gene.teacher_id gene) 0 in
       dict_set teacher_assignments (Gene.teacher_id gene)
         (dict_get teacher_assignments (Gene.teacher_id gene) 0 + 1))
    genes []
  = map (fun t => (t, teacher_load genes t)) (uniq (map Gene.teacher_id genes)).
Proof.
  rewrite (fold_left_ext _ (update_step Gene.teacher_id 0 (fun _ c => c + 1))).
  2:{ intros d gene. unfold update_step. cbv zeta.
      rewrite dict_set_setdefault, dict_get_setdefault. reflexivity. }
  rewrite build_spec. apply map_ext. intros t. rewrite folded_count.
  reflexivity.
Qed.

Lemma Qabs_zero (q : Q) : (Qabs q == 0)%Q -> (q == 0)%Q.
Proof.
  intros Hq. pose proof (Qle_Qabs q) as H1. pose proof (Qle_Qabs (- q)) as H2.
  rewrite Qabs_opp in H2. lra.
Qed.

Lemma workload_loop_balanced (avg : Q) (loads : list Z) (p0 : Q) :
  (forall x, In x loads -> (inject_Z x == avg)%Q) ->
  (fold_left (fun penalty load => penalty + Qabs (inject_Z load - avg))
             loads p0 == p0)%Q.
Proof.
  revert p0. induction loads as [| x loads IH]; intros p0 Hall; cbn [fold_left];
    [reflexivity |].
  rewrite IH by (intros y Hy; apply Hall; right; assumption).
  assert (Hx : (inject_Z x - avg == 0)%Q)
    by (rewrite (Hall x (or_introl eq_refl)); lra).
  rewrite Hx. change (Qabs 0) with 0%Q. lra.
Qed.

Lemma workload_loop_zero (avg : Q) (loads : list Z) (p0 : Q) :
  (0 <= p0)%Q ->
  (fold_left (fun penalty load => penalty + Qabs (inject_Z load - avg))
             loads p0 == 0)%Q ->
  (p0 == 0)%Q /\ forall x, In x loads -> (inject_Z x == avg)%Q.
Proof.
  revert p0. induction loads as [| x loads IH]; intros p0 Hp0 Hz;
    cbn [fold_left] in Hz.
  - split; [assumption | intros x []].
  - pose proof (Qabs_nonneg (inject_Z x - avg)) as Hnn.
    destruct (IH (p0 + Qabs (inject_Z x - avg))%Q ltac:(lra) Hz) as [Hsum Hrest].
    assert (Hx : (Qabs (inject_Z x - avg) == 0)%Q) by lra.
    split; [lra |]. intros y [<- | Hy]; [| apply Hrest; assumption].
    apply Qabs_zero in Hx. lra.
Qed.

Lemma py_sum_const (c : Z) (l : list Z) :
  (forall x, In x l -> x = c) -> py_sum l = c * Z.of_nat (length l).
Proof.
  unfold py_sum.
  assert (Hgen : forall a, (forall x, In x l -> x = c) ->
            fold_left Z.add l a = a + c * Z.of_nat (length l)).
  { induction l as [| x l IH]; intros a Hall; cbn [fold_left length]; [lia |].
    rewrite IH by (intros y Hy; apply Hall; right; assumption).
    rewrite (Hall x (or_introl eq_refl)). lia. }
  intros Hall. rewrite Hgen by assumption. lia.
Qed.

Lemma workload_loop_iff (loads : list Z) :
  loads <> [] ->
  (fold_left
     (fun penalty load =>
        penalty + Qabs (inject_Z load
                        - inject_Z (py_sum loads)
                          / inject_Z (Z.of_nat (length loads))))
     loads 0 == 0)%Q
  <-> (forall x y, In x loads -> In y loads -> x = y).
Proof.
  intros Hne. split.
  - intros Hz x y Hx Hy.
    destruct (workload_loop_zero _ loads 0%Q ltac:(lra) Hz) as [_ Hall].
    apply inject_Z_injective. rewrite (Hall x Hx), (Hall y Hy). reflexivity.
  - intros Hsame. destruct loads as [| c rest] eqn:El; [congruence |].
    rewrite <- El in *.
    assert (Hc : forall x, In x loads -> x = c)
      by (intros x Hx; apply Hsame; [assumption | rewrite El; left; reflexivity]).
    rewrite workload_loop_balanced; [reflexivity |].
    intros x Hx. rewrite (Hc x Hx), (py_sum_const c loads Hc), inject_Z_mult.
    assert (Hn : ~ (inject_Z (Z.of_nat (length loads)) == 0)%Q).
    { rewrite El. cbn [length]. unfold Qeq. cbn [Qnum Qden inject_Z]. lia. }
    field. exact Hn.
Qed.

(** X4.  The workload term is 0 exactly when all the teachers that occur in
    the chromosome have the same number of genes. *)
Theorem workload_balance_zero (individual : Chromosome.t) :
  let genes := Chromosome.genes individual in
  (penalty_teacher_workload_balance individual == 0)%Q
  <-> (forall t1 t2,
         In t1 (map Gene.teacher_id genes) -> In t2 (map Gene.teacher_id genes) ->
         teacher_load genes t1 = teacher_load genes t2).
Proof.
  intros genes. unfold penalty_teacher_workload_balance. fold genes.
  rewrite workload_dict.
  assert (Hin : forall t, In t (uniq (map Gene.teacher_id genes))
                          <-> In t (map Gene.teacher_id genes))
    by (intros t; apply In_uniq).
  destruct (uniq (map Gene.teacher_id genes)) as [| t0 rest].
  - cbn [map]. split; [| reflexivity].
    intros _ t1 t2 H1 _. apply Hin in H1. destruct H1.
  - set (teachers := t0 :: rest) in *.
    change (map (fun t => (t, teacher_load genes t)) teachers)
      with ((t0, teacher_load genes t0)
            :: map (fun t => (t, teacher_load genes t)) rest) at 1.
    cbv iota beta.
    change ((t0, teacher_load genes t0)
            :: map (fun t => (t, teacher_load genes t)) rest)
      with (map (fun t => (t, teacher_load genes t)) teachers).
    unfold dict_values. rewrite map_map. cbn [snd].
    replace (length (map (fun t => (t, teacher_load genes t)) teachers))
      with (length (map (teacher_load genes) teachers))
      by (rewrite !length_map; reflexivity).
    rewrite workload_loop_iff by discriminate.
    split.
    + intros Hsame t1 t2 H1 H2. apply Hsame; apply in_map, Hin; assumption.
    + intros Hsame x y Hx Hy. apply in_map_iff in Hx. apply in_map_iff in Hy.
      destruct Hx as (t1 & <- & H1). destruct Hy as (t2 & <- & H2).
      apply Hsame; apply Hin; assumption.
Qed.

(** ** Sorting *)

Lemma insert_by_In {A : Type} (key : A -> Z) (x y : A) (l : list A) :
  In y (insert_by key x l) <-> y = x \/ In y l.
Proof.
  split.
  - intros Hin. apply (Permutation_in _ (insert_by_Permutation key x l)) in Hin.
    destruct Hin as [-> | Hin]; auto.
  - intros Hin.
    apply (Permutation_in _ (Permutation_sym (insert_by_Permutation key x l))).
    destruct Hin as [-> | Hin]; [left | right]; auto.
Qed.

Lemma insert_by_sorted {A : Type} (key : A -> Z) (x : A) (l : list A) :
  StronglySorted (fun a b => key a <= key b) l ->
  StronglySorted (fun a b => key a <= key b) (insert_by key x l).
Proof.
  induction 1 as [| y l Hl IH Hy]; cbn [insert_by].
  - repeat constructor.
  - destruct (key x <=? key y) eqn:E.
    + apply Z.leb_le in E. constructor; [constructor; assumption |].
      constructor; [assumption |].
      apply Forall_forall. intros z Hz.
      rewrite Forall_forall in Hy. specialize (Hy z Hz). lia.
    + apply Z.leb_gt in E. constructor; [assumption |].
      apply Forall_forall. intros z Hz. apply insert_by_In in Hz.
      destruct Hz as [-> | Hz]; [lia |].
      rewrite Forall_forall in Hy. apply Hy. assumption.
Qed.

Lemma sort_by_sorted {A : Type} (key : A -> Z) (l : list A) :
  StronglySorted (fun a b => key a <= key b) (sort_by key l).
Proof.
  induction l as [| x l IH]; cbn [sort_by]; [constructor |].
  apply insert_by_sorted. assumption.
Qed.

(** A stable sort: the elements of one key keep their order. *)
Lemma insert_by_stable {A : Type} (key : A -> Z) (x : A) (l : list A) (k : Z) :
  StronglySorted (fun a b => key a <= key b) l ->
  filter (fun a => key a =? k) (insert_by key x l)
  = filter (fun a => key a =? k) (x :: l).
Proof.
  induction 1 as [| y l Hl IH Hy]; cbn [insert_by]; [reflexivity |].
  destruct (key x <=? key y) eqn:E; [reflexivity |].
  apply Z.leb_gt in E. cbn [filter] in *. rewrite IH.
  destruct (key y =? k) eqn:Ey; [| reflexivity].
  destruct (key x =? k) eqn:Ex; [| reflexivity].
  apply Z.eqb_eq in Ey, Ex. lia.
Qed.

Lemma sort_by_stable {A : Type} (key : A -> Z) (l : list A) (k : Z) :
  filter (fun a => key a =? k) (sort_by key l) = filter (fun a => key a =? k) l.
Proof.
  induction l as [| x l IH]; cbn [sort_by]; [reflexivity |].
  rewrite insert_by_stable by apply sort_by_sorted.
  cbn [filter]. rewrite IH. reflexivity.
Qed.

(** ** Subject distribution *)

Lemma consecutive_pairs_nonneg (l : list Z) : 0 <= consecutive_pairs l.
Proof.
  induction l as [| a rest IH]; cbn [consecutive_pairs]; [lia |].
  destruct rest as [| b r]; [lia |].
  destruct (b =? a + 1); lia.
Qed.

Lemma consecutive_pairs_pos (l : list Z) :
  0 < consecutive_pairs l -> exists a, In a l /\ In (a + 1) l.
Proof.
  induction l as [| a rest IH]; cbn [consecutive_pairs]; [lia |].
  destruct rest as [| b r]; [lia |].
  destruct (b =? a + 1) eqn:E.
  - apply Z.eqb_eq in E. intros _. exists a. split; [left; reflexivity |].
    right. left. assumption.
  - intros Hpos. destruct (IH ltac:(lia)) as (c & Hc & Hc1).
    exists c. split; right; assumption.
Qed.

Lemma consecutive_pairs_sorted (l : list Z) (p : Z) :
  StronglySorted Z.le l -> In p l -> In (p + 1) l -> 1 <= consecutive_pairs l.
Proof.
  induction 1 as [| a rest Hrest IH Ha]; intros Hp Hp1; [destruct Hp |].
  destruct rest as [| b r].
  - destruct Hp as [<- | []]. destruct Hp1 as [E | []]. lia.
  - pose proof (consecutive_pairs_nonneg (b :: r)) as Hnn.
    change (consecutive_pairs (a :: b :: r))
      with ((if b =? a + 1 then 1 else 0) + consecutive_pairs (b :: r)).
    rewrite Forall_forall in Ha.
    assert (Hb : a <= b) by (apply Ha; left; reflexivity).
    inversion Hrest as [| ? ? _ Hbr]; subst. rewrite Forall_forall in Hbr.
    destruct (b =? a + 1) eqn:E; [lia |]. apply Z.eqb_neq in E.
    cut (1 <= consecutive_pairs (b :: r)); [lia |].
    apply IH.
    + destruct Hp as [E0 | Hp]; [| assumption]. subst p.
      destruct Hp1 as [E1 | Hp1]; [lia |].
      destruct Hp1 as [E2 | Hp1]; [lia |].
      specialize (Hbr _ Hp1). left. lia.
    + destruct Hp1 as [E0 | Hp1]; [| assumption].
      destruct Hp as [E1 | Hp]; [lia |].
      specialize (Ha _ Hp). lia.
Qed.

Lemma consecutive_loop_shift (a : Z) (l : list Z) (n k : nat) (p0 : Q) :
  (1 <= k)%nat ->
  fold_left
    (fun penalty i =>
       if nth i (a :: l) 0 =? nth (i - 1) (a :: l) 0 + 1
       then (penalty + (1 # 2))%Q else penalty)
    (seq (S k) n) p0
  = fold_left
      (fun penalty i =>
         if nth i l 0 =? nth (i - 1) l 0 + 1
         then (penalty + (1 # 2))%Q else penalty)
      (seq k n) p0.
Proof.
  revert k p0. induction n as [| n IH]; intros k p0 Hk; [reflexivity |].
  cbn [seq fold_left]. rewrite IH by lia.
  destruct k as [| k']; [lia |].
  replace (S (S k') - 1)%nat with (S k') by lia.
  replace (S k' - 1)%nat with k' by lia.
  reflexivity.
Qed.

Lemma consecutive_loop (periods : list Z) (p0 : Q) :
  (fold_left
     (fun penalty i =>
        if (nth i periods 0 =? nth (i - 1) periods 0 + 1)%Z
        then penalty + (1 # 2) else penalty)
     (seq 1 (length periods - 1)) p0
   == p0 + inject_Z (consecutive_pairs periods) * (1 # 2))%Q.
Proof.
  revert p0. induction periods as [| a rest IH]; intros p0.
  - cbn [length Nat.sub seq fold_left consecutive_pairs].
    change (inject_Z 0) with 0%Q. lra.
  - destruct rest as [| b r].
    + cbn [length Nat.sub seq fold_left consecutive_pairs].
      change (inject_Z 0) with 0%Q. lra.
    + replace (length (a :: b :: r) - 1)%nat with (S (length r))
        by (cbn [length]; lia).
      cbn [seq fold_left]. rewrite consecutive_loop_shift by lia.
      replace (length r) with (length (b :: r) - 1)%nat by (cbn [length]; lia).
      rewrite IH. cbn [nth Nat.sub consecutive_pairs].
      change (match r with
              | [] => 0
              | b0 :: _ => (if b0 =? b + 1 then 1 else 0) + consecutive_pairs r
              end) with (consecutive_pairs (b :: r)).
      destruct (b =? a + 1); rewrite inject_Z_plus.
      * change (inject_Z 1) with 1%Q. lra.
      * change (inject_Z 0) with 0%Q. lra.
Qed.

Lemma dict_append_update_val {K X Y : Type} `{EqDec K} (key : X -> K)
    (val : X -> Y) (d : dict K (list Y)) (x : X) :
  dict_append d (key x) (val x)
  = update_step key [] (fun x l => l ++ [val x]) d x.
Proof.
  unfold dict_append, update_step.
  rewrite dict_set_setdefault, dict_get_setdefault. reflexivity.
Qed.

Lemma fold_left_snoc_map {X Y : Type} (val : X -> Y) (l : list X)
    (acc : list Y) :
  fold_left (fun acc x => acc ++ [val x]) l acc = acc ++ map val l.
Proof.
  revert acc. induction l as [| x l IH]; intros acc; cbn [fold_left map].
  - rewrite app_nil_r. reflexivity.
  - rewrite IH, <- app_assoc. reflexivity.
Qed.

(** The dictionary of one teacher in the schedule the term builds: one
    entry per day of the teacher, holding the periods of that day. *)
Lemma folded_teacher_days (genes : list Gene.t) (teacher_id : Z) :
  folded Gene.teacher_id []
    (fun gene (inner : dict string (list Z)) =>
       dict_append inner (Gene.day gene) (Gene.period gene)) genes teacher_id
  = map (fun day => (day, teacher_periods genes teacher_id day))
        (teacher_days genes teacher_id).
Proof.
  unfold folded at 1.
  rewrite (fold_left_ext _
             (update_step Gene.day [] (fun x l => l ++ [Gene.period x])))
    by (intros inner gene; apply dict_append_update_val).
  rewrite build_spec. unfold teacher_days. apply map_ext. intros day.
  unfold folded, teacher_periods. rewrite fold_left_snoc_map. reflexivity.
Qed.

Lemma consecutive_days_loop (l : list (list Z)) (p0 : Q) :
  (fold_left
     (fun penalty periods =>
        let periods := py_sorted periods in
        fold_left
          (fun penalty i =>
             if (nth i periods 0 =? nth (i - 1) periods 0 + 1)%Z
             then penalty + (1 # 2) else penalty)
          (seq 1 (length periods - 1)) penalty) l p0
   == p0 + inject_Z
             (zsum (fun periods => consecutive_pairs (py_sorted periods)) l)
           * (1 # 2))%Q.
Proof.
  revert p0. induction l as [| periods l IH]; intros p0.
  - cbn [fold_left]. unfold zsum. cbn [fold_right].
    change (inject_Z 0) with 0%Q. lra.
  - cbn [fold_left]. rewrite IH, zsum_cons, inject_Z_plus. cbv zeta.
    rewrite consecutive_loop. lra.
Qed.

Lemma penalty_subject_distribution_spec (individual : Chromosome.t) :
  (penalty_subject_distribution individual
   == inject_Z (consecutive_lessons (Chromosome.genes individual)) * (1 # 2))%Q.
Proof.
  unfold penalty_subject_distribution, consecutive_lessons.
  cbv zeta.
  rewrite (fold_left_ext _
             (update_step Gene.teacher_id []
                (fun gene (inner : dict string (list Z)) =>
                   dict_append inner (Gene.day gene) (Gene.period gene))))
    by (intros tt gene;
        apply (dict_nested_append_update Gene.teacher_id Gene.day Gene.period)).
  rewrite build_spec. unfold dict_values at 2. rewrite map_map. cbn [snd].
  generalize (uniq (map Gene.teacher_id (Chromosome.genes individual))).
  intros ids.
  assert (Hgen : forall p0 : Q,
    (fold_left
       (fun penalty day_dict =>
          fold_left
            (fun penalty periods =>
               let periods := py_sorted periods in
               fold_left
                 (fun penalty i =>
                    if (nth i periods 0 =? nth (i - 1) periods 0 + 1)%Z
                    then penalty + (1 # 2) else penalty)
                 (seq 1 (length periods - 1)) penalty)
            (dict_values day_dict) penalty)
       (map (fun k =>
               folded Gene.teacher_id []
                 (fun gene (inner : dict string (list Z)) =>
                    dict_append inner (Gene.day gene) (Gene.period gene))
                 (Chromosome.genes individual) k) ids) p0
     == p0 + inject_Z
               (zsum (fun teacher_id =>
                        zsum (fun day =>
                                consecutive_pairs
                                  (py_sorted
                                     (teacher_periods
                                        (Chromosome.genes individual)
                                        teacher_id day)))
                             (teacher_days (Chromosome.genes individual)
                                           teacher_id))
                     ids)
             * (1 # 2))%Q).
  { induction ids as [| teacher_id ids IH]; intros p0.
    - cbn [map fold_left]. unfold zsum. cbn [fold_right].
      change (inject_Z 0) with 0%Q. lra.
    - cbn [map fold_left]. rewrite IH, zsum_cons, inject_Z_plus.
      rewrite folded_teacher_days. unfold dict_values. rewrite map_map.
      cbn [snd]. rewrite consecutive_days_loop, zsum_map. lra. }
  rewrite Hgen. lra.
Qed.

Lemma zsum_zero_iff {X : Type} (w : X -> Z) (l : list X) :
  (forall x, In x l -> 0 <= w x) ->
  (zsum w l = 0 <-> forall x, In x l -> w x = 0).
Proof.
  induction l as [| a l IH]; intros Hnn.
  - split; [intros _ x [] | reflexivity].
  - rewrite zsum_cons.
    assert (Ha : 0 <= w a) by (apply Hnn; left; reflexivity).
    assert (Hl : 0 <= zsum w l)
      by (apply zsum_nonneg; intros x Hx; apply Hnn; right; assumption).
    specialize (IH (fun x Hx => Hnn x (or_intror Hx))).
    split.
    + intros Hz x [<- | Hx]; [lia |]. apply IH; [lia | assumption].
    + intros Hall. rewrite (Hall a (or_introl eq_refl)).
      apply IH. intros x Hx. apply Hall. right. assumption.
Qed.

Lemma In_teacher_periods (genes : list Gene.t) (teacher_id : Z) (day : string)
    (p : Z) :
  In p (teacher_periods genes teacher_id day)
  <-> exists g, In g genes /\ Gene.teacher_id g = teacher_id
                /\ Gene.day g = day /\ Gene.period g = p.
Proof.
  unfold teacher_periods. rewrite in_map_iff. split.
  - intros (g & Hp & Hg). apply filter_In in Hg as [Hg Hd].
    apply filter_In in Hg as [Hg Ht].
    destruct (eq_dec (Gene.day g) day); [| discriminate].
    destruct (eq_dec (Gene.teacher_id g) teacher_id); [| discriminate].
    exists g. auto.
  - intros (g & Hg & Ht & Hd & Hp). exists g. split; [assumption |].
    apply filter_In. split; [apply filter_In; split; [assumption |] |].
    + destruct (eq_dec (Gene.teacher_id g) teacher_id); [reflexivity | contradiction].
    + destruct (eq_dec (Gene.day g) day); [reflexivity | contradiction].
Qed.

Lemma py_sorted_In (l : list Z) (p : Z) : In p (py_sorted l) <-> In p l.
Proof.
  unfold py_sorted. split; intros Hin.
  - eapply Permutation_in; [apply sort_by_Permutation | eassumption].
  - eapply Permutation_in;
      [apply Permutation_sym, sort_by_Permutation | eassumption].
Qed.

(** X5.  [penalty_subject_distribution]: the term is 0.5 for each pair of
    neighbours one period apart in the sorted periods of a teacher on a
    day, and it is zero exactly when no teacher has two genes on one day
    in consecutive periods. *)
Theorem subject_distribution_counts (individual : Chromosome.t) :
  (penalty_subject_distribution individual
   == inject_Z (consecutive_lessons (Chromosome.genes individual)) * (1 # 2))%Q
  /\ ((penalty_subject_distribution individual == 0)%Q
      <-> forall g1 g2,
            In g1 (Chromosome.genes individual) ->
            In g2 (Chromosome.genes individual) ->
            Gene.teacher_id g1 = Gene.teacher_id g2 ->
            Gene.day g1 = Gene.day g2 ->
            Gene.period g2 <> Gene.period g1 + 1).
Proof.
  split; [apply penalty_subject_distribution_spec |].
  rewrite penalty_subject_distribution_spec.
  set (genes := Chromosome.genes individual).
  assert (Hq : (inject_Z (consecutive_lessons genes) * (1 # 2) == 0)%Q
               <-> consecutive_lessons genes = 0).
  { split; intros Hz.
    - unfold Qeq in Hz. cbn [Qnum Qden inject_Z Qmult] in Hz. lia.
    - rewrite Hz. change (inject_Z 0) with 0%Q. lra. }
  rewrite Hq. unfold consecutive_lessons.
  rewrite zsum_zero_iff
    by (intros; apply zsum_nonneg; intros; apply consecutive_pairs_nonneg).
  split.
  - intros Hall g1 g2 H1 H2 Ht Hd Hp.
    assert (Hin : In (Gene.teacher_id g1) (uniq (map Gene.teacher_id genes)))
      by (apply In_uniq, in_map; assumption).
    specialize (Hall _ Hin).
    rewrite zsum_zero_iff in Hall
      by (intros; apply consecutive_pairs_nonneg).
    assert (Hday : In (Gene.day g1) (teacher_days genes (Gene.teacher_id g1))).
    { unfold teacher_days. apply In_uniq, in_map, filter_In.
      split; [assumption |].
      destruct (eq_dec (Gene.teacher_id g1) (Gene.teacher_id g1));
        [reflexivity | contradiction]. }
    specialize (Hall _ Hday).
    pose proof (consecutive_pairs_sorted
                  (py_sorted (teacher_periods genes (Gene.teacher_id g1)
                                (Gene.day g1)))
                  (Gene.period g1)) as Hs.
    assert (1 <= consecutive_pairs
                   (py_sorted (teacher_periods genes (Gene.teacher_id g1)
                                 (Gene.day g1)))); [| lia].
    apply Hs.
    + unfold py_sorted.
      pose proof (sort_by_sorted (fun x : Z => x)
                    (teacher_periods genes (Gene.teacher_id g1) (Gene.day g1)))
        as Hsorted.
      exact Hsorted.
    + apply py_sorted_In, In_teacher_periods. exists g1. auto.
    + apply py_sorted_In, In_teacher_periods. exists g2.
      repeat split; auto.
  - intros Hnone teacher_id _.
    apply zsum_zero_iff; [intros; apply consecutive_pairs_nonneg |].
    intros day _.
    pose proof (consecutive_pairs_nonneg
                  (py_sorted (teacher_periods genes teacher_id day))) as Hnn.
    destruct (Z.eq_dec
                (consecutive_pairs
                   (py_sorted (teacher_periods genes teacher_id day))) 0)
      as [E | Hne]; [assumption |].
    destruct (consecutive_pairs_pos
                (py_sorted (teacher_periods genes teacher_id day)))
      as (a & Ha & Ha1); [lia |].
    apply py_sorted_In, In_teacher_periods in Ha as (g1 & H1 & Ht1 & Hd1 & Hp1).
    apply py_sorted_In, In_teacher_periods in Ha1 as (g2 & H2 & Ht2 & Hd2 & Hp2).
    exfalso. apply (Hnone g1 g2); congruence.
Qed.

(** ** The gap term on a timetable without group conflicts *)

Lemma fold_max_In (l : list Z) (a : Z) : In (fold_left Z.max l a) (a :: l).
Proof.
  revert a. induction l as [| y l IH]; intros a; cbn [fold_left].
  - left. reflexivity.
  - destruct (IH (Z.max a y)) as [E | Hin].
    + destruct (Z.max_spec a y) as [[_ Em] | [_ Em]]; rewrite Em in E |- *.
      * right. left. assumption.
      * left. assumption.
    + right. right. assumption.
Qed.

Lemma fold_min_In (l : list Z) (a : Z) : In (fold_left Z.min l a) (a :: l).
Proof.
  revert a. induction l as [| y l IH]; intros a; cbn [fold_left].
  - left. reflexivity.
  - destruct (IH (Z.min a y)) as [E | Hin].
    + destruct (Z.min_spec a y) as [[_ Em] | [_ Em]]; rewrite Em in E |- *.
      * left. assumption.
      * right. left. assumption.
    + right. right. assumption.
Qed.

Lemma py_max_Permutation (l l' : list Z) :
  Permutation l l' -> py_max l = py_max l'.
Proof.
  intros HP.
  destruct l as [| a l].
  - apply Permutation_nil in HP. subst l'. reflexivity.
  - destruct l' as [| a' l'];
      [apply Permutation_sym, Permutation_nil in HP; discriminate |].
    pose proof (fold_max_In l a) as Hm. pose proof (fold_max_In l' a') as Hm'.
    change (fold_left Z.max l a) with (py_max (a :: l)) in Hm.
    change (fold_left Z.max l' a') with (py_max (a' :: l')) in Hm'.
    apply (Permutation_in _ HP) in Hm.
    apply (Permutation_in _ (Permutation_sym HP)) in Hm'.
    apply py_max_ge in Hm, Hm'. lia.
Qed.

Lemma py_min_Permutation (l l' : list Z) :
  Permutation l l' -> py_min l = py_min l'.
Proof.
  intros HP.
  destruct l as [| a l].
  - apply Permutation_nil in HP. subst l'. reflexivity.
  - destruct l' as [| a' l'];
      [apply Permutation_sym, Permutation_nil in HP; discriminate |].
    pose proof (fold_min_In l a) as Hm. pose proof (fold_min_In l' a') as Hm'.
    change (fold_left Z.min l a) with (py_min (a :: l)) in Hm.
    change (fold_left Z.min l' a') with (py_min (a' :: l')) in Hm'.
    apply (Permutation_in _ HP) in Hm.
    apply (Permutation_in _ (Permutation_sym HP)) in Hm'.
    apply py_min_le in Hm, Hm'. lia.
Qed.

Lemma gap_counted_Permutation (l l' : list Z) :
  Permutation l l' -> gap_counted l = gap_counted l'.
Proof.
  intros HP. unfold gap_counted.
  rewrite (py_max_Permutation l l' HP), (py_min_Permutation l l' HP),
    (Permutation_length HP).
  destruct l as [| a l].
  - apply Permutation_nil in HP. subst l'. reflexivity.
  - destruct l' as [| a' l'];
      [apply Permutation_sym, Permutation_nil in HP; discriminate |].
    reflexivity.
Qed.

Lemma gap_counted_NoDup (l : list Z) :
  NoDup l -> gap_counted l = gap_distinct l /\ 0 <= gap_counted l.
Proof.
  intros Hnd. unfold gap_counted, gap_distinct.
  rewrite (nodup_fixed_point eq_dec Hnd).
  split; [reflexivity |].
  destruct l as [| a l]; [lia |].
  assert (Ha : In a (a :: l)) by (left; reflexivity).
  pose proof (py_max_ge _ _ Ha). pose proof (py_min_le _ _ Ha).
  pose proof (NoDup_span (a :: l) (py_min (a :: l)) (py_max (a :: l)) Hnd)
    as Hspan.
  assert (Z.of_nat (length (a :: l))
          <= py_max (a :: l) - py_min (a :: l) + 1); [| lia].
  apply Hspan; [| lia].
  intros x Hx. split; [apply py_min_le | apply py_max_ge]; assumption.
Qed.

Lemma NoDup_map_filter {A B : Type} (f : A -> B) (c : A -> bool) (l : list A) :
  NoDup (map f l) -> NoDup (map f (filter c l)).
Proof.
  induction l as [| x l IH]; cbn [map filter]; intros Hnd; [constructor |].
  inversion Hnd as [| ? ? Hx Hl]; subst.
  destruct (c x); [| apply IH; assumption].
  cbn [map]. constructor; [| apply IH; assumption].
  intros Hin. apply Hx. apply in_map_iff in Hin as (y & Ey & Hy).
  apply filter_In in Hy as [Hy _]. rewrite <- Ey. apply in_map. assumption.
Qed.

Lemma lessons_of_In (genes : list Gene.t) (group_id : Z) (day : string)
    (g : Gene.t) :
  In g (lessons_of genes group_id day)
  <-> In g genes /\ Gene.group_id g = group_id /\ Gene.day g = day.
Proof.
  unfold lessons_of. rewrite !filter_In.
  destruct (eq_dec (Gene.group_id g) group_id);
    destruct (eq_dec (Gene.day g) day); intuition congruence.
Qed.

Lemma NoDup_lessons_periods (genes : list Gene.t) (group_id : Z)
    (day : string) :
  NoDup (map Gene.group_key genes) ->
  NoDup (map Gene.period (lessons_of genes group_id day)).
Proof.
  intros Hnd.
  apply (NoDup_map_inv (fun p : Z => (group_id, day, p))).
  rewrite map_map.
  rewrite (map_ext_in _ Gene.group_key).
  - unfold lessons_of. do 2 apply NoDup_map_filter. assumption.
  - intros g Hg. apply lessons_of_In in Hg as (_ & <- & <-). reflexivity.
Qed.

Lemma inject_Z_half_zero (z : Z) :
  (inject_Z z * (1 # 2) == 0)%Q <-> z = 0.
Proof.
  unfold Qeq. cbn [Qnum Qden inject_Z Qmult]. lia.
Qed.

Lemma inject_Z_half_nonneg (z : Z) :
  0 <= z -> (0 <= inject_Z z * (1 # 2))%Q.
Proof.
  unfold Qle. cbn [Qnum Qden inject_Z Qmult]. lia.
Qed.

(** X6.  On a chromosome where no two genes share their (group, day,
    period), the gap term is what the documentation describes: per listed
    group and day, the free periods between the first and the last lesson,
    times 0.5; in particular it is not negative. *)
Theorem schedule_gap_without_group_conflict (individual : Chromosome.t)
    (groups : list StudentGroup.t) :
  NoDup (map Gene.group_key (Chromosome.genes individual)) ->
  (penalty_group_schedule_gap individual groups
   == schedule_gap_distinct individual groups)%Q
  /\ (0 <= penalty_group_schedule_gap individual groups)%Q.
Proof.
  intros Hnd.
  assert (Hcell : forall group_id day,
    let ps := map Gene.period
                (lessons_of (Chromosome.genes individual) group_id day) in
    gap_counted
      (py_sorted
         (map Gene.period
            (sort_by Gene.period
               (lessons_of (Chromosome.genes individual) group_id day))))
    = gap_distinct ps /\ 0 <= gap_distinct ps).
  { intros group_id day ps.
    assert (HP : Permutation
                   (py_sorted
                      (map Gene.period
                         (sort_by Gene.period
                            (lessons_of (Chromosome.genes individual)
                               group_id day)))) ps).
    { unfold py_sorted. rewrite sort_by_Permutation. subst ps.
      apply Permutation_map, sort_by_Permutation. }
    rewrite (gap_counted_Permutation _ _ HP).
    destruct (gap_counted_NoDup ps) as [E Hnn];
      [apply NoDup_lessons_periods; assumption |].
    rewrite <- E. split; [reflexivity | assumption]. }
  rewrite penalty_group_schedule_gap_counted.
  unfold schedule_gap_counted, schedule_gap_distinct.
  rewrite (zsum_ext_in _
             (fun group =>
                zsum (fun day =>
                        gap_distinct
                          (map Gene.period
                             (lessons_of (Chromosome.genes individual)
                                (StudentGroup.group_id group) day)))
                     (days_of (Chromosome.genes individual)
                              (StudentGroup.group_id group)))).
  2:{ intros group _. apply zsum_ext_in. intros day _. apply Hcell. }
  split; [reflexivity |].
  apply inject_Z_half_nonneg, zsum_nonneg. intros group _.
  apply zsum_nonneg. intros day _. apply Hcell.
Qed.

Lemma schedule_gap_without_group_conflict_witness :
  NoDup (map Gene.group_key (Chromosome.genes two_lessons_one_teacher))
  /\ (penalty_group_schedule_gap two_lessons_one_teacher [group_one; group_two]
      == schedule_gap_distinct two_lessons_one_teacher [group_one; group_two])%Q
  /\ (0 <= penalty_group_schedule_gap two_lessons_one_teacher
             [group_one; group_two])%Q.
Proof.
  assert (Hnd : NoDup (map Gene.group_key
                         (Chromosome.genes two_lessons_one_teacher)))
    by (repeat constructor; simpl; intuition discriminate).
  split; [exact Hnd |].
  apply (schedule_gap_without_group_conflict two_lessons_one_teacher
           [group_one; group_two] Hnd).
Defined.

(** ** A total below the cost of one hard conflict *)

Lemma zsum_quantum {X : Type} (w : X -> Z) (l : list X) :
  (forall x, In x l -> w x = 0 \/ 1000 <= w x) ->
  zsum w l = 0 \/ 1000 <= zsum w l.
Proof.
  induction l as [| a l IH]; intros Hw; [left; reflexivity |].
  rewrite zsum_cons.
  destruct (Hw a (or_introl eq_refl)) as [Ea | Ha];
    destruct (IH (fun x Hx => Hw x (or_intror Hx))) as [El | Hl]; lia.
Qed.

Lemma collision_weight_quantum (count : Z) :
  collision_weight count = 0 \/ 1000 <= collision_weight count.
Proof.
  unfold collision_weight. destruct (1 <? count) eqn:E; [| left; reflexivity].
  apply Z.ltb_lt in E. right. lia.
Qed.

Lemma inject_Z_le (a b : Z) : a <= b -> (inject_Z a <= inject_Z b)%Q.
Proof. intros Hab. rewrite <- Zle_Qle. assumption. Qed.

Lemma group_conflict_gap_bound (individual : Chromosome.t)
    (groups : list StudentGroup.t) :
  NoDup (map StudentGroup.group_id groups) ->
  (inject_Z (excess (map Gene.group_key (Chromosome.genes individual)))
   * (1999 # 2)
   <= inject_Z (penalty_group_conflict individual)
      + penalty_group_schedule_gap individual groups)%Q.
Proof.
  intros Hnd.
  rewrite penalty_group_schedule_gap_counted, penalty_group_conflict_spec,
    collision_penalty_excess.
  pose proof (schedule_gap_counted_bound individual groups Hnd) as Hgap.
  set (E := excess (map Gene.group_key (Chromosome.genes individual))) in *.
  set (G := schedule_gap_counted individual groups) in *.
  unfold Qle, Qplus, Qmult, inject_Z. cbn [Qnum Qden].
  rewrite !Z.mul_1_r. change (Z.pos (1 * 2)) with 2.
  change (Z.pos (1 * (1 * 2))) with 2. lia.
Qed.

(** X7.  A total penalty below 999.5 certifies the hard constraints, when
    the listed groups have distinct identifiers: no two genes share a
    (teacher, day, period), a (room, day, period) or a (group, day,
    period), no teacher teaches one course to two groups, and no teacher
    has two genes at period 1. *)
Theorem evaluate_timetable_below_one_conflict (individual : Chromosome.t)
    (teachers : list Teacher.t) (groups : list StudentGroup.t) :
  NoDup (map StudentGroup.group_id groups) ->
  (evaluate_timetable individual teachers groups < 1999 # 2)%Q ->
  let genes := Chromosome.genes individual in
  NoDup (map Gene.teacher_key genes)
  /\ NoDup (map Gene.room_key genes)
  /\ NoDup (map Gene.group_key genes)
  /\ (forall g1 g2, In g1 genes -> In g2 genes ->
        teacher_course g1 = teacher_course g2 ->
        Gene.group_id g1 = Gene.group_id g2)
  /\ NoDup (map Gene.teacher_id (filter first_period genes)).
Proof.
  intros Hnd Hlow genes.
  assert (Hsum :
    (evaluate_timetable individual teachers groups
     == inject_Z (penalty_teacher_conflict individual)
        + inject_Z (penalty_room_conflict individual)
        + inject_Z (penalty_group_conflict individual)
        + inject_Z (penalty_teacher_time_preference individual teachers)
        + penalty_teacher_workload_balance individual
        + inject_Z (penalty_group_home_room individual groups)
        + penalty_subject_distribution individual
        + penalty_group_schedule_gap individual groups
        + inject_Z (penalty_teacher_same_subject_across_groups individual)
        + inject_Z (penalty_teacher_multiple_first_periods individual))%Q).
  { unfold evaluate_timetable. cbv zeta. ring. }
  rewrite Hsum in Hlow. clear Hsum.
  pose proof (inject_Z_le _ _ (eq_ind_r (fun z => 0 <= z)
                                 (collision_penalty_nonneg _)
                                 (penalty_teacher_conflict_spec individual)))
    as H1.
  pose proof (inject_Z_le _ _ (eq_ind_r (fun z => 0 <= z)
                                 (collision_penalty_nonneg _)
                                 (penalty_room_conflict_spec individual)))
    as H2.
  pose proof (group_conflict_covers_gap individual groups Hnd) as H38.
  pose proof (group_conflict_gap_bound individual groups Hnd) as H38'.
  pose proof (inject_Z_le _ _
                (penalty_teacher_time_preference_nonneg individual teachers))
    as H4.
  pose proof (penalty_teacher_workload_balance_nonneg individual) as H5.
  pose proof (inject_Z_le _ _
                (penalty_group_home_room_nonneg individual groups)) as H6.
  pose proof (penalty_subject_distribution_nonneg individual) as H7.
  pose proof (inject_Z_le _ _
                (penalty_teacher_same_subject_across_groups_nonneg individual))
    as H9.
  pose proof (inject_Z_le _ _
                (penalty_teacher_multiple_first_periods_nonneg individual))
    as H10.
  change (inject_Z 0) with 0%Q in *.
  assert (Hhard : forall z : Z,
            (z = 0 \/ 1000 <= z) -> (inject_Z z < 1000)%Q -> z = 0).
  { intros z [E | Hz] Hq; [assumption |].
    apply inject_Z_le in Hz. change (inject_Z 1000) with 1000%Q in Hz. lra. }
  assert (Hq : forall keys : list (Z * string * Z),
            collision_penalty keys = 0 \/ 1000 <= collision_penalty keys).
  { intros keys. apply zsum_quantum. intros k _.
    apply collision_weight_quantum. }
  assert (Ht : penalty_teacher_conflict individual = 0).
  { apply Hhard; [rewrite penalty_teacher_conflict_spec; apply Hq | lra]. }
  assert (Hr : penalty_room_conflict individual = 0).
  { apply Hhard; [rewrite penalty_room_conflict_spec; apply Hq | lra]. }
  assert (Hs : penalty_teacher_same_subject_across_groups individual = 0).
  { apply Hhard; [| lra].
    rewrite penalty_teacher_same_subject_across_groups_spec.
    apply zsum_quantum. intros k _. apply collision_weight_quantum. }
  assert (Hf : penalty_teacher_multiple_first_periods individual = 0).
  { apply Hhard; [| lra].
    rewrite penalty_teacher_multiple_first_periods_spec.
    apply zsum_quantum. intros k _. apply collision_weight_quantum. }
  assert (Hg : excess (map Gene.group_key genes) = 0).
  { pose proof (excess_nonneg (map Gene.group_key genes)) as Hnn.
    destruct (Z.eq_dec (excess (map Gene.group_key genes)) 0) as [E | Hne];
      [assumption |].
    assert (Hone : 1 <= excess (map Gene.group_key genes)) by lia.
    apply inject_Z_le in Hone. change (inject_Z 1) with 1%Q in Hone.
    fold genes in H38'. lra. }
  rewrite penalty_teacher_conflict_spec in Ht.
  rewrite penalty_room_conflict_spec in Hr.
  rewrite penalty_teacher_multiple_first_periods_spec in Hf.
  apply collision_penalty_zero in Ht, Hr, Hf.
  apply excess_zero_NoDup in Hg.
  repeat split; try assumption.
  apply (same_subject_facts individual). assumption.
Qed.

Lemma evaluate_timetable_below_one_conflict_witness :
  NoDup (map StudentGroup.group_id [group_one; group_two])
  /\ (evaluate_timetable tidy_timetable two_teachers [group_one; group_two]
      < 1999 # 2)%Q
  /\ NoDup (map Gene.teacher_key (Chromosome.genes tidy_timetable)).
Proof.
  assert (Hnd : NoDup (map StudentGroup.group_id [group_one; group_two]))
    by (repeat constructor; simpl; intuition discriminate).
  assert (Hlow : (evaluate_timetable tidy_timetable two_teachers
                    [group_one; group_two] < 1999 # 2)%Q)
    by (vm_compute; reflexivity).
  split; [exact Hnd |]. split; [exact Hlow |].
  apply (evaluate_timetable_below_one_conflict tidy_timetable two_teachers
           [group_one; group_two] Hnd Hlow).
Defined.

(** ** The order of the genes *)

Lemma fold_left_comm_Permutation {A X : Type} (step : A -> X -> A)
    (l l' : list X) :
  (forall p x y, step (step p x) y = step (step p y) x) ->
  Permutation l l' -> forall p0, fold_left step l p0 = fold_left step l' p0.
Proof.
  intros Hcomm. induction 1 as [| x l l' _ IH | x y l | l l' l'' _ IH1 _ IH2];
    intros p0; cbn [fold_left].
  - reflexivity.
  - apply IH.
  - rewrite Hcomm. reflexivity.
  - rewrite IH1. apply IH2.
Qed.

Lemma Permutation_filter' {A : Type} (c : A -> bool) (l l' : list A) :
  Permutation l l' -> Permutation (filter c l) (filter c l').
Proof.
  induction 1 as [| x l l' _ IH | x y l | l l' l'' _ IH1 _ IH2];
    cbn [filter].
  - constructor.
  - destruct (c x); [constructor |]; assumption.
  - destruct (c x), (c y); try reflexivity. apply perm_swap.
  - etransitivity; eassumption.
Qed.

Lemma uniq_Permutation {A : Type} `{EqDec A} (l l' : list A) :
  Permutation l l' -> Permutation (uniq l) (uniq l').
Proof.
  intros HP. apply NoDup_Permutation; [apply NoDup_uniq | apply NoDup_uniq |].
  intros x. rewrite !In_uniq. split; intros Hx.
  - apply (Permutation_in _ HP Hx).
  - apply (Permutation_in _ (Permutation_sym HP) Hx).
Qed.

Lemma nodup_Permutation {A : Type} `{EqDec A} (l l' : list A) :
  Permutation l l' -> Permutation (nodup eq_dec l) (nodup eq_dec l').
Proof.
  intros HP. apply NoDup_Permutation; [apply NoDup_nodup | apply NoDup_nodup |].
  intros x. rewrite !nodup_In. split; intros Hx.
  - apply (Permutation_in _ HP Hx).
  - apply (Permutation_in _ (Permutation_sym HP) Hx).
Qed.

Lemma occurrences_Permutation {A : Type} `{EqDec A} (l l' : list A) (k : A) :
  Permutation l l' -> occurrences l k = occurrences l' k.
Proof.
  intros HP. unfold occurrences. f_equal.
  induction HP as [| x l l' _ IH | x y l | l l' l'' _ IH1 _ IH2];
    cbn [count_occ].
  - reflexivity.
  - destruct (eq_dec x k); rewrite IH; reflexivity.
  - destruct (eq_dec x k), (eq_dec y k); reflexivity.
  - congruence.
Qed.

Lemma py_sum_zsum (l : list Z) : py_sum l = zsum (fun x => x) l.
Proof.
  unfold py_sum.
  assert (Hgen : forall a, fold_left Z.add l a = a + zsum (fun x => x) l).
  { induction l as [| x l IH]; intros a; cbn [fold_left].
    - unfold zsum. cbn [fold_right]. lia.
    - rewrite IH, zsum_cons. lia. }
  rewrite Hgen. lia.
Qed.

(** Sorted lists with the same elements are the same list. *)
Lemma sorted_Permutation_eq (l l' : list Z) :
  StronglySorted Z.le l -> StronglySorted Z.le l' -> Permutation l l' ->
  l = l'.
Proof.
  intros Hl. revert l'. induction Hl as [| a l Hl IH Ha]; intros l' Hl' HP.
  - apply Permutation_nil in HP. symmetry. assumption.
  - destruct Hl' as [| b l' Hl' Hb];
      [apply Permutation_sym, Permutation_nil in HP; discriminate |].
    rewrite Forall_forall in Ha, Hb.
    assert (E : a = b).
    { assert (Hab : In a (b :: l'))
        by (apply (Permutation_in _ HP); left; reflexivity).
      assert (Hba : In b (a :: l))
        by (apply (Permutation_in _ (Permutation_sym HP)); left; reflexivity).
      destruct Hab as [E | Hab]; [congruence |].
      destruct Hba as [E | Hba]; [congruence |].
      specialize (Ha _ Hba). specialize (Hb _ Hab). lia. }
    subst b. f_equal. apply IH; [assumption |].
    apply Permutation_cons_inv in HP. assumption.
Qed.

Lemma py_sorted_Permutation_eq (l l' : list Z) :
  Permutation l l' -> py_sorted l = py_sorted l'.
Proof.
  intros HP. unfold py_sorted.
  apply sorted_Permutation_eq.
  - exact (sort_by_sorted (fun x : Z => x) l).
  - exact (sort_by_sorted (fun x : Z => x) l').
  - rewrite !sort_by_Permutation. assumption.
Qed.

Lemma teacher_periods_Permutation (genes1 genes2 : list Gene.t)
    (teacher_id : Z) (day : string) :
  Permutation genes1 genes2 ->
  Permutation (teacher_periods genes1 teacher_id day)
              (teacher_periods genes2 teacher_id day).
Proof.
  intros HP. unfold teacher_periods.
  apply Permutation_map. do 2 apply Permutation_filter'. assumption.
Qed.

Lemma consecutive_lessons_Permutation (genes1 genes2 : list Gene.t) :
  Permutation genes1 genes2 ->
  consecutive_lessons genes1 = consecutive_lessons genes2.
Proof.
  intros HP. unfold consecutive_lessons.
  rewrite (zsum_Permutation _ _ _
             (uniq_Permutation _ _ (Permutation_map Gene.teacher_id HP))).
  apply zsum_ext_in. intros t _.
  unfold teacher_days.
  rewrite (zsum_Permutation _ _ _
             (uniq_Permutation _ _
                (Permutation_map Gene.day
                   (Permutation_filter'
                      (fun g => if eq_dec (Gene.teacher_id g) t
                                then true else false) _ _ HP)))).
  apply zsum_ext_in. intros d _.
  rewrite (py_sorted_Permutation_eq _ _
             (teacher_periods_Permutation genes1 genes2 t d HP)).
  reflexivity.
Qed.

Lemma schedule_gap_counted_Permutation (ind1 ind2 : Chromosome.t)
    (groups : list StudentGroup.t) :
  Permutation (Chromosome.genes ind1) (Chromosome.genes ind2) ->
  schedule_gap_counted ind1 groups = schedule_gap_counted ind2 groups.
Proof.
  intros HP. unfold schedule_gap_counted.
  apply zsum_ext_in. intros group _.
  unfold days_of.
  rewrite (zsum_Permutation _ _ _
             (uniq_Permutation _ _
                (Permutation_map Gene.day
                   (Permutation_filter'
                      (fun g => if eq_dec (Gene.group_id g)
                                     (StudentGroup.group_id group)
                                then true else false) _ _ HP)))).
  apply zsum_ext_in. intros d _.
  apply gap_counted_Permutation.
  unfold py_sorted. rewrite !sort_by_Permutation.
  apply Permutation_map. unfold lessons_of.
  do 2 apply Permutation_filter'. assumption.
Qed.

Lemma same_subject_Permutation (ind1 ind2 : Chromosome.t) :
  Permutation (Chromosome.genes ind1) (Chromosome.genes ind2) ->
  penalty_teacher_same_subject_across_groups ind1
  = penalty_teacher_same_subject_across_groups ind2.
Proof.
  intros HP. rewrite !penalty_teacher_same_subject_across_groups_spec.
  rewrite (zsum_Permutation _ _ _
             (nodup_Permutation _ _ (Permutation_map teacher_course HP))).
  apply zsum_ext_in. intros k _. do 2 f_equal.
  apply Permutation_length. unfold groups_served.
  apply nodup_Permutation, Permutation_map, Permutation_filter'. assumption.
Qed.

Lemma collision_penalty_Permutation {K : Type} `{EqDec K} (l l' : list K) :
  Permutation l l' -> collision_penalty l = collision_penalty l'.
Proof.
  intros HP. rewrite !collision_penalty_excess, (excess_Permutation _ _ HP).
  reflexivity.
Qed.

(* ================================================================== *)
(** * The order of the genes and the fitness *)

Lemma teacher_assignments_spec (individual : Chromosome.t) :
  teacher_assignments individual
  = map (fun t => (t, teacher_load (Chromosome.genes individual) t))
        (uniq (map Gene.teacher_id (Chromosome.genes individual))).
Proof. exact (workload_dict (Chromosome.genes individual)). Qed.

Lemma teacher_load_Permutation (genes1 genes2 : list Gene.t) (t : Z) :
  Permutation genes1 genes2 -> teacher_load genes1 t = teacher_load genes2 t.
Proof.
  intros HP. apply occurrences_Permutation, Permutation_map. assumption.
Qed.

Lemma teacher_assignments_Permutation (ind1 ind2 : Chromosome.t) :
  Permutation (Chromosome.genes ind1) (Chromosome.genes ind2) ->
  Permutation (teacher_assignments ind1) (teacher_assignments ind2).
Proof.
  intros HP. rewrite !teacher_assignments_spec.
  rewrite (map_ext _ (fun t => (t, teacher_load (Chromosome.genes ind2) t)))
    by (intros t; rewrite (teacher_load_Permutation _ _ t HP); reflexivity).
  apply Permutation_map, uniq_Permutation, Permutation_map. assumption.
Qed.

Lemma teacher_assignments_same_order (ind1 ind2 : Chromosome.t) :
  Permutation (Chromosome.genes ind1) (Chromosome.genes ind2) ->
  uniq (map Gene.teacher_id (Chromosome.genes ind1))
  = uniq (map Gene.teacher_id (Chromosome.genes ind2)) ->
  teacher_assignments ind1 = teacher_assignments ind2.
Proof.
  intros HP Horder. rewrite !teacher_assignments_spec, Horder.
  apply map_ext. intros t.
  rewrite (teacher_load_Permutation _ _ t HP). reflexivity.
Qed.

(** The second loop of the term reads the chromosome through the
    dictionary only. *)
Lemma workload_same_assignments (ind1 ind2 : Chromosome.t) :
  teacher_assignments ind1 = teacher_assignments ind2 ->
  penalty_teacher_workload_balance ind1 = penalty_teacher_workload_balance ind2.
Proof.
  unfold penalty_teacher_workload_balance, teacher_assignments. cbv zeta.
  intros ->. reflexivity.
Qed.

Lemma workload_binary64_same_assignments (ind1 ind2 : Chromosome.t) :
  teacher_assignments ind1 = teacher_assignments ind2 ->
  penalty_teacher_workload_balance_binary64 ind1
  = penalty_teacher_workload_balance_binary64 ind2.
Proof.
  unfold penalty_teacher_workload_balance_binary64. cbv zeta.
  intros ->. reflexivity.
Qed.

Lemma time_preference_Permutation (ind1 ind2 : Chromosome.t)
    (teachers : list Teacher.t) :
  Permutation (Chromosome.genes ind1) (Chromosome.genes ind2) ->
  penalty_teacher_time_preference ind1 teachers
  = penalty_teacher_time_preference ind2 teachers.
Proof.
  intros HP. unfold penalty_teacher_time_preference. cbv zeta.
  apply fold_left_comm_Permutation; [| assumption].
  intros p x y.
  destruct (negb (py_in (Gene.day x, Gene.period x)
                    (teacher_pref_of teachers (Gene.teacher_id x))));
    destruct (negb (py_in (Gene.day y, Gene.period y)
                      (teacher_pref_of teachers (Gene.teacher_id y))));
    reflexivity.
Qed.

Lemma home_room_Permutation (ind1 ind2 : Chromosome.t)
    (groups : list StudentGroup.t) :
  Permutation (Chromosome.genes ind1) (Chromosome.genes ind2) ->
  penalty_group_home_room ind1 groups = penalty_group_home_room ind2 groups.
Proof.
  intros HP. unfold penalty_group_home_room. cbv zeta.
  apply fold_left_comm_Permutation; [| assumption].
  intros p x y.
  destruct (group_home_of groups (Gene.group_id x)) as [hx |];
    destruct (group_home_of groups (Gene.group_id y)) as [hy |];
    try reflexivity;
    try destruct (negb (Gene.room_id x =? hx));
    try destruct (negb (Gene.room_id y =? hy)); reflexivity.
Qed.

Lemma first_periods_Permutation (ind1 ind2 : Chromosome.t) :
  Permutation (Chromosome.genes ind1) (Chromosome.genes ind2) ->
  penalty_teacher_multiple_first_periods ind1
  = penalty_teacher_multiple_first_periods ind2.
Proof.
  intros HP. rewrite !penalty_teacher_multiple_first_periods_spec.
  apply collision_penalty_Permutation, Permutation_map, Permutation_filter'.
  assumption.
Qed.

Lemma subject_distribution_Permutation (ind1 ind2 : Chromosome.t) :
  Permutation (Chromosome.genes ind1) (Chromosome.genes ind2) ->
  (penalty_subject_distribution ind1 == penalty_subject_distribution ind2)%Q.
Proof.
  intros HP.
  rewrite !penalty_subject_distribution_spec,
    (consecutive_lessons_Permutation _ _ HP).
  reflexivity.
Qed.

Lemma schedule_gap_Permutation (ind1 ind2 : Chromosome.t)
    (groups : list StudentGroup.t) :
  Permutation (Chromosome.genes ind1) (Chromosome.genes ind2) ->
  (penalty_group_schedule_gap ind1 groups
   == penalty_group_schedule_gap ind2 groups)%Q.
Proof.
  intros HP.
  rewrite !penalty_group_schedule_gap_counted,
    (schedule_gap_counted_Permutation ind1 ind2 groups HP).
  reflexivity.
Qed.

(** X8.  What a change of the order of the genes does to the fitness.
    Every term other than the workload-balance term is unchanged.  The
    workload-balance term is computed from the same loads of the same
    teachers, taken in the order in which the teachers first appear in
    the chromosome: when that order is the same in both chromosomes the
    dictionary of loads, the workload-balance term and the total penalty
    are the same too. *)
Theorem evaluate_timetable_gene_order (ind1 ind2 : Chromosome.t)
    (teachers : list Teacher.t) (groups : list StudentGroup.t) :
  Permutation (Chromosome.genes ind1) (Chromosome.genes ind2) ->
  (penalty_teacher_conflict ind1 = penalty_teacher_conflict ind2
   /\ penalty_room_conflict ind1 = penalty_room_conflict ind2
   /\ penalty_group_conflict ind1 = penalty_group_conflict ind2
   /\ penalty_teacher_time_preference ind1 teachers
      = penalty_teacher_time_preference ind2 teachers
   /\ penalty_group_home_room ind1 groups = penalty_group_home_room ind2 groups
   /\ (penalty_subject_distribution ind1 == penalty_subject_distribution ind2)%Q
   /\ (penalty_group_schedule_gap ind1 groups
       == penalty_group_schedule_gap ind2 groups)%Q
   /\ penalty_teacher_same_subject_across_groups ind1
      = penalty_teacher_same_subject_across_groups ind2
   /\ penalty_teacher_multiple_first_periods ind1
      = penalty_teacher_multiple_first_periods ind2)
  /\ Permutation (teacher_assignments ind1) (teacher_assignments ind2)
  /\ (uniq (map Gene.teacher_id (Chromosome.genes ind1))
      = uniq (map Gene.teacher_id (Chromosome.genes ind2)) ->
      teacher_assignments ind1 = teacher_assignments ind2
      /\ penalty_teacher_workload_balance ind1
         = penalty_teacher_workload_balance ind2
      /\ (evaluate_timetable ind1 teachers groups
          == evaluate_timetable ind2 teachers groups)%Q).
Proof.
  intros HP.
  assert (Ht : penalty_teacher_conflict ind1 = penalty_teacher_conflict ind2).
  { rewrite !penalty_teacher_conflict_spec.
    apply collision_penalty_Permutation, Permutation_map. assumption. }
  assert (Hr : penalty_room_conflict ind1 = penalty_room_conflict ind2).
  { rewrite !penalty_room_conflict_spec.
    apply collision_penalty_Permutation, Permutation_map. assumption. }
  assert (Hg : penalty_group_conflict ind1 = penalty_group_conflict ind2).
  { rewrite !penalty_group_conflict_spec.
    apply collision_penalty_Permutation, Permutation_map. assumption. }
  pose proof (time_preference_Permutation ind1 ind2 teachers HP) as Hpref.
  pose proof (home_room_Permutation ind1 ind2 groups HP) as Hhome.
  pose proof (subject_distribution_Permutation ind1 ind2 HP) as Hdist.
  pose proof (schedule_gap_Permutation ind1 ind2 groups HP) as Hgap.
  pose proof (same_subject_Permutation ind1 ind2 HP) as Hsame.
  pose proof (first_periods_Permutation ind1 ind2 HP) as Hfirst.
  split; [repeat split; assumption |].
  split; [apply teacher_assignments_Permutation; assumption |].
  intros Horder.
  pose proof (teacher_assignments_same_order ind1 ind2 HP Horder) as Hta.
  pose proof (workload_same_assignments ind1 ind2 Hta) as Hload.
  split; [assumption |]. split; [assumption |].
  unfold evaluate_timetable. cbv zeta.
  rewrite Ht, Hr, Hg, Hpref, Hload, Hhome, Hsame, Hfirst, Hdist, Hgap.
  reflexivity.
Qed.

Lemma evaluate_timetable_gene_order_witness :
  Permutation (Chromosome.genes busy_teacher_last)
              (Chromosome.genes busy_teacher_last_reversed)
  /\ uniq (map Gene.teacher_id (Chromosome.genes busy_teacher_last))
     = uniq (map Gene.teacher_id (Chromosome.genes busy_teacher_last_reversed))
  /\ (evaluate_timetable busy_teacher_last two_teachers [group_one; group_two]
      == evaluate_timetable busy_teacher_last_reversed two_teachers
           [group_one; group_two])%Q.
Proof.
  assert (HP : Permutation (Chromosome.genes busy_teacher_last)
                 (Chromosome.genes busy_teacher_last_reversed)).
  { unfold busy_teacher_last, busy_teacher_last_reversed.
    cbn [Chromosome.genes].
    do 2 apply Permutation_app_head. apply Permutation_rev. }
  assert (Horder :
    uniq (map Gene.teacher_id (Chromosome.genes busy_teacher_last))
    = uniq (map Gene.teacher_id (Chromosome.genes busy_teacher_last_reversed)))
    by reflexivity.
  split; [exact HP |]. split; [exact Horder |].
  destruct (evaluate_timetable_gene_order busy_teacher_last
              busy_teacher_last_reversed two_teachers [group_one; group_two] HP)
    as (_ & _ & Hsame).
  exact (proj2 (proj2 (Hsame Horder))).
Defined.

(** Without the same order of the teachers the workload-balance term of
    the source need not be the same: the loads 1, 1, 1, 1, 1, 3 and
    1, 1, 3, 1, 1, 1 of the same eight genes have the average
    1.3333333333333333 and the sums 3.3333333333333335 and
    3.3333333333333326, where the exact term is 10/3 for both. *)
Lemma workload_balance_binary64_order :
  Permutation (Chromosome.genes busy_teacher_last)
              (Chromosome.genes busy_teacher_third)
  /\ penalty_teacher_workload_balance_binary64 busy_teacher_last
     = S754_finite false 7505999378950826 (-51)
  /\ penalty_teacher_workload_balance_binary64 busy_teacher_third
     = S754_finite false 7505999378950824 (-51)
  /\ (penalty_teacher_workload_balance busy_teacher_last == 10 # 3)%Q
  /\ (penalty_teacher_workload_balance busy_teacher_third == 10 # 3)%Q.
Proof.
  split; [| split; [| split; [| split]]].
  - unfold busy_teacher_last, busy_teacher_third. cbn [Chromosome.genes].
    apply Permutation_app_head, Permutation_app_comm.
  - vm_compute. reflexivity.
  - vm_compute. reflexivity.
  - vm_compute. reflexivity.
  - vm_compute. reflexivity.
Qed.

(* ================================================================== *)
(** * The timetable view of a chromosome *)

Lemma to_timetable_keys (individual : Chromosome.t) :
  dict_keys (Chromosome.to_timetable individual)
  = uniq (map Gene.group_id (Chromosome.genes individual)).
Proof.
  unfold Chromosome.to_timetable, dict_keys.
  rewrite (fold_left_ext _
             (update_step Gene.group_id []
                (fun gene (inner : dict string (list Gene.t)) =>
                   dict_append inner (Gene.day gene) gene)))
    by (intros tt gene;
        apply (dict_nested_append_update Gene.group_id Gene.day (fun g => g))).
  rewrite build_spec, !map_map. cbn [fst]. apply map_id.
Qed.

Lemma to_timetable_cell (individual : Chromosome.t) (group_id : Z)
    (day : string) :
  dict_get (dict_get (Chromosome.to_timetable individual) group_id []) day []
  = sort_by Gene.period
      (lessons_of (Chromosome.genes individual) group_id day).
Proof.
  rewrite to_timetable_get. unfold dict_get.
  rewrite (dict_find_tabulate
             (fun day => sort_by Gene.period
                           (lessons_of (Chromosome.genes individual)
                              group_id day))).
  destruct (in_dec eq_dec day (days_of (Chromosome.genes individual) group_id))
    as [_ | Hn]; [reflexivity |].
  unfold days_of in Hn. rewrite In_uniq in Hn.
  replace (lessons_of (Chromosome.genes individual) group_id day)
    with (@nil Gene.t); [reflexivity |].
  symmetry. unfold lessons_of. apply filter_nil. intros g Hg.
  destruct (eq_dec (Gene.day g) day) as [E | _]; [| reflexivity].
  exfalso. apply Hn. rewrite <- E. apply in_map. assumption.
Qed.

(** X9.  [to_timetable]: the groups are those of the genes, in the order of
    their first gene, and so are the days of a group.  The list of a group
    and day holds exactly the genes of that group and day, each as often
    as the chromosome has it, in the order of their periods; genes of one
    period keep the order they have in the chromosome. *)
Theorem to_timetable_spec (individual : Chromosome.t) :
  let genes := Chromosome.genes individual in
  let timetable := Chromosome.to_timetable individual in
  dict_keys timetable = uniq (map Gene.group_id genes)
  /\ (forall group_id,
        dict_keys (dict_get timetable group_id []) = days_of genes group_id)
  /\ (forall group_id day,
        let lessons := dict_get (dict_get timetable group_id []) day [] in
        StronglySorted (fun g1 g2 => Gene.period g1 <= Gene.period g2) lessons
        /\ Permutation lessons (lessons_of genes group_id day)
        /\ (forall g, In g lessons <->
                      In g genes /\ Gene.group_id g = group_id
                      /\ Gene.day g = day)
        /\ (forall p, filter (fun g => Gene.period g =? p) lessons
                      = filter (fun g => Gene.period g =? p)
                               (lessons_of genes group_id day))).
Proof.
  intros genes timetable. subst timetable.
  split; [apply to_timetable_keys |]. split.
  - intros group_id. rewrite to_timetable_get. unfold dict_keys.
    rewrite map_map. cbn [fst]. apply map_id.
  - intros group_id day lessons. subst lessons.
    rewrite to_timetable_cell. fold genes.
    split; [apply sort_by_sorted |].
    split; [apply sort_by_Permutation |].
    split; [| intros p; apply sort_by_stable].
    intros g. rewrite <- lessons_of_In. split; intros Hg.
    + apply (Permutation_in _ (sort_by_Permutation _ _) Hg).
    + apply (Permutation_in _ (Permutation_sym (sort_by_Permutation _ _)) Hg).
Qed.

(* ================================================================== *)
(** * Further properties of the operators *)

(** ** Statements and relations on the store *)

Section Always.
Variable R : State -> State -> Prop.
Hypothesis R_ok : store_order R.

Lemma always_ret {A : Type} (a : A) : always R (ret a).
Proof. intros s. apply R_ok. Qed.

Lemma always_raise {A : Type} (e : exn) : always R (@raise A e).
Proof. intros s. apply R_ok. Qed.

Lemma always_lift {A : Type} (r : result A) : always R (lift r).
Proof. intros s. apply R_ok. Qed.

Lemma always_get_genes (c : nat) : always R (get_genes c).
Proof. intros s. apply R_ok. Qed.

Lemma always_read_gene (r : nat) : always R (read_gene r).
Proof. intros s. apply R_ok. Qed.

Lemma always_bind {A C : Type} (m : M A) (k : A -> M C) (Q : A -> Prop) :
  always R m -> returns m Q -> (forall a, Q a -> always R (k a)) ->
  always R (bind m k).
Proof.
  intros Hm HQ Hk s. unfold bind.
  specialize (Hm s). specialize (HQ s).
  destruct (m s) as [[a | e] s1]; cbn [snd] in *; [| assumption].
  destruct R_ok as (_ & R_trans & _).
  apply (R_trans _ s1); [assumption |].
  apply Hk. apply (HQ a s1). reflexivity.
Qed.

Lemma always_seq {A C : Type} (m : M A) (k : A -> M C) :
  always R m -> (forall a, always R (k a)) -> always R (bind m k).
Proof.
  intros Hm Hk. apply (always_bind m k (fun _ => True)); auto.
  intros s a s' _. exact I.
Qed.

Lemma always_when (b : bool) (m : M unit) : always R m -> always R (when b m).
Proof. intros Hm. destruct b; [assumption | apply always_ret]. Qed.

Lemma always_for_each {A : Type} (l : list A) (body : A -> M unit) :
  (forall x, In x l -> always R (body x)) -> always R (for_each l body).
Proof.
  induction l as [| x l IH]; intros Hbody; cbn [for_each];
    [apply always_ret |].
  apply always_seq; [apply Hbody; left; reflexivity |].
  intros _. apply IH. intros y Hy. apply Hbody. right. assumption.
Qed.

Lemma on_success_always {A : Type} (m : M A) : always R m -> on_success R m.
Proof.
  intros Hm s a s' Hrun. specialize (Hm s). rewrite Hrun in Hm. assumption.
Qed.

Lemma on_success_bind {A C : Type} (m : M A) (k : A -> M C) :
  on_success R m -> (forall a, on_success R (k a)) -> on_success R (bind m k).
Proof.
  intros Hm Hk s c s'. unfold bind.
  destruct (m s) as [[a | e] s1] eqn:Em; [| discriminate].
  destruct R_ok as (_ & R_trans & _).
  intros Hrun. apply (R_trans _ s1); [apply (Hm s a); assumption |].
  apply (Hk a s1 c). assumption.
Qed.

Lemma on_success_for_each {A : Type} (l : list A) (body : A -> M unit) :
  (forall x, In x l -> on_success R (body x)) ->
  on_success R (for_each l body).
Proof.
  induction l as [| x l IH]; intros Hbody; cbn [for_each];
    [apply on_success_always, always_ret |].
  apply on_success_bind; [apply Hbody; left; reflexivity |].
  intros _. apply IH. intros y Hy. apply Hbody. right. assumption.
Qed.

Lemma always_draw : always R draw.
Proof. intros s. apply R_ok. Qed.

Lemma always_random_random : always R random_random.
Proof.
  unfold random_random. apply always_seq; [apply always_draw |].
  intros n. apply always_ret.
Qed.

Lemma always_random_randint (a b : Z) : always R (random_randint a b).
Proof.
  unfold random_randint. destruct (b <? a); [apply always_raise |].
  apply always_seq; [apply always_draw | intros n; apply always_ret].
Qed.

Lemma always_random_choice {A : Type} (seq : list A) :
  always R (random_choice seq).
Proof.
  destruct seq as [| x seq]; cbn [random_choice]; [apply always_raise |].
  apply always_seq; [apply always_draw | intros n; apply always_ret].
Qed.
End Always.

Lemma returns_random_choice {A : Type} (seq : list A) :
  returns (random_choice seq) (fun x => In x seq).
Proof.
  intros s a s'. destruct seq as [| x seq]; cbn [random_choice];
    [unfold raise; discriminate |].
  unfold bind, draw, ret. intros Hrun.
  replace a with (nth (N.to_nat (rng s 0%nat) mod length (x :: seq))
                      (x :: seq) x) by congruence.
  apply nth_In. apply Nat.mod_upper_bound. discriminate.
Qed.

Lemma returns_lift {A : Type} (r : result A) :
  returns (lift r) (fun a => r = Ok a).
Proof. intros s a s'. unfold lift. intros Hrun. inversion Hrun. reflexivity. Qed.

Lemma returns_randint (a b : Z) :
  returns (random_randint a b) (fun x => a <= x <= b).
Proof.
  intros s x s'. unfold random_randint.
  destruct (b <? a) eqn:E; [unfold raise; discriminate |].
  apply Z.ltb_ge in E. unfold bind, draw, ret. intros Hrun.
  inversion Hrun; subst. apply randint_range. assumption.
Qed.

Section Genewise.
Variable P : nat -> Gene.t -> Gene.t -> Prop.
Hypothesis P_refl : forall r g, P r g g.
Hypothesis P_trans : forall r g1 g2 g3, P r g1 g2 -> P r g2 g3 -> P r g1 g3.

Lemma genewise_order : store_order (genewise P).
Proof.
  split; [| split].
  - intros s. split; [reflexivity | intros r; apply P_refl].
  - intros s1 s2 s3 [Hc12 Hg12] [Hc23 Hg23]. split; [congruence |].
    intros r. apply (P_trans r _ (gene_objs s2 r)); auto.
  - intros s. split; [reflexivity | intros r; apply P_refl].
Qed.

Lemma always_write_gene (r : nat) (f : Gene.t -> Gene.t) :
  (forall g, P r g (f g)) -> always (genewise P) (write_gene r f).
Proof.
  intros Hf s. split; [reflexivity |]. intros r'.
  cbn [write_gene snd gene_objs].
  destruct (Nat.eqb_spec r' r) as [-> | _]; [apply Hf | apply P_refl].
Qed.

(** The time sub-mutation, write by write. *)
Lemma always_mutate_time (gene : nat) (days : list string) (periods : list Z)
    (timeslots : list TimeSlot.t) :
  (forall d g, In d days -> P gene g (Gene.set_day g d)) ->
  (forall p g, In p periods -> P gene g (Gene.set_period g p)) ->
  (forall slot g, In slot (map TimeSlot.slot_id timeslots) ->
     P gene g (Gene.set_timeslot_id g slot)) ->
  always (genewise P)
    (mutate_time gene days periods (timeslot_map_of timeslots)).
Proof.
  intros Hday Hperiod Hslot. unfold mutate_time.
  pose proof genewise_order as Hok.
  apply (always_bind _ Hok _ _ (fun d => In d days));
    [apply always_random_choice; assumption | apply returns_random_choice |].
  intros d Hd.
  apply (always_seq _ Hok);
    [apply always_write_gene; intros g; apply Hday; assumption |].
  intros _.
  apply (always_bind _ Hok _ _ (fun p => In p periods));
    [apply always_random_choice; assumption | apply returns_random_choice |].
  intros p Hp.
  apply (always_seq _ Hok);
    [apply always_write_gene; intros g; apply Hperiod; assumption |].
  intros _.
  apply (always_seq _ Hok); [apply always_read_gene; assumption |].
  intros g.
  apply (always_bind _ Hok _ _
           (fun slot => dict_getitem (timeslot_map_of timeslots)
                          (Gene.day g, Gene.period g) = Ok slot));
    [apply always_lift; assumption | apply returns_lift |].
  intros slot Hfind. apply always_write_gene. intros g0. apply Hslot.
  unfold dict_getitem in Hfind. rewrite timeslot_map_find in Hfind.
  destruct (matching_slot timeslots (Gene.day g) (Gene.period g)) as [ts |]
    eqn:Ets; [| discriminate].
  cbn [option_map] in Hfind. inversion Hfind; subst.
  apply in_map. apply (matching_slot_Some _ _ _ _ Ets).
Qed.

(** The body of the loop of [mutation] is four trials; the first three
    guard one write each.  What holds of every statement that leaves the
    store within [P], and of sequences of such, holds of the body if it
    holds of the fourth guarded statement. *)
Lemma mutate_gene_rule (gene : nat) (teachers : list Teacher.t)
    (rooms : list Room.t) (courses : list Course.t) (days : list string)
    (periods : list Z) (timeslot_map : dict (string * Z) Z) (indpb : Q)
    (X : forall A : Type, M A -> Prop) :
  (forall t g, In t teachers ->
     P gene g (Gene.set_teacher_id g (Teacher.teacher_id t))) ->
  (forall c g, In c courses ->
     P gene g (Gene.set_course_id g (Course.course_id c))) ->
  (forall rm g, In rm rooms ->
     P gene g (Gene.set_room_id g (Room.room_id rm))) ->
  (forall A (m : M A), always (genewise P) m -> X A m) ->
  (forall A C (m : M A) (k : A -> M C),
     X A m -> (forall a, X C (k a)) -> X C (bind m k)) ->
  X unit (mutate_time gene days periods timeslot_map) ->
  X unit (mutate_gene teachers rooms courses days periods timeslot_map
            indpb gene).
Proof.
  intros Hteacher Hcourse Hroom Hweak Hbind Hrest.
  pose proof genewise_order as Hok.
  assert (Hrandom : X Q random_random)
    by (apply Hweak, always_random_random; assumption).
  assert (Hpick : forall (A : Type) (l : list A) (f : A -> Gene.t -> Gene.t),
            (forall a g, In a l -> P gene g (f a g)) ->
            forall b, X unit (when b (a <- random_choice l ;;
                                      write_gene gene (f a)))).
  { intros A l f Hf b. apply Hweak, always_when; try assumption.
    apply (always_bind _ Hok _ _ (fun a => In a l));
      [apply always_random_choice; assumption | apply returns_random_choice |].
    intros a Hin. apply always_write_gene. intros g. apply Hf. assumption. }
  unfold mutate_gene.
  apply Hbind; [assumption | intros u1].
  apply Hbind;
    [apply (Hpick _ teachers
              (fun t g => Gene.set_teacher_id g (Teacher.teacher_id t)));
     assumption | intros _].
  apply Hbind; [assumption | intros u2].
  apply Hbind;
    [apply (Hpick _ courses
              (fun c g => Gene.set_course_id g (Course.course_id c)));
     assumption | intros _].
  apply Hbind; [assumption | intros u3].
  apply Hbind;
    [apply (Hpick _ rooms
              (fun r g => Gene.set_room_id g (Room.room_id r)));
     assumption | intros _].
  apply Hbind; [assumption | intros u4].
  destruct (Qltb u4 indpb); cbn [when]; [assumption |].
  apply Hweak, always_ret. assumption.
Qed.
End Genewise.

(** ** Mutation: what it writes, and where *)

Lemma same_or_in_refl {A : Type} (l : list A) (a : A) : same_or_in l a a.
Proof. left. reflexivity. Qed.

Lemma same_or_in_trans {A : Type} (l : list A) (a b c : A) :
  same_or_in l a b -> same_or_in l b c -> same_or_in l a c.
Proof.
  unfold same_or_in. intros [-> | Hb] [-> | Hc]; auto.
Qed.

Lemma mutated_from_refl (teachers : list Teacher.t) (rooms : list Room.t)
    (courses : list Course.t) (timeslots : list TimeSlot.t) (g : Gene.t) :
  mutated_from teachers rooms courses timeslots g g.
Proof. unfold mutated_from. repeat split; apply same_or_in_refl. Qed.

Lemma mutated_from_trans (teachers : list Teacher.t) (rooms : list Room.t)
    (courses : list Course.t) (timeslots : list TimeSlot.t)
    (g1 g2 g3 : Gene.t) :
  mutated_from teachers rooms courses timeslots g1 g2 ->
  mutated_from teachers rooms courses timeslots g2 g3 ->
  mutated_from teachers rooms courses timeslots g1 g3.
Proof.
  unfold mutated_from.
  intros (Ha & Hb & Hc & Hd & He & Hf & Hg & Hh)
         (Ha' & Hb' & Hc' & Hd' & He' & Hf' & Hg' & Hh').
  repeat split; try congruence; eapply same_or_in_trans; eassumption.
Qed.

Lemma mutation_run (individual : nat) (teachers : list Teacher.t)
    (rooms : list Room.t) (courses : list Course.t)
    (timeslots : list TimeSlot.t) (indpb : Q) (s : State) :
  mutation individual teachers rooms courses timeslots indpb s
  = let run :=
      for_each (chromosomes s individual)
        (mutate_gene teachers rooms courses mutation_days mutation_periods
           (timeslot_map_of timeslots) indpb) s in
    (match fst run with
     | Ok _ => Ok individual
     | Raise e => Raise e
     end, snd run).
Proof.
  unfold mutation, bind, get_genes, ret. cbv zeta.
  destruct (for_each _ _ s) as [[u | e] s1]; reflexivity.
Qed.

Lemma mutation_genewise (individual : nat) (teachers : list Teacher.t)
    (rooms : list Room.t) (courses : list Course.t)
    (timeslots : list TimeSlot.t) (indpb : Q) (s : State) :
  genewise
    (fun r g g' =>
       mutated_from teachers rooms courses timeslots g g'
       /\ (~ In r (chromosomes s individual) -> g' = g))
    s (snd (mutation individual teachers rooms courses timeslots indpb s)).
Proof.
  rewrite mutation_run. cbv zeta. cbn [snd].
  set (P := fun (r : nat) (g g' : Gene.t) =>
              mutated_from teachers rooms courses timeslots g g'
              /\ (~ In r (chromosomes s individual) -> g' = g)).
  assert (P_refl : forall r g, P r g g)
    by (intros r g; split; [apply mutated_from_refl | reflexivity]).
  assert (P_trans : forall r g1 g2 g3, P r g1 g2 -> P r g2 g3 -> P r g1 g3).
  { intros r g1 g2 g3 [H12 F12] [H23 F23]. split.
    - eapply mutated_from_trans; eassumption.
    - intros Hr. rewrite (F23 Hr). apply F12. assumption. }
  pose proof (genewise_order P P_refl P_trans) as Hok.
  apply (always_for_each _ Hok). intros gene Hgene.
  assert (Hwrite : forall g g', mutated_from teachers rooms courses timeslots g g' ->
                                P gene g g')
    by (intros g g' Hm; split; [assumption | intros Hn; contradiction]).
  apply (mutate_gene_rule P P_refl P_trans gene teachers rooms courses
           mutation_days mutation_periods (timeslot_map_of timeslots) indpb
           (fun A m => always (genewise P) m)).
  - intros t g Ht. apply Hwrite. unfold mutated_from.
    cbn [Gene.set_teacher_id Gene.group_id Gene.is_fixed Gene.teacher_id
         Gene.course_id Gene.room_id Gene.day Gene.period Gene.timeslot_id].
    repeat split; try apply same_or_in_refl.
    right. apply in_map. assumption.
  - intros c g Hc. apply Hwrite. unfold mutated_from.
    cbn [Gene.set_course_id Gene.group_id Gene.is_fixed Gene.teacher_id
         Gene.course_id Gene.room_id Gene.day Gene.period Gene.timeslot_id].
    repeat split; try apply same_or_in_refl.
    right. apply in_map. assumption.
  - intros rm g Hrm. apply Hwrite. unfold mutated_from.
    cbn [Gene.set_room_id Gene.group_id Gene.is_fixed Gene.teacher_id
         Gene.course_id Gene.room_id Gene.day Gene.period Gene.timeslot_id].
    repeat split; try apply same_or_in_refl.
    right. apply in_map. assumption.
  - intros A m Hm. assumption.
  - intros A C m k Hm Hk. apply (always_seq _ Hok); assumption.
  - apply (always_mutate_time P P_refl P_trans).
    + intros d g Hd. apply Hwrite. unfold mutated_from.
      cbn [Gene.set_day Gene.group_id Gene.is_fixed Gene.teacher_id
           Gene.course_id Gene.room_id Gene.day Gene.period Gene.timeslot_id].
      repeat split; try apply same_or_in_refl. right. assumption.
    + intros p g Hp. apply Hwrite. unfold mutated_from.
      cbn [Gene.set_period Gene.group_id Gene.is_fixed Gene.teacher_id
           Gene.course_id Gene.room_id Gene.day Gene.period Gene.timeslot_id].
      repeat split; try apply same_or_in_refl. right. assumption.
    + intros slot g Hslot. apply Hwrite. unfold mutated_from.
      cbn [Gene.set_timeslot_id Gene.group_id Gene.is_fixed Gene.teacher_id
           Gene.course_id Gene.room_id Gene.day Gene.period Gene.timeslot_id].
      repeat split; try apply same_or_in_refl. right. assumption.
Qed.

(** X10.  Whatever [mutation] draws and however it ends, it writes only to
    the gene objects of the chromosome it is given, and what it writes
    comes from its arguments: a new teacher, course or room is one of the
    list it was passed, a new day is a weekday, a new period is 1, 2 or 3,
    and a new [timeslot_id] is the identifier of a slot of the catalog. *)
Theorem mutation_assigns_from_catalogs (individual : nat)
    (teachers : list Teacher.t) (rooms : list Room.t)
    (courses : list Course.t) (timeslots : list TimeSlot.t) (indpb : Q)
    (s : State) :
  let s' :=
    snd (mutation individual teachers rooms courses timeslots indpb s) in
  (forall r, mutated_from teachers rooms courses timeslots
               (gene_objs s r) (gene_objs s' r))
  /\ (forall r, ~ In r (chromosomes s individual) ->
                gene_objs s' r = gene_objs s r).
Proof.
  intros s'. subst s'.
  destruct (mutation_genewise individual teachers rooms courses timeslots
              indpb s) as [_ Hgenes].
  split; intros r; apply (Hgenes r).
Qed.

(** ** Mutation and the invariants of a gene *)

Lemma post_init_Ok (g : Gene.t) :
  Gene.post_init g = Ok tt <-> 1 <= Gene.period g /\ In (Gene.day g) Gene.valid_days.
Proof.
  unfold Gene.post_init, py_in.
  destruct (Gene.period g <? 1) eqn:Ep.
  - apply Z.ltb_lt in Ep. split; [discriminate | lia].
  - apply Z.ltb_ge in Ep.
    destruct (in_dec eq_dec (Gene.day g) Gene.valid_days) as [Hin | Hnin];
      cbn [negb].
    + split; [intros _; split; [lia | assumption] | reflexivity].
    + split; [discriminate | tauto].
Qed.

Lemma mutated_from_valid (teachers : list Teacher.t) (rooms : list Room.t)
    (courses : list Course.t) (timeslots : list TimeSlot.t) (g g' : Gene.t) :
  mutated_from teachers rooms courses timeslots g g' ->
  Gene.post_init g = Ok tt -> Gene.post_init g' = Ok tt.
Proof.
  intros (_ & _ & _ & _ & _ & Hday & Hperiod & _). rewrite !post_init_Ok.
  intros [Hp Hd]. split.
  - destruct Hperiod as [-> | Hin]; [assumption |].
    unfold mutation_periods in Hin. cbn [In] in Hin. lia.
  - destruct Hday as [-> | Hin]; [assumption | exact Hin].
Qed.

Lemma mutate_time_consistent (gene : nat) (timeslots : list TimeSlot.t) :
  on_success
    (genewise (fun _ g g' => slot_consistent timeslots g ->
                             slot_consistent timeslots g'))
    (mutate_time gene mutation_days mutation_periods
       (timeslot_map_of timeslots)).
Proof.
  intros s a s' Hrun.
  set (F := fun (r : nat) (g g' : Gene.t) => r <> gene -> g' = g).
  assert (F_refl : forall r g, F r g g) by (intros r g _; reflexivity).
  assert (F_trans : forall r g1 g2 g3, F r g1 g2 -> F r g2 g3 -> F r g1 g3).
  { intros r g1 g2 g3 H12 H23 Hr. rewrite (H23 Hr). apply H12. assumption. }
  assert (Hframe : genewise F s s').
  { pose proof (always_mutate_time F F_refl F_trans gene mutation_days
                  mutation_periods timeslots) as Hf.
    assert (Hs : genewise F s
                   (snd (mutate_time gene mutation_days mutation_periods
                           (timeslot_map_of timeslots) s)))
      by (apply Hf; intros x g _ Hne; contradiction).
    rewrite Hrun in Hs. exact Hs. }
  destruct Hframe as [Hchrom Hother]. split; [assumption |].
  intros r Hcons.
  destruct (Nat.eq_dec r gene) as [-> | Hne];
    [| rewrite (Hother r Hne); assumption].
  pose proof (mutate_time_spec gene timeslots s) as Hspec.
  cbv zeta in Hspec. rewrite Hrun in Hspec. cbn [fst snd] in Hspec.
  destruct Hspec as (_ & _ & Hslot).
  unfold slot_consistent. rewrite timeslot_map_find.
  destruct (matching_slot timeslots (Gene.day (gene_objs s' gene))
              (Gene.period (gene_objs s' gene))) as [ts |].
  - destruct Hslot as [_ ->]. reflexivity.
  - destruct Hslot as [Hraise _]. discriminate.
Qed.

Lemma mutation_consistent (individual : nat) (teachers : list Teacher.t)
    (rooms : list Room.t) (courses : list Course.t)
    (timeslots : list TimeSlot.t) (indpb : Q) (s : State) :
  fst (mutation individual teachers rooms courses timeslots indpb s)
  = Ok individual ->
  genewise (fun _ g g' => slot_consistent timeslots g ->
                          slot_consistent timeslots g')
    s (snd (mutation individual teachers rooms courses timeslots indpb s)).
Proof.
  rewrite mutation_run. cbv zeta. cbn [fst snd].
  set (P := fun (_ : nat) (g g' : Gene.t) =>
              slot_consistent timeslots g -> slot_consistent timeslots g').
  assert (P_refl : forall r g, P r g g) by (intros r g H; exact H).
  assert (P_trans : forall r g1 g2 g3, P r g1 g2 -> P r g2 g3 -> P r g1 g3)
    by (intros r g1 g2 g3 H12 H23 H; apply H23, H12, H).
  pose proof (genewise_order P P_refl P_trans) as Hok.
  assert (Hloop : on_success (genewise P)
                    (for_each (chromosomes s individual)
                       (mutate_gene teachers rooms courses mutation_days
                          mutation_periods (timeslot_map_of timeslots)
                          indpb))).
  { apply (on_success_for_each _ Hok). intros gene _.
    apply (mutate_gene_rule P P_refl P_trans gene teachers rooms courses
             mutation_days mutation_periods (timeslot_map_of timeslots) indpb
             (fun A m => on_success (genewise P) m)).
    - intros t g _ H. exact H.
    - intros c g _ H. exact H.
    - intros rm g _ H. exact H.
    - intros A m Hm. apply on_success_always. assumption.
    - intros A C m k Hm Hk. apply (on_success_bind _ Hok); assumption.
    - apply mutate_time_consistent. }
  destruct (for_each _ _ s) as [[u | e] s1] eqn:Erun; cbn [fst snd];
    [| discriminate].
  intros _. apply (Hloop s u s1). assumption.
Qed.

(** X11.  [mutation] assigns attributes without running the validation of
    the constructor, and still keeps what the constructor checks: a gene
    with a period of at least 1 on a weekday has them afterwards, however
    the call ends.  When the call returns, a gene whose [timeslot_id] was
    the catalog's identifier for its day and period still has the
    catalog's identifier for its day and period. *)
Theorem mutation_preserves_gene_invariants (individual : nat)
    (teachers : list Teacher.t) (rooms : list Room.t)
    (courses : list Course.t) (timeslots : list TimeSlot.t) (indpb : Q)
    (s : State) (r : nat) :
  let run := mutation individual teachers rooms courses timeslots indpb s in
  (Gene.post_init (gene_objs s r) = Ok tt ->
   Gene.post_init (gene_objs (snd run) r) = Ok tt)
  /\ (fst run = Ok individual ->
      slot_consistent timeslots (gene_objs s r) ->
      slot_consistent timeslots (gene_objs (snd run) r)).
Proof.
  intros run. subst run. split.
  - apply (mutated_from_valid teachers rooms courses timeslots).
    destruct (mutation_genewise individual teachers rooms courses timeslots
                indpb s) as [_ Hgenes].
    apply (Hgenes r).
  - intros Hok.
    destruct (mutation_consistent individual teachers rooms courses timeslots
                indpb s Hok) as [_ Hgenes].
    apply (Hgenes r).
Qed.

(** ** Mutation with a probability of zero *)

Lemma Qltb_random_false (n : N) (indpb : Q) :
  (indpb <= 0)%Q ->
  Qltb (Z.of_N (n mod 9007199254740992) # 9007199254740992) indpb = false.
Proof.
  intros Hp. unfold Qltb.
  assert (Hle : (indpb
                 <= Z.of_N (n mod 9007199254740992) # 9007199254740992)%Q).
  { eapply Qle_trans; [exact Hp |].
    pose proof (N2Z.is_nonneg (n mod 9007199254740992)) as Hnn.
    unfold Qle. cbn [Qnum Qden]. rewrite Z.mul_0_l, Z.mul_1_r. exact Hnn. }
  apply Qle_bool_iff in Hle. rewrite Hle. reflexivity.
Qed.

Lemma iter_advance (n : nat) (s : State) :
  chromosomes (Nat.iter n advance s) = chromosomes s
  /\ gene_objs (Nat.iter n advance s) = gene_objs s
  /\ forall i, rng (Nat.iter n advance s) i = rng s (n + i)%nat.
Proof.
  induction n as [| n (IHc & IHg & IHr)].
  - repeat split.
  - change (Nat.iter (S n) advance s) with (advance (Nat.iter n advance s)).
    split; [exact IHc |]. split; [exact IHg |].
    intros i.
    change (rng (advance (Nat.iter n advance s)) i)
      with (rng (Nat.iter n advance s) (S i)).
    rewrite IHr. f_equal. lia.
Qed.

Lemma trial_idle (indpb : Q) (m : M unit) (s : State) :
  (indpb <= 0)%Q ->
  (u <- random_random ;; when (Qltb u indpb) m) s = (Ok tt, advance s).
Proof.
  intros Hp. unfold random_random, bind, draw, ret. cbv beta iota.
  rewrite (Qltb_random_false _ indpb Hp). reflexivity.
Qed.

Lemma trial_idle_then {C : Type} (indpb : Q) (m : M unit) (rest : M C)
    (s : State) :
  (indpb <= 0)%Q ->
  (u <- random_random ;; when (Qltb u indpb) m ;; rest) s = rest (advance s).
Proof.
  intros Hp. unfold random_random, bind, draw, ret. cbv beta iota.
  rewrite (Qltb_random_false _ indpb Hp). reflexivity.
Qed.

Lemma mutate_gene_idle (teachers : list Teacher.t) (rooms : list Room.t)
    (courses : list Course.t) (days : list string) (periods : list Z)
    (timeslot_map : dict (string * Z) Z) (indpb : Q) (gene : nat) (s : State) :
  (indpb <= 0)%Q ->
  mutate_gene teachers rooms courses days periods timeslot_map indpb gene s
  = (Ok tt, Nat.iter 4 advance s).
Proof.
  intros Hp. unfold mutate_gene.
  rewrite !trial_idle_then by assumption.
  rewrite trial_idle by assumption. reflexivity.
Qed.

Lemma for_each_idle (teachers : list Teacher.t) (rooms : list Room.t)
    (courses : list Course.t) (days : list string) (periods : list Z)
    (timeslot_map : dict (string * Z) Z) (indpb : Q) (genes : list nat)
    (s : State) :
  (indpb <= 0)%Q ->
  for_each genes
    (mutate_gene teachers rooms courses days periods timeslot_map indpb) s
  = (Ok tt, Nat.iter (4 * length genes) advance s).
Proof.
  intros Hp. revert s. induction genes as [| gene genes IH]; intros s.
  - reflexivity.
  - cbn [for_each]. unfold bind at 1. rewrite mutate_gene_idle by assumption.
    rewrite IH. f_equal.
    replace (4 * length (gene :: genes))%nat
      with (4 * length genes + 4)%nat by (cbn [length]; lia).
    rewrite Nat.iter_add. reflexivity.
Qed.

(** X12.  With a probability of zero or less, [mutation] returns and has
    changed no gene, whatever the catalogs (empty ones too): all it has
    done is to draw four random numbers per gene. *)
Theorem mutation_zero_probability (individual : nat)
    (teachers : list Teacher.t) (rooms : list Room.t)
    (courses : list Course.t) (timeslots : list TimeSlot.t) (indpb : Q)
    (s : State) :
  (indpb <= 0)%Q ->
  exists s',
    mutation individual teachers rooms courses timeslots indpb s
    = (Ok individual, s')
    /\ chromosomes s' = chromosomes s
    /\ gene_objs s' = gene_objs s
    /\ forall i,
         rng s' i = rng s (4 * length (chromosomes s individual) + i)%nat.
Proof.
  intros Hp.
  exists (Nat.iter (4 * length (chromosomes s individual)) advance s).
  split; [| apply iter_advance].
  rewrite mutation_run, for_each_idle by assumption. reflexivity.
Qed.

Lemma mutation_zero_probability_witness :
  (0 <= 0)%Q
  /\ exists s',
       mutation 0 [] [] [] [] 0 one_lesson = (Ok 0%nat, s')
       /\ chromosomes s' = chromosomes one_lesson
       /\ gene_objs s' = gene_objs one_lesson
       /\ forall i,
            rng s' i
            = rng one_lesson
                (4 * length (chromosomes one_lesson 0%nat) + i)%nat.
Proof.
  assert (Hp : (0 <= 0)%Q) by apply Qle_refl.
  split; [exact Hp |].
  apply (mutation_zero_probability 0 [] [] [] [] 0 one_lesson Hp).
Defined.

(** ** When mutation returns *)

Lemma succeeds_random_random : succeeds random_random (fun _ => True).
Proof. intros s. eexists _, _. split; [reflexivity | exact I]. Qed.

Lemma succeeds_random_choice {A : Type} (seq : list A) :
  seq <> [] -> succeeds (random_choice seq) (fun _ => True).
Proof.
  intros Hne s. destruct seq as [| x seq]; [congruence |].
  eexists _, _. split; [reflexivity | exact I].
Qed.

Lemma succeeds_when (b : bool) (m : M unit) :
  succeeds m (fun _ => True) -> succeeds (when b m) (fun _ => True).
Proof.
  intros Hm. destruct b; [assumption | apply succeeds_ret; exact I].
Qed.

Lemma succeeds_for_each {A : Type} (l : list A) (body : A -> M unit) :
  (forall x, succeeds (body x) (fun _ => True)) ->
  succeeds (for_each l body) (fun _ => True).
Proof.
  intros Hbody. induction l as [| x l IH]; cbn [for_each].
  - apply succeeds_ret. exact I.
  - apply (succeeds_bind _ _ (fun _ => True)); [apply Hbody | intros _ _; exact IH].
Qed.

Lemma succeeds_mutate_time (gene : nat) (timeslots : list TimeSlot.t) :
  covers_mutation timeslots ->
  succeeds (mutate_time gene mutation_days mutation_periods
              (timeslot_map_of timeslots)) (fun _ => True).
Proof.
  intros Hcover s.
  pose proof (mutate_time_spec gene timeslots s) as Hspec. cbv zeta in Hspec.
  destruct Hspec as (Hd & Hp & Hslot).
  specialize (Hcover _ _ Hd Hp).
  destruct (matching_slot timeslots _ _) as [ts |]; [| congruence].
  destruct Hslot as [Hok _].
  destruct (mutate_time gene mutation_days mutation_periods
              (timeslot_map_of timeslots) s) as [res s'].
  cbn [fst] in Hok. subst res. exists tt, s'. split; [reflexivity | exact I].
Qed.

(** X13.  [mutation] returns the chromosome it was given, whatever is drawn,
    when the lists of teachers, courses and rooms are not empty and the
    catalog has a slot for each weekday and each of the periods 1, 2
    and 3. *)
Theorem mutation_returns (individual : nat) (teachers : list Teacher.t)
    (rooms : list Room.t) (courses : list Course.t)
    (timeslots : list TimeSlot.t) (indpb : Q) (s : State) :
  teachers <> [] -> rooms <> [] -> courses <> [] ->
  covers_mutation timeslots ->
  exists s',
    mutation individual teachers rooms courses timeslots indpb s
    = (Ok individual, s').
Proof.
  intros Ht Hr Hc Hcover.
  assert (Hloop : succeeds
                    (for_each (chromosomes s individual)
                       (mutate_gene teachers rooms courses mutation_days
                          mutation_periods (timeslot_map_of timeslots) indpb))
                    (fun _ => True)).
  { apply succeeds_for_each. intros gene. unfold mutate_gene.
    assert (Hpick : forall (A : Type) (l : list A) (f : A -> Gene.t -> Gene.t) b,
              l <> [] ->
              succeeds (when b (a <- random_choice l ;; write_gene gene (f a)))
                       (fun _ => True)).
    { intros A l f b Hl. apply succeeds_when.
      apply (succeeds_bind _ _ (fun _ => True));
        [apply succeeds_random_choice; assumption |].
      intros a _. apply succeeds_write_gene. }
    apply (succeeds_bind _ _ (fun _ => True)); [apply succeeds_random_random |].
    intros u1 _.
    apply (succeeds_bind _ _ (fun _ => True));
      [apply (Hpick _ teachers
                (fun t g => Gene.set_teacher_id g (Teacher.teacher_id t)));
       assumption |].
    intros _ _.
    apply (succeeds_bind _ _ (fun _ => True)); [apply succeeds_random_random |].
    intros u2 _.
    apply (succeeds_bind _ _ (fun _ => True));
      [apply (Hpick _ courses
                (fun c g => Gene.set_course_id g (Course.course_id c)));
       assumption |].
    intros _ _.
    apply (succeeds_bind _ _ (fun _ => True)); [apply succeeds_random_random |].
    intros u3 _.
    apply (succeeds_bind _ _ (fun _ => True));
      [apply (Hpick _ rooms
                (fun r g => Gene.set_room_id g (Room.room_id r)));
       assumption |].
    intros _ _.
    apply (succeeds_bind _ _ (fun _ => True)); [apply succeeds_random_random |].
    intros u4 _. apply succeeds_when, succeeds_mutate_time. assumption. }
  destruct (Hloop s) as ([] & s' & Hrun & _).
  exists s'. rewrite mutation_run, Hrun. reflexivity.
Qed.

Lemma create_timeslots_fake_covers : covers_mutation create_timeslots_fake.
Proof.
  intros day period Hd Hp.
  unfold mutation_days, mutation_periods in *. cbn [In] in Hd, Hp.
  destruct Hd as [<- | [<- | [<- | [<- | [<- | []]]]]];
    destruct Hp as [<- | [<- | [<- | []]]]; vm_compute; discriminate.
Qed.

Lemma mutation_returns_witness :
  [Teacher.mk 5 "Ada" []] <> [] /\ [Room.mk 1 "R1"] <> []
  /\ [Course.mk 1 "C1"] <> []
  /\ covers_mutation create_timeslots_fake
  /\ exists s',
       mutation 0 [Teacher.mk 5 "Ada" []] [Room.mk 1 "R1"] [Course.mk 1 "C1"]
         create_timeslots_fake (1 # 10) one_lesson
       = (Ok 0%nat, s').
Proof.
  assert (Ht : [Teacher.mk 5 "Ada" []] <> []) by discriminate.
  assert (Hr : [Room.mk 1 "R1"] <> []) by discriminate.
  assert (Hc : [Course.mk 1 "C1"] <> []) by discriminate.
  pose proof create_timeslots_fake_covers as Hcover.
  split; [exact Ht |]. split; [exact Hr |]. split; [exact Hc |].
  split; [exact Hcover |].
  apply (mutation_returns 0 [Teacher.mk 5 "Ada" []] [Room.mk 1 "R1"]
           [Course.mk 1 "C1"] create_timeslots_fake (1 # 10) one_lesson
           Ht Hr Hc Hcover).
Defined.

(** ** Crossover keeps the genes *)

Lemma crossover_lists (ind1 ind2 : nat) (s : State) :
  (2 <= length (chromosomes s ind1))%nat -> ind1 <> ind2 ->
  exists cx,
    (1 <= cx <= length (chromosomes s ind1) - 1)%nat
    /\ gene_objs (snd (crossover ind1 ind2 s)) = gene_objs s
    /\ chromosomes (snd (crossover ind1 ind2 s)) ind1
       = firstn cx (chromosomes s ind1) ++ skipn cx (chromosomes s ind2)
    /\ chromosomes (snd (crossover ind1 ind2 s)) ind2
       = firstn cx (chromosomes s ind2) ++ skipn cx (chromosomes s ind1).
Proof.
  intros Hsize Hne.
  unfold crossover, bind, get_genes. cbn [fst snd].
  set (size := length (chromosomes s ind1)) in *.
  destruct (size <? 2)%nat eqn:Esize; [apply Nat.ltb_lt in Esize; lia |].
  unfold random_randint.
  destruct (Z.of_nat size - 1 <? 1) eqn:Erange;
    [apply Z.ltb_lt in Erange; lia |].
  unfold bind, draw, advance, ret, set_genes, assign_slice_from, slice_from.
  cbn [fst snd chromosomes gene_objs rng].
  pose proof (randint_range 1 (Z.of_nat size - 1) (rng s 0%nat) ltac:(lia))
    as Hcx.
  set (cx := Z.to_nat (1 + Z.of_N (rng s 0%nat) mod (Z.of_nat size - 1 - 1 + 1)))
    in *.
  exists cx. split; [subst cx; lia |]. split; [reflexivity |].
  rewrite !Nat.eqb_refl.
  destruct (Nat.eqb_spec ind1 ind2); [contradiction |].
  destruct (Nat.eqb_spec ind2 ind1); [congruence |].
  split; reflexivity.
Qed.

Lemma crossover_short (ind1 ind2 : nat) (s : State) :
  (length (chromosomes s ind1) < 2)%nat ->
  crossover ind1 ind2 s = (Ok (ind1, ind2), s).
Proof.
  intros Hsize. unfold crossover, bind, get_genes.
  apply Nat.ltb_lt in Hsize. rewrite Hsize. reflexivity.
Qed.

Lemma exchange_Permutation {A : Type} (cx : nat) (l1 l2 : list A) :
  Permutation ((firstn cx l1 ++ skipn cx l2) ++ (firstn cx l2 ++ skipn cx l1))
              (l1 ++ l2).
Proof.
  rewrite <- (firstn_skipn cx l1) at 3. rewrite <- (firstn_skipn cx l2) at 3.
  generalize (firstn cx l1) (skipn cx l1) (firstn cx l2) (skipn cx l2).
  intros a1 b1 a2 b2.
  rewrite <- !app_assoc. apply Permutation_app_head.
  etransitivity; [apply (Permutation_app_comm b2 (a2 ++ b1)) |].
  rewrite <- app_assoc. apply Permutation_app_swap_app.
Qed.

(** X14.  [crossover] on two distinct chromosome objects neither loses nor
    duplicates a gene: the gene objects of the two children, taken
    together, are those of the two parents, and so are their contents.
    When the first parent has two genes or more and the second is at
    least as long as the first less one, the children have exchanged
    lengths; parents of one length give children of that length, and then
    each position of a child holds what one of the parents held at that
    position. *)
Theorem crossover_conserves_genes (ind1 ind2 : nat) (s : State) :
  ind1 <> ind2 ->
  let s' := snd (crossover ind1 ind2 s) in
  Permutation (chromosomes s' ind1 ++ chromosomes s' ind2)
              (chromosomes s ind1 ++ chromosomes s ind2)
  /\ Permutation
       (Chromosome.genes (content s' ind1) ++ Chromosome.genes (content s' ind2))
       (Chromosome.genes (content s ind1) ++ Chromosome.genes (content s ind2))
  /\ ((2 <= length (chromosomes s ind1))%nat ->
      (length (chromosomes s ind1) - 1 <= length (chromosomes s ind2))%nat ->
      length (chromosomes s' ind1) = length (chromosomes s ind2)
      /\ length (chromosomes s' ind2) = length (chromosomes s ind1))
  /\ (length (chromosomes s ind1) = length (chromosomes s ind2) ->
      forall i,
        (nth_error (chromosomes s' ind1) i = nth_error (chromosomes s ind1) i
         /\ nth_error (chromosomes s' ind2) i = nth_error (chromosomes s ind2) i)
        \/ (nth_error (chromosomes s' ind1) i = nth_error (chromosomes s ind2) i
            /\ nth_error (chromosomes s' ind2) i
               = nth_error (chromosomes s ind1) i)).
Proof.
  intros Hne s'. subst s'.
  destruct (Nat.lt_ge_cases (length (chromosomes s ind1)) 2) as [Hshort | Hlong].
  - rewrite (crossover_short ind1 ind2 s Hshort). cbn [snd].
    split; [reflexivity |]. split; [reflexivity |]. split.
    + intros Hlong. lia.
    + intros _ i. left. split; reflexivity.
  - destruct (crossover_lists ind1 ind2 s Hlong Hne)
      as (cx & Hcx & Hobjs & Hc1 & Hc2).
    unfold content. rewrite Hobjs, Hc1, Hc2. cbn [Chromosome.genes].
    split; [apply exchange_Permutation |]. split.
    + rewrite <- !map_app. apply Permutation_map, exchange_Permutation.
    + split.
      * intros _ Hlen. rewrite !length_app, !length_firstn, !length_skipn. lia.
      * intros Hlen i.
        destruct (Nat.lt_ge_cases i cx) as [Hi | Hi].
        -- left. rewrite !nth_error_app1
             by (rewrite length_firstn; lia).
           rewrite !nth_error_firstn.
           apply Nat.ltb_lt in Hi. rewrite Hi. split; reflexivity.
        -- right. rewrite !nth_error_app2
             by (rewrite length_firstn; lia).
           rewrite !length_firstn, !nth_error_skipn.
           replace (Nat.min cx (length (chromosomes s ind1))) with cx by lia.
           replace (Nat.min cx (length (chromosomes s ind2))) with cx by lia.
           replace (cx + (i - cx))%nat with i by lia.
           split; reflexivity.
Qed.

Lemma crossover_conserves_genes_witness :
  0%nat <> 1%nat
  /\ Permutation
       (chromosomes (snd (crossover 0 1 three_parents)) 0%nat
        ++ chromosomes (snd (crossover 0 1 three_parents)) 1%nat)
       (chromosomes three_parents 0%nat ++ chromosomes three_parents 1%nat).
Proof.
  assert (Hne : 0%nat <> 1%nat) by discriminate.
  split; [exact Hne |].
  apply (crossover_conserves_genes 0 1 three_parents Hne).
Defined.

(* ================================================================== *)
(** * Further properties of the repair operator *)

(** ** A pass with enough alternatives leaves no conflict *)

Lemma length_at_slot (l : list Gene.t) (k : string * Z) :
  length (filter (at_slot k) l) = count_occ eq_dec (map Gene.slot_key l) k.
Proof.
  induction l as [| g l IH]; cbn [filter map count_occ]; [reflexivity |].
  unfold at_slot at 1. destruct (eq_dec (Gene.slot_key g) k); cbn [length];
    rewrite IH; reflexivity.
Qed.

(** Fewer distinct entries than the catalog has identifiers: one
    identifier is not among them. *)
Lemma pigeonhole (ids booked : list Z) :
  NoDup booked -> (length booked < length (nodup eq_dec ids))%nat ->
  exists id, In id ids /\ ~ In id booked.
Proof.
  intros Hnd Hlen.
  destruct (find (fun id => negb (py_in id booked)) ids) as [id |] eqn:E.
  - apply find_some in E. destruct E as [Hin Hb]. exists id.
    split; [assumption |]. unfold py_in in Hb.
    destruct (in_dec eq_dec id booked); [discriminate | assumption].
  - exfalso.
    assert (Hincl : incl (nodup eq_dec ids) booked).
    { intros id Hid. apply nodup_In in Hid.
      pose proof (find_none _ _ E id Hid) as Hb. cbv beta in Hb.
      unfold py_in in Hb.
      destruct (in_dec eq_dec id booked); [assumption | discriminate]. }
    pose proof (NoDup_incl_length (NoDup_nodup eq_dec ids) Hincl). lia.
Qed.

Lemma NoDup_snoc {A : Type} (l : list A) (x : A) :
  NoDup l -> ~ In x l -> NoDup (l ++ [x]).
Proof.
  intros Hl Hx. apply (Permutation_NoDup (Permutation_cons_append l x)).
  constructor; assumption.
Qed.

Section ResolvePass.
Variable proj : Gene.t -> Z.
Variable ids : list Z.
Variable Counter : dict Z Z -> Prop.
Variable step :
  dict (string * Z) (list Z) * dict Z Z -> nat ->
  M (dict (string * Z) (list Z) * dict Z Z).

(** What a step does to a gene that is free, or that has an alternative:
    it books the gene at its slot under an identifier that was not booked
    there, which the gene then has. *)
Hypothesis step_spec : forall sched counter gene s,
  Counter counter ->
  let g := gene_objs s gene in
  let booked := dict_get sched (Gene.slot_key g) [] in
  (In (proj g) booked -> exists id, In id ids /\ ~ In id booked) ->
  exists v counter' s',
    step (sched, counter) gene s
    = (Ok (dict_set sched (Gene.slot_key g) (booked ++ [v]), counter'), s')
    /\ Counter counter'
    /\ ~ In v booked
    /\ chromosomes s' = chromosomes s
    /\ (forall r, r <> gene -> gene_objs s' r = gene_objs s r)
    /\ proj (gene_objs s' gene) = v
    /\ Gene.slot_key (gene_objs s' gene) = Gene.slot_key g.

Lemma booked_NoDup (l : list Gene.t) (k : string * Z) :
  NoDup (map (fun g => (proj g, Gene.slot_key g)) l) ->
  NoDup (map proj (filter (at_slot k) l)).
Proof.
  intros Hnd.
  apply (NoDup_map_inv (fun v : Z => (v, k))).
  rewrite map_map.
  rewrite (map_ext_in _ (fun g => (proj g, Gene.slot_key g))).
  - apply NoDup_map_filter. assumption.
  - intros g Hg. apply filter_In in Hg as [_ Hk]. unfold at_slot in Hk.
    destruct (eq_dec (Gene.slot_key g) k) as [<- | _];
      [reflexivity | discriminate].
Qed.

Lemma pass_resolves (todo : list nat) :
  forall (done : list nat) sched counter s,
  NoDup (done ++ todo) ->
  Counter counter ->
  (forall k, dict_get sched k []
             = map proj (filter (at_slot k) (map (gene_objs s) done))) ->
  NoDup (map (fun g => (proj g, Gene.slot_key g)) (map (gene_objs s) done)) ->
  fits_catalog ids s (done ++ todo) ->
  exists acc s',
    for_fold todo (sched, counter) step s = (Ok acc, s')
    /\ chromosomes s' = chromosomes s
    /\ (forall r, ~ In r todo -> gene_objs s' r = gene_objs s r)
    /\ (forall r, Gene.slot_key (gene_objs s' r) = Gene.slot_key (gene_objs s r))
    /\ NoDup (map (fun g => (proj g, Gene.slot_key g))
                  (map (gene_objs s') (done ++ todo))).
Proof.
  induction todo as [| r todo IH]; intros done sched counter s Hrefs Hcounter
    Hsched Hkeys Hfits.
  - exists (sched, counter), s. rewrite app_nil_r.
    repeat split; try reflexivity. assumption.
  - set (g := gene_objs s r).
    set (k := Gene.slot_key g).
    set (booked := dict_get sched k []).
    assert (Hr_done : ~ In r done).
    { intros Hin. apply NoDup_remove_2 in Hrefs. apply Hrefs.
      apply in_or_app. left. assumption. }
    assert (Hbooked : NoDup booked).
    { subst booked. rewrite Hsched. apply booked_NoDup. assumption. }
    assert (Hroom : (length booked < length (nodup eq_dec ids))%nat).
    { subst booked. rewrite Hsched, length_map, length_at_slot, map_map.
      specialize (Hfits k). rewrite map_app, count_occ_app in Hfits.
      cbn [map count_occ] in Hfits. fold g in Hfits. fold k in Hfits.
      destruct (eq_dec k k) as [_ | Hn]; [| congruence]. lia. }
    destruct (step_spec sched counter r s Hcounter
                (fun _ => pigeonhole ids booked Hbooked Hroom))
      as (v & counter' & s1 & Hrun & Hcounter' & Hv & Hchrom & Hother
          & Hproj & Hslot).
    fold g in Hrun, Hslot. fold k in Hrun, Hslot. fold booked in Hrun, Hv.
    assert (Hslots : forall q, Gene.slot_key (gene_objs s1 q)
                               = Gene.slot_key (gene_objs s q)).
    { intros q. destruct (Nat.eq_dec q r) as [-> | Hne];
        [exact Hslot | rewrite (Hother q Hne); reflexivity]. }
    assert (Hdone : map (gene_objs s1) done = map (gene_objs s) done).
    { apply map_ext_in. intros q Hq. apply Hother. intros ->. contradiction. }
    destruct (IH (done ++ [r]) (dict_set sched k (booked ++ [v])) counter' s1)
      as (acc & s' & Hrest & Hchrom' & Hother' & Hslots' & Hnd).
    + rewrite <- app_assoc. exact Hrefs.
    + assumption.
    + intros k'. rewrite dict_get_set, map_app, Hdone, filter_app, map_app.
      cbn [map filter]. unfold at_slot at 2. rewrite Hslot. fold k.
      destruct (eq_dec k' k) as [-> | Hne].
      * destruct (eq_dec k k) as [_ | Hn]; [| congruence].
        cbn [map]. rewrite Hproj. subst booked. rewrite Hsched. reflexivity.
      * destruct (eq_dec k k') as [E | _]; [congruence |].
        cbn [map]. rewrite app_nil_r. apply Hsched.
    + rewrite map_app, Hdone, map_app. cbn [map]. rewrite Hproj, Hslot.
      fold k. apply NoDup_snoc; [assumption |].
      intros Hin. apply Hv. subst booked. rewrite Hsched.
      apply in_map_iff in Hin. destruct Hin as (g' & Eg & Hg').
      pose proof (f_equal fst Eg) as Ev. pose proof (f_equal snd Eg) as Ek.
      cbn [fst snd] in Ev, Ek. apply in_map_iff. exists g'.
      split; [exact Ev |]. apply filter_In. split; [assumption |].
      unfold at_slot. rewrite Ek.
      change (Gene.slot_key (gene_objs s r)) with k.
      destruct (eq_dec k k); [reflexivity | congruence].
    + intros k'. specialize (Hfits k'). rewrite <- app_assoc.
      rewrite (map_ext _ (fun q => Gene.slot_key (gene_objs s q)))
        by (intros q; apply Hslots).
      exact Hfits.
    + exists acc, s'. cbn [for_fold]. unfold bind. rewrite Hrun.
      split; [exact Hrest |]. split; [congruence |]. split.
      * intros q Hq. rewrite Hother' by (intros Hin; apply Hq; right; assumption).
        apply Hother. intros ->. apply Hq. left. reflexivity.
      * split; [intros q; rewrite Hslots'; apply Hslots |].
        rewrite <- app_assoc in Hnd. exact Hnd.
Qed.
End ResolvePass.

Lemma bind_run {A C : Type} (m : M A) (k : A -> M C) (s s1 : State) (a : A) :
  m s = (Ok a, s1) -> bind m k s = k a s1.
Proof. unfold bind. intros ->. reflexivity. Qed.

Lemma resolve_teacher_step_books (teachers : list Teacher.t)
    (prefs : dict Z (list (string * Z)))
    (sched : dict (string * Z) (list Z)) (load : dict Z Z) (gene : nat)
    (s : State) :
  has_keys (map Teacher.teacher_id teachers) load ->
  let g := gene_objs s gene in
  let booked := dict_get sched (Gene.slot_key g) [] in
  (In (Gene.teacher_id g) booked ->
   exists id, In id (map Teacher.teacher_id teachers) /\ ~ In id booked) ->
  exists v load' s',
    resolve_teacher_step teachers prefs (sched, load) gene s
    = (Ok (dict_set sched (Gene.slot_key g) (booked ++ [v]), load'), s')
    /\ has_keys (map Teacher.teacher_id teachers) load'
    /\ ~ In v booked
    /\ chromosomes s' = chromosomes s
    /\ (forall r, r <> gene -> gene_objs s' r = gene_objs s r)
    /\ Gene.teacher_id (gene_objs s' gene) = v
    /\ Gene.slot_key (gene_objs s' gene) = Gene.slot_key g.
Proof.
  intros Hkeys g booked Halt.
  destruct (in_dec eq_dec (Gene.teacher_id g) booked) as [Hin | Hfree].
  2:{ exists (Gene.teacher_id g), load, s.
      rewrite resolve_teacher_step_free by assumption.
      repeat split; auto. }
  destruct (Halt Hin) as (id & Hid & Hnb).
  unfold resolve_teacher_step.
  rewrite (bind_run _ _ s s g) by reflexivity.
  cbn [fst snd].
  change (Gene.day g, Gene.period g) with (Gene.slot_key g).
  rewrite (bind_run _ _ s s booked)
    by (unfold lift; rewrite dict_getitem_setdefault; reflexivity).
  unfold py_in at 1.
  destruct (in_dec eq_dec (Gene.teacher_id g) booked); [| contradiction].
  remember (map Teacher.teacher_id
              (filter (fun t => negb (py_in (Teacher.teacher_id t) booked))
                      teachers)) as available eqn:Eav.
  assert (Hav : forall x, In x available ->
                 In x (map Teacher.teacher_id teachers) /\ ~ In x booked).
  { intros x Hx. subst available. apply in_map_iff in Hx.
    destruct Hx as (t & <- & Ht). apply filter_In in Ht as [Ht Hb].
    split; [apply in_map; assumption |]. unfold py_in in Hb.
    destruct (in_dec eq_dec (Teacher.teacher_id t) booked);
      [discriminate | assumption]. }
  assert (Hne : available <> []).
  { apply in_map_iff in Hid. destruct Hid as (t & Et & Ht).
    assert (Hx : In id available).
    { subst available. rewrite <- Et. apply in_map, filter_In.
      split; [assumption |]. unfold py_in. rewrite Et.
      destruct (in_dec eq_dec id booked); [contradiction | reflexivity]. }
    intros E. rewrite E in Hx. destruct Hx. }
  clear Eav.
  destruct available as [| a0 others]; [congruence |].
  set (available := a0 :: others) in *.
  set (candidates :=
         list_or (filter (fun tid => py_in (Gene.slot_key g)
                                       (dict_get prefs tid []))
                         available) available).
  destruct (list_or_facts
              (filter (fun tid => py_in (Gene.slot_key g)
                                    (dict_get prefs tid [])) available)
              available Hne) as [Hcne Hcincl].
  { intros x Hx. apply filter_In in Hx. tauto. }
  fold candidates in Hcne, Hcincl.
  destruct (py_min_by_ok (fun tid => dict_getitem load tid) candidates Hcne)
    as (best & Hbest & Hbin).
  { intros x Hx. apply (has_keys_getitem _ _ _ Hkeys).
    apply Hav, Hcincl. assumption. }
  destruct (Hav best (Hcincl best Hbin)) as [Hbid Hbfree].
  destruct (has_keys_getitem _ _ _ Hkeys Hbid) as (c & Hc).
  set (s1 := snd (write_gene gene
                    (fun g0 => Gene.set_teacher_id g0 best) s)).
  exists best, (dict_set load best (c + 1)), s1.
  split.
  - rewrite (bind_run _ _ s s1 (dict_set load best (c + 1))).
    + rewrite (bind_run _ _ s1 s1 (gene_objs s1 gene)) by reflexivity.
      rewrite (bind_run _ _ s1 s1 booked)
        by (unfold lift; rewrite dict_getitem_setdefault; reflexivity).
      unfold ret. rewrite dict_set_setdefault.
      subst s1. cbn [write_gene snd gene_objs]. rewrite Nat.eqb_refl.
      reflexivity.
    + rewrite (bind_run _ _ s s best) by (unfold lift; rewrite Hbest; reflexivity).
      rewrite (bind_run _ _ s s1 tt) by reflexivity.
      rewrite (bind_run _ _ s1 s1 c) by (unfold lift; rewrite Hc; reflexivity).
      reflexivity.
  - split; [apply has_keys_set; assumption |].
    split; [assumption |]. subst s1. cbn [write_gene snd chromosomes gene_objs].
    split; [reflexivity |]. split.
    + intros r Hr. destruct (Nat.eqb_spec r gene); [contradiction | reflexivity].
    + rewrite Nat.eqb_refl. split; reflexivity.
Qed.

Lemma resolve_room_step_books (rooms : list Room.t)
    (sched : dict (string * Z) (list Z)) (usage : dict Z Z) (gene : nat)
    (s : State) :
  has_keys (map Room.room_id rooms) usage ->
  let g := gene_objs s gene in
  let booked := dict_get sched (Gene.slot_key g) [] in
  (In (Gene.room_id g) booked ->
   exists id, In id (map Room.room_id rooms) /\ ~ In id booked) ->
  exists v usage' s',
    resolve_room_step rooms (sched, usage) gene s
    = (Ok (dict_set sched (Gene.slot_key g) (booked ++ [v]), usage'), s')
    /\ has_keys (map Room.room_id rooms) usage'
    /\ ~ In v booked
    /\ chromosomes s' = chromosomes s
    /\ (forall r, r <> gene -> gene_objs s' r = gene_objs s r)
    /\ Gene.room_id (gene_objs s' gene) = v
    /\ Gene.slot_key (gene_objs s' gene) = Gene.slot_key g.
Proof.
  intros Hkeys g booked Halt.
  destruct (in_dec eq_dec (Gene.room_id g) booked) as [Hin | Hfree].
  2:{ exists (Gene.room_id g), usage, s.
      rewrite resolve_room_step_free by assumption.
      repeat split; auto. }
  destruct (Halt Hin) as (id & Hid & Hnb).
  unfold resolve_room_step.
  rewrite (bind_run _ _ s s g) by reflexivity.
  cbn [fst snd].
  change (Gene.day g, Gene.period g) with (Gene.slot_key g).
  rewrite (bind_run _ _ s s booked)
    by (unfold lift; rewrite dict_getitem_setdefault; reflexivity).
  unfold py_in at 1.
  destruct (in_dec eq_dec (Gene.room_id g) booked); [| contradiction].
  remember (map Room.room_id
              (filter (fun r => negb (py_in (Room.room_id r) booked)) rooms))
    as available eqn:Eav.
  assert (Hav : forall x, In x available ->
                 In x (map Room.room_id rooms) /\ ~ In x booked).
  { intros x Hx. subst available. apply in_map_iff in Hx.
    destruct Hx as (t & <- & Ht). apply filter_In in Ht as [Ht Hb].
    split; [apply in_map; assumption |]. unfold py_in in Hb.
    destruct (in_dec eq_dec (Room.room_id t) booked);
      [discriminate | assumption]. }
  assert (Hne : available <> []).
  { apply in_map_iff in Hid. destruct Hid as (t & Et & Ht).
    assert (Hx : In id available).
    { subst available. rewrite <- Et. apply in_map, filter_In.
      split; [assumption |]. unfold py_in. rewrite Et.
      destruct (in_dec eq_dec id booked); [contradiction | reflexivity]. }
    intros E. rewrite E in Hx. destruct Hx. }
  clear Eav.
  destruct available as [| a0 others]; [congruence |].
  set (available := a0 :: others) in *.
  destruct (py_min_by_ok (fun rid => dict_getitem usage rid) available Hne)
    as (best & Hbest & Hbin).
  { intros x Hx. apply (has_keys_getitem _ _ _ Hkeys). apply Hav. assumption. }
  destruct (Hav best Hbin) as [Hbid Hbfree].
  destruct (has_keys_getitem _ _ _ Hkeys Hbid) as (c & Hc).
  set (s1 := snd (write_gene gene (fun g0 => Gene.set_room_id g0 best) s)).
  exists best, (dict_set usage best (c + 1)), s1.
  split.
  - rewrite (bind_run _ _ s s1 (dict_set usage best (c + 1))).
    + rewrite (bind_run _ _ s1 s1 (gene_objs s1 gene)) by reflexivity.
      rewrite (bind_run _ _ s1 s1 booked)
        by (unfold lift; rewrite dict_getitem_setdefault; reflexivity).
      unfold ret. rewrite dict_set_setdefault.
      subst s1. cbn [write_gene snd gene_objs]. rewrite Nat.eqb_refl.
      reflexivity.
    + rewrite (bind_run _ _ s s best) by (unfold lift; rewrite Hbest; reflexivity).
      rewrite (bind_run _ _ s s1 tt) by reflexivity.
      rewrite (bind_run _ _ s1 s1 c) by (unfold lift; rewrite Hc; reflexivity).
      reflexivity.
  - split; [apply has_keys_set; assumption |].
    split; [assumption |]. subst s1. cbn [write_gene snd chromosomes gene_objs].
    split; [reflexivity |]. split.
    + intros r Hr. destruct (Nat.eqb_spec r gene); [contradiction | reflexivity].
    + rewrite Nat.eqb_refl. split; reflexivity.
Qed.

Lemma NoDup_key_join (proj : Gene.t -> Z) (l : list Gene.t) :
  NoDup (map (fun g => (proj g, Gene.slot_key g)) l) ->
  NoDup (map (fun g => (proj g, Gene.day g, Gene.period g)) l).
Proof.
  intros Hnd.
  apply (NoDup_map_inv (fun k : Z * string * Z =>
                          (fst (fst k), (snd (fst k), snd k)))).
  rewrite map_map. exact Hnd.
Qed.

Lemma resolve_teacher_conflicts_resolves (individual : nat)
    (teachers : list Teacher.t) (s : State) :
  NoDup (chromosomes s individual) ->
  fits_catalog (map Teacher.teacher_id teachers) s (chromosomes s individual) ->
  exists s',
    resolve_teacher_conflicts individual teachers s = (Ok individual, s')
    /\ chromosomes s' = chromosomes s
    /\ (forall r, Gene.slot_key (gene_objs s' r) = Gene.slot_key (gene_objs s r))
    /\ NoDup (map Gene.teacher_key (Chromosome.genes (content s' individual))).
Proof.
  intros Hrefs Hfits.
  destruct (pass_resolves Gene.teacher_id (map Teacher.teacher_id teachers)
              (has_keys (map Teacher.teacher_id teachers))
              (resolve_teacher_step teachers
                 (fold_left
                    (fun d t => dict_set d (Teacher.teacher_id t)
                                         (Teacher.preferred_times t))
                    teachers []))
              (resolve_teacher_step_books teachers _)
              (chromosomes s individual) [] []
              (fold_left (fun d t => dict_set d (Teacher.teacher_id t) 0)
                         teachers []) s)
    as (acc & s' & Hrun & Hchrom & _ & Hslots & Hnd).
  - exact Hrefs.
  - apply has_keys_init.
  - intros k. reflexivity.
  - constructor.
  - exact Hfits.
  - exists s'. split.
    + unfold resolve_teacher_conflicts, bind, get_genes. rewrite Hrun.
      reflexivity.
    + split; [assumption |]. split; [assumption |].
      unfold content. cbn [Chromosome.genes app] in *. rewrite Hchrom.
      apply (NoDup_key_join Gene.teacher_id). exact Hnd.
Qed.

Lemma resolve_room_conflicts_resolves (individual : nat)
    (rooms : list Room.t) (s : State) :
  NoDup (chromosomes s individual) ->
  fits_catalog (map Room.room_id rooms) s (chromosomes s individual) ->
  exists s',
    resolve_room_conflicts individual rooms s = (Ok individual, s')
    /\ chromosomes s' = chromosomes s
    /\ (forall r, Gene.slot_key (gene_objs s' r) = Gene.slot_key (gene_objs s r))
    /\ NoDup (map Gene.room_key (Chromosome.genes (content s' individual))).
Proof.
  intros Hrefs Hfits.
  destruct (pass_resolves Gene.room_id (map Room.room_id rooms)
              (has_keys (map Room.room_id rooms))
              (resolve_room_step rooms)
              (resolve_room_step_books rooms)
              (chromosomes s individual) [] []
              (fold_left (fun d r => dict_set d (Room.room_id r) 0) rooms [])
              s)
    as (acc & s' & Hrun & Hchrom & _ & Hslots & Hnd).
  - exact Hrefs.
  - apply has_keys_init.
  - intros k. reflexivity.
  - constructor.
  - exact Hfits.
  - exists s'. split.
    + unfold resolve_room_conflicts, bind, get_genes. rewrite Hrun.
      reflexivity.
    + split; [assumption |]. split; [assumption |].
      unfold content. cbn [Chromosome.genes app] in *. rewrite Hchrom.
      apply (NoDup_key_join Gene.room_id). exact Hnd.
Qed.

Lemma content_unchanged {B : Type} (proj : Gene.t -> B) (s s' : State)
    (c : nat) :
  unchanged proj s s' ->
  map proj (Chromosome.genes (content s' c))
  = map proj (Chromosome.genes (content s c)).
Proof.
  intros [Hchrom Hgenes]. unfold content. cbn [Chromosome.genes].
  rewrite Hchrom, !map_map. apply map_ext. intros r. apply Hgenes.
Qed.

Lemma fits_catalog_slots (ids : list Z) (s s' : State) (refs : list nat) :
  (forall r, Gene.slot_key (gene_objs s' r) = Gene.slot_key (gene_objs s r)) ->
  fits_catalog ids s refs -> fits_catalog ids s' refs.
Proof.
  intros Hslots Hfits k.
  rewrite (map_ext _ (fun r => Gene.slot_key (gene_objs s r)))
    by (intros r; apply Hslots).
  apply Hfits.
Qed.

(** X15.  When the gene objects of the chromosome are distinct and no (day,
    period) holds more of its genes than there are distinct teachers, nor
    more than there are distinct rooms, [repair_timetable] returns a
    chromosome without teacher conflict and without room conflict: both
    hard terms are 0 afterwards. *)
Theorem repair_resolves_conflicts (individual : nat)
    (teachers : list Teacher.t) (rooms : list Room.t) (s : State) :
  NoDup (chromosomes s individual) ->
  fits_catalog (map Teacher.teacher_id teachers) s (chromosomes s individual) ->
  fits_catalog (map Room.room_id rooms) s (chromosomes s individual) ->
  exists s',
    repair_timetable individual teachers rooms s = (Ok individual, s')
    /\ penalty_teacher_conflict (content s' individual) = 0
    /\ penalty_room_conflict (content s' individual) = 0.
Proof.
  intros Hrefs Hteachers Hrooms.
  destruct (resolve_teacher_conflicts_resolves individual teachers s Hrefs
              Hteachers) as (s1 & Hrun1 & Hchrom1 & Hslots1 & Hnd1).
  destruct (resolve_room_conflicts_resolves individual rooms s1)
    as (s2 & Hrun2 & Hchrom2 & Hslots2 & Hnd2).
  { rewrite Hchrom1. exact Hrefs. }
  { rewrite Hchrom1. apply (fits_catalog_slots _ s); assumption. }
  destruct (resolve_group_conflicts_spec individual s2)
    as (s3 & Hrun3 & Hun3 & _).
  exists s3. split.
  - unfold repair_timetable. rewrite (bind_run _ _ s s1 individual Hrun1).
    rewrite (bind_run _ _ s1 s2 individual Hrun2).
    rewrite (bind_run _ _ s2 s3 individual Hrun3). reflexivity.
  - assert (Hroom_keeps : unchanged Gene.teacher_key s1 s2).
    { pose proof (keeps_resolve_room_conflicts Gene.teacher_key individual
                    rooms (fun g v => eq_refl) s1) as Hk.
      rewrite Hrun2 in Hk. exact Hk. }
    assert (Hgroup_t : unchanged Gene.teacher_key s2 s3).
    { destruct Hun3 as [Hc Hg]. split; [assumption |]. intros r.
      specialize (Hg r). unfold Gene.but_course in Hg.
      unfold Gene.teacher_key. congruence. }
    assert (Hgroup_r : unchanged Gene.room_key s2 s3).
    { destruct Hun3 as [Hc Hg]. split; [assumption |]. intros r.
      specialize (Hg r). unfold Gene.but_course in Hg.
      unfold Gene.room_key. congruence. }
    split.
    + rewrite penalty_teacher_conflict_spec. apply collision_penalty_NoDup.
      rewrite (content_unchanged _ _ _ _ Hgroup_t),
        (content_unchanged _ _ _ _ Hroom_keeps). exact Hnd1.
    + rewrite penalty_room_conflict_spec. apply collision_penalty_NoDup.
      rewrite (content_unchanged _ _ _ _ Hgroup_r). exact Hnd2.
Qed.

Lemma repair_resolves_conflicts_witness :
  NoDup (chromosomes clashing_hour 0%nat)
  /\ fits_catalog (map Teacher.teacher_id two_teachers) clashing_hour
       (chromosomes clashing_hour 0%nat)
  /\ fits_catalog (map Room.room_id two_rooms) clashing_hour
       (chromosomes clashing_hour 0%nat)
  /\ penalty_teacher_conflict (content clashing_hour 0%nat) = 1000
  /\ exists s',
       repair_timetable 0 two_teachers two_rooms clashing_hour
       = (Ok 0%nat, s')
       /\ penalty_teacher_conflict (content s' 0%nat) = 0
       /\ penalty_room_conflict (content s' 0%nat) = 0.
Proof.
  assert (Hrefs : NoDup (chromosomes clashing_hour 0%nat))
    by (repeat constructor; simpl; intuition discriminate).
  assert (Hbound : forall ids : list Z,
            (2 <= length (nodup eq_dec ids))%nat ->
            fits_catalog ids clashing_hour (chromosomes clashing_hour 0%nat)).
  { intros ids Hids k.
    pose proof (count_occ_bound eq_dec k
                  (map (fun r => Gene.slot_key (gene_objs clashing_hour r))
                       (chromosomes clashing_hour 0%nat))) as Hle.
    rewrite length_map in Hle.
    change (length (chromosomes clashing_hour 0%nat)) with 2%nat in Hle.
    lia. }
  assert (Hteachers : fits_catalog (map Teacher.teacher_id two_teachers)
                        clashing_hour (chromosomes clashing_hour 0%nat))
    by (apply Hbound; vm_compute; lia).
  assert (Hrooms : fits_catalog (map Room.room_id two_rooms) clashing_hour
                     (chromosomes clashing_hour 0%nat))
    by (apply Hbound; vm_compute; lia).
  split; [exact Hrefs |]. split; [exact Hteachers |]. split; [exact Hrooms |].
  split; [vm_compute; reflexivity |].
  apply (repair_resolves_conflicts 0 two_teachers two_rooms clashing_hour
           Hrefs Hteachers Hrooms).
Defined.

(** ** What repair cannot change *)

Lemma keeps_group_key_repair (individual : nat) (teachers : list Teacher.t)
    (rooms : list Room.t) :
  keeps Gene.group_key (repair_timetable individual teachers rooms).
Proof.
  unfold repair_timetable.
  apply keeps_bind;
    [apply keeps_resolve_teacher_conflicts; intros g v; reflexivity |].
  intros ind1.
  apply keeps_bind;
    [apply keeps_resolve_room_conflicts; intros g v; reflexivity |].
  intros ind2.
  apply keeps_bind; [| intros ind3; apply keeps_ret].
  intros s.
  destruct (resolve_group_conflicts_spec ind2 s) as (s' & Hrun & [Hc Hg] & _).
  rewrite Hrun. cbn [snd]. split; [assumption |].
  intros r. apply but_course_group_key, Hg.
Qed.

Lemma group_days_keys (genes : list Gene.t) (a : Z) :
  map Gene.day
    (filter (fun g => if eq_dec (Gene.group_id g) a then true else false) genes)
  = map (fun k : Z * string * Z => snd (fst k))
      (filter (fun k : Z * string * Z =>
                 if eq_dec (fst (fst k)) a then true else false)
              (map Gene.group_key genes)).
Proof.
  induction genes as [| g genes IH]; [reflexivity |].
  cbn [map filter].
  change (Gene.group_key g) with (Gene.group_id g, Gene.day g, Gene.period g).
  cbn [fst snd].
  destruct (eq_dec (Gene.group_id g) a); cbn [map fst snd];
    rewrite IH; reflexivity.
Qed.

Lemma lessons_periods_keys (genes : list Gene.t) (a : Z) (d : string) :
  map Gene.period (lessons_of genes a d)
  = map (fun k : Z * string * Z => snd k)
      (filter (fun k : Z * string * Z =>
                 if eq_dec (snd (fst k)) d then true else false)
         (filter (fun k : Z * string * Z =>
                    if eq_dec (fst (fst k)) a then true else false)
                 (map Gene.group_key genes))).
Proof.
  unfold lessons_of.
  induction genes as [| g genes IH]; [reflexivity |].
  cbn [map filter].
  change (Gene.group_key g) with (Gene.group_id g, Gene.day g, Gene.period g).
  cbn [fst snd].
  destruct (eq_dec (Gene.group_id g) a); [| exact IH].
  cbn [filter fst snd].
  destruct (eq_dec (Gene.day g) d); cbn [map fst snd]; rewrite IH;
    reflexivity.
Qed.

Lemma schedule_gap_counted_keys (ind1 ind2 : Chromosome.t)
    (groups : list StudentGroup.t) :
  map Gene.group_key (Chromosome.genes ind1)
  = map Gene.group_key (Chromosome.genes ind2) ->
  schedule_gap_counted ind1 groups = schedule_gap_counted ind2 groups.
Proof.
  intros Hkeys. unfold schedule_gap_counted.
  apply zsum_ext_in. intros group _.
  set (a := StudentGroup.group_id group).
  assert (Hdays : days_of (Chromosome.genes ind1) a
                  = days_of (Chromosome.genes ind2) a)
    by (unfold days_of; rewrite !group_days_keys, Hkeys; reflexivity).
  rewrite Hdays. apply zsum_ext_in. intros d _.
  assert (Hsorted : forall i : Chromosome.t,
            Permutation
              (py_sorted
                 (map Gene.period
                    (sort_by Gene.period (lessons_of (Chromosome.genes i) a d))))
              (map Gene.period (lessons_of (Chromosome.genes i) a d))).
  { intros i. unfold py_sorted. rewrite sort_by_Permutation.
    apply Permutation_map, sort_by_Permutation. }
  rewrite (gap_counted_Permutation _ _ (Hsorted ind1)),
    (gap_counted_Permutation _ _ (Hsorted ind2)).
  rewrite !lessons_periods_keys, Hkeys. reflexivity.
Qed.

(** X16.  Repair leaves the group conflict term and the gap term of every
    chromosome as they were, however it ends: the pass for group
    conflicts draws a new course for the later gene of a conflict and
    moves no gene to another day or period. *)
Theorem repair_keeps_group_terms (individual : nat)
    (teachers : list Teacher.t) (rooms : list Room.t)
    (groups : list StudentGroup.t) (s : State) (c : nat) :
  let s' := snd (repair_timetable individual teachers rooms s) in
  penalty_group_conflict (content s' c) = penalty_group_conflict (content s c)
  /\ (penalty_group_schedule_gap (content s' c) groups
      == penalty_group_schedule_gap (content s c) groups)%Q.
Proof.
  intros s'.
  pose proof (content_unchanged Gene.group_key s s' c
                (keeps_group_key_repair individual teachers rooms s)) as Hkeys.
  split.
  - rewrite !penalty_group_conflict_spec, Hkeys. reflexivity.
  - rewrite !penalty_group_schedule_gap_counted.
    rewrite (schedule_gap_counted_keys _ _ groups Hkeys). reflexivity.
Qed.

(** ** Repair of a timetable without conflicts *)

Lemma resolve_group_step_free (seen : dict (Z * string * Z) bool)
    (gene : nat) (s : State) :
  dict_contains seen (Gene.group_key (gene_objs s gene)) = false ->
  resolve_group_step seen gene s
  = (Ok (dict_set seen (Gene.group_key (gene_objs s gene)) true), s).
Proof.
  intros Hfree. unfold resolve_group_step.
  rewrite (bind_run _ _ s s (gene_objs s gene)) by reflexivity.
  change (Gene.group_id (gene_objs s gene), Gene.day (gene_objs s gene),
          Gene.period (gene_objs s gene))
    with (Gene.group_key (gene_objs s gene)).
  rewrite Hfree. reflexivity.
Qed.

Lemma group_pass_noop (refs : list nat) (s : State) :
  forall seen,
  NoDup (map (fun r => Gene.group_key (gene_objs s r)) refs) ->
  (forall r, In r refs ->
     dict_contains seen (Gene.group_key (gene_objs s r)) = false) ->
  exists seen', for_fold refs seen resolve_group_step s = (Ok seen', s).
Proof.
  induction refs as [| r refs IH]; intros seen Hnd Hfree.
  - exists seen. reflexivity.
  - cbn [for_fold].
    rewrite (bind_run _ _ s s
               (dict_set seen (Gene.group_key (gene_objs s r)) true))
      by (apply resolve_group_step_free, Hfree; left; reflexivity).
    cbn [map] in Hnd. inversion Hnd as [| ? ? Hhead Htail]; subst.
    apply IH; [assumption |].
    intros q Hq. rewrite dict_contains_set.
    destruct (eq_dec (Gene.group_key (gene_objs s q))
                     (Gene.group_key (gene_objs s r))) as [E | _].
    + exfalso. apply Hhead. rewrite <- E.
      apply (in_map (fun r => Gene.group_key (gene_objs s r))). assumption.
    + apply Hfree. right. assumption.
Qed.

(** X17.  On a chromosome in which no two genes share (teacher, day,
    period), (room, day, period) or (group, day, period), repair is the
    identity: it returns the chromosome and leaves the whole state as it
    was, the random generator included. *)
Theorem repair_identity_without_conflicts (individual : nat)
    (teachers : list Teacher.t) (rooms : list Room.t) (s : State) :
  NoDup (map Gene.teacher_key (Chromosome.genes (content s individual))) ->
  NoDup (map Gene.room_key (Chromosome.genes (content s individual))) ->
  NoDup (map Gene.group_key (Chromosome.genes (content s individual))) ->
  repair_timetable individual teachers rooms s = (Ok individual, s).
Proof.
  intros Ht Hr Hg. unfold repair_timetable.
  rewrite (bind_run _ _ s s individual)
    by (apply resolve_teacher_conflicts_noop; assumption).
  rewrite (bind_run _ _ s s individual)
    by (apply resolve_room_conflicts_noop; assumption).
  destruct (group_pass_noop (chromosomes s individual) s []) as (seen' & Hrun).
  - unfold content in Hg. cbn [Chromosome.genes] in Hg.
    rewrite map_map in Hg. exact Hg.
  - intros r _. reflexivity.
  - rewrite (bind_run _ _ s s individual); [reflexivity |].
    unfold resolve_group_conflicts.
    rewrite (bind_run _ _ s s (chromosomes s individual)) by reflexivity.
    rewrite (bind_run _ _ s s seen' Hrun). reflexivity.
Qed.

Lemma repair_identity_without_conflicts_witness :
  NoDup (map Gene.teacher_key (Chromosome.genes (content tidy_hour 0%nat)))
  /\ NoDup (map Gene.room_key (Chromosome.genes (content tidy_hour 0%nat)))
  /\ NoDup (map Gene.group_key (Chromosome.genes (content tidy_hour 0%nat)))
  /\ repair_timetable 0 two_teachers two_rooms tidy_hour = (Ok 0%nat, tidy_hour).
Proof.
  assert (Ht : NoDup (map Gene.teacher_key
                        (Chromosome.genes (content tidy_hour 0%nat))))
    by (repeat constructor; simpl; intuition discriminate).
  assert (Hr : NoDup (map Gene.room_key
                        (Chromosome.genes (content tidy_hour 0%nat))))
    by (repeat constructor; simpl; intuition discriminate).
  assert (Hg : NoDup (map Gene.group_key
                        (Chromosome.genes (content tidy_hour 0%nat))))
    by (repeat constructor; simpl; intuition discriminate).
  split; [exact Ht |]. split; [exact Hr |]. split; [exact Hg |].
  apply (repair_identity_without_conflicts 0 two_teachers two_rooms tidy_hour
           Ht Hr Hg).
Defined.

(** ** Which teacher, which room *)

Lemma min_from_least {A : Type} (key : A -> result Z) (l : list A) :
  forall best best_key b,
  key best = Ok best_key ->
  min_from key best best_key l = Ok b ->
  exists kb, key b = Ok kb /\ kb <= best_key
             /\ forall x kx, In x l -> key x = Ok kx -> kb <= kx.
Proof.
  induction l as [| x l IH]; intros best best_key b Hbest Hrun;
    cbn [min_from] in Hrun.
  - inversion Hrun; subst. exists best_key.
    split; [assumption |]. split; [lia | intros x kx []].
  - destruct (key x) as [k | e] eqn:Ek; cbn [result_bind] in Hrun;
      [| discriminate].
    destruct (k <? best_key) eqn:Elt.
    + apply Z.ltb_lt in Elt.
      destruct (IH x k b Ek Hrun) as (kb & Hkb & Hle & Hall).
      exists kb. split; [assumption |]. split; [lia |].
      intros y ky [<- | Hy] Hky; [| apply (Hall y ky Hy Hky)].
      rewrite Ek in Hky. inversion Hky; subst. assumption.
    + apply Z.ltb_ge in Elt.
      destruct (IH best best_key b Hbest Hrun) as (kb & Hkb & Hle & Hall).
      exists kb. split; [assumption |]. split; [assumption |].
      intros y ky [<- | Hy] Hky; [| apply (Hall y ky Hy Hky)].
      rewrite Ek in Hky. inversion Hky; subst. lia.
Qed.

Lemma py_min_by_least {A : Type} (key : A -> result Z) (l : list A) (b : A) :
  py_min_by l key = Ok b ->
  exists kb, key b = Ok kb
             /\ forall x kx, In x l -> key x = Ok kx -> kb <= kx.
Proof.
  destruct l as [| x l]; cbn [py_min_by]; [discriminate |].
  destruct (key x) as [k | e] eqn:Ek; cbn [result_bind]; [| discriminate].
  intros Hrun.
  destruct (min_from_least key l x k b Ek Hrun) as (kb & Hkb & Hle & Hall).
  exists kb. split; [assumption |].
  intros y ky [<- | Hy] Hky; [| apply (Hall y ky Hy Hky)].
  rewrite Ek in Hky. inversion Hky; subst. assumption.
Qed.

Lemma resolve_teacher_step_replaces (teachers : list Teacher.t)
    (prefs : dict Z (list (string * Z)))
    (sched : dict (string * Z) (list Z)) (load : dict Z Z) (gene : nat)
    (s : State) (id : Z) :
  let ids := map Teacher.teacher_id teachers in
  let g := gene_objs s gene in
  let booked := dict_get sched (Gene.slot_key g) [] in
  let prefers := fun tid => In (Gene.slot_key g) (dict_get prefs tid []) in
  has_keys ids load ->
  In (Gene.teacher_id g) booked ->
  In id ids -> ~ In id booked ->
  exists best c,
    resolve_teacher_step teachers prefs (sched, load) gene s
    = (Ok (dict_set sched (Gene.slot_key g) (booked ++ [best]),
           dict_set load best (c + 1)),
       snd (write_gene gene (fun g0 => Gene.set_teacher_id g0 best) s))
    /\ dict_find load best = Some c
    /\ In best ids /\ ~ In best booked
    /\ (forall x, In x ids -> ~ In x booked -> prefers x -> prefers best)
    /\ (forall x cx, In x ids -> ~ In x booked -> (prefers best -> prefers x) ->
          dict_find load x = Some cx -> c <= cx).
Proof.
  intros ids g booked prefers Hkeys Hin Hid Hnb.
  unfold resolve_teacher_step.
  rewrite (bind_run _ _ s s g) by reflexivity.
  cbn [fst snd].
  change (Gene.day g, Gene.period g) with (Gene.slot_key g).
  rewrite (bind_run _ _ s s booked)
    by (unfold lift; rewrite dict_getitem_setdefault; reflexivity).
  unfold py_in at 1.
  destruct (in_dec eq_dec (Gene.teacher_id g) booked); [| contradiction].
  remember (map Teacher.teacher_id
              (filter (fun t => negb (py_in (Teacher.teacher_id t) booked))
                      teachers)) as available eqn:Eav.
  assert (Hav : forall x, In x available <-> In x ids /\ ~ In x booked).
  { intros x. subst available ids. rewrite in_map_iff. split.
    - intros (t & <- & Ht). apply filter_In in Ht as [Ht Hb].
      split; [apply in_map; assumption |]. unfold py_in in Hb.
      destruct (in_dec eq_dec (Teacher.teacher_id t) booked);
        [discriminate | assumption].
    - intros [Hx Hfree]. apply in_map_iff in Hx. destruct Hx as (t & Et & Ht).
      exists t. split; [assumption |]. apply filter_In.
      split; [assumption |]. unfold py_in. rewrite Et.
      destruct (in_dec eq_dec x booked); [contradiction | reflexivity]. }
  assert (Hne : available <> []).
  { intros E. assert (Hx : In id available) by (apply Hav; tauto).
    rewrite E in Hx. destruct Hx. }
  clear Eav.
  destruct available as [| a0 others]; [congruence |].
  set (available := a0 :: others) in *.
  remember (filter (fun tid => py_in (Gene.slot_key g)
                                 (dict_get prefs tid [])) available)
    as preferred eqn:Epf.
  assert (Hpref : forall x, In x preferred <-> In x available /\ prefers x).
  { intros x. subst preferred. rewrite filter_In. unfold py_in, prefers.
    destruct (in_dec eq_dec (Gene.slot_key g) (dict_get prefs x []));
      intuition discriminate. }
  clear Epf.
  set (candidates := list_or preferred available).
  destruct (list_or_facts preferred available Hne) as [Hcne Hcincl];
    [intros x Hx; apply Hpref in Hx; tauto |].
  fold candidates in Hcne, Hcincl.
  destruct (py_min_by_ok (fun tid => dict_getitem load tid) candidates Hcne)
    as (best & Hbest & Hbin).
  { intros x Hx. apply (has_keys_getitem _ _ _ Hkeys).
    apply Hav, Hcincl. assumption. }
  destruct (proj1 (Hav best) (Hcincl best Hbin)) as [Hbid Hbfree].
  destruct (py_min_by_least _ _ _ Hbest) as (c & Hc & Hleast).
  set (s1 := snd (write_gene gene
                    (fun g0 => Gene.set_teacher_id g0 best) s)).
  exists best, c.
  split; [| split; [| split; [| split; [| split]]]].
  - rewrite (bind_run _ _ s s1 (dict_set load best (c + 1))).
    + rewrite (bind_run _ _ s1 s1 (gene_objs s1 gene)) by reflexivity.
      rewrite (bind_run _ _ s1 s1 booked)
        by (unfold lift; rewrite dict_getitem_setdefault; reflexivity).
      unfold ret. rewrite dict_set_setdefault.
      subst s1. cbn [write_gene snd gene_objs]. rewrite Nat.eqb_refl.
      reflexivity.
    + rewrite (bind_run _ _ s s best) by (unfold lift; rewrite Hbest; reflexivity).
      rewrite (bind_run _ _ s s1 tt) by reflexivity.
      rewrite (bind_run _ _ s1 s1 c) by (unfold lift; rewrite Hc; reflexivity).
      reflexivity.
  - unfold dict_getitem in Hc.
    destruct (dict_find load best); [congruence | discriminate].
  - assumption.
  - assumption.
  - intros x Hx Hfree Hprefers.
    assert (Hxp : In x preferred) by (apply Hpref; split; [apply Hav |]; tauto).
    subst candidates. destruct preferred as [| p0 ps]; [destruct Hxp |].
    cbn [list_or] in Hbin. apply Hpref in Hbin. tauto.
  - intros x cx Hx Hfree Himp Hcx.
    apply (Hleast x cx); [| unfold dict_getitem; rewrite Hcx; reflexivity].
    subst candidates. destruct preferred as [| p0 ps].
    + cbn [list_or]. apply Hav. tauto.
    + cbn [list_or] in *. apply Hpref.
      split; [apply Hav; tauto |]. apply Himp. apply Hpref in Hbin. tauto.
Qed.

(** X18.  The teacher the repair gives to a gene whose teacher is already
    booked at its (day, period), when the catalog has a teacher who is
    not: one of the catalog who is not booked there; one who prefers that
    time if any such teacher does; and, among those, one to whom the pass
    has given the fewest genes so far.  The gene gets that teacher, who is
    then booked at the slot and has one gene more. *)
Theorem teacher_replacement_choice (teachers : list Teacher.t)
    (prefs : dict Z (list (string * Z)))
    (sched : dict (string * Z) (list Z)) (load : dict Z Z) (gene : nat)
    (s : State) (id : Z) :
  let ids := map Teacher.teacher_id teachers in
  let g := gene_objs s gene in
  let booked := dict_get sched (Gene.slot_key g) [] in
  let prefers := fun tid => In (Gene.slot_key g) (dict_get prefs tid []) in
  has_keys ids load ->
  In (Gene.teacher_id g) booked ->
  In id ids -> ~ In id booked ->
  exists best c,
    resolve_teacher_step teachers prefs (sched, load) gene s
    = (Ok (dict_set sched (Gene.slot_key g) (booked ++ [best]),
           dict_set load best (c + 1)),
       snd (write_gene gene (fun g0 => Gene.set_teacher_id g0 best) s))
    /\ dict_find load best = Some c
    /\ In best ids /\ ~ In best booked
    /\ (forall x, In x ids -> ~ In x booked -> prefers x -> prefers best)
    /\ (forall x cx, In x ids -> ~ In x booked -> (prefers best -> prefers x) ->
          dict_find load x = Some cx -> c <= cx).
Proof. exact (resolve_teacher_step_replaces teachers prefs sched load gene s id). Qed.

Lemma teacher_replacement_choice_witness :
  let teachers := two_teachers in
  let prefs : dict Z (list (string * Z)) := [] in
  let sched : dict (string * Z) (list Z) := [(("Monday"%string, 1), [5])] in
  let load : dict Z Z := [(5, 0); (6, 0)] in
  let ids := map Teacher.teacher_id teachers in
  let g := gene_objs tidy_hour 0%nat in
  let booked := dict_get sched (Gene.slot_key g) [] in
  let prefers := fun tid => In (Gene.slot_key g) (dict_get prefs tid []) in
  has_keys ids load
  /\ In (Gene.teacher_id g) booked
  /\ In 6 ids /\ ~ In 6 booked
  /\ exists best c,
       resolve_teacher_step teachers prefs (sched, load) 0 tidy_hour
       = (Ok (dict_set sched (Gene.slot_key g) (booked ++ [best]),
              dict_set load best (c + 1)),
          snd (write_gene 0 (fun g0 => Gene.set_teacher_id g0 best) tidy_hour))
       /\ dict_find load best = Some c
       /\ In best ids /\ ~ In best booked
       /\ (forall x, In x ids -> ~ In x booked -> prefers x -> prefers best)
       /\ (forall x cx, In x ids -> ~ In x booked ->
             (prefers best -> prefers x) ->
             dict_find load x = Some cx -> c <= cx).
Proof.
  intros teachers prefs sched load ids g booked prefers.
  assert (Hkeys : has_keys ids load).
  { intros id Hid. subst ids teachers. cbn in Hid.
    destruct Hid as [<- | [<- | []]]; vm_compute; discriminate. }
  assert (Hin : In (Gene.teacher_id g) booked) by (vm_compute; left; reflexivity).
  assert (Hid : In 6 ids) by (vm_compute; right; left; reflexivity).
  assert (Hnb : ~ In 6 booked)
    by (vm_compute; intros [E | []]; discriminate).
  split; [exact Hkeys |]. split; [exact Hin |]. split; [exact Hid |].
  split; [exact Hnb |].
  apply (teacher_replacement_choice teachers prefs sched load 0 tidy_hour 6
           Hkeys Hin Hid Hnb).
Defined.

(* ================================================================== *)
(** * The catalog of time slots and the initial individual *)

(** ** The validation of a time slot *)

Lemma timeslot_post_init_gene (ts : TimeSlot.t) (group_id timeslot_id
    course_id teacher_id room_id : Z) (is_fixed : option bool) :
  Gene.post_init
    (Gene.mk group_id (TimeSlot.day ts) (TimeSlot.period ts) timeslot_id
       course_id teacher_id room_id is_fixed)
  = timeslot_post_init ts.
Proof. reflexivity. Qed.

Lemma timeslot_new_facts (slot_id : Z) (day : string) (period : Z) :
  1 <= period /\ In day Gene.valid_days ->
  timeslot_new slot_id day period = Ok (TimeSlot.mk slot_id day period).
Proof.
  intros [Hp Hd]. unfold timeslot_new, timeslot_post_init, py_in.
  cbn [TimeSlot.period TimeSlot.day].
  destruct (period <? 1) eqn:Ep; [apply Z.ltb_lt in Ep; lia |].
  destruct (in_dec eq_dec day Gene.valid_days); [reflexivity | contradiction].
Qed.

(** X19.  The constructor of [TimeSlot] raises [ValueError] exactly when the
    period is below 1 or the day is not a weekday, and otherwise returns
    the slot with the three values it was given.  It accepts a day and a
    period exactly when the constructor of [Gene] does: a gene placed on a
    slot that was accepted is accepted. *)
Theorem timeslot_new_validation (slot_id : Z) (day : string) (period : Z) :
  (timeslot_new slot_id day period = Raise ValueError
   <-> period < 1 \/ ~ In day Gene.valid_days)
  /\ (timeslot_new slot_id day period = Ok (TimeSlot.mk slot_id day period)
      <-> 1 <= period /\ In day Gene.valid_days)
  /\ (forall group_id timeslot_id course_id teacher_id room_id is_fixed,
        (exists ts, timeslot_new slot_id day period = Ok ts)
        <-> (exists g, Gene.new group_id day period timeslot_id course_id
                         teacher_id room_id is_fixed = Ok g)).
Proof.
  unfold timeslot_new, Gene.new, timeslot_post_init, Gene.post_init, py_in.
  cbn [TimeSlot.period TimeSlot.day Gene.period Gene.day result_bind].
  destruct (period <? 1) eqn:Ep; cbn [result_bind].
  - apply Z.ltb_lt in Ep. split; [| split].
    + split; [intros _; left; assumption | reflexivity].
    + split; [discriminate | lia].
    + intros. split; intros (x & Hx); discriminate.
  - apply Z.ltb_ge in Ep.
    destruct (in_dec eq_dec day Gene.valid_days) as [Hin | Hnin];
      cbn [negb result_bind].
    + split; [| split].
      * split; [discriminate | intros [Hlt | Hn]; [lia | contradiction]].
      * split; [intros _; split; [lia | assumption] | reflexivity].
      * intros. split; intros _; eexists; reflexivity.
    + split; [| split].
      * split; [intros _; right; assumption | reflexivity].
      * split; [discriminate | tauto].
      * intros. split; intros (x & Hx); discriminate.
Qed.

(** ** The catalog of [create_timeslots_fake] *)

Lemma number_from_app (n : Z) (l1 l2 : list (string * Z)) :
  number_from n (l1 ++ l2)
  = number_from n l1 ++ number_from (n + Z.of_nat (length l1)) l2.
Proof.
  revert n. induction l1 as [| [d p] l1 IH]; intros n; cbn [app number_from length].
  - rewrite Z.add_0_r. reflexivity.
  - rewrite IH. do 3 f_equal. lia.
Qed.

Lemma period_loop_spec (day : string) (periods : list Z) :
  forall (acc : list TimeSlot.t) (n : Z),
  fold_left
    (fun (acc : list TimeSlot.t * Z) period =>
       (fst acc ++ [TimeSlot.mk (snd acc) day period], snd acc + 1))
    periods (acc, n)
  = (acc ++ number_from n (map (pair day) periods),
     n + Z.of_nat (length periods)).
Proof.
  induction periods as [| p periods IH]; intros acc n;
    cbn [fold_left map number_from length fst snd].
  - rewrite app_nil_r, Z.add_0_r. reflexivity.
  - rewrite IH, <- app_assoc. cbn [app]. f_equal. lia.
Qed.

Lemma timeslots_for_numbered (days : list string) (periods : list Z) :
  timeslots_for days periods = number_from 1 (list_prod days periods).
Proof.
  unfold timeslots_for.
  assert (Hgen : forall (acc : list TimeSlot.t) (n : Z),
    fold_left
      (fun (acc : list TimeSlot.t * Z) day =>
         fold_left
           (fun (acc : list TimeSlot.t * Z) period =>
              (fst acc ++ [TimeSlot.mk (snd acc) day period], snd acc + 1))
           periods acc)
      days (acc, n)
    = (acc ++ number_from n (list_prod days periods),
       n + Z.of_nat (length (list_prod days periods)))).
  { induction days as [| d days IH]; intros acc n;
      cbn [fold_left list_prod].
    - cbn [number_from length]. rewrite app_nil_r, Z.add_0_r. reflexivity.
    - rewrite period_loop_spec, IH, number_from_app, <- app_assoc.
      rewrite length_app, !length_map. f_equal. lia. }
  rewrite Hgen. reflexivity.
Qed.

Lemma number_from_cells (n : Z) (cells : list (string * Z)) :
  map (fun ts => (TimeSlot.day ts, TimeSlot.period ts)) (number_from n cells)
  = cells.
Proof.
  revert n. induction cells as [| [d p] cells IH]; intros n;
    cbn [number_from map TimeSlot.day TimeSlot.period]; [reflexivity |].
  rewrite IH. reflexivity.
Qed.

Lemma number_from_ids (n : Z) (cells : list (string * Z)) :
  map TimeSlot.slot_id (number_from n cells)
  = map (fun i => n + Z.of_nat i) (seq 0 (length cells)).
Proof.
  revert n. induction cells as [| [d p] cells IH]; intros n;
    cbn [number_from map TimeSlot.slot_id length seq]; [reflexivity |].
  rewrite IH, <- seq_shift, map_map. f_equal; [lia |].
  apply map_ext. intros i. lia.
Qed.

Lemma NoDup_flat_map {A B : Type} (f : A -> list B) (l : list A) :
  NoDup l ->
  (forall x, In x l -> NoDup (f x)) ->
  (forall x y b, In x l -> In y l -> In b (f x) -> In b (f y) -> x = y) ->
  NoDup (flat_map f l).
Proof.
  induction l as [| a l IH]; intros Hnd Hf Hdisj; cbn [flat_map];
    [constructor |].
  inversion Hnd as [| ? ? Ha Hl]; subst.
  apply NoDup_app.
  - apply Hf. left. reflexivity.
  - apply IH; [assumption | |].
    + intros x Hx. apply Hf. right. assumption.
    + intros x y b Hx Hy. apply Hdisj; right; assumption.
  - intros b Hb Hin. apply in_flat_map in Hin. destruct Hin as (y & Hy & Hby).
    apply Ha. rewrite (Hdisj a y b); auto; [left; reflexivity | right; assumption].
Qed.

Lemma NoDup_map_injective {A B : Type} (f : A -> B) (l : list A) :
  (forall a b, f a = f b -> a = b) -> NoDup l -> NoDup (map f l).
Proof.
  intros Hinj. induction 1 as [| a l Ha Hl IH]; cbn [map]; constructor;
    [| assumption].
  intros Hin. apply in_map_iff in Hin. destruct Hin as (b & E & Hb).
  apply Hinj in E. subst b. contradiction.
Qed.

Lemma NoDup_list_prod {A B : Type} (l : list A) (l' : list B) :
  NoDup l -> NoDup l' -> NoDup (list_prod l l').
Proof.
  intros Hl Hl'. rewrite list_prod_as_flat_map. apply NoDup_flat_map.
  - assumption.
  - intros x _. apply NoDup_map_injective; [| assumption].
    intros b b' E. inversion E. reflexivity.
  - intros x y b _ _ Hx Hy. apply in_map_iff in Hx, Hy.
    destruct Hx as (bx & <- & _). destruct Hy as (by_ & E & _).
    inversion E. reflexivity.
Qed.

(** In a list whose keys are distinct, the first element that satisfies a
    test that fixes the key is the only one. *)
Lemma find_unique {A K : Type} (key : A -> K) (c : A -> bool) (l : list A)
    (x : A) :
  NoDup (map key l) -> In x l -> c x = true ->
  (forall y, In y l -> c y = true -> key y = key x) ->
  find c l = Some x.
Proof.
  induction l as [| a l IH]; intros Hnd Hin Hc Hkey; [destruct Hin |].
  cbn [find]. cbn [map] in Hnd. inversion Hnd as [| ? ? Ha Hl]; subst.
  destruct (c a) eqn:Ea.
  - destruct Hin as [-> | Hin]; [reflexivity |].
    exfalso. apply Ha.
    rewrite (Hkey a (or_introl eq_refl) Ea).
    apply in_map. assumption.
  - destruct Hin as [-> | Hin]; [congruence |].
    apply IH; try assumption.
    intros y Hy. apply Hkey. right. assumption.
Qed.

Lemma slot_matches_iff (day : string) (period : Z) (ts : TimeSlot.t) :
  slot_matches day period ts = true
  <-> TimeSlot.day ts = day /\ TimeSlot.period ts = period.
Proof.
  unfold slot_matches. rewrite andb_true_iff, Z.eqb_eq.
  destruct (eq_dec (TimeSlot.day ts) day); intuition discriminate.
Qed.

Lemma first_slot_Some (timeslots : list TimeSlot.t) (day : string)
    (period : Z) (ts : TimeSlot.t) :
  first_slot timeslots day period = Some ts ->
  In ts timeslots /\ TimeSlot.day ts = day /\ TimeSlot.period ts = period.
Proof.
  unfold first_slot. intros Hf. apply find_some in Hf.
  destruct Hf as [Hin Hm]. apply slot_matches_iff in Hm. tauto.
Qed.

Lemma first_slot_In (timeslots : list TimeSlot.t) (ts : TimeSlot.t) :
  In ts timeslots ->
  first_slot timeslots (TimeSlot.day ts) (TimeSlot.period ts) <> None.
Proof.
  intros Hin Hnone. unfold first_slot in Hnone.
  pose proof (find_none _ _ Hnone ts Hin) as Hm. cbv beta in Hm.
  assert (Ht : slot_matches (TimeSlot.day ts) (TimeSlot.period ts) ts = true)
    by (apply slot_matches_iff; split; reflexivity).
  congruence.
Qed.

(** X20.  [create_timeslots_fake], for any two lists of days and periods:
    the catalog has one slot for each day and period, day by day, and the
    slots are numbered 1, 2, 3, ... in that order.  When no day and no
    period is listed twice, each (day, period) has exactly one slot, which
    is both the one the initial individual takes (the first) and the one
    mutation takes (the last).  When the days are weekdays and the
    periods positive, every slot passes the validation of [TimeSlot]. *)
Theorem timeslots_for_catalog (days : list string) (periods : list Z) :
  let catalog := timeslots_for days periods in
  map (fun ts => (TimeSlot.day ts, TimeSlot.period ts)) catalog
  = list_prod days periods
  /\ map TimeSlot.slot_id catalog
     = map Z.of_nat (seq 1 (length days * length periods))
  /\ (NoDup days -> NoDup periods ->
      forall day period, In day days -> In period periods ->
      exists ts,
        first_slot catalog day period = Some ts
        /\ matching_slot catalog day period = Some ts
        /\ forall ts', In ts' catalog -> TimeSlot.day ts' = day ->
                       TimeSlot.period ts' = period -> ts' = ts)
  /\ ((forall day, In day days -> In day Gene.valid_days) ->
      (forall period, In period periods -> 1 <= period) ->
      Forall (fun ts => timeslot_db_to_dc ts = Ok ts) catalog).
Proof.
  intros catalog.
  assert (Hcells : map (fun ts => (TimeSlot.day ts, TimeSlot.period ts)) catalog
                   = list_prod days periods)
    by (subst catalog; rewrite timeslots_for_numbered; apply number_from_cells).
  split; [exact Hcells |]. split; [| split].
  - subst catalog. rewrite timeslots_for_numbered, number_from_ids.
    rewrite length_prod, <- seq_shift, map_map. apply map_ext. intros i. lia.
  - intros Hdays Hperiods day period Hday Hperiod.
    assert (Hnd : NoDup (map (fun ts => (TimeSlot.day ts, TimeSlot.period ts))
                             catalog))
      by (rewrite Hcells; apply NoDup_list_prod; assumption).
    assert (Hin : In (day, period)
                     (map (fun ts => (TimeSlot.day ts, TimeSlot.period ts))
                          catalog))
      by (rewrite Hcells; apply in_prod; assumption).
    apply in_map_iff in Hin. destruct Hin as (ts & Ets & Hts).
    inversion Ets as [[Ed Ep]]. exists ts. split; [| split].
    + unfold first_slot.
      apply (find_unique (fun ts => (TimeSlot.day ts, TimeSlot.period ts)));
        try assumption.
      * apply slot_matches_iff. split; reflexivity.
      * intros y _ Hy. apply slot_matches_iff in Hy. destruct Hy as [-> ->].
        reflexivity.
    + unfold matching_slot.
      apply (find_unique (fun ts => (TimeSlot.day ts, TimeSlot.period ts))).
      * apply (Permutation_NoDup
                 (Permutation_map _ (Permutation_rev catalog))). exact Hnd.
      * apply in_rev. rewrite rev_involutive. assumption.
      * destruct (eq_dec (TimeSlot.day ts, TimeSlot.period ts)
                         (TimeSlot.day ts, TimeSlot.period ts));
          [reflexivity | congruence].
      * intros y _ Hy.
        destruct (eq_dec (TimeSlot.day ts, TimeSlot.period ts)
                         (TimeSlot.day y, TimeSlot.period y)) as [E | _];
          [congruence | discriminate].
    + intros ts' Hts' Hd' Hp'.
      assert (Hkey : (TimeSlot.day ts', TimeSlot.period ts')
                     = (TimeSlot.day ts, TimeSlot.period ts)) by congruence.
      clear - Hnd Hts Hts' Hkey.
      induction catalog as [| a l IH]; [destruct Hts |].
      cbn [map] in Hnd. inversion Hnd as [| ? ? Ha Hl]; subst.
      destruct Hts as [-> | Hts]; destruct Hts' as [-> | Hts'].
      * reflexivity.
      * exfalso. apply Ha. rewrite <- Hkey.
        apply (in_map (fun ts => (TimeSlot.day ts, TimeSlot.period ts))).
        assumption.
      * exfalso. apply Ha. rewrite Hkey.
        apply (in_map (fun ts => (TimeSlot.day ts, TimeSlot.period ts))).
        assumption.
      * apply IH; assumption.
  - intros Hdays Hperiods. apply Forall_forall. intros ts Hts.
    assert (Hcell : In (TimeSlot.day ts, TimeSlot.period ts)
                       (list_prod days periods)).
    { rewrite <- Hcells.
      apply (in_map (fun ts => (TimeSlot.day ts, TimeSlot.period ts))).
      assumption. }
    apply in_prod_iff in Hcell. destruct Hcell as [Hd Hp].
    unfold timeslot_db_to_dc.
    destruct ts as [id d p]. cbn [TimeSlot.slot_id TimeSlot.day TimeSlot.period] in *.
    apply (timeslot_new_facts id d p). split; [apply Hperiods | apply Hdays];
      assumption.
Qed.

(** ** One gene of the initial individual *)

Lemma gbind_run {A C : Type} (m : G A) (k : A -> G C) (s s1 : State) (a : A) :
  m s = (Value a, s1) -> gbind m k s = k a s1.
Proof. unfold gbind. intros ->. reflexivity. Qed.

Lemma gbind_stop {A C : Type} (m : G A) (k : A -> G C) (s s1 : State) :
  m s = (StopIteration, s1) -> gbind m k s = (StopIteration, s1).
Proof. unfold gbind. intros ->. reflexivity. Qed.

Lemma gbind_error {A C : Type} (m : G A) (k : A -> G C) (s s1 : State)
    (e : exn) :
  m s = (Error e, s1) -> gbind m k s = (Error e, s1).
Proof. unfold gbind. intros ->. reflexivity. Qed.

Lemma next_of_first_slot (timeslots : list TimeSlot.t) (day : string)
    (period : Z) (s : State) :
  next_of (map TimeSlot.slot_id (filter (slot_matches day period) timeslots)) s
  = match first_slot timeslots day period with
    | Some ts => (Value (TimeSlot.slot_id ts), s)
    | None => (StopIteration, s)
    end.
Proof.
  unfold first_slot.
  induction timeslots as [| ts timeslots IH]; cbn [filter find map];
    [reflexivity |].
  destruct (slot_matches day period ts); [reflexivity | exact IH].
Qed.

Lemma choice_run {A : Type} (l : list A) (s : State) :
  l <> [] ->
  exists x, In x l /\ from_M (random_choice l) s = (Value x, advance s).
Proof.
  intros Hne. destruct l as [| a l]; [congruence |].
  exists (nth (N.to_nat (rng s 0%nat) mod length (a :: l)) (a :: l) a).
  split; [apply nth_In, Nat.mod_upper_bound; discriminate | reflexivity].
Qed.

Lemma choice_empty {A : Type} (s : State) :
  from_M (@random_choice A []) s = (Error IndexError, s).
Proof. reflexivity. Qed.

Lemma gene_new_Ok (group_id : Z) (day : string) (period timeslot_id course_id
    teacher_id room_id : Z) (is_fixed : option bool) :
  1 <= period -> In day Gene.valid_days ->
  Gene.new group_id day period timeslot_id course_id teacher_id room_id is_fixed
  = Ok (Gene.mk group_id day period timeslot_id course_id teacher_id room_id
          is_fixed).
Proof.
  intros Hp Hd. unfold Gene.new, Gene.post_init, py_in.
  cbn [Gene.period Gene.day].
  destruct (period <? 1) eqn:Ep; [apply Z.ltb_lt in Ep; lia |].
  destruct (in_dec eq_dec day Gene.valid_days); [reflexivity | contradiction].
Qed.

Lemma gene_new_Raise (group_id : Z) (day : string) (period timeslot_id course_id
    teacher_id room_id : Z) (is_fixed : option bool) :
  period < 1 \/ ~ In day Gene.valid_days ->
  Gene.new group_id day period timeslot_id course_id teacher_id room_id is_fixed
  = Raise ValueError.
Proof.
  intros Hbad. unfold Gene.new, Gene.post_init, py_in.
  cbn [Gene.period Gene.day].
  destruct (period <? 1) eqn:Ep; [reflexivity |]. apply Z.ltb_ge in Ep.
  destruct (in_dec eq_dec day Gene.valid_days); [| reflexivity].
  destruct Hbad; [lia | contradiction].
Qed.

Lemma generate_random_gene_run (courses : list Course.t)
    (teachers : list Teacher.t) (rooms : list Room.t)
    (timeslots : list TimeSlot.t) (group_id : Z) (day : string) (period : Z)
    (ts : TimeSlot.t) (s : State) :
  first_slot timeslots day period = Some ts ->
  courses <> [] -> teachers <> [] -> rooms <> [] ->
  exists c t r,
    In c courses /\ In t teachers /\ In r rooms
    /\ generate_random_gene courses teachers rooms timeslots group_id day
         period s
       = from_M (lift (Gene.new group_id day period (TimeSlot.slot_id ts)
                         (Course.course_id c) (Teacher.teacher_id t)
                         (Room.room_id r) (Some false)))
           (Nat.iter 3 advance s).
Proof.
  intros Hslot Hc Ht Hr.
  destruct (choice_run courses s Hc) as (c & Hcin & Hcrun).
  destruct (choice_run teachers (advance s) Ht) as (t & Htin & Htrun).
  destruct (choice_run rooms (advance (advance s)) Hr) as (r & Hrin & Hrrun).
  exists c, t, r. split; [assumption |]. split; [assumption |].
  split; [assumption |].
  unfold generate_random_gene.
  rewrite (gbind_run _ _ s s (TimeSlot.slot_id ts))
    by (rewrite next_of_first_slot, Hslot; reflexivity).
  rewrite (gbind_run _ _ _ _ c Hcrun), (gbind_run _ _ _ _ t Htrun),
    (gbind_run _ _ _ _ r Hrrun).
  reflexivity.
Qed.

(** X21.  [_generate_random_gene] ends in one of four ways, and in none of
    them touches a chromosome or a gene object.  [StopIteration], when the
    catalog has no slot of the day and period.  [IndexError], when it has
    one and one of the lists of courses, teachers and rooms is empty.
    [ValueError], when the three lists are not empty and the period is
    below 1 or the day is not a weekday.  Otherwise it returns a gene of
    the group, day and period asked for, on the first slot of the catalog
    for them, with a course, a teacher and a room of the lists. *)
Theorem generate_random_gene_outcomes (courses : list Course.t)
    (teachers : list Teacher.t) (rooms : list Room.t)
    (timeslots : list TimeSlot.t) (group_id : Z) (day : string) (period : Z)
    (s : State) :
  let run :=
    generate_random_gene courses teachers rooms timeslots group_id day
      period s in
  (chromosomes (snd run) = chromosomes s /\ gene_objs (snd run) = gene_objs s)
  /\ (first_slot timeslots day period = None -> run = (StopIteration, s))
  /\ (first_slot timeslots day period <> None ->
      (courses = [] \/ teachers = [] \/ rooms = [] ->
       fst run = Error IndexError)
      /\ (courses <> [] -> teachers <> [] -> rooms <> [] ->
          (period < 1 \/ ~ In day Gene.valid_days ->
           fst run = Error ValueError)
          /\ (1 <= period -> In day Gene.valid_days ->
              exists g,
                fst run = Value g
                /\ Gene.group_key g = (group_id, day, period)
                /\ initial_gene courses teachers rooms timeslots g))).
Proof.
  intros run. subst run.
  destruct (first_slot timeslots day period) as [ts |] eqn:Hslot.
  2:{ assert (Hrun : generate_random_gene courses teachers rooms timeslots
                       group_id day period s = (StopIteration, s)).
      { unfold generate_random_gene. apply gbind_stop.
        rewrite next_of_first_slot, Hslot. reflexivity. }
      rewrite Hrun. cbn [fst snd].
      split; [split; reflexivity |]. split; [reflexivity |].
      intros Hne. congruence. }
  assert (Hfirst : generate_random_gene courses teachers rooms timeslots
                     group_id day period s
                   = (course <-- from_M (random_choice courses) ;;
                      teacher <-- from_M (random_choice teachers) ;;
                      room <-- from_M (random_choice rooms) ;;
                      from_M (lift (Gene.new group_id day period
                                      (TimeSlot.slot_id ts)
                                      (Course.course_id course)
                                      (Teacher.teacher_id teacher)
                                      (Room.room_id room) (Some false)))) s).
  { unfold generate_random_gene.
    rewrite (gbind_run _ _ s s (TimeSlot.slot_id ts))
      by (rewrite next_of_first_slot, Hslot; reflexivity).
    reflexivity. }
  destruct courses as [| c0 courses'].
  { rewrite Hfirst, (gbind_error _ _ s s IndexError) by reflexivity.
    cbn [fst snd]. split; [split; reflexivity |]. split; [discriminate |].
    intros _. split; [reflexivity | congruence]. }
  destruct (choice_run (c0 :: courses') s ltac:(discriminate))
    as (c & Hcin & Hcrun).
  destruct teachers as [| t0 teachers'].
  { rewrite Hfirst, (gbind_run _ _ _ _ c Hcrun),
      (gbind_error _ _ _ (advance s) IndexError) by reflexivity.
    cbn [fst snd]. split; [split; reflexivity |]. split; [discriminate |].
    intros _. split; [reflexivity | congruence]. }
  destruct (choice_run (t0 :: teachers') (advance s) ltac:(discriminate))
    as (t & Htin & Htrun).
  destruct rooms as [| r0 rooms'].
  { rewrite Hfirst, (gbind_run _ _ _ _ c Hcrun), (gbind_run _ _ _ _ t Htrun),
      (gbind_error _ _ _ (advance (advance s)) IndexError) by reflexivity.
    cbn [fst snd]. split; [split; reflexivity |]. split; [discriminate |].
    intros _. split; [reflexivity | congruence]. }
  destruct (choice_run (r0 :: rooms') (advance (advance s)) ltac:(discriminate))
    as (r & Hrin & Hrrun).
  rewrite Hfirst, (gbind_run _ _ _ _ c Hcrun), (gbind_run _ _ _ _ t Htrun),
    (gbind_run _ _ _ _ r Hrrun).
  unfold from_M, lift.
  split.
  - destruct (Gene.new _ _ _ _ _ _ _ _); cbn [snd]; split; reflexivity.
  - split; [discriminate |]. intros _. split.
    + intros [E | [E | E]]; discriminate.
    + intros _ _ _. split.
      * intros Hbad. rewrite gene_new_Raise by assumption. reflexivity.
      * intros Hp Hd. rewrite gene_new_Ok by assumption. cbn [fst].
        eexists. split; [reflexivity |]. split; [reflexivity |].
        unfold initial_gene.
        cbn [Gene.is_fixed Gene.course_id Gene.teacher_id Gene.room_id
             Gene.day Gene.period Gene.timeslot_id].
        split.
        { unfold Gene.post_init, py_in. cbn [Gene.period Gene.day].
          destruct (period <? 1) eqn:Ep; [apply Z.ltb_lt in Ep; lia |].
          destruct (in_dec eq_dec day Gene.valid_days);
            [reflexivity | contradiction]. }
        split; [reflexivity |].
        split; [apply in_map; assumption |].
        split; [apply in_map; assumption |].
        split; [apply in_map; assumption |].
        exists ts. split; [assumption | reflexivity].
Qed.

(** ** The initial individual *)

Lemma g_for_fold_appends {X : Type} (good : Gene.t -> Prop)
    (keys : X -> list (Z * string * Z)) (l : list X)
    (body : Chromosome.t -> X -> G Chromosome.t) :
  (forall c x s, In x l ->
     exists new s',
       body c x s = (Value (Chromosome.mk (Chromosome.genes c ++ new)), s')
       /\ chromosomes s' = chromosomes s /\ gene_objs s' = gene_objs s
       /\ map Gene.group_key new = keys x /\ Forall good new) ->
  forall c s,
  exists new s',
    g_for_fold l c body s
    = (Value (Chromosome.mk (Chromosome.genes c ++ new)), s')
    /\ chromosomes s' = chromosomes s /\ gene_objs s' = gene_objs s
    /\ map Gene.group_key new = flat_map keys l /\ Forall good new.
Proof.
  induction l as [| x l IH]; intros Hbody c s.
  - exists [], s. cbn [g_for_fold flat_map map]. rewrite app_nil_r.
    destruct c as [genes]. repeat split; constructor.
  - destruct (Hbody c x s (or_introl eq_refl))
      as (new1 & s1 & Hrun1 & Hc1 & Hg1 & Hk1 & Hgood1).
    destruct (IH (fun c y s Hy => Hbody c y s (or_intror Hy))
                (Chromosome.mk (Chromosome.genes c ++ new1)) s1)
      as (new2 & s2 & Hrun2 & Hc2 & Hg2 & Hk2 & Hgood2).
    exists (new1 ++ new2), s2. cbn [g_for_fold].
    rewrite (gbind_run _ _ _ _ _ Hrun1), Hrun2.
    cbn [Chromosome.genes]. rewrite <- app_assoc.
    split; [reflexivity |]. split; [congruence |]. split; [congruence |].
    split; [cbn [flat_map]; rewrite map_app, Hk1, Hk2; reflexivity |].
    apply Forall_app. split; assumption.
Qed.

Lemma timeslots_for_first_slot (days : list string) (periods : list Z)
    (day : string) (period : Z) :
  In day days -> In period periods ->
  first_slot (timeslots_for days periods) day period <> None.
Proof.
  intros Hd Hp.
  assert (Hin : In (day, period)
                   (map (fun ts => (TimeSlot.day ts, TimeSlot.period ts))
                        (timeslots_for days periods)))
    by (rewrite timeslots_for_numbered, number_from_cells;
        apply in_prod; assumption).
  apply in_map_iff in Hin. destruct Hin as (ts & Ets & Hts).
  inversion Ets; subst. apply first_slot_In. assumption.
Qed.

Lemma NoDup_map_eq {A B : Type} (f : A -> B) (l : list A) (x y : A) :
  NoDup (map f l) -> In x l -> In y l -> f x = f y -> x = y.
Proof.
  induction l as [| a l IH]; intros Hnd Hx Hy E; [destruct Hx |].
  cbn [map] in Hnd. inversion Hnd as [| ? ? Ha Hl]; subst.
  destruct Hx as [-> | Hx]; destruct Hy as [-> | Hy].
  - reflexivity.
  - exfalso. apply Ha. rewrite E. apply in_map. assumption.
  - exfalso. apply Ha. rewrite <- E. apply in_map. assumption.
  - apply IH; assumption.
Qed.

Lemma all_cells_NoDup (groups : list StudentGroup.t) (days : list string)
    (periods : list Z) :
  NoDup (map StudentGroup.group_id groups) -> NoDup days -> NoDup periods ->
  NoDup (all_cells groups days periods).
Proof.
  intros Hg Hd Hp. unfold all_cells. apply NoDup_flat_map.
  - apply (NoDup_map_inv StudentGroup.group_id). assumption.
  - intros group _. apply NoDup_flat_map; [assumption | |].
    + intros day _. apply NoDup_map_injective; [| assumption].
      intros a b E. inversion E. reflexivity.
    + intros d d' b _ _ Hb Hb'. apply in_map_iff in Hb, Hb'.
      destruct Hb as (p & <- & _). destruct Hb' as (p' & E & _).
      inversion E. reflexivity.
  - intros x y b Hx Hy Hb Hb'.
    apply in_flat_map in Hb, Hb'.
    destruct Hb as (d & _ & Hb). destruct Hb' as (d' & _ & Hb').
    apply in_map_iff in Hb, Hb'.
    destruct Hb as (p & <- & _). destruct Hb' as (p' & E & _).
    apply (NoDup_map_eq StudentGroup.group_id groups); try assumption.
    inversion E. reflexivity.
Qed.

Lemma init_individual_run (groups : list StudentGroup.t)
    (config : SchedulingConfig.t) (courses : list Course.t)
    (teachers : list Teacher.t) (rooms : list Room.t)
    (timeslots : list TimeSlot.t) (s : State) :
  courses <> [] -> teachers <> [] -> rooms <> [] ->
  valid_config config -> covers_config config timeslots ->
  exists chromosome s',
    init_individual groups config courses teachers rooms timeslots s
    = (Value chromosome, s')
    /\ chromosomes s' = chromosomes s /\ gene_objs s' = gene_objs s
    /\ map Gene.group_key (Chromosome.genes chromosome)
       = all_cells groups (SchedulingConfig.DAYS_OF_WEEK config)
           (SchedulingConfig.PERIODS_PER_DAY config)
    /\ Forall (initial_gene courses teachers rooms timeslots)
         (Chromosome.genes chromosome).
Proof.
  intros Hc Ht Hr [Hdays Hperiods] Hcover.
  unfold init_individual. cbv zeta.
  destruct (g_for_fold_appends (initial_gene courses teachers rooms timeslots)
              (fun group =>
                 flat_map (fun day =>
                             map (fun period =>
                                    (StudentGroup.group_id group, day, period))
                                 (SchedulingConfig.PERIODS_PER_DAY config))
                          (SchedulingConfig.DAYS_OF_WEEK config))
              groups
              (fun chromosome group =>
                 g_for_fold (SchedulingConfig.DAYS_OF_WEEK config) chromosome
                   (fun chromosome day =>
                      g_for_fold (SchedulingConfig.PERIODS_PER_DAY config)
                        chromosome
                        (fun chromosome period =>
                           gene <--
                             generate_random_gene courses teachers rooms
                               timeslots (StudentGroup.group_id group) day
                               period ;;
                           gret (Chromosome.add_gene chromosome gene)))))
    with (c := Chromosome.mk []) (s := s)
    as (new & s' & Hrun & Hchrom & Hobjs & Hkeys & Hgood).
  - intros c group s0 _.
    apply (g_for_fold_appends (initial_gene courses teachers rooms timeslots)
             (fun day =>
                map (fun period => (StudentGroup.group_id group, day, period))
                    (SchedulingConfig.PERIODS_PER_DAY config))).
    intros c1 day s1 Hday.
    destruct (g_for_fold_appends
                (initial_gene courses teachers rooms timeslots)
                (fun period => [(StudentGroup.group_id group, day, period)])
                (SchedulingConfig.PERIODS_PER_DAY config)
                (fun chromosome period =>
                   gene <--
                     generate_random_gene courses teachers rooms timeslots
                       (StudentGroup.group_id group) day period ;;
                   gret (Chromosome.add_gene chromosome gene)))
      with (c := c1) (s := s1)
      as (new & s' & Hrun & Hchrom & Hobjs & Hkeys & Hgood).
    + intros c2 period s2 Hperiod.
      destruct (first_slot timeslots day period) as [ts |] eqn:Hslot;
        [| exfalso; apply (Hcover day period Hday Hperiod Hslot)].
      destruct (generate_random_gene_run courses teachers rooms timeslots
                  (StudentGroup.group_id group) day period ts s2 Hslot Hc Ht Hr)
        as (co & te & ro & Hcin & Htin & Hrin & Hgen).
      rewrite gene_new_Ok in Hgen by (auto using Hperiods, Hdays).
      eexists [_], _. rewrite (gbind_run _ _ _ _ _ Hgen).
      split; [reflexivity |].
      split; [apply (iter_advance 3 s2) |].
      split; [apply (iter_advance 3 s2) |].
      split; [reflexivity |]. constructor; [| constructor].
      unfold initial_gene.
      cbn [Gene.is_fixed Gene.course_id Gene.teacher_id Gene.room_id
           Gene.day Gene.period Gene.timeslot_id].
      split.
      { unfold Gene.post_init, py_in. cbn [Gene.period Gene.day].
        pose proof (Hperiods period Hperiod).
        destruct (period <? 1) eqn:Ep; [apply Z.ltb_lt in Ep; lia |].
        destruct (in_dec eq_dec day Gene.valid_days) as [| Hn];
          [reflexivity | exfalso; apply Hn, Hdays; assumption]. }
      split; [reflexivity |].
      split; [apply in_map; assumption |].
      split; [apply in_map; assumption |].
      split; [apply in_map; assumption |].
      exists ts. split; [assumption | reflexivity].
    + exists new, s'. split; [exact Hrun |]. split; [assumption |].
      split; [assumption |]. split; [| assumption].
      rewrite Hkeys. clear.
      induction (SchedulingConfig.PERIODS_PER_DAY config) as [| p l IH];
        cbn [flat_map map app]; [reflexivity | rewrite IH; reflexivity].
  - exists (Chromosome.mk new), s'. cbn [Chromosome.genes app] in Hrun.
    split; [exact Hrun |]. split; [assumption |]. split; [assumption |].
    split; assumption.
Qed.

(** X22.  [init_individual] returns, without touching a chromosome or a
    gene object, when the lists of courses, teachers and rooms are not
    empty, the days of the configuration are weekdays and its periods
    positive, and the catalog has a slot for each of its days and
    periods.  The chromosome then has one gene for each group, day and
    period, in the order of the three loops; each gene is on the first
    catalog slot of its day and period and has a course, a teacher and a
    room of the lists.  With distinct group identifiers, days and periods
    no two genes share a (group, day, period): the group conflict term of
    an initial individual is 0. *)
Theorem init_individual_spec (groups : list StudentGroup.t)
    (config : SchedulingConfig.t) (courses : list Course.t)
    (teachers : list Teacher.t) (rooms : list Room.t)
    (timeslots : list TimeSlot.t) (s : State) :
  courses <> [] -> teachers <> [] -> rooms <> [] ->
  valid_config config -> covers_config config timeslots ->
  exists chromosome s',
    init_individual groups config courses teachers rooms timeslots s
    = (Value chromosome, s')
    /\ chromosomes s' = chromosomes s /\ gene_objs s' = gene_objs s
    /\ map Gene.group_key (Chromosome.genes chromosome)
       = all_cells groups (SchedulingConfig.DAYS_OF_WEEK config)
           (SchedulingConfig.PERIODS_PER_DAY config)
    /\ Forall (initial_gene courses teachers rooms timeslots)
         (Chromosome.genes chromosome)
    /\ (NoDup (map StudentGroup.group_id groups) ->
        NoDup (SchedulingConfig.DAYS_OF_WEEK config) ->
        NoDup (SchedulingConfig.PERIODS_PER_DAY config) ->
        penalty_group_conflict chromosome = 0).
Proof.
  intros Hc Ht Hr Hvalid Hcover.
  destruct (init_individual_run groups config courses teachers rooms timeslots
              s Hc Ht Hr Hvalid Hcover)
    as (chromosome & s' & Hrun & Hchrom & Hobjs & Hkeys & Hgood).
  exists chromosome, s'. repeat (split; [assumption |]).
  intros Hg Hd Hp. rewrite penalty_group_conflict_spec.
  apply collision_penalty_NoDup. rewrite Hkeys.
  apply all_cells_NoDup; assumption.
Qed.

Lemma default_config_valid : valid_config SchedulingConfig.default.
Proof.
  split.
  - intros day Hday. exact Hday.
  - intros period Hperiod. cbn in Hperiod.
    repeat (destruct Hperiod as [<- | Hperiod]; [lia |]). destruct Hperiod.
Qed.

Lemma default_config_covered :
  covers_config SchedulingConfig.default create_timeslots_fake.
Proof.
  intros day period Hday Hperiod.
  apply timeslots_for_first_slot; assumption.
Qed.

Lemma init_individual_spec_witness :
  [Course.mk 1 "C1"] <> [] /\ two_teachers <> [] /\ two_rooms <> []
  /\ valid_config SchedulingConfig.default
  /\ covers_config SchedulingConfig.default create_timeslots_fake
  /\ exists chromosome s',
       init_individual [group_one; group_two] SchedulingConfig.default
         [Course.mk 1 "C1"] two_teachers two_rooms create_timeslots_fake
         one_lesson
       = (Value chromosome, s')
       /\ chromosomes s' = chromosomes one_lesson
       /\ gene_objs s' = gene_objs one_lesson
       /\ map Gene.group_key (Chromosome.genes chromosome)
          = all_cells [group_one; group_two]
              (SchedulingConfig.DAYS_OF_WEEK SchedulingConfig.default)
              (SchedulingConfig.PERIODS_PER_DAY SchedulingConfig.default)
       /\ Forall (initial_gene [Course.mk 1 "C1"] two_teachers two_rooms
                    create_timeslots_fake)
            (Chromosome.genes chromosome)
       /\ (NoDup (map StudentGroup.group_id [group_one; group_two]) ->
           NoDup (SchedulingConfig.DAYS_OF_WEEK SchedulingConfig.default) ->
           NoDup (SchedulingConfig.PERIODS_PER_DAY SchedulingConfig.default) ->
           penalty_group_conflict chromosome = 0).
Proof.
  assert (Hc : [Course.mk 1 "C1"] <> []) by discriminate.
  assert (Ht : two_teachers <> []) by discriminate.
  assert (Hr : two_rooms <> []) by discriminate.
  pose proof default_config_valid as Hvalid.
  pose proof default_config_covered as Hcover.
  split; [exact Hc |]. split; [exact Ht |]. split; [exact Hr |].
  split; [exact Hvalid |]. split; [exact Hcover |].
  apply (init_individual_spec [group_one; group_two] SchedulingConfig.default
           [Course.mk 1 "C1"] two_teachers two_rooms create_timeslots_fake
           one_lesson Hc Ht Hr Hvalid Hcover).
Defined.

(* ================================================================== *)
(** * The operators and the fitness together *)

(** ** A total of zero *)

(** X23.  With distinct group identifiers, the total penalty is 0 exactly
    when each of the ten terms is 0: no term can make up for another. *)
Theorem evaluate_timetable_zero (individual : Chromosome.t)
    (teachers : list Teacher.t) (groups : list StudentGroup.t) :
  NoDup (map StudentGroup.group_id groups) ->
  ((evaluate_timetable individual teachers groups == 0)%Q
   <-> penalty_teacher_conflict individual = 0
       /\ penalty_room_conflict individual = 0
       /\ penalty_group_conflict individual = 0
       /\ penalty_teacher_time_preference individual teachers = 0
       /\ (penalty_teacher_workload_balance individual == 0)%Q
       /\ penalty_group_home_room individual groups = 0
       /\ (penalty_subject_distribution individual == 0)%Q
       /\ (penalty_group_schedule_gap individual groups == 0)%Q
       /\ penalty_teacher_same_subject_across_groups individual = 0
       /\ penalty_teacher_multiple_first_periods individual = 0).
Proof.
  intros Hnd.
  assert (Hsum :
    (evaluate_timetable individual teachers groups
     == inject_Z (penalty_teacher_conflict individual)
        + inject_Z (penalty_room_conflict individual)
        + inject_Z (penalty_group_conflict individual)
        + inject_Z (penalty_teacher_time_preference individual teachers)
        + penalty_teacher_workload_balance individual
        + inject_Z (penalty_group_home_room individual groups)
        + penalty_subject_distribution individual
        + penalty_group_schedule_gap individual groups
        + inject_Z (penalty_teacher_same_subject_across_groups individual)
        + inject_Z (penalty_teacher_multiple_first_periods individual))%Q).
  { unfold evaluate_timetable. cbv zeta. ring. }
  rewrite Hsum. clear Hsum.
  assert (Hzero : forall z : Z, 0 <= z -> (inject_Z z <= 0)%Q -> z = 0).
  { intros z Hz Hq. unfold Qle in Hq. cbn [Qnum Qden inject_Z] in Hq. lia. }
  split.
  - intros Htotal.
    pose proof (eq_ind_r (fun z => 0 <= z) (collision_penalty_nonneg _)
                  (penalty_teacher_conflict_spec individual)) as N1.
    pose proof (eq_ind_r (fun z => 0 <= z) (collision_penalty_nonneg _)
                  (penalty_room_conflict_spec individual)) as N2.
    pose proof (eq_ind_r (fun z => 0 <= z) (collision_penalty_nonneg _)
                  (penalty_group_conflict_spec individual)) as N3.
    pose proof (penalty_teacher_time_preference_nonneg individual teachers)
      as N4.
    pose proof (penalty_teacher_workload_balance_nonneg individual) as N5.
    pose proof (penalty_group_home_room_nonneg individual groups) as N6.
    pose proof (penalty_subject_distribution_nonneg individual) as N7.
    pose proof (penalty_teacher_same_subject_across_groups_nonneg individual)
      as N9.
    pose proof (penalty_teacher_multiple_first_periods_nonneg individual)
      as N10.
    pose proof (inject_Z_le _ _ N1) as Q1. pose proof (inject_Z_le _ _ N2) as Q2.
    pose proof (inject_Z_le _ _ N4) as Q4. pose proof (inject_Z_le _ _ N6) as Q6.
    pose proof (inject_Z_le _ _ N9) as Q9.
    pose proof (inject_Z_le _ _ N10) as Q10.
    change (inject_Z 0) with 0%Q in *.
    pose proof (group_conflict_covers_gap individual groups Hnd) as Q38.
    pose proof (group_conflict_gap_bound individual groups Hnd) as B38.
    pose proof (excess_nonneg
                  (map Gene.group_key (Chromosome.genes individual))) as NE.
    assert (E0 : excess (map Gene.group_key (Chromosome.genes individual)) = 0).
    { apply Hzero; [assumption |]. lra. }
    assert (G0 : penalty_group_conflict individual = 0)
      by (rewrite penalty_group_conflict_spec, collision_penalty_excess, E0;
          reflexivity).
    rewrite G0 in *. change (inject_Z 0) with 0%Q in *.
    split; [apply Hzero; [assumption | lra] |].
    split; [apply Hzero; [assumption | lra] |].
    split; [reflexivity |].
    split; [apply Hzero; [assumption | lra] |].
    split; [lra |].
    split; [apply Hzero; [assumption | lra] |].
    split; [lra |].
    split; [lra |].
    split; apply Hzero; assumption || lra.
  - intros (-> & -> & -> & -> & H5 & -> & H7 & H8 & -> & ->).
    change (inject_Z 0) with 0%Q. lra.
Qed.

Lemma evaluate_timetable_zero_witness :
  NoDup (map StudentGroup.group_id [group_one; group_two])
  /\ (evaluate_timetable tidy_timetable two_teachers [group_one; group_two]
      == 0)%Q.
Proof.
  assert (Hnd : NoDup (map StudentGroup.group_id [group_one; group_two]))
    by (repeat constructor; simpl; intuition discriminate).
  split; [exact Hnd |].
  apply (evaluate_timetable_zero tidy_timetable two_teachers
           [group_one; group_two] Hnd).
  repeat split; vm_compute; reflexivity.
Defined.

(** ** Crossover of parents with one layout *)

(** X24.  When the two parents are distinct objects and have, position by
    position, genes of the same group, day and period, the children have
    that layout too: crossover moves no lesson in time and gives no group
    a second lesson at a time.  The group conflict term of each child is
    that of the parents. *)
Theorem crossover_keeps_layout (ind1 ind2 : nat) (s : State) :
  ind1 <> ind2 ->
  map Gene.group_key (Chromosome.genes (content s ind1))
  = map Gene.group_key (Chromosome.genes (content s ind2)) ->
  let s' := snd (crossover ind1 ind2 s) in
  map Gene.group_key (Chromosome.genes (content s' ind1))
  = map Gene.group_key (Chromosome.genes (content s ind1))
  /\ map Gene.group_key (Chromosome.genes (content s' ind2))
     = map Gene.group_key (Chromosome.genes (content s ind1))
  /\ penalty_group_conflict (content s' ind1)
     = penalty_group_conflict (content s ind1)
  /\ penalty_group_conflict (content s' ind2)
     = penalty_group_conflict (content s ind1).
Proof.
  intros Hne Hlayout s'.
  assert (Hkeys :
    map Gene.group_key (Chromosome.genes (content s' ind1))
    = map Gene.group_key (Chromosome.genes (content s ind1))
    /\ map Gene.group_key (Chromosome.genes (content s' ind2))
       = map Gene.group_key (Chromosome.genes (content s ind1))).
  { subst s'.
    destruct (Nat.lt_ge_cases (length (chromosomes s ind1)) 2)
      as [Hshort | Hlong].
    - rewrite (crossover_short ind1 ind2 s Hshort). cbn [snd].
      split; [reflexivity | symmetry; assumption].
    - destruct (crossover_lists ind1 ind2 s Hlong Hne)
        as (cx & Hcx & Hobjs & Hc1 & Hc2).
      unfold content in *. cbn [Chromosome.genes] in *.
      rewrite Hobjs, Hc1, Hc2, !map_app, <- !firstn_map, <- !skipn_map.
      rewrite <- Hlayout, !firstn_skipn. split; reflexivity. }
  destruct Hkeys as [H1 H2].
  split; [exact H1 |]. split; [exact H2 |].
  rewrite !penalty_group_conflict_spec, H1, H2. split; reflexivity.
Qed.

Lemma crossover_keeps_layout_witness :
  0%nat <> 1%nat
  /\ map Gene.group_key (Chromosome.genes (content twin_parents 0%nat))
     = map Gene.group_key (Chromosome.genes (content twin_parents 1%nat))
  /\ map Gene.group_key
       (Chromosome.genes (content (snd (crossover 0 1 twin_parents)) 0%nat))
     = map Gene.group_key (Chromosome.genes (content twin_parents 0%nat)).
Proof.
  assert (Hne : 0%nat <> 1%nat) by discriminate.
  assert (Hlayout :
    map Gene.group_key (Chromosome.genes (content twin_parents 0%nat))
    = map Gene.group_key (Chromosome.genes (content twin_parents 1%nat)))
    by (vm_compute; reflexivity).
  split; [exact Hne |]. split; [exact Hlayout |].
  apply (crossover_keeps_layout 0 1 twin_parents Hne Hlayout).
Defined.

(* ================================================================== *)
(** * The conflict analysis and the hard terms *)

Lemma counts_of_spec (key : Gene.t -> Z * string * Z) (genes : list Gene.t) :
  fold_left (fun (d : dict (Z * string * Z) Z) gene =>
               dict_set d (key gene) (dict_get d (key gene) 0 + 1)) genes []
  = map (fun k => (k, occurrences (map key genes) k)) (uniq (map key genes)).
Proof.
  change (fold_left (fun (d : dict (Z * string * Z) Z) gene =>
                       dict_set d (key gene) (dict_get d (key gene) 0 + 1))
                    genes [])
    with (fold_left (update_step key 0 (fun _ c => c + 1)) genes []).
  rewrite build_spec. apply map_ext. intros k. rewrite folded_count.
  reflexivity.
Qed.

Lemma fold_left_triple {X A B C : Type} (fa : A -> X -> A) (fb : B -> X -> B)
    (fc : C -> X -> C) (l : list X) (a : A) (b : B) (c : C) :
  fold_left (fun (acc : A * B * C) x =>
               (fa (fst (fst acc)) x, fb (snd (fst acc)) x, fc (snd acc) x))
            l (a, b, c)
  = (fold_left fa l a, fold_left fb l b, fold_left fc l c).
Proof.
  revert a b c. induction l as [| x l IH]; intros a b c; cbn [fold_left];
    [reflexivity | apply IH].
Qed.

Lemma conflict_analysis_sections (chromosome : Chromosome.t) :
  let counts := fun key : Gene.t -> Z * string * Z =>
    map (fun k => (k, occurrences (map key (Chromosome.genes chromosome)) k))
        (uniq (map key (Chromosome.genes chromosome))) in
  conflict_analysis chromosome
  = [AnalysisTitle]
    ++ report_section "Teacher" (overbooked (counts Gene.teacher_key))
    ++ report_section "Room" (overbooked (counts Gene.room_key))
    ++ report_section "Group" (overbooked (counts Gene.group_key)).
Proof.
  intros counts. unfold conflict_analysis. cbv zeta.
  rewrite (fold_left_triple
             (fun (d : dict (Z * string * Z) Z) gene =>
                dict_set d (Gene.teacher_key gene)
                  (dict_get d (Gene.teacher_key gene) 0 + 1))
             (fun (d : dict (Z * string * Z) Z) gene =>
                dict_set d (Gene.room_key gene)
                  (dict_get d (Gene.room_key gene) 0 + 1))
             (fun (d : dict (Z * string * Z) Z) gene =>
                dict_set d (Gene.group_key gene)
                  (dict_get d (Gene.group_key gene) 0 + 1))).
  cbn [fst snd]. rewrite !counts_of_spec. reflexivity.
Qed.

Section Report.
Variable resource : string.
Variable keys : list (Z * string * Z).

Let counts : dict (Z * string * Z) Z :=
  map (fun k => (k, occurrences keys k)) (uniq keys).

Lemma overbooked_In (id : Z) (day : string) (period count : Z) :
  In (id, day, period, count) (overbooked counts)
  <-> count = occurrences keys (id, day, period) /\ 1 < count.
Proof.
  unfold overbooked, counts. rewrite filter_In, in_map_iff. cbn [snd].
  rewrite Z.ltb_lt. split.
  - intros [(k & Ek & _) Hc]. inversion Ek; subst. split; [reflexivity | assumption].
  - intros [-> Hc]. split; [| assumption].
    exists (id, day, period). split; [reflexivity |].
    apply In_uniq.
    destruct (in_dec eq_dec (id, day, period) keys) as [Hin | Hn];
      [assumption |].
    rewrite (occurrences_absent _ _ Hn) in Hc. lia.
Qed.

Lemma section_In (r : string) (id : Z) (day : string) (period count : Z) :
  In (ConflictLine r id day period count) (report_section resource (overbooked counts))
  <-> r = resource /\ count = occurrences keys (id, day, period) /\ 1 < count.
Proof.
  rewrite <- overbooked_In. unfold report_section.
  destruct (overbooked counts) as [| kv0 rest] eqn:E.
  - split; [intros [] | intros [_ []]].
  - rewrite <- E. clear E. split.
    + intros [Hd | Hin]; [discriminate |].
      apply in_map_iff in Hin. destruct Hin as ([[[i d] p] c] & Eline & Hkv).
      cbn [fst snd] in Eline. inversion Eline; subst. split; [reflexivity | assumption].
    + intros [-> Hkv]. right. apply in_map_iff.
      exists (id, day, period, count). split; [reflexivity | assumption].
Qed.

Lemma section_cost :
  zsum (line_cost resource) (report_section resource (overbooked counts))
  = collision_penalty keys.
Proof.
  assert (Hlines : forall d : dict (Z * string * Z) Z,
    zsum (line_cost resource)
      (map (fun kv : Z * string * Z * Z =>
              ConflictLine resource (fst (fst (fst kv))) (snd (fst (fst kv)))
                (snd (fst kv)) (snd kv)) d)
    = zsum (fun kv => 1000 * (snd kv - 1)) d).
  { intros d. rewrite zsum_map. apply zsum_ext_in. intros kv _.
    cbn [line_cost]. destruct (eq_dec resource resource); [reflexivity | congruence]. }
  assert (Hfilter : forall d : dict (Z * string * Z) Z,
    zsum (fun kv => 1000 * (snd kv - 1)) (overbooked d)
    = zsum (fun kv => collision_weight (snd kv)) d).
  { intros d. unfold overbooked.
    induction d as [| kv d IH]; cbn [filter]; [reflexivity |].
    rewrite zsum_cons, <- IH. unfold collision_weight at 1.
    destruct (1 <? snd kv); [rewrite zsum_cons |]; lia. }
  assert (Hsection : zsum (line_cost resource)
                       (report_section resource (overbooked counts))
                     = zsum (fun kv => 1000 * (snd kv - 1)) (overbooked counts)).
  { unfold report_section. destruct (overbooked counts) as [| kv0 rest] eqn:E;
      [reflexivity |].
    rewrite zsum_cons. cbn [line_cost]. rewrite Hlines. lia. }
  rewrite Hsection, Hfilter. unfold counts, collision_penalty.
  rewrite zsum_map. cbn [snd].
  apply zsum_Permutation, uniq_nodup_Permutation.
Qed.

Lemma section_other_cost (other : string) :
  other <> resource ->
  zsum (line_cost other) (report_section resource (overbooked counts)) = 0.
Proof.
  intros Hne. unfold report_section.
  destruct (overbooked counts) as [| kv0 rest]; [reflexivity |].
  rewrite zsum_cons, zsum_map. cbn [line_cost].
  rewrite (zsum_ext_in _ (fun _ => 0)); [rewrite zsum_const; lia |].
  intros kv _. destruct (eq_dec resource other); [congruence | reflexivity].
Qed.

Lemma section_empty :
  report_section resource (overbooked counts) = []
  <-> collision_penalty keys = 0.
Proof.
  rewrite <- section_cost. split; [intros ->; reflexivity |].
  intros Hzero. unfold report_section in *.
  destruct (overbooked counts) as [| [[[i d] p] c] rest] eqn:E; [reflexivity |].
  exfalso.
  assert (Hin : In (i, d, p, c) (overbooked counts)) by (rewrite E; left; reflexivity).
  apply overbooked_In in Hin. destruct Hin as [_ Hc].
  rewrite zsum_cons in Hzero. cbn [line_cost] in Hzero.
  assert (Hrest : 0 <= zsum (line_cost resource)
                         (map (fun kv : Z * string * Z * Z =>
                                 ConflictLine resource (fst (fst (fst kv)))
                                   (snd (fst (fst kv))) (snd (fst kv)) (snd kv))
                              ((i, d, p, c) :: rest))).
  { apply zsum_nonneg. intros line Hline. apply in_map_iff in Hline.
    destruct Hline as ([[[i' d'] p'] c'] & <- & Hkv). cbn [line_cost fst snd].
    destruct (eq_dec resource resource); [| lia].
    rewrite <- E in Hkv. apply overbooked_In in Hkv. lia. }
  cbn [map] in Hrest, Hzero. rewrite zsum_cons in Hrest, Hzero.
  cbn [line_cost fst snd] in Hrest, Hzero.
  destruct (eq_dec resource resource); [| congruence].
  assert (0 <= zsum (line_cost resource)
                 (map (fun kv : Z * string * Z * Z =>
                         ConflictLine resource (fst (fst (fst kv)))
                           (snd (fst (fst kv))) (snd (fst kv)) (snd kv)) rest)).
  { apply zsum_nonneg. intros line Hline. apply in_map_iff in Hline.
    destruct Hline as ([[[i' d'] p'] c'] & <- & Hkv). cbn [line_cost fst snd].
    destruct (eq_dec resource resource); [| lia].
    assert (Hkv' : In (i', d', p', c') (overbooked counts))
      by (rewrite E; right; assumption).
    apply overbooked_In in Hkv'. lia. }
  lia.
Qed.
End Report.

(** X25.  What the conflict analysis prints.  After the title it prints,
    for the teachers, then the rooms, then the groups, one line per
    (resource, day, period) that more than one gene occupies, with the
    number of those genes, and no other line of that kind.  The hard
    term of each of the three resources is 1000 times the sum, over the
    lines of that resource, of the number on the line less one; and the
    title is all that is printed exactly when the three hard terms are
    zero. *)
Theorem conflict_analysis_reports (chromosome : Chromosome.t) :
  let genes := Chromosome.genes chromosome in
  let report := conflict_analysis chromosome in
  (forall r id day period count,
     In (ConflictLine r id day period count) report
     <-> 1 < count
         /\ (r = "Teacher"%string
             /\ count = occurrences (map Gene.teacher_key genes) (id, day, period)
             \/ r = "Room"%string
                /\ count = occurrences (map Gene.room_key genes) (id, day, period)
             \/ r = "Group"%string
                /\ count = occurrences (map Gene.group_key genes) (id, day, period)))
  /\ penalty_teacher_conflict chromosome = zsum (line_cost "Teacher") report
  /\ penalty_room_conflict chromosome = zsum (line_cost "Room") report
  /\ penalty_group_conflict chromosome = zsum (line_cost "Group") report
  /\ (report = [AnalysisTitle]
      <-> penalty_teacher_conflict chromosome = 0
          /\ penalty_room_conflict chromosome = 0
          /\ penalty_group_conflict chromosome = 0).
Proof.
  intros genes report. subst report.
  rewrite conflict_analysis_sections. cbv zeta. fold genes.
  rewrite penalty_teacher_conflict_spec, penalty_room_conflict_spec,
    penalty_group_conflict_spec. fold genes.
  split; [| split; [| split; [| split]]].
  - intros r id day period count.
    rewrite !in_app_iff, !section_In. cbn [In]. split.
    + intros [[Hd | []] | [H | [H | H]]]; [discriminate | | |];
        destruct H as (-> & -> & Hc); split; try assumption; tauto.
    + intros [Hc [[-> ->] | [[-> ->] | [-> ->]]]]; tauto.
  - rewrite !zsum_app, section_cost, !section_other_cost by discriminate.
    rewrite ?zsum_cons. cbn [zsum fold_right line_cost]. lia.
  - rewrite !zsum_app, section_cost, !section_other_cost by discriminate.
    rewrite ?zsum_cons. cbn [zsum fold_right line_cost]. lia.
  - rewrite !zsum_app, section_cost, !section_other_cost by discriminate.
    rewrite ?zsum_cons. cbn [zsum fold_right line_cost]. lia.
  - rewrite <- (section_empty "Teacher"), <- (section_empty "Room"),
      <- (section_empty "Group").
    cbn [app]. split.
    + intros E. inversion E as [E']. apply app_eq_nil in E'.
      destruct E' as [Et E']. apply app_eq_nil in E'. destruct E' as [Er Eg].
      rewrite Et, Er, Eg. repeat split; reflexivity.
    + intros (-> & -> & ->). reflexivity.
Qed.

(* ================================================================== *)
(** * The room the repair chooses *)

Lemma resolve_room_step_replaces (rooms : list Room.t)
    (sched : dict (string * Z) (list Z)) (usage : dict Z Z) (gene : nat)
    (s : State) (id : Z) :
  let ids := map Room.room_id rooms in
  let g := gene_objs s gene in
  let booked := dict_get sched (Gene.slot_key g) [] in
  has_keys ids usage ->
  In (Gene.room_id g) booked ->
  In id ids -> ~ In id booked ->
  exists best c,
    resolve_room_step rooms (sched, usage) gene s
    = (Ok (dict_set sched (Gene.slot_key g) (booked ++ [best]),
           dict_set usage best (c + 1)),
       snd (write_gene gene (fun g0 => Gene.set_room_id g0 best) s))
    /\ dict_find usage best = Some c
    /\ In best ids /\ ~ In best booked
    /\ (forall x cx, In x ids -> ~ In x booked ->
          dict_find usage x = Some cx -> c <= cx).
Proof.
  intros ids g booked Hkeys Hin Hid Hnb.
  unfold resolve_room_step.
  rewrite (bind_run _ _ s s g) by reflexivity.
  cbn [fst snd].
  change (Gene.day g, Gene.period g) with (Gene.slot_key g).
  rewrite (bind_run _ _ s s booked)
    by (unfold lift; rewrite dict_getitem_setdefault; reflexivity).
  unfold py_in at 1.
  destruct (in_dec eq_dec (Gene.room_id g) booked); [| contradiction].
  remember (map Room.room_id
              (filter (fun r => negb (py_in (Room.room_id r) booked)) rooms))
    as available eqn:Eav.
  assert (Hav : forall x, In x available <-> In x ids /\ ~ In x booked).
  { intros x. subst available ids. rewrite in_map_iff. split.
    - intros (r & <- & Hr). apply filter_In in Hr as [Hr Hb].
      split; [apply in_map; assumption |]. unfold py_in in Hb.
      destruct (in_dec eq_dec (Room.room_id r) booked);
        [discriminate | assumption].
    - intros [Hx Hfree]. apply in_map_iff in Hx. destruct Hx as (r & Er & Hr).
      exists r. split; [assumption |]. apply filter_In.
      split; [assumption |]. unfold py_in. rewrite Er.
      destruct (in_dec eq_dec x booked); [contradiction | reflexivity]. }
  assert (Hne : available <> []).
  { intros E. assert (Hx : In id available) by (apply Hav; tauto).
    rewrite E in Hx. destruct Hx. }
  clear Eav.
  destruct available as [| a0 others]; [congruence |].
  set (available := a0 :: others) in *.
  destruct (py_min_by_ok (fun rid => dict_getitem usage rid) available Hne)
    as (best & Hbest & Hbin).
  { intros x Hx. apply (has_keys_getitem _ _ _ Hkeys). apply Hav. assumption. }
  destruct (proj1 (Hav best) Hbin) as [Hbid Hbfree].
  destruct (py_min_by_least _ _ _ Hbest) as (c & Hc & Hleast).
  set (s1 := snd (write_gene gene (fun g0 => Gene.set_room_id g0 best) s)).
  exists best, c.
  split; [| split; [| split; [| split]]].
  - rewrite (bind_run _ _ s s1 (dict_set usage best (c + 1))).
    + rewrite (bind_run _ _ s1 s1 (gene_objs s1 gene)) by reflexivity.
      rewrite (bind_run _ _ s1 s1 booked)
        by (unfold lift; rewrite dict_getitem_setdefault; reflexivity).
      unfold ret. rewrite dict_set_setdefault.
      subst s1. cbn [write_gene snd gene_objs]. rewrite Nat.eqb_refl.
      reflexivity.
    + rewrite (bind_run _ _ s s best) by (unfold lift; rewrite Hbest; reflexivity).
      rewrite (bind_run _ _ s s1 tt) by reflexivity.
      rewrite (bind_run _ _ s1 s1 c) by (unfold lift; rewrite Hc; reflexivity).
      reflexivity.
  - unfold dict_getitem in Hc.
    destruct (dict_find usage best); [congruence | discriminate].
  - assumption.
  - assumption.
  - intros x cx Hx Hfree Hcx.
    apply (Hleast x cx); [| unfold dict_getitem; rewrite Hcx; reflexivity].
    apply Hav. tauto.
Qed.

(** X26.  The room the repair gives to a gene whose room is already
    booked at its (day, period), when the catalog has a room that is
    not: one of the catalog that is not booked there and, among those,
    one to which the pass has given the fewest genes so far.  The gene
    gets that room, which is then booked at the slot and has one gene
    more. *)
Theorem room_replacement_choice (rooms : list Room.t)
    (sched : dict (string * Z) (list Z)) (usage : dict Z Z) (gene : nat)
    (s : State) (id : Z) :
  let ids := map Room.room_id rooms in
  let g := gene_objs s gene in
  let booked := dict_get sched (Gene.slot_key g) [] in
  has_keys ids usage ->
  In (Gene.room_id g) booked ->
  In id ids -> ~ In id booked ->
  exists best c,
    resolve_room_step rooms (sched, usage) gene s
    = (Ok (dict_set sched (Gene.slot_key g) (booked ++ [best]),
           dict_set usage best (c + 1)),
       snd (write_gene gene (fun g0 => Gene.set_room_id g0 best) s))
    /\ dict_find usage best = Some c
    /\ In best ids /\ ~ In best booked
    /\ (forall x cx, In x ids -> ~ In x booked ->
          dict_find usage x = Some cx -> c <= cx).
Proof. exact (resolve_room_step_replaces rooms sched usage gene s id). Qed.

Lemma room_replacement_choice_witness :
  let rooms := two_rooms in
  let sched : dict (string * Z) (list Z) := [(("Monday"%string, 1), [1])] in
  let usage : dict Z Z := [(1, 0); (2, 0)] in
  let ids := map Room.room_id rooms in
  let g := gene_objs tidy_hour 0%nat in
  let booked := dict_get sched (Gene.slot_key g) [] in
  has_keys ids usage
  /\ In (Gene.room_id g) booked
  /\ In 2 ids /\ ~ In 2 booked
  /\ exists best c,
       resolve_room_step rooms (sched, usage) 0 tidy_hour
       = (Ok (dict_set sched (Gene.slot_key g) (booked ++ [best]),
              dict_set usage best (c + 1)),
          snd (write_gene 0 (fun g0 => Gene.set_room_id g0 best) tidy_hour))
       /\ dict_find usage best = Some c
       /\ In best ids /\ ~ In best booked
       /\ (forall x cx, In x ids -> ~ In x booked ->
             dict_find usage x = Some cx -> c <= cx).
Proof.
  intros rooms sched usage ids g booked.
  assert (Hkeys : has_keys ids usage).
  { intros id Hid. subst ids rooms. cbn in Hid.
    destruct Hid as [<- | [<- | []]]; vm_compute; discriminate. }
  assert (Hin : In (Gene.room_id g) booked) by (vm_compute; left; reflexivity).
  assert (Hid : In 2 ids) by (vm_compute; right; left; reflexivity).
  assert (Hnb : ~ In 2 booked)
    by (vm_compute; intros [E | []]; discriminate).
  split; [exact Hkeys |]. split; [exact Hin |]. split; [exact Hid |].
  split; [exact Hnb |].
  apply (room_replacement_choice rooms sched usage 0 tidy_hour 2
           Hkeys Hin Hid Hnb).
Defined.
